(** * mspikes: the PCM_SEQ2 reader, writer and indexer, and the Klusters
      episode aligner

    A shallow embedding of [src/pcmio.c], [src/pcmio.h] and of
    [sort_unit_episode] from [src/klustio.cc].

    Conventions of the embedding.
    - The target is a little-endian LP64 host that is not VMS: the
      [sexconv16]/[sexconv32] macros are the identity, [putdata] is a
      single [fwrite], and the writer emits no record-size words, so it
      produces "type 2" files.
    - Bytes are integers in [0, 256); [short], [int] and [unsigned long
      long] values are integers with their wrap-around written out where
      the code can reach it.  [long] is 64 bits wide and is not wrapped.
    - A stdio stream is a record holding the bytes of the file, the file
      position and the end-of-file and error indicators.  An output stream
      is fully buffered, and its file is what the buffer leaves once it has
      gone out to a device that takes it.
    - [fscanf] stores a number that fits the variable; for one that does
      not, which C leaves undefined, the conversion of glibc is taken.
    - Loops that do not recurse on a list take fuel; the entry points pass
      a bound computed from their input and return [None] when it is
      exhausted, which the theorems below exclude where the claim is that
      the code produces a result. *)

From Stdlib Require Import ZArith List Lia Bool.
From stdpp Require Import base list gmap.

Local Open Scope Z_scope.

(** ** Machine integers *)

Definition wrap32s (x : Z) : Z := (x + 2147483648) mod 4294967296 - 2147483648.
Definition wrap16s (x : Z) : Z := (x + 32768) mod 65536 - 32768.
Definition wrap64u (x : Z) : Z := x mod 18446744073709551616.

Definition is_byte (b : Z) : Prop := 0 <= b < 256.
Definition is_short (s : Z) : Prop := -32768 <= s <= 32767.
Definition is_int (x : Z) : Prop := -2147483648 <= x <= 2147483647.
Definition is_long (x : Z) : Prop := -9223372036854775808 <= x <= 9223372036854775807.

(** What [strtol] makes of a decimal number: its value, or the nearest end
    of the range of [long]. *)
Definition clamp64 (x : Z) : Z :=
  Z.max (-9223372036854775808) (Z.min 9223372036854775807 x).

(** Little-endian images of a 16-bit and of a 32-bit value. *)
Definition enc16 (v : Z) : list Z := [v mod 256; (v / 256) mod 256].
Definition enc32 (v : Z) : list Z :=
  [v mod 256; (v / 256) mod 256; (v / 65536) mod 256; (v / 16777216) mod 256].

(** [buf[off]], reading 0 outside the buffer. *)
Definition byte_at (buf : list Z) (off : Z) : Z :=
  if off <? 0 then 0 else nth (Z.to_nat off) buf 0.

(** [*(unsigned short * )(buf + off)], [*(short * )(buf + off)],
    [*(unsigned int * )(buf + off)] and [*(int * )(buf + off)]. *)
Definition get_u16 (buf : list Z) (off : Z) : Z :=
  byte_at buf off + 256 * byte_at buf (off + 1).
Definition get_s16 (buf : list Z) (off : Z) : Z := wrap16s (get_u16 buf off).
Definition get_u32 (buf : list Z) (off : Z) : Z :=
  byte_at buf off + 256 * byte_at buf (off + 1)
  + 65536 * byte_at buf (off + 2) + 16777216 * byte_at buf (off + 3).
Definition get_s32 (buf : list Z) (off : Z) : Z := wrap32s (get_u32 buf off).

(** [len] elements of [l] from index [off]. *)
Definition slice (off len : Z) (l : list Z) : list Z :=
  take (Z.to_nat len) (drop (Z.to_nat off) l).

(** Storing [bs] at index [pos] of [l]; a store past the end first fills the
    gap with zeros, as a write past the end of a file does. *)
Definition overwrite (l : list Z) (pos : Z) (bs : list Z) : list Z :=
  take (Z.to_nat pos) l ++ replicate (Z.to_nat pos - length l) 0 ++ bs
  ++ drop (Z.to_nat pos + length bs) l.

Definition zlen (l : list Z) : Z := Z.of_nat (length l).

(** ** Klusters cluster and feature files ([klustio.cc]) *)

Module Klustio.

(** The [.clu] and [.fet] files are whitespace-separated decimal numbers; a
    stream is the list of its numbers and the index of the next one.
    [fscanf(fp, "%d", &v)] and [fscanf(fp, "%ld", &v)] store the next number
    and return 1, or return [EOF] and leave [v] alone when none is left.
    ["%d"] stores into an [int] and ["%ld"] into a [long].  The C standard
    leaves open what is stored for a number outside the range of the
    variable; the conversion modelled is that of glibc, which reads the
    number with [strtol] and, for ["%d"], keeps the low 32 bits.  The
    theorems below are stated for numbers within range. *)
Record TFILE := mkTFILE { t_toks : list Z; t_pos : nat }.

Definition EOF : Z := -1.

Definition fscanf_d (fp : TFILE) (v : Z) : Z * Z * TFILE :=
  match t_toks fp !! t_pos fp with
  | Some x => (1, wrap32s (clamp64 x), mkTFILE (t_toks fp) (S (t_pos fp)))
  | None => (EOF, v, fp)
  end.

Definition fscanf_ld (fp : TFILE) (v : Z) : Z * Z * TFILE :=
  match t_toks fp !! t_pos fp with
  | Some x => (1, clamp64 x, mkTFILE (t_toks fp) (S (t_pos fp)))
  | None => (EOF, v, fp)
  end.

Definition ftell (fp : TFILE) : nat := t_pos fp.
Definition fseek (fp : TFILE) (pos : nat) : TFILE := mkTFILE (t_toks fp) pos.

(** The [while (rp != EOF)] loop of [getclusters]. *)
Fixpoint getclusters_loop (fuel : nat) (rp clust : Z) (cfp : TFILE)
    (clusters : gset Z) (nlines : Z) : option (Z * gset Z * TFILE) :=
  if rp =? EOF then Some (nlines, clusters, cfp)
  else match fuel with
       | O => None
       | S fuel' =>
           let '(rp, clust, cfp) := fscanf_d cfp clust in
           getclusters_loop fuel' rp clust cfp ({[clust]} ∪ clusters) (nlines + 1)
       end.

(** [getclusters(cfp, clusters)]; [clust0] is the indeterminate initial
    value of the local [clust]. *)
Definition getclusters (clust0 : Z) (cfp : TFILE) : option (Z * gset Z * TFILE) :=
  let fpos := ftell cfp in
  let cfp := fseek cfp 0 in
  let '(rp, clust, cfp) := fscanf_d cfp clust0 in
  match getclusters_loop (S (length (t_toks cfp))) rp clust cfp ∅ 0 with
  | Some (nlines, clusters, cfp) => Some (nlines, clusters, fseek cfp fpos)
  | None => None
  end.

(** With one cluster, that one is used; with more, 0 is dropped, and then 1. *)
Definition drop_noise (clusters : gset Z) : gset Z :=
  let clusters :=
    if bool_decide (1 < size clusters)%nat && bool_decide (0 ∈ clusters)
    then clusters ∖ {[0]} else clusters in
  if bool_decide (1 < size clusters)%nat && bool_decide (1 ∈ clusters)
  then clusters ∖ {[1]} else clusters.

(** [atimes[i]]; an index out of range is undefined in the source and reads
    0 here. *)
Definition vec_get (v : list Z) (i : Z) : Z :=
  if i <? 0 then 0 else nth (Z.to_nat i) v 0.

(** The pointers of the sweep: the current episode, its start [et] and the
    start [nt] of the next one. *)
Record sweep := mkSweep { episode : Z; et : Z; nt : Z }.

(** [while ((nt>0) && (atime >= nt))]: advance until the episode is right. *)
Fixpoint advance (fuel : nat) (atimes : list Z) (nepisodes atime : Z)
    (s : sweep) : option sweep :=
  if (0 <? nt s) && (nt s <=? atime) then
    match fuel with
    | O => None
    | S fuel' =>
        let episode := episode s + 1 in
        let et := nt s in
        let nt := if episode + 1 <? nepisodes
                  then vec_get atimes (episode + 1) else -1 in
        advance fuel' atimes nepisodes atime (mkSweep episode et nt)
    end
  else Some s.

(** [uvec[clust][episode].push_back(x)] *)
Definition push_back (uvec : gmap Z (list (list Z))) (clust episode x : Z)
    : gmap Z (list (list Z)) :=
  alter (alter (fun events => events ++ [x]) (Z.to_nat episode)) clust uvec.

(** The inner [for] loop: read [nfeats] features, keeping the last. *)
Fixpoint read_feats (n : nat) (j nfeats rp atime : Z) (ffp : TFILE)
    : Z * Z * TFILE :=
  match n with
  | O => (rp, atime, ffp)
  | S n' =>
      if (j <? nfeats) && negb (rp =? EOF) then
        let '(rp, atime, ffp) := fscanf_ld ffp atime in
        read_feats n' (j + 1) nfeats rp atime ffp
      else (rp, atime, ffp)
  end.

Record events_state := mkEvents {
  ev_rp : Z; ev_cfp : TFILE; ev_ffp : TFILE; ev_clust : Z; ev_atime : Z;
  ev_sweep : sweep; ev_uvec : gmap Z (list (list Z));
  ev_warnings : list Z
}.

(** The [while (rp != EOF)] loop over the two files. *)
Fixpoint events_loop (fuel : nat) (clusters : gset Z) (atimes : list Z)
    (nepisodes nfeats : Z) (st : events_state) : option events_state :=
  if ev_rp st =? EOF then Some st
  else match fuel with
  | O => None
  | S fuel' =>
      let '(rp, atime, ffp) :=
        read_feats (Z.to_nat nfeats) 0 nfeats (ev_rp st) (ev_atime st) (ev_ffp st) in
      let '(rp, clust, cfp) := fscanf_d (ev_cfp st) (ev_clust st) in
      if bool_decide (clust ∈ clusters) then
        let warnings :=
          if atime <? et (ev_sweep st) then ev_warnings st ++ [atime]
          else ev_warnings st in
        match advance (S (length atimes)) atimes nepisodes atime (ev_sweep st) with
        | None => None
        | Some s =>
            events_loop fuel' clusters atimes nepisodes nfeats
              (mkEvents rp cfp ffp clust atime s
                 (push_back (ev_uvec st) clust (episode s) (atime - et s)) warnings)
        end
      else
        events_loop fuel' clusters atimes nepisodes nfeats
          (mkEvents rp cfp ffp clust atime (ev_sweep st) (ev_uvec st) (ev_warnings st))
  end.

(** [sort_unit_episode(cfp, ffp, atimes, uvec)].  [clust0] and [atime0] are
    the indeterminate initial values of the locals [clust] and [atime]; the
    result is [uvec] and the times the warning was printed for. *)
Definition sort_unit_episode (clust0 atime0 : Z) (cfp ffp : TFILE)
    (atimes : list Z) : option (gmap Z (list (list Z)) * list Z) :=
  let '(rp, nclusts, cfp) := fscanf_d cfp 0 in
  let '(rp, nfeats, ffp) := fscanf_d ffp 0 in
  match getclusters clust0 cfp with
  | None => None
  | Some (_, clusters, cfp) =>
      let clusters := drop_noise clusters in
      let nepisodes := zlen atimes in
      let uvec : gmap Z (list (list Z)) :=
        set_fold (fun c m => <[c := replicate (length atimes) []]> m) ∅ clusters in
      let s := mkSweep 0 (vec_get atimes 0) (vec_get atimes 1) in
      match events_loop (S (length (t_toks cfp))) clusters atimes nepisodes nfeats
              (mkEvents rp cfp ffp clust0 atime0 s uvec []) with
      | None => None
      | Some st => Some (ev_uvec st, ev_warnings st)
      end
  end.

(** [uvec[clust].push_back(x)] on the map of [sort_unit]. *)
Definition push_event (uvec : gmap Z (list Z)) (clust x : Z) : gmap Z (list Z) :=
  alter (fun events => events ++ [x]) clust uvec.

(** The [while (rp != EOF)] loop of [sort_unit]. *)
Fixpoint unit_loop (fuel : nat) (clusters : gset Z) (nfeats rp : Z)
    (cfp ffp : TFILE) (clust atime : Z) (uvec : gmap Z (list Z))
    : option (gmap Z (list Z)) :=
  if rp =? EOF then Some uvec
  else match fuel with
  | O => None
  | S fuel' =>
      let '(rp, atime, ffp) := read_feats (Z.to_nat nfeats) 0 nfeats rp atime ffp in
      let '(rp, clust, cfp) := fscanf_d cfp clust in
      let uvec :=
        if bool_decide (clust ∈ clusters) then push_event uvec clust atime else uvec in
      unit_loop fuel' clusters nfeats rp cfp ffp clust atime uvec
  end.

(** [sort_unit(cfp, ffp, uvec)] of [klustio.cc]; [nfeats0], [clust0] and
    [atime0] are the indeterminate initial values of the locals. *)
Definition sort_unit (nfeats0 clust0 atime0 : Z) (cfp ffp : TFILE)
    : option (gmap Z (list Z)) :=
  let '(rp, nfeats, ffp) := fscanf_d ffp nfeats0 in
  match getclusters clust0 cfp with
  | None => None
  | Some (_, clusters, cfp) =>
      let clusters := drop_noise clusters in
      let uvec : gmap Z (list Z) := set_fold (fun c m => <[c := []]> m) ∅ clusters in
      unit_loop (S (S (length (t_toks cfp)))) clusters nfeats rp cfp ffp clust0 atime0 uvec
  end.

(** The events filed under cluster [c], in order, when the events are given
    as pairs of a cluster and a time. *)
Definition filed (pairs : list (Z * Z)) (c : Z) : list Z :=
  map snd (filter (fun p => fst p = c) pairs).

(** The filing of one turn of the loop of [sort_unit]: the pair of the
    cluster and the time it holds. *)
Definition file_one (clusters : gset Z) (uvec : gmap Z (list Z)) (p : Z * Z)
    : gmap Z (list Z) :=
  if bool_decide (p.1 ∈ clusters) then push_event uvec p.1 p.2 else uvec.

(** The clusters that [getclusters] finds in a file of header [h] and
    cluster numbers [clus]. *)
Definition clusters_of (h : Z) (clus : list Z) : gset Z :=
  if decide (clus = []) then {[h]} else list_to_set clus.

(** A feature file: the number of features, then the features of each
    event, the last of which is its time. *)
Definition fet_file (nfeats : Z) (events : list (list Z)) : TFILE :=
  mkTFILE (nfeats :: concat events) 0.
Definition event_time (e : list Z) : Z := List.last e 0.

(** One event of the sweep on its own: the episode and the offset it is
    filed under. *)
Definition align_one (atimes : list Z) (atime : Z) (s : sweep) : option (sweep * Z * Z) :=
  match advance (S (length atimes)) atimes (zlen atimes) atime s with
  | None => None
  | Some s' => Some (s', episode s', atime - et s')
  end.

(** The files of the example: one feature per event (its time), every event
    in cluster 2. *)
Definition ex_fet : TFILE := mkTFILE [1; 10; 105; 260; 300] 0.
Definition ex_clu : TFILE := mkTFILE [1; 2; 2; 2; 2] 0.
Definition ex_atimes : list Z := [0; 100; 250].

End Klustio.

(** ** The later version of the cluster reader ([klusters.cc]) *)

Module Klusters.
Import Klustio.

(** [getclusters] of [klusters.cc] is that of [klustio.cc] with the formats
    ["%d"] for ["%d\n"], which read the same numbers. *)
Definition getclusters (clust0 : Z) (cfp : TFILE) : option (Z * gset Z * TFILE) :=
  Klustio.getclusters clust0 cfp.

(** The [while (rp != EOF)] loop of [sort_unit], which leaves when the
    cluster file ends. *)
Fixpoint unit_loop (fuel : nat) (clusters : gset Z) (nfeats rp : Z)
    (cfp ffp : TFILE) (clust atime : Z) (uvec : gmap Z (list Z))
    : option (gmap Z (list Z)) :=
  if rp =? EOF then Some uvec
  else match fuel with
  | O => None
  | S fuel' =>
      let '(rp, atime, ffp) := read_feats (Z.to_nat nfeats) 0 nfeats rp atime ffp in
      let '(rp, clust, cfp) := fscanf_d cfp clust in
      if rp =? EOF then Some uvec
      else
        let uvec :=
          if bool_decide (clust ∈ clusters) then push_event uvec clust atime else uvec in
        unit_loop fuel' clusters nfeats rp cfp ffp clust atime uvec
  end.

(** [sort_unit(cfp, ffp, uvec)] of [klusters.cc]. *)
Definition sort_unit (nfeats0 clust0 atime0 : Z) (cfp ffp : TFILE)
    : option (gmap Z (list Z)) :=
  match getclusters clust0 cfp with
  | None => None
  | Some (_, clusters, cfp) =>
      let clusters := drop_noise clusters in
      let uvec : gmap Z (list Z) := set_fold (fun c m => <[c := []]> m) ∅ clusters in
      let '(rp, nfeats, ffp) := fscanf_d ffp nfeats0 in
      let '(rp, clust, cfp) := fscanf_d cfp clust0 in
      unit_loop (S (length (t_toks cfp))) clusters nfeats rp cfp ffp clust atime0 uvec
  end.

End Klusters.

(** ** stdio streams *)

Record FILE := mkFILE {
  f_data : list Z;      (* the bytes of the file *)
  f_pos : Z;            (* file position indicator *)
  f_eof : bool;         (* end-of-file indicator *)
  f_err : bool          (* error indicator *)
}.

Definition set_pos (f : FILE) (pos : Z) (eof : bool) : FILE :=
  mkFILE (f_data f) pos eof (f_err f).

(** [fread(buf, n, 1, fp)]: the bytes transferred, the item count (1 when all
    [n] bytes were there, else 0) and the stream.  A short read transfers what
    is left and sets the end-of-file indicator. *)
Definition fread (n : Z) (f : FILE) : list Z * Z * FILE :=
  let avail := drop (Z.to_nat (f_pos f)) (f_data f) in
  if n <=? 0 then ([], 0, f)
  else if n <=? zlen avail then
    (take (Z.to_nat n) avail, 1, set_pos f (f_pos f + n) (f_eof f))
  else (avail, 0, set_pos f (f_pos f + zlen avail) true).

(** [fseek]: a negative target fails and leaves the stream alone; success
    clears the end-of-file indicator. *)
Definition fseek_set (f : FILE) (off : Z) : Z * FILE :=
  if off <? 0 then (-1, f) else (0, set_pos f off false).
Definition fseek_cur (f : FILE) (off : Z) : Z * FILE := fseek_set f (f_pos f + off).
Definition fseek_end (f : FILE) (off : Z) : Z * FILE := fseek_set f (zlen (f_data f) + off).
Definition ftell (f : FILE) : Z := f_pos f.
Definition feof (f : FILE) : bool := f_eof f.
Definition ferror (f : FILE) : bool := f_err f.
Definition rewind (f : FILE) : FILE := mkFILE (f_data f) 0 false false.

(** [fwrite(ptr, |bs|, 1, fd)]: the item count and the stream.  A write of
    size zero returns 0.  The stream of [fopen(name, "w")] is fully
    buffered: [fwrite] stores into the buffer and succeeds, and [f_data] is
    the file as it stands once the buffer has gone out.  The indicators are
    not looked at and not changed: a stream whose error indicator was set
    before keeps it and takes the bytes all the same.  A device that
    refuses the buffer when it is flushed is outside the model. *)
Definition fwrite (bs : list Z) (f : FILE) : Z * FILE :=
  match bs with
  | [] => (0, f)
  | _ =>
      (1, mkFILE (overwrite (f_data f) (f_pos f) bs) (f_pos f + zlen bs)
            (f_eof f) (f_err f))
  end.

(** [fopen(name, "r")] on a file holding [data], and [fopen(name, "w")]. *)
Definition fopen_r (data : list Z) : FILE := mkFILE data 0 false false.
Definition fopen_w : FILE := mkFILE [] 0 false false.

(** ** The handles of [pcmio.h] *)

Definition O_RDONLY : Z := 0.
Definition O_WRONLY : Z := 1.
Definition CACHESIZE : nat := 500.
Definition PCMIOCAP_MULTENTRY : Z := 1.
Definition PCMIOCAP_SAMPRATE : Z := 2.

(** [p2header] and [p2segment].  The pointer members ([initkey], [matchkey],
    [samples1..3]) point at fixed places of [hdrbuf] and [segbuf] of the
    enclosing [P2FILE] and are read from those buffers where they are used. *)
Record p2header := mkP2hdr {
  h_controlword : Z; h_datetime0 : Z; h_datetime1 : Z; h_segmentsize : Z;
  h_pcmstart : Z; h_gain : Z; h_samplerate : Z
}.

Record p2segment := mkP2seg {
  s_controlword1 : Z; s_recordwords : Z; s_controlword2 : Z; s_controlword3 : Z
}.

Record P2FILE := mkP2FILE {
  p_fp : FILE;
  currententry : Z;
  lastentry : Z;
  p_type : Z;
  entry_pos_cache : list Z;
  entry_size_cache : list Z;
  entry_sr_cache : list Z;
  entry_time_cache : list Z;
  p2hdr : p2header;
  p2seg : p2segment;
  hdrbuf : list Z;
  segbuf : list Z
}.

Definition p_set_fp (p : P2FILE) (fp : FILE) : P2FILE :=
  mkP2FILE fp (currententry p) (lastentry p) (p_type p) (entry_pos_cache p)
    (entry_size_cache p) (entry_sr_cache p) (entry_time_cache p) (p2hdr p)
    (p2seg p) (hdrbuf p) (segbuf p).
Definition p_set_currententry (p : P2FILE) (e : Z) : P2FILE :=
  mkP2FILE (p_fp p) e (lastentry p) (p_type p) (entry_pos_cache p)
    (entry_size_cache p) (entry_sr_cache p) (entry_time_cache p) (p2hdr p)
    (p2seg p) (hdrbuf p) (segbuf p).
Definition p_set_pos_cache (p : P2FILE) (c : list Z) : P2FILE :=
  mkP2FILE (p_fp p) (currententry p) (lastentry p) (p_type p) c
    (entry_size_cache p) (entry_sr_cache p) (entry_time_cache p) (p2hdr p)
    (p2seg p) (hdrbuf p) (segbuf p).
Definition p_set_hdr (p : P2FILE) (fp : FILE) (buf : list Z) (h : p2header) : P2FILE :=
  mkP2FILE fp (currententry p) (lastentry p) (p_type p) (entry_pos_cache p)
    (entry_size_cache p) (entry_sr_cache p) (entry_time_cache p) h
    (p2seg p) buf (segbuf p).
Definition p_set_seg (p : P2FILE) (fp : FILE) (buf : list Z) (s : p2segment) : P2FILE :=
  mkP2FILE fp (currententry p) (lastentry p) (p_type p) (entry_pos_cache p)
    (entry_size_cache p) (entry_sr_cache p) (entry_time_cache p) (p2hdr p)
    s (hdrbuf p) buf.

(** [PCMFILE], without the members of the memory-mapped read buffer
    ([fd], [addr], [len], [bufptr], [buflen], [memalloctype], [tempnam]), the
    function pointers and the [wav_] members. *)
Record PCMFILE := mkPCMFILE {
  name : list Z;
  flags : Z;
  entry : Z;
  samplerate : Z;
  timestamp : Z;
  microtimestamp : Z;
  nentries : Z;
  p2file : option P2FILE;
  pcmseq3_entrysize : Z;
  pcmseq3_key : list Z;
  pcmseq3_cursamp : Z;
  pcmseq3_poscache : Z;
  entrystarted : Z;
  outfp : option FILE
}.

Definition set_entry (fp : PCMFILE) (e : Z) : PCMFILE :=
  mkPCMFILE (name fp) (flags fp) e (samplerate fp) (timestamp fp)
    (microtimestamp fp) (nentries fp) (p2file fp) (pcmseq3_entrysize fp)
    (pcmseq3_key fp) (pcmseq3_cursamp fp) (pcmseq3_poscache fp)
    (entrystarted fp) (outfp fp).
Definition set_entrystarted (fp : PCMFILE) (v : Z) : PCMFILE :=
  mkPCMFILE (name fp) (flags fp) (entry fp) (samplerate fp) (timestamp fp)
    (microtimestamp fp) (nentries fp) (p2file fp) (pcmseq3_entrysize fp)
    (pcmseq3_key fp) (pcmseq3_cursamp fp) (pcmseq3_poscache fp) v (outfp fp).
Definition set_outfp (fp : PCMFILE) (fd : option FILE) : PCMFILE :=
  mkPCMFILE (name fp) (flags fp) (entry fp) (samplerate fp) (timestamp fp)
    (microtimestamp fp) (nentries fp) (p2file fp) (pcmseq3_entrysize fp)
    (pcmseq3_key fp) (pcmseq3_cursamp fp) (pcmseq3_poscache fp)
    (entrystarted fp) fd.
(** The members the writer keeps between calls. *)
Definition set_writer (fp : PCMFILE) (entrysize : Z) (key : list Z)
    (cursamp poscache : Z) (fd : FILE) : PCMFILE :=
  mkPCMFILE (name fp) (flags fp) (entry fp) (samplerate fp) (timestamp fp)
    (microtimestamp fp) (nentries fp) (p2file fp) entrysize key cursamp
    poscache (entrystarted fp) (Some fd).

Record pcmstat := mkPcmstat {
  st_entry : Z; st_nsamples : Z; st_samplerate : Z; st_timestamp : Z;
  st_microtimestamp : Z; st_capabilities : Z; st_nentries : Z
}.

(** ** The writer ([pcmseq2_write_hdr], [pcmseq2_write_data]) *)

(** The image of an array of [short]s. *)
Fixpoint encs (l : list Z) : list Z :=
  match l with
  | [] => []
  | s :: l' => enc16 s ++ encs l'
  end.

(** [rc |= (fwrite(...) != 1)] for the [putshort], [putlong], [putchars] and
    [putdata] macros. *)
Definition put (rc : Z) (fd : FILE) (bs : list Z) : Z * FILE :=
  let '(n, fd) := fwrite bs fd in (Z.lor rc (if n =? 1 then 0 else 1), fd).
Definition putshort (rc : Z) (fd : FILE) (v : Z) : Z * FILE := put rc fd (enc16 v).
Definition putlong (rc : Z) (fd : FILE) (v : Z) : Z * FILE := put rc fd (enc32 v).
Definition putchars (rc : Z) (fd : FILE) (ptr : list Z) (len : Z) : Z * FILE :=
  put rc fd (take (Z.to_nat len) ptr).
Definition putdata (rc : Z) (fd : FILE) (ptr : list Z) (nsamples : Z) : Z * FILE :=
  put rc fd (encs (take (Z.to_nat nsamples) ptr)).

Definition zeropad : list Z := replicate 2048 0.

(** C strings in a [char] buffer. *)
Fixpoint strlen (s : list Z) : nat :=
  match s with
  | [] => O
  | c :: s' => if c =? 0 then O else S (strlen s')
  end.
Definition strcpy (dst src : list Z) : list Z := overwrite dst 0 (src ++ [0]).
Definition strcat (dst src : list Z) : list Z :=
  overwrite dst (Z.of_nat (strlen dst)) (src ++ [0]).

(** [%d] and [%3d] of an [int]. *)
Fixpoint digits (fuel : nat) (n : Z) (acc : list Z) : list Z :=
  match fuel with
  | O => acc
  | S fuel' =>
      let acc := (48 + n mod 10) :: acc in
      if n / 10 =? 0 then acc else digits fuel' (n / 10) acc
  end.
Definition fmt_d (n : Z) : list Z :=
  if n <? 0 then 45 :: digits 10 (- n) [] else digits 10 n [].
Definition fmt_3d (n : Z) : list Z :=
  replicate (3 - length (fmt_d n)) 32 ++ fmt_d n.

(** The init_key of an entry, as [pcmseq2_write_hdr] builds it in
    [pcmseq3_key]: [" 2"], the first seven characters of the file name, blanks,
    and from column 21 the entry number and ["   1"].  An entry number wider
    than three characters makes [sprintf] run past the 29 bytes of the member;
    the buffer grows here instead. *)
Definition init_key (name : list Z) (entry : Z) : list Z :=
  let basename := take 7 (take (strlen name) name) in
  let key := strcpy (replicate 29 0) (replicate 28 32) in
  let key := strcpy key [32; 50] in
  let key := strcat key basename in
  let key := <[(length basename + 2)%nat := 32]> key in
  overwrite key 21 (fmt_3d entry ++ [32; 32; 32; 49; 0]).

Definition EPOCH : Z := 0x007c95674beb4000.

(** The 64-bit date of an entry header and its eight bytes, low byte first. *)
Definition lltime_of (sec usec : Z) : Z :=
  wrap64u (wrap64u (wrap64u ((wrap64u sec - 18000) * 10000000) + usec * 10) + EPOCH).
Definition enc64 (v : Z) : list Z :=
  map (fun k => Z.shiftr (Z.land v (Z.shiftl 255 (8 * k))) (8 * k))
    [0; 1; 2; 3; 4; 5; 6; 7].

(** Eight [fwrite]s of one byte whose results the code drops. *)
Fixpoint put_bytes_unchecked (fd : FILE) (bs : list Z) : FILE :=
  match bs with
  | [] => fd
  | b :: bs' => put_bytes_unchecked (snd (fwrite [b] fd)) bs'
  end.

(** [pcmseq2_write_hdr(fp)]; [curtime] is what [gettimeofday] would answer.
    A handle without a stream is a null [FILE *] in the source, where the call
    is undefined; it fails here. *)
Definition pcmseq2_write_hdr (curtime : Z * Z) (fp : PCMFILE) : Z * PCMFILE :=
  match outfp fp with
  | None => (-1, fp)
  | Some fd =>
      let rc := 0 in
      let key := init_key (name fp) (entry fp) in
      let '(rc, fd) := putshort rc fd 3 in
      let '(rc, fd) := putchars rc fd key 28 in
      let lltime :=
        if timestamp fp =? 0 then lltime_of (fst curtime) (snd curtime)
        else lltime_of (timestamp fp) (microtimestamp fp) in
      let fd := put_bytes_unchecked fd (enc64 lltime) in
      let '(rc, fd) := putlong rc fd 2048 in
      let '(rc, fd) := putlong rc fd 1 in
      let '(rc, fd) := putlong rc fd 0x20f01 in
      let '(rc, fd) := putlong rc fd (samplerate fp) in
      let key := <[1%nat := 51]> key in
      let fp := set_writer fp 0 key 2048 (pcmseq3_poscache fp) fd in
      if negb (rc =? 0) || feof fd || ferror fd then (-1, fp) else (0, fp)
  end.

Inductive segstate := FIRSTSEG | MIDDLESEG | LASTSEG.

(** The locals of [pcmseq2_write_data] that its loop changes. *)
Record wloop := mkWloop {
  w_rc : Z; w_fd : FILE; w_ptr : list Z; w_nsamples : Z; w_cursamp : Z;
  w_state : segstate; w_recordwords : Z; w_poscache : Z
}.

Definition state_of_cursamp (cursamp : Z) : segstate :=
  if cursamp <? 1005 then FIRSTSEG
  else if cursamp >=? 2026 then LASTSEG
  else MIDDLESEG.

(** A case of the [switch] that fills the rest of a sub-block or writes what
    there is: [bound] is 1005 or 2026, [ctl] the control word that follows. *)
Definition fill_block (bound ctl : Z) (here next : segstate) (w : wloop) : wloop :=
  let togo := bound - w_cursamp w in
  if w_nsamples w >=? togo then
    let '(rc, fd) := putdata (w_rc w) (w_fd w) (w_ptr w) togo in
    let '(rc, fd) := putshort rc fd ctl in
    mkWloop rc fd (drop (Z.to_nat togo) (w_ptr w)) (w_nsamples w - togo) bound
      next (w_recordwords w) (w_poscache w)
  else
    let '(rc, fd) := putdata (w_rc w) (w_fd w) (w_ptr w) (w_nsamples w) in
    mkWloop rc fd (drop (Z.to_nat (w_nsamples w)) (w_ptr w)) 0
      (w_cursamp w + w_nsamples w) here (w_recordwords w) (w_poscache w).

(** The [switch] of the loop of [pcmseq2_write_data]. *)
Definition write_switch (key : list Z) (entrysize lastsegment : Z) (w : wloop) : wloop :=
  match w_state w with
  | FIRSTSEG => fill_block 1005 0 FIRSTSEG MIDDLESEG w
  | MIDDLESEG => fill_block 2026 2 MIDDLESEG LASTSEG w
  | LASTSEG =>
      let togo := 2048 - w_cursamp w in
      if w_nsamples w >=? togo then
        let '(rc, fd, ptr, nsamples) :=
          if togo >? 0 then
            let '(rc, fd) := putdata (w_rc w) (w_fd w) (w_ptr w) togo in
            (rc, fd, drop (Z.to_nat togo) (w_ptr w), w_nsamples w - togo)
          else (w_rc w, w_fd w, w_ptr w, w_nsamples w) in
        if (lastsegment =? 0) || (nsamples >? 0) then
          let recordwords :=
            if negb (lastsegment =? 0) && (nsamples <=? 2048)
            then entrysize else w_recordwords w in
          let '(rc, fd) := putshort rc fd 1 in
          let '(rc, fd) := putchars rc fd key 28 in
          let poscache := ftell fd in
          let '(rc, fd) := putlong rc fd recordwords in
          mkWloop rc fd ptr nsamples 0 FIRSTSEG recordwords poscache
        else mkWloop rc fd ptr nsamples 0 FIRSTSEG (w_recordwords w) (w_poscache w)
      else
        let '(rc, fd) := putdata (w_rc w) (w_fd w) (w_ptr w) (w_nsamples w) in
        mkWloop rc fd (drop (Z.to_nat (w_nsamples w)) (w_ptr w)) 0
          (w_cursamp w + w_nsamples w) LASTSEG (w_recordwords w) (w_poscache w)
  end.

(** The test after the [switch]: when the entry is being closed and the data
    has run out inside a segment, go on with zeros up to its end. *)
Definition pad_entry (lastsegment : Z) (w : wloop) : wloop :=
  if negb (lastsegment =? 0) && (w_nsamples w =? 0) && (w_cursamp w >? 0)
  then mkWloop (w_rc w) (w_fd w) zeropad (2048 - w_cursamp w) (w_cursamp w)
         (w_state w) (w_recordwords w) (w_poscache w)
  else w.

(** One turn of the [while (nsamples > 0)] loop. *)
Definition write_step (key : list Z) (entrysize lastsegment : Z) (w : wloop) : wloop :=
  pad_entry lastsegment (write_switch key entrysize lastsegment w).

Fixpoint write_loop (fuel : nat) (key : list Z) (entrysize lastsegment : Z)
    (w : wloop) : option wloop :=
  if w_nsamples w >? 0 then
    match fuel with
    | O => None
    | S fuel' => write_loop fuel' key entrysize lastsegment
                   (write_step key entrysize lastsegment w)
    end
  else Some w.

(** [pcmseq2_write_data(fp, data, nsamples, lastsegment)]; a null [data] is
    the empty list. *)
Definition pcmseq2_write_data (fp : PCMFILE) (data : list Z) (nsamples lastsegment : Z)
    : option (Z * PCMFILE) :=
  match outfp fp with
  | None => Some (-1, fp)
  | Some fd =>
      let entrysize := wrap32s (pcmseq3_entrysize fp + nsamples) in
      let cursamp := pcmseq3_cursamp fp in
      let state := state_of_cursamp cursamp in
      let '(nsamples, ptr) :=
        if negb (lastsegment =? 0) && (nsamples =? 0)
        then (2048 - cursamp, zeropad) else (nsamples, data) in
      match write_loop (Z.to_nat nsamples + 2050) (pcmseq3_key fp) entrysize lastsegment
              (mkWloop 0 fd ptr nsamples cursamp state 0 (pcmseq3_poscache fp)) with
      | None => None
      | Some w =>
          let '(rc, fd) :=
            if negb (lastsegment =? 0) then
              let fd := snd (fseek_set (w_fd w) (w_poscache w)) in
              let '(rc, fd) := putlong (w_rc w) fd entrysize in
              (rc, snd (fseek_end fd 0))
            else (w_rc w, w_fd w) in
          let fp := set_writer fp entrysize (pcmseq3_key fp) (w_cursamp w)
                      (w_poscache w) fd in
          if negb (rc =? 0) || feof fd || ferror fd then Some (-1, fp)
          else Some (0, fp)
      end
  end.

(** ** The public write interface ([pcmseq_open], [pcmseq_write],
    [pcmseq_seek], [pcmseq_close]) *)

(** The calls into the writer that a public operation makes, in order. *)
Inductive wcall := CallHdr | CallData (nsamples lastsegment : Z).

(** [pcmseq_write(fp, buf, nsamples)]: the result, the handle and the calls
    made.  (The global [pcm_errno] is not modelled.) *)
Definition pcmseq_write (curtime : Z * Z) (fp : PCMFILE) (buf : list Z) (nsamples : Z)
    : option (Z * PCMFILE * list wcall) :=
  if flags fp =? O_WRONLY then
    match outfp fp with
    | Some _ =>
        let '(rc, fp, calls) :=
          if entrystarted fp =? 0 then
            let '(rc, fp) := pcmseq2_write_hdr curtime fp in
            (rc, set_entrystarted fp 1, [CallHdr])
          else (0, fp, []) in
        if rc =? 0 then
          match pcmseq2_write_data fp buf nsamples 0 with
          | None => None
          | Some (rc, fp) => Some (rc, fp, calls ++ [CallData nsamples 0])
          end
        else Some (rc, fp, calls)
    | None => Some (0, fp, [])
    end
  else Some (-1, fp, []).

(** [pcmseq_seek(fp, entry)] *)
Definition pcmseq_seek (fp : PCMFILE) (e : Z) : option (Z * PCMFILE * list wcall) :=
  let wr :=
    if flags fp =? O_WRONLY then
      match outfp fp with
      | Some _ =>
          if negb (entrystarted fp =? 0) then
            match pcmseq2_write_data fp [] 0 1 with
            | None => None
            | Some (_, fp) =>
                Some (Some (0, set_entry (set_entrystarted fp 0) e, [CallData 0 1]))
            end
          else Some (Some (0, set_entry fp e, []))
      | None => Some None
      end
    else Some None in
  match wr with
  | None => None
  | Some (Some r) => Some r
  | Some None =>
      if (flags fp =? O_RDONLY) && (0 <? e) && (e <=? nentries fp)
      then Some (0, set_entry fp e, [])
      else Some (-1, fp, [])
  end.

(** [pcmseq_close(fp)] in write mode; the stream of the handle it returns is
    the closed one, whose bytes are the file left on disk. *)
Definition pcmseq_close (fp : PCMFILE) : option (PCMFILE * list wcall) :=
  if flags fp =? O_WRONLY then
    if negb (entrystarted fp =? 0) then
      match pcmseq2_write_data fp [] 0 1 with
      | None => None
      | Some (_, fp) => Some (fp, [CallData 0 1])
      end
    else Some (fp, [])
  else Some (fp, []).

(** ** The reader ([pcmseq2_read] and its helpers) *)

(** [cache[i]] and [cache[i] = v] on the directory arrays; an index outside
    the [CACHESIZE] elements is undefined in the source, and here reads 0 and
    stores nothing. *)
Definition cache_get (c : list Z) (i : Z) : Z :=
  if i <? 0 then 0 else nth (Z.to_nat i) c 0.
Definition cache_set (c : list Z) (i v : Z) : list Z :=
  if i <? 0 then c else <[Z.to_nat i := v]> c.

(** The [short]s that a run of bytes holds. *)
Fixpoint decs (bs : list Z) : list Z :=
  match bs with
  | lo :: hi :: bs' => wrap16s (lo + 256 * hi) :: decs bs'
  | _ => []
  end.

Definition segment_bytes (type : Z) : Z := if type =? 1 then 4140 else 4134.

(** [skipsegment(p2fp)] *)
Definition skipsegment (p : P2FILE) : P2FILE :=
  p_set_fp p (snd (fseek_cur (p_fp p) (segment_bytes (p_type p)))).

(** [readentryhdr(p2fp)] *)
Definition readentryhdr (p : P2FILE) : Z * P2FILE :=
  let type := p_type p in
  let '(bytes, ret, fp) := fread (if type =? 1 then 56 else 54) (p_fp p) in
  let buf := overwrite (hdrbuf p) (if type =? 1 then 0 else 2) bytes in
  if negb (ret =? 1) then (-1, p_set_hdr p fp buf (p2hdr p))
  else if negb (byte_at buf 4 =? 32) || negb (byte_at buf 5 =? 50)
  then (-1, p_set_hdr p fp buf (p2hdr p))
  else (0, p_set_hdr p fp buf
             (mkP2hdr (get_u16 buf 2) (get_s32 buf 32) (get_s32 buf 36)
                (get_u32 buf 40) (get_u32 buf 44) (get_u32 buf 48) (get_u32 buf 52))).

(** [readsegment(p2fp)]; [p2hdr.initkey] is [hdrbuf + 4]. *)
Definition readsegment (p : P2FILE) : Z * P2FILE :=
  let type := p_type p in
  let '(bytes, ret, fp) := fread (segment_bytes type) (p_fp p) in
  let buf := overwrite (segbuf p) (if type =? 1 then 0 else 2) bytes in
  if negb (ret =? 1) then (-1, p_set_seg p fp buf (p2seg p))
  else if negb (byte_at buf 4 =? 32) || negb (byte_at buf 5 =? 51)
          || negb (bool_decide (slice 6 16 (hdrbuf p) = slice 6 16 buf))
  then (-1, p_set_seg p fp buf (p2seg p))
  else
    let off2 := if type =? 1 then 0 else -2 in
    let off3 := if type =? 1 then 0 else -4 in
    (0, p_set_seg p fp buf
          (mkP2seg (get_u16 buf 2) (get_u32 buf 32) (get_u16 buf (2048 + off2))
             (get_u16 buf (4094 + off3)))).

(** Where [samples1], [samples2] and [samples3] point in [segbuf]. *)
Definition samples1_off (type : Z) : Z := 36.
Definition samples2_off (type : Z) : Z := 2050 + (if type =? 1 then 0 else -2).
Definition samples3_off (type : Z) : Z := 4096 + (if type =? 1 then 0 else -4).

(** [peekcontrolword(p2fp, &controlword)].  [fread] never returns -1, so the
    call always returns 0. *)
Definition peekcontrolword (p : P2FILE) : Z * Z * P2FILE :=
  let type := p_type p in
  let off := if type =? 1 then 0 else 2 in
  let '(bytes, ret, fp) := fread (4 - off) (p_fp p) in
  let buf := overwrite [0; 0; 0; 0] off bytes in
  if ret =? -1 then (-1, 65535, p_set_fp p fp)
  else
    let controlword := get_u16 buf 2 in
    (0, controlword, p_set_fp p (snd (fseek_cur fp (if type =? 1 then -4 else -2)))).

(** [pcmseq2_seektoentry(p2fp, entry)] *)
Definition pcmseq2_seektoentry (p : P2FILE) (e : Z) : Z * P2FILE :=
  if (e <=? 0) || (negb (lastentry p =? -1) && (lastentry p <? e)) then (-1, p)
  else if negb (cache_get (entry_pos_cache p) e =? -1) then
    (0, p_set_currententry
          (p_set_fp p (snd (fseek_set (p_fp p) (cache_get (entry_pos_cache p) e)))) e)
  else (-1, p).

(** [pcmseq2_getinfo(p2fp, entry, ...)] with every out-parameter given: the
    result, the entry size, the sample rate, the date and the entry count. *)
Definition pcmseq2_getinfo (p : P2FILE) (e : Z) : Z * Z * Z * Z * Z :=
  if (e <=? 0) || (negb (lastentry p =? -1) && (lastentry p <? e))
  then (-1, 0, 0, 0, 0)
  else if cache_get (entry_size_cache p) e =? -1 then (-1, 0, 0, 0, 0)
  else
    (0, cache_get (entry_size_cache p) e,
     (if cache_get (entry_sr_cache p) e =? -1 then 0 else cache_get (entry_sr_cache p) e),
     (if cache_get (entry_time_cache p) e =? 18446744073709551615 then 0
      else cache_get (entry_time_cache p) e),
     (if lastentry p =? -1 then 0 else lastentry p)).

(** The locals of [pcmseq2_read] that its loop changes, with the handle and
    the output buffer. *)
Record rloop := mkRloop {
  r_p : P2FILE; r_curentry : Z; r_status : Z; r_blockstart : Z; r_curpos : Z;
  r_buf : list Z; r_recordwords : Z
}.

(** The copy of the part of one sub-block that lies in [start, stop]:
    [blockstart] is the first sample of the sub-block, [n] its size and [off]
    the place of its samples in [segbuf]. *)
Definition copy_block (segbuf : list Z) (off n start stop blockstart : Z)
    (curpos : Z) (buf : list Z) : Z * list Z :=
  let blockstop := blockstart + n - 1 in
  if (blockstart <=? stop) && (start <=? blockstop) then
    let startpad := if blockstart <? start then start - blockstart else 0 in
    let endpad := if stop <? blockstop then blockstop - stop else 0 in
    let cnt := blockstop - blockstart - startpad - endpad + 1 in
    (curpos + cnt,
     overwrite buf curpos (decs (slice (off + 2 * startpad) (2 * cnt) segbuf)))
  else (curpos, buf).

Inductive step_result := Break (r : rloop) | Continue (r : rloop).

(** One turn of the [for (;;)] loop of [pcmseq2_read]. *)
Definition read_step (start stop : Z) (r : rloop) : step_result :=
  let '(rc, controlword, p) := peekcontrolword (r_p r) in
  if rc =? -1 then Break (mkRloop p (r_curentry r) (r_status r) (r_blockstart r)
                            (r_curpos r) (r_buf r) (r_recordwords r))
  else if controlword =? 3 then
    let curentry := r_curentry r + 1 in
    let p := p_set_pos_cache p (cache_set (entry_pos_cache p) curentry (ftell (p_fp p))) in
    Break (mkRloop p curentry 0 (r_blockstart r) (r_curpos r) (r_buf r)
             (s_recordwords (p2seg p)))
  else if controlword =? 1 then
    let blockstart := r_blockstart r in
    let blockstop := blockstart + 2048 - 1 in
    if (stop <? blockstart) || (blockstop <? start) then
      Continue (mkRloop (skipsegment p) (r_curentry r) (r_status r) (blockstart + 2048)
                  (r_curpos r) (r_buf r) (r_recordwords r))
    else
      let '(rc, p) := readsegment p in
      if rc =? -1 then
        Break (mkRloop p (r_curentry r) (r_status r) blockstart (r_curpos r)
                 (r_buf r) (r_recordwords r))
      else
        let type := p_type p in
        let '(curpos, buf) :=
          copy_block (segbuf p) (samples1_off type) 1005 start stop blockstart
            (r_curpos r) (r_buf r) in
        let blockstart := blockstart + 1005 in
        let '(curpos, buf) :=
          copy_block (segbuf p) (samples2_off type) 1021 start stop blockstart curpos buf in
        let blockstart := blockstart + 1021 in
        let '(curpos, buf) :=
          copy_block (segbuf p) (samples3_off type) 22 start stop blockstart curpos buf in
        let blockstart := blockstart + 22 in
        Continue (mkRloop p (r_curentry r) (r_status r) blockstart curpos buf
                    (r_recordwords r))
  else Break (mkRloop p (r_curentry r) (r_status r) (r_blockstart r) (r_curpos r)
                (r_buf r) (r_recordwords r)).

Fixpoint read_loop (fuel : nat) (start stop : Z) (r : rloop) : option rloop :=
  match fuel with
  | O => None
  | S fuel' =>
      match read_step start stop r with
      | Break r => Some r
      | Continue r => read_loop fuel' start stop r
      end
  end.

(** The result of [pcmseq2_read]: the return value, the handle, the output
    buffer, [*numwritten_p] and [*entrysize_p]. *)
Record read_result := mkReadResult {
  rr_rc : Z; rr_p : P2FILE; rr_buf : list Z; rr_numwritten : Z; rr_entrysize : Z
}.

(** [pcmseq2_read(p2fp, entry, start, stop, buf, &numwritten, &entrysize)];
    [buf] is the caller's array of [short]s. *)
Definition pcmseq2_read (p : P2FILE) (e start stop : Z) (buf : list Z)
    : option read_result :=
  let '(rc, p) := pcmseq2_seektoentry p e in
  if rc =? -1 then Some (mkReadResult (-1) p buf 0 0)
  else
    let curentry := currententry p in
    let startpos := ftell (p_fp p) in
    let '(rc, p) := readentryhdr p in
    if rc =? -1 then
      Some (mkReadResult (-1) (p_set_fp p (snd (fseek_set (p_fp p) startpos))) buf 0 0)
    else
      match read_loop (length (f_data (p_fp p)) + 3) start stop
              (mkRloop p curentry (-1) 0 0 buf 0) with
      | None => None
      | Some r =>
          let p := r_p r in
          let rescue :=
            feof (p_fp p)
            || ((e =? lastentry p) && (stop <? r_blockstart r))
            || (negb (s_recordwords (p2seg p) =? 0) && (r_status r =? -1)) in
          let '(p, curentry, status, recordwords) :=
            if rescue
            then (p_set_fp p (snd (fseek_set (p_fp p) startpos)), e, 0,
                  s_recordwords (p2seg p))
            else (p, r_curentry r, r_status r, r_recordwords r) in
          if status =? -1 then
            Some (mkReadResult (-1) (p_set_fp p (snd (fseek_set (p_fp p) startpos)))
                    (r_buf r) 0 0)
          else
            Some (mkReadResult 0 (p_set_currententry p curentry) (r_buf r)
                    (r_curpos r) recordwords)
      end.

(** ** The backward indexer ([pcmseq2_indexfile] and its scans) *)

(** The test on the 36 bytes of a segment header, and on the 56 bytes read
    for an entry header; [seghdr]/[enthdr] start two bytes into the raw bytes
    of a type 1 file, after the record-size word. *)
Definition hdr_off (type : Z) : Z := if type =? 1 then 2 else 0.

Definition valid_seghdr (type : Z) (raw : list Z) : bool :=
  let o := hdr_off type in
  (byte_at raw o =? 0x01) && (byte_at raw (o + 1) =? 0x00)
  && (byte_at raw (o + 2) =? 0x20) && (byte_at raw (o + 3) =? 0x33)
  && (negb (type =? 1) || ((byte_at raw 0 =? 0xfc) && (byte_at raw 1 =? 0x07))).

Definition valid_enthdr (type : Z) (raw : list Z) : bool :=
  let o := hdr_off type in
  (byte_at raw o =? 0x03) && (byte_at raw (o + 1) =? 0x00)
  && (byte_at raw (o + 2) =? 0x20) && (byte_at raw (o + 3) =? 0x32)
  && (negb (type =? 1) || ((byte_at raw 0 =? 0x36) && (byte_at raw 1 =? 0x00))).

(** [fread(rawseghdr, 36, 1, fp) != 1 || ...]: [true] when the header was read
    and is valid. *)
Definition read_seghdr (type : Z) (fp : FILE) : bool * list Z * FILE :=
  let '(raw, ret, fp) := fread 36 fp in
  ((ret =? 1) && valid_seghdr type raw, raw, fp).
Definition read_enthdr (type : Z) (fp : FILE) : bool * list Z * FILE :=
  let '(raw, ret, fp) := fread 56 fp in
  ((ret =? 1) && valid_enthdr type raw, raw, fp).

(** [while ((step > 0) && (step * segmentsize > prevpos)) step = step / 2;] *)
Fixpoint shrink_step (fuel : nat) (step segmentsize prevpos : Z) : Z :=
  match fuel with
  | O => step
  | S fuel' =>
      if (0 <? step) && (prevpos <? step * segmentsize)
      then shrink_step fuel' (Z.quot step 2) segmentsize prevpos
      else step
  end.

(** The [for (;;)] loop of [pcmseq2_scantoentrystart]: the stream and the
    final [step]. *)
Fixpoint scan_loop (fuel : nat) (type segmentsize : Z) (fp : FILE) (step : Z)
    : option (FILE * Z) :=
  match fuel with
  | O => None
  | S fuel' =>
      let prevpos := ftell fp in
      let step := shrink_step 64 step segmentsize prevpos in
      let fp := snd (fseek_cur fp (-1 * step * segmentsize)) in
      let '(ok, _, fp) := read_seghdr type fp in
      if negb ok then
        let fp := snd (fseek_set fp prevpos) in
        let step := Z.quot step 2 in
        if 0 <? step then scan_loop fuel' type segmentsize fp step
        else Some (fp, step)
      else
        let fp := snd (fseek_cur fp (0 - 36)) in
        if step =? 0 then Some (fp, step)
        else scan_loop fuel' type segmentsize fp step
  end.

(** [pcmseq2_scantoentrystart(fp, type, segmentsize, entryhdrsize)] *)
Definition pcmseq2_scantoentrystart (fp : FILE) (type segmentsize entryhdrsize : Z)
    : option (Z * FILE) :=
  let '(ok, _, fp) := read_seghdr type fp in
  if negb ok then Some (-1, fp)
  else
    let fp := snd (fseek_cur fp (0 - 36)) in
    match scan_loop (Z.to_nat (ftell fp) + 16) type segmentsize fp 256 with
    | None => None
    | Some (fp, step) =>
        let fp := if step =? 0 then snd (fseek_cur fp (-1 * entryhdrsize)) else fp in
        Some (0, fp)
    end.

(** The search of [scantosegmentstart]: the first [i] from [i] on, among [n]
    candidates, at which the 14 bytes [key14] stand in [buf].  A comparison
    that would run past the buffer does not match. *)
Fixpoint find_key (n : nat) (key14 buf : list Z) (i : Z) : option Z :=
  match n with
  | O => None
  | S n' =>
      if bool_decide (slice i 14 buf = key14) then Some i
      else find_key n' key14 buf (i + 1)
  end.

(** [scantosegmentstart(p2fp)] *)
Definition scantosegmentstart (p : P2FILE) : Z * P2FILE :=
  let type := p_type p in
  let segsize := segment_bytes type in
  let startpos := ftell (p_fp p) in
  let p := p_set_fp p (snd (fseek_set (p_fp p) 0)) in
  if startpos <? segsize then (-1, p_set_fp p (snd (fseek_set (p_fp p) startpos)))
  else
    let '(rc, p) := readentryhdr p in
    if rc =? -1 then (-1, p_set_fp p (snd (fseek_set (p_fp p) startpos)))
    else
      let fp := snd (fseek_set (p_fp p) (startpos - segsize)) in
      let '(bytes, ret, fp) := fread segsize fp in
      let buf := overwrite (segbuf p) 0 bytes in
      let p := p_set_seg p fp buf (p2seg p) in
      if negb (ret =? 1) then (-1, p_set_fp p (snd (fseek_set fp startpos)))
      else
        match find_key (Z.to_nat segsize) (slice 6 14 (hdrbuf p)) buf 0 with
        | Some i =>
            (0, p_set_fp p (snd (fseek_set fp
                   (startpos - segsize + i - 2 - (if type =? 1 then 4 else 2)))))
        | None => (-1, p_set_fp p (snd (fseek_set fp startpos)))
        end.

(** The number of segments of an entry of [recordwords] samples and the
    relative seek from behind the 36 bytes of its last segment header to its
    entry header, both in [int] arithmetic. *)
Definition entrysegments_of (recordwords : Z) : Z :=
  Z.quot (wrap32s (recordwords + 2048 - 1)) 2048.
Definition deltapos_of (segmentsize entryhdrsize entrysegments : Z) : Z :=
  wrap32s (segmentsize - 36 - entrysegments * segmentsize - entryhdrsize).

(** [enthdr[30..37]] as an [unsigned long long]. *)
Definition get_u64 (buf : list Z) (off : Z) : Z :=
  get_u32 buf off + 4294967296 * get_u32 buf (off + 4).

Definition p_set_caches (p : P2FILE) (fp : FILE) (pos size sr time : list Z) : P2FILE :=
  mkP2FILE fp (currententry p) (lastentry p) (p_type p) pos size sr time
    (p2hdr p) (p2seg p) (hdrbuf p) (segbuf p).

Inductive index_result :=
| IndexFail (p : P2FILE)
| IndexAgain (p : P2FILE) (curentry : Z)
| IndexDone (p : P2FILE) (curentry : Z).

(** The part of a turn of the indexing loop that finds the entry header from
    a valid last-segment header: the stream and [recordwords], or a failure
    of the scan. *)
Definition locate_entry (type : Z) (raw : list Z) (fp : FILE) : option (option (FILE * Z)) :=
  let segmentsamples := 2048 in
  let entryhdrsize := if type =? 1 then 56 else 54 in
  let segmentsize := segment_bytes type in
  let recordwords := get_s32 raw (hdr_off type + 30) in
  if (recordwords =? -1) || (recordwords =? 0) then
    let fp := snd (fseek_cur fp (0 - 36)) in
    let tmppos := ftell fp in
    match pcmseq2_scantoentrystart fp type segmentsize entryhdrsize with
    | None => None
    | Some (rc, fp) =>
        if rc =? -1 then Some None
        else
          let entrysegments :=
            wrap32s (Z.quot (tmppos + segmentsize - ftell fp - entryhdrsize) segmentsize) in
          Some (Some (fp, wrap32s (entrysegments * segmentsamples)))
    end
  else
    let entrysegments := entrysegments_of recordwords in
    let deltapos := deltapos_of segmentsize entryhdrsize entrysegments in
    Some (Some (snd (fseek_cur fp deltapos), recordwords)).

(** One turn of the [for (;;)] loop of [pcmseq2_indexfile]. *)
Definition index_step (type : Z) (p : P2FILE) (curentry : Z) : option index_result :=
  let segmentsize := segment_bytes type in
  let '(ok, raw, fp) := read_seghdr type (p_fp p) in
  let p := p_set_fp p fp in
  if negb ok then
    if curentry =? 1 then
      let '(rc, p) := scantosegmentstart p in
      if rc =? 0 then Some (IndexAgain p curentry) else Some (IndexFail p)
    else Some (IndexFail p)
  else
    match locate_entry type raw fp with
    | None => None
    | Some None => Some (IndexFail p)
    | Some (Some (fp, recordwords)) =>
        let '(ok, raw, fp) := read_enthdr type fp in
        let '(ok, raw, fp) :=
          if negb ok then read_enthdr type (snd (fseek_cur fp (segmentsize * -1 - 56)))
          else (ok, raw, fp) in
        if negb ok then Some (IndexFail (p_set_fp p fp))
        else
          let o := hdr_off type in
          let pos := ftell fp - 56 in
          let p := p_set_caches p fp
                     (cache_set (entry_pos_cache p) curentry pos)
                     (cache_set (entry_size_cache p) curentry recordwords)
                     (cache_set (entry_sr_cache p) curentry (get_s32 raw (o + 50)))
                     (cache_set (entry_time_cache p) curentry (get_u64 raw (o + 30))) in
          if pos =? 0 then Some (IndexDone p curentry)
          else Some (IndexAgain
                       (p_set_fp p (snd (fseek_cur fp (0 - segmentsize - 56))))
                       (curentry + 1))
    end.

Fixpoint index_loop (fuel : nat) (type : Z) (p : P2FILE) (curentry : Z)
    : option (option (P2FILE * Z)) :=
  match fuel with
  | O => None
  | S fuel' =>
      match index_step type p curentry with
      | None => None
      | Some (IndexFail _) => Some None
      | Some (IndexDone p curentry) => Some (Some (p, curentry))
      | Some (IndexAgain p curentry) => index_loop fuel' type p curentry
      end
  end.

Definition cache_swap (c : list Z) (i j : Z) : list Z :=
  cache_set (cache_set c i (cache_get c j)) j (cache_get c i).

(** The loop that puts the directory into entry order. *)
Fixpoint reverse_caches (fuel : nat) (p : P2FILE) (tmpentry curentry : Z) : P2FILE :=
  match fuel with
  | O => p
  | S fuel' =>
      if tmpentry <? curentry then
        reverse_caches fuel'
          (p_set_caches p (p_fp p)
             (cache_swap (entry_pos_cache p) tmpentry curentry)
             (cache_swap (entry_size_cache p) tmpentry curentry)
             (cache_swap (entry_sr_cache p) tmpentry curentry)
             (cache_swap (entry_time_cache p) tmpentry curentry))
          (tmpentry + 1) (curentry - 1)
      else p
  end.

Definition p_set_index (p : P2FILE) (type numentries : Z) : P2FILE :=
  mkP2FILE (p_fp p) (currententry p) numentries type (entry_pos_cache p)
    (entry_size_cache p) (entry_sr_cache p) (entry_time_cache p)
    (p2hdr p) (p2seg p) (hdrbuf p) (segbuf p).

(** [pcmseq2_indexfile(p2fp)].  The first byte of an empty file is read as 0. *)
Definition pcmseq2_indexfile (p : P2FILE) : option (Z * P2FILE) :=
  let fp := snd (fseek_set (p_fp p) 0) in
  let '(bytes, _, fp) := fread 1 fp in
  let tmpchr := byte_at bytes 0 in
  let type := if tmpchr =? 0x36 then 1 else if tmpchr =? 0x03 then 2 else 0 in
  if type =? 0 then Some (-1, p_set_fp p fp)
  else
    let segmentsize := segment_bytes type in
    let fp := snd (fseek_set fp (zlen (f_data fp) - segmentsize)) in
    match index_loop (length (f_data fp) + 2) type (p_set_fp p fp) 1 with
    | None => None
    | Some None => Some (-1, p_set_fp p fp)
    | Some (Some (p, curentry)) =>
        let numentries := curentry in
        let p := reverse_caches (Z.to_nat curentry) p 1 curentry in
        Some (0, p_set_index p type numentries)
    end.

(** A handle as [calloc] and the initialisation of [pcmseq2_open] leave it. *)
Definition p2file_init (data : list Z) : P2FILE :=
  mkP2FILE (fopen_r data) 1 0 0
    (replicate CACHESIZE (-1)) (replicate CACHESIZE (-1))
    (replicate CACHESIZE 0) (replicate CACHESIZE 0)
    (mkP2hdr 0 0 0 0 0 0 0) (mkP2seg 0 0 0 0)
    (replicate 56 0) (replicate 4140 0).

(** [pcmseq2_open(filename)] on a file holding [data]: [Some None] is the
    null result. *)
Definition pcmseq2_open (data : list Z) : option (option P2FILE) :=
  match pcmseq2_indexfile (p2file_init data) with
  | None => None
  | Some (rc, p) =>
      if rc =? 0 then Some (Some (p_set_fp p (rewind (p_fp p)))) else Some None
  end.

(** ** The public read interface *)

Definition set_read_info (fp : PCMFILE) (p : option P2FILE) (sr n : Z) : PCMFILE :=
  mkPCMFILE (name fp) (flags fp) (entry fp) sr (timestamp fp)
    (microtimestamp fp) n p (pcmseq3_entrysize fp)
    (pcmseq3_key fp) (pcmseq3_cursamp fp) (pcmseq3_poscache fp)
    (entrystarted fp) (outfp fp).

(** [pcmseq_open(fp)] after [pcm_open] has set [name] and [flags]: [disk] is
    the file of that name when it is read, [created] what creating it for
    writing yields ([None] when [fopen] fails).  The members that the
    function does not set keep the values of [fp]. *)
Definition pcmseq_open (fp : PCMFILE) (disk : list Z) (created : option unit)
    : option (Z * PCMFILE) :=
  let fp := mkPCMFILE (name fp) (flags fp) 1 20000 0 0 0 (p2file fp)
              (pcmseq3_entrysize fp) (pcmseq3_key fp) (pcmseq3_cursamp fp)
              (pcmseq3_poscache fp) (entrystarted fp) None in
  if flags fp =? O_RDONLY then
    match pcmseq2_open disk with
    | None => None
    | Some None => Some (-1, set_read_info fp None (samplerate fp) (nentries fp))
    | Some (Some p) =>
        let '(_, _, sr, _, n) := pcmseq2_getinfo p 1 in
        Some (0, set_read_info fp (Some p) sr n)
    end
  else if flags fp =? O_WRONLY then
    let fp := set_entrystarted fp 0 in
    match created with
    | None => Some (-1, fp)
    | Some _ => Some (0, set_outfp fp (Some fopen_w))
    end
  else Some (0, fp).

(** [pcmseq_stat(fp, buf)]; in write mode the members of [buf] that the code
    does not set keep their values. *)
Definition pcmseq_stat (fp : PCMFILE) (buf : pcmstat) : Z * pcmstat :=
  let rd :=
    if flags fp =? O_RDONLY then
      match p2file fp with
      | Some p =>
          let '(rc, entrysize, sr, datetime, n) := pcmseq2_getinfo p (entry fp) in
          if negb (rc =? 0) then Some (-1, buf)
          else
            Some (0, mkPcmstat (entry fp) (wrap32s entrysize) sr
                       (wrap32s (wrap64u (Z.quot (wrap64u (datetime - EPOCH)) 10000000 + 18000)))
                       (Z.quot (Z.rem (wrap64u (datetime - EPOCH)) 10000000) 10)
                       (Z.lor PCMIOCAP_MULTENTRY PCMIOCAP_SAMPRATE) n)
      | None => None
      end
    else None in
  match rd with
  | Some r => r
  | None =>
      if flags fp =? O_WRONLY then
        (0, mkPcmstat (entry fp) (pcmseq3_entrysize fp) (samplerate fp)
              (st_timestamp buf) (st_microtimestamp buf)
              (Z.lor PCMIOCAP_MULTENTRY PCMIOCAP_SAMPRATE) (st_nentries buf))
      else (-1, buf)
  end.


(** ** Sequences of calls *)

(** The chunks of one entry handed to [pcmseq2_write_data] one after the
    other with [lastsegment] 0, stopping at the first call that fails. *)
Fixpoint write_chunks (fp : PCMFILE) (chunks : list (list Z)) : option (Z * PCMFILE) :=
  match chunks with
  | [] => Some (0, fp)
  | c :: cs =>
      match pcmseq2_write_data fp c (zlen c) 0 with
      | None => None
      | Some (rc, fp) => if rc =? 0 then write_chunks fp cs else Some (rc, fp)
      end
  end.

(** One entry: the header, the chunks, and the closing call with no samples
    and [lastsegment] 1. *)
Definition write_entry (curtime : Z * Z) (fp : PCMFILE) (chunks : list (list Z))
    : option (Z * PCMFILE) :=
  let '(rc, fp) := pcmseq2_write_hdr curtime fp in
  if rc =? 0 then
    match write_chunks fp chunks with
    | None => None
    | Some (rc, fp) => if rc =? 0 then pcmseq2_write_data fp [] 0 1 else Some (rc, fp)
    end
  else Some (rc, fp).

(** The operations of the public write interface short of [pcmseq_close], and
    a run of them: the handle and the calls into the writer, in order. *)
Inductive wop :=
| OpWrite (curtime : Z * Z) (buf : list Z) (nsamples : Z)
| OpSeek (e : Z).

Definition do_op (fp : PCMFILE) (op : wop) : option (Z * PCMFILE * list wcall) :=
  match op with
  | OpWrite curtime buf nsamples => pcmseq_write curtime fp buf nsamples
  | OpSeek e => pcmseq_seek fp e
  end.

Fixpoint run_ops (fp : PCMFILE) (ops : list wop) : option (PCMFILE * list wcall) :=
  match ops with
  | [] => Some (fp, [])
  | op :: ops' =>
      match do_op fp op with
      | None => None
      | Some (_, fp, calls) =>
          match run_ops fp ops' with
          | None => None
          | Some (fp, calls') => Some (fp, calls ++ calls')
          end
      end
  end.


(** ** Files and handles of the examples *)

(** ["test.pcm_seq2"] *)
Definition ex_name : list Z :=
  [116; 101; 115; 116; 46; 112; 99; 109; 95; 115; 101; 113; 50].

(** A handle as [pcm_open] passes it to [pcmseq_open]; the members that
    neither sets hold arbitrary values. *)
Definition ex_raw (flags : Z) : PCMFILE :=
  mkPCMFILE ex_name flags 1 0 0 0 0 None 111 [] 222 333 444 None.

Definition ex_whandle : PCMFILE :=
  match pcmseq_open (ex_raw O_WRONLY) [] (Some tt) with
  | Some (_, fp) => fp
  | None => ex_raw O_WRONLY
  end.

(** [n] samples counting up from -1500. *)
Definition ramp (n : nat) : list Z := map (fun i => Z.of_nat i - 1500) (seq 0 n).

(** The file that a run of operations and [pcmseq_close] leave. *)
Definition disk_of (fp : PCMFILE) (ops : list wop) : list Z :=
  match run_ops fp ops with
  | Some (fp, _) =>
      match pcmseq_close fp with
      | Some (fp, _) => match outfp fp with Some fd => f_data fd | None => [] end
      | None => []
      end
  | None => []
  end.

Definition open_of (data : list Z) : P2FILE :=
  match pcmseq2_open data with
  | Some (Some p) => p
  | _ => p2file_init data
  end.

(** One entry of 3000 samples written in three chunks. *)
Definition ex_disk1 : list Z :=
  Eval vm_compute in
    disk_of ex_whandle
      [OpWrite (1000, 5) (ramp 700) 700; OpWrite (1000, 5) (ramp 1301) 1301;
       OpWrite (1000, 5) (ramp 999) 999].
Definition ex_samples1 : list Z := ramp 700 ++ ramp 1301 ++ ramp 999.

(** ** Invariants of the writer *)

(** The position in the 2048-sample cycle and the sub-block state agree. *)
Definition wloop_ok (w : wloop) : Prop :=
  0 <= w_cursamp w <= 2048 /\ w_state w = state_of_cursamp (w_cursamp w).

(** A bound on the turns the loop of [pcmseq2_write_data] still takes: the
    samples left, one turn for the header of the first segment, and the
    padding that closing an entry adds. *)
Definition wmeasure (lastsegment : Z) (w : wloop) : Z :=
  Z.max 0 (w_nsamples w)
  + (if w_cursamp w =? 2048 then 1 else 0)
  + (if negb (lastsegment =? 0)
        && negb ((w_nsamples w + w_cursamp w) mod 2048 =? 0)
     then 2048 else 0).



(** ** More files of the examples *)

(** Two entries of 100 and of 50 samples, the first dated 18005 s. *)
Definition ex_whandle_dated : PCMFILE :=
  mkPCMFILE (name ex_whandle) (flags ex_whandle) (entry ex_whandle)
    (samplerate ex_whandle) 18005 0 (nentries ex_whandle) (p2file ex_whandle)
    (pcmseq3_entrysize ex_whandle) (pcmseq3_key ex_whandle)
    (pcmseq3_cursamp ex_whandle) (pcmseq3_poscache ex_whandle)
    (entrystarted ex_whandle) (outfp ex_whandle).
Definition ex_disk2 : list Z :=
  Eval vm_compute in
    disk_of ex_whandle_dated
      [OpWrite (1000, 5) (ramp 100) 100; OpSeek 2; OpWrite (1000, 5) (ramp 50) 50].

(** The same file with one byte of the match key of the segment of entry 2
    overwritten. *)
Definition ex_disk2_bad : list Z := Eval vm_compute in <[4249%nat := 0]> ex_disk2.

(** A read-mode handle on [ex_disk2]. *)
Definition ex_rhandle : PCMFILE :=
  match pcmseq_open (ex_raw O_RDONLY) ex_disk2 None with
  | Some (_, fp) => fp
  | None => ex_raw O_RDONLY
  end.

(** Two handles with the same current entry and the same directory. *)
Definition same_dir (p q : P2FILE) : Prop :=
  currententry p = currententry q /\ lastentry p = lastentry q
  /\ p_type p = p_type q
  /\ entry_pos_cache p = entry_pos_cache q
  /\ entry_size_cache p = entry_size_cache q
  /\ entry_sr_cache p = entry_sr_cache q
  /\ entry_time_cache p = entry_time_cache q.

(** ** Headers in a file *)

(** Whether the 36 bytes at [q] pass the test of a segment header, and the 56
    bytes at [q] that of an entry header. *)
Definition seghdr_at (type : Z) (data : list Z) (q : Z) : bool :=
  (q + 36 <=? zlen data) && valid_seghdr type (slice q 36 data).
Definition enthdr_at (type : Z) (data : list Z) (q : Z) : bool :=
  (q + 56 <=? zlen data) && valid_enthdr type (slice q 56 data).

Definition entryhdr_bytes (type : Z) : Z := if type =? 1 then 56 else 54.

(** Two entries, the second of 5000 samples in three segments, whose last
    segment header has lost its recordwords field. *)
Definition ex_disk3 : list Z :=
  Eval vm_compute in
    overwrite
      (disk_of ex_whandle
         [OpWrite (1000, 5) (ramp 100) 100; OpSeek 2; OpWrite (1000, 5) (ramp 5000) 5000])
      (4188 + 54 + 2 * 4134 + 30) [0; 0; 0; 0].

(** ** The layout of an entry *)

(** A stream after [bs] was appended, and the streams the writer appends
    to: positioned at the end. *)
Definition appended (fd : FILE) (bs : list Z) : FILE :=
  mkFILE (f_data fd ++ bs) (f_pos fd + zlen bs) (f_eof fd) (f_err fd).
Definition at_end (fd : FILE) : Prop :=
  f_pos fd = zlen (f_data fd).

(** The date that [pcmseq2_write_hdr] writes. *)
Definition hdr_lltime (curtime : Z * Z) (fp : PCMFILE) : Z :=
  if timestamp fp =? 0 then lltime_of (fst curtime) (snd curtime)
  else lltime_of (timestamp fp) (microtimestamp fp).

(** The bytes of an entry header, of a segment header and of a segment of
    2048 samples, for a type 2 file. *)
Definition enthdr_image (key : list Z) (lltime sr : Z) : list Z :=
  enc16 3 ++ key ++ enc64 lltime ++ enc32 2048 ++ enc32 1 ++ enc32 0x20f01 ++ enc32 sr.
Definition seghdr_image (mkey : list Z) (rw : Z) : list Z :=
  enc16 1 ++ mkey ++ enc32 rw.
Definition segbody_image (blk : list Z) : list Z :=
  encs (take 1005 blk) ++ enc16 0 ++ encs (take 1021 (drop 1005 blk))
  ++ enc16 2 ++ encs (drop 2026 blk).
Definition seg_image (mkey : list Z) (rw : Z) (blk : list Z) : list Z :=
  seghdr_image mkey rw ++ segbody_image blk.

(** [n] segments holding the samples [all]; the last one carries the entry
    size [total], the others 0. *)
Fixpoint segs_image (mkey : list Z) (total : Z) (n : nat) (all : list Z) : list Z :=
  match n with
  | O => []
  | S n' =>
      seg_image mkey (match n' with O => total | _ => 0 end) (take 2048 all)
      ++ segs_image mkey total n' (drop 2048 all)
  end.

(** The segments of an entry of the samples [samples]: the writer pads them
    with zeros to the end of a segment, and adds a whole segment of zeros when
    they fill their last segment exactly. *)
Definition entry_segments (samples : list Z) : Z := zlen samples / 2048 + 1.
Definition entry_padded (samples : list Z) : list Z :=
  samples ++ replicate (Z.to_nat (2048 * entry_segments samples - zlen samples)) 0.
Definition entry_image (key : list Z) (lltime sr : Z) (samples : list Z) : list Z :=
  enthdr_image key lltime sr
  ++ segs_image (<[1%nat := 51]> key) (zlen samples)
       (Z.to_nat (entry_segments samples)) (entry_padded samples).

(** What the writer emits behind a sample that brings the position to [c]:
    the control word of the next sub-block, or the header of the next
    segment. *)
Definition marker (mkey : list Z) (c : Z) : list Z :=
  if c =? 1005 then enc16 0
  else if c =? 2026 then enc16 2
  else if c =? 2048 then seghdr_image mkey 0
  else [].

(** The bytes that writing the samples [l] from position [c] appends, while
    the entry is not being closed.  At 2048, the position after the entry
    header, the first segment header is still to come. *)
Fixpoint emit (mkey : list Z) (c : Z) (l : list Z) : list Z :=
  match l with
  | [] => []
  | x :: l' =>
      let c1 := (if c =? 2048 then 0 else c) + 1 in
      (if c =? 2048 then seghdr_image mkey 0 else [])
      ++ enc16 x ++ marker mkey c1
      ++ emit mkey (if c1 =? 2048 then 0 else c1) l'
  end.

(** The position after [k] samples from position [c]. *)
Definition cs_after (c k : Z) : Z := if k =? 0 then c else (c + k) mod 2048.

(** The bytes from the start of the current segment header to the end of
    the file when the position is [c]. *)
Definition within (c : Z) : Z :=
  34 + 2 * c + (if 1005 <=? c then 2 else 0) + (if 2026 <=? c then 2 else 0).

(** The zeros and control words that close a segment from position [c],
    without the header of a next segment. *)
Definition closing_image (c : Z) : list Z :=
  (if c <? 1005 then encs (replicate (Z.to_nat (1005 - c)) 0) ++ enc16 0 else [])
  ++ (if c <? 2026
      then encs (replicate (Z.to_nat (2026 - Z.max c 1005)) 0) ++ enc16 2 else [])
  ++ encs (replicate (Z.to_nat (2048 - Z.max c 2026)) 0).

(** What holds of the locals of [pcmseq2_write_data] while it appends the
    samples of an open entry: no write has failed, the stream is at its end,
    the count is that of the samples left, and, once the first segment is
    begun, [poscache] is the place of the recordwords field of the current
    segment. *)
Definition wdata_ok (w : wloop) : Prop :=
  w_rc w = 0 /\ at_end (w_fd w) /\ w_nsamples w = zlen (w_ptr w)
  /\ 0 <= w_cursamp w <= 2048
  /\ w_state w = state_of_cursamp (w_cursamp w)
  /\ w_recordwords w = 0
  /\ (w_cursamp w = 2048
      \/ w_poscache w = zlen (f_data (w_fd w)) - within (w_cursamp w) + 30).

(** What holds of a write handle between the calls that append to an open
    entry: [fd] is its stream, [mkey] its match key, [c] the samples in the
    current segment and [sz] the samples so far. *)
Definition wfile_ok (fp : PCMFILE) (fd : FILE) (mkey : list Z) (c sz : Z) : Prop :=
  outfp fp = Some fd /\ at_end fd /\ f_err fd = false /\ f_eof fd = false
  /\ take 28 (pcmseq3_key fp) = mkey /\ length mkey = 28%nat
  /\ pcmseq3_cursamp fp = c /\ 0 <= c <= 2048 /\ pcmseq3_entrysize fp = sz
  /\ (c = 2048 \/ pcmseq3_poscache fp = zlen (f_data fd) - within c + 30).

(** The samples of the range [start..stop] that lie before sample [b] of the
    entry. *)
Definition got (start stop b : Z) : Z := Z.max 0 (Z.min (stop + 1) b - start).

(** The file that [write_entry] leaves. *)
Definition written (curtime : Z * Z) (fp : PCMFILE) (chunks : list (list Z)) : list Z :=
  match write_entry curtime fp chunks with
  | Some (_, fp') => match outfp fp' with Some fd => f_data fd | None => [] end
  | None => []
  end.

(** What holds of the locals of [pcmseq2_read] when its loop stands before the
    last [n] segments of the entry: [padded] is the samples of the entry with
    the padding of the last segment, [B0] the output buffer as the caller
    passed it, and [L] the last entry of the file. *)
Definition reading (disk mkey : list Z) (total : Z) (padded B0 : list Z)
    (start stop L : Z) (n : nat) (r : rloop) : Prop :=
  let p := r_p r in
  p_type p = 2 /\ lastentry p = L /\ f_data (p_fp p) = disk /\ 0 <= f_pos (p_fp p)
  /\ slice 6 16 (hdrbuf p) = slice 2 16 mkey
  /\ drop (Z.to_nat (f_pos (p_fp p))) disk
     = segs_image mkey total n (drop (Z.to_nat (r_blockstart r)) padded)
  /\ 0 <= r_blockstart r /\ r_blockstart r + 2048 * Z.of_nat n = zlen padded
  /\ r_curpos r = got start stop (r_blockstart r)
  /\ r_buf r = slice start (r_curpos r) padded ++ drop (Z.to_nat (r_curpos r)) B0.

#[global] Instance is_short_dec (s : Z) : Decision (is_short s).
Proof. unfold is_short. apply _. Defined.
#[global] Instance is_int_dec (x : Z) : Decision (is_int x).
Proof. unfold is_int. apply _. Defined.
#[global] Instance is_long_dec (x : Z) : Decision (is_long x).
Proof. unfold is_long. apply _. Defined.

(** A read handle on the file [disk] of type 2 whose only entry, at the
    start of the file, is in its directory: what [pcmseq2_open] leaves when it
    accepts such a file. *)
Definition indexed (p : P2FILE) (disk : list Z) : Prop :=
  f_data (p_fp p) = disk /\ p_type p = 2 /\ lastentry p = 1
  /\ cache_get (entry_pos_cache p) 1 = 0.

(** The chunks and the samples of [ex_disk1]. *)
Definition ex_chunks1 : list (list Z) := [ramp 700; ramp 1301; ramp 999].

(** The pointers of the sweep of [sort_unit_episode] stand at an episode:
    [et] is its start and [nt] the start of the next one, or not positive
    when it is the last. *)
Definition sweep_at (atimes : list Z) (s : Klustio.sweep) : Prop :=
  0 <= Klustio.episode s < Z.max 1 (zlen atimes)
  /\ Klustio.et s = Klustio.vec_get atimes (Klustio.episode s)
  /\ (Klustio.episode s + 1 < zlen atimes
      -> Klustio.nt s = Klustio.vec_get atimes (Klustio.episode s + 1))
  /\ (zlen atimes <= Klustio.episode s + 1 -> Klustio.nt s <= 0).

(** ** More of the public interface *)

(** The requests of [pcmseq_ctl]. *)
Definition PCMIOMMAP : Z := 1.
Definition PCMIOMALLOC : Z := 2.
Definition PCMIOSETTIME : Z := 5.
Definition PCMIOSETSR : Z := 6.
Definition PCMIOGETSIZE : Z := 7.
Definition PCMIOGETSR : Z := 8.
Definition PCMIOGETENTRY : Z := 9.
Definition PCMIOGETTIME : Z := 10.
Definition PCMIOGETCAPS : Z := 11.
Definition PCMIOSETTIMEFRACTION : Z := 12.
Definition PCMIOGETTIMEFRACTION : Z := 13.
Definition PCMIOGETNENTRIES : Z := 14.

(** What [pcmseq_read] reads the entry into, [len] bytes: under [PCMIOMMAP]
    a private mapping of the temporary file, which [ftruncate] has just sized
    and nothing has written, so zeros ([mmap] rejects a length of 0); under
    [PCMIOMALLOC] a block of [malloc], whose content is indeterminate
    ([junk], zeros where [junk] ends).  [ok] is whether the system calls
    ([mkstemp] and [mmap], or [malloc]) succeed for a length they accept. *)
Definition mmap_tmp (ok : bool) (len : Z) : option (list Z) :=
  if ok && (0 <? len) then Some (replicate (Z.to_nat (Z.quot len 2)) 0) else None.
Definition malloc_buf (ok : bool) (len : Z) (junk : list Z) : option (list Z) :=
  if ok && (0 <=? len)
  then Some (take (Z.to_nat (Z.quot len 2)) (junk ++ replicate (Z.to_nat (Z.quot len 2)) 0))
  else None.

Definition set_p2file (fp : PCMFILE) (p : option P2FILE) : PCMFILE :=
  set_read_info fp p (samplerate fp) (nentries fp).

(** [pcmseq_read(fp, buf_p, nsamples_p)]; [memalloctype] is the member of
    that name, which [pcmseq_open] sets to [PCMIOMMAP].  The result, the
    handle, and what is stored in [*buf_p] and [*nsamples_p] when they are
    stored.  The handle and the [P2FILE] it points to are one object in the
    source, so the handle holds the [P2FILE] as [pcmseq2_read] left it.  A
    read handle without a [P2FILE] makes the source follow a null pointer:
    [None]. *)
Definition pcmseq_read (fp : PCMFILE) (memalloctype : Z) (ok : bool) (junk : list Z)
    : option (Z * PCMFILE * option (list Z * Z)) :=
  if flags fp =? O_RDONLY then
    match p2file fp with
    | None => None
    | Some p =>
        let '(rc, entrysize, samplerate, _, _) := pcmseq2_getinfo p (entry fp) in
        if negb (rc =? 0) then Some (-1, fp, None)
        else
          let len := wrap32s (entrysize * 2) in
          let fp := set_read_info fp (Some p) samplerate (nentries fp) in
          let addr :=
            if memalloctype =? PCMIOMMAP then mmap_tmp ok len
            else if memalloctype =? PCMIOMALLOC then malloc_buf ok len junk
            else None in
          match addr with
          | None => Some (-1, fp, None)
          | Some addr =>
              match pcmseq2_read p (entry fp) 0 (Z.quot len 2 - 1) addr with
              | None => None
              | Some rr =>
                  let fp := set_p2file fp (Some (rr_p rr)) in
                  if negb (rr_rc rr =? 0)
                     || (negb (rr_numwritten rr =? rr_entrysize rr)
                         && negb (rr_numwritten rr =? Z.quot len 2))
                  then Some (-1, fp, None)
                  else Some (0, fp, Some (rr_buf rr, Z.quot len 2))
              end
          end
    end
  else Some (-1, fp, None).

Definition set_samplerate (fp : PCMFILE) (sr : Z) : PCMFILE :=
  mkPCMFILE (name fp) (flags fp) (entry fp) sr (timestamp fp)
    (microtimestamp fp) (nentries fp) (p2file fp) (pcmseq3_entrysize fp)
    (pcmseq3_key fp) (pcmseq3_cursamp fp) (pcmseq3_poscache fp)
    (entrystarted fp) (outfp fp).
Definition set_time (fp : PCMFILE) (sec usec : Z) : PCMFILE :=
  mkPCMFILE (name fp) (flags fp) (entry fp) (samplerate fp) sec usec
    (nentries fp) (p2file fp) (pcmseq3_entrysize fp)
    (pcmseq3_key fp) (pcmseq3_cursamp fp) (pcmseq3_poscache fp)
    (entrystarted fp) (outfp fp).

(** [pcmseq_ctl(fp, request, arg)].  The members [addr] and [memalloctype]
    of the read buffer are passed beside the handle: [addr_null] is whether
    no entry has been read yet.  [arg] is [None] for a null pointer, else
    the value it points to; [buf0] is the indeterminate content of the local
    [buf].  The result is the return value, the handle, [memalloctype], and
    the value stored through [arg] when one is stored. *)
Definition pcmseq_ctl (fp : PCMFILE) (addr_null : bool) (memalloctype : Z)
    (buf0 : pcmstat) (request : Z) (arg : option Z)
    : Z * PCMFILE * Z * option Z :=
  let given := match arg with Some _ => true | None => false end in
  let v := match arg with Some v => v | None => 0 end in
  let buf := snd (pcmseq_stat fp buf0) in
  let rd :=
    if flags fp =? O_RDONLY then
      if addr_null && ((request =? PCMIOMALLOC) || (request =? PCMIOMMAP))
      then Some (0, fp, request, None)
      else if (request =? PCMIOGETSIZE) && given
      then Some (0, fp, memalloctype, Some (st_nsamples buf))
      else if (request =? PCMIOGETSR) && given
      then Some (0, fp, memalloctype, Some (st_samplerate buf))
      else if (request =? PCMIOGETENTRY) && given
      then Some (0, fp, memalloctype, Some (entry fp))
      else if (request =? PCMIOGETNENTRIES) && given
      then Some (0, fp, memalloctype, Some (nentries fp))
      else if (request =? PCMIOGETTIME) && given
      then Some (0, fp, memalloctype, Some (st_timestamp buf))
      else if (request =? PCMIOGETTIMEFRACTION) && given
      then Some (0, fp, memalloctype, Some (st_microtimestamp buf))
      else None
    else None in
  match rd with
  | Some r => r
  | None =>
      let wr :=
        if flags fp =? O_WRONLY then
          if (request =? PCMIOGETSIZE) && given
          then Some (0, fp, memalloctype, Some (st_nsamples buf))
          else if (request =? PCMIOGETCAPS) && given
          then Some (0, fp, memalloctype, Some (st_capabilities buf))
          else if (request =? PCMIOGETSR) && given
          then Some (0, fp, memalloctype, Some (st_samplerate buf))
          else if (request =? PCMIOGETENTRY) && given
          then Some (0, fp, memalloctype, Some (entry fp))
          else if (request =? PCMIOGETNENTRIES) && given
          then Some (0, fp, memalloctype, Some (nentries fp))
          else if (request =? PCMIOSETSR) && given
          then Some (0, set_samplerate fp (wrap32s v), memalloctype, None)
          else if (request =? PCMIOSETTIME) && given
          then Some (0, set_time fp (wrap32s v) (microtimestamp fp), memalloctype, None)
          else if (request =? PCMIOSETTIMEFRACTION) && given
          then Some (0, set_time fp (timestamp fp) v, memalloctype, None)
          else None
        else None in
      match wr with
      | Some r => r
      | None => (-1, fp, memalloctype, None)
      end
  end.

(** [tolower] and [strncasecmp] of the C locale on strings that end at their
    first 0 (a list that ends without one reads as ended there). *)
Definition tolower (c : Z) : Z := if (65 <=? c) && (c <=? 90) then c + 32 else c.
Fixpoint strncasecmp (s1 s2 : list Z) (n : nat) : Z :=
  match n with
  | O => 0
  | S n' =>
      let c1 := hd 0 s1 in
      let c2 := hd 0 s2 in
      if tolower c1 =? tolower c2 then
        if c1 =? 0 then 0 else strncasecmp (tl s1) (tl s2) n'
      else tolower c1 - tolower c2
  end.

(** [".pcm_seq2"], [".pcm_seq"], [".pcmseq2"] and [".pcmseq"]. *)
Definition ext_pcm_seq2 : list Z := [46; 112; 99; 109; 95; 115; 101; 113; 50].
Definition ext_pcm_seq : list Z := [46; 112; 99; 109; 95; 115; 101; 113].
Definition ext_pcmseq2 : list Z := [46; 112; 99; 109; 115; 101; 113; 50].
Definition ext_pcmseq : list Z := [46; 112; 99; 109; 115; 101; 113].

(** [pcmseq_recognizer(fp)].  [fp->name + strlen(fp->name) - 9] points before
    the name when it has fewer than nine characters; the source then reads
    what lies before it: [None]. *)
Definition pcmseq_recognizer (fp : PCMFILE) : option Z :=
  let len := strlen (name fp) in
  if (len <? 9)%nat then None
  else
    if negb (strncasecmp (drop (len - 9) (name fp)) ext_pcm_seq2 9 =? 0)
       && negb (strncasecmp (drop (len - 8) (name fp)) ext_pcm_seq 8 =? 0)
       && negb (strncasecmp (drop (len - 8) (name fp)) ext_pcmseq2 8 =? 0)
       && negb (strncasecmp (drop (len - 7) (name fp)) ext_pcmseq 7 =? 0)
    then Some (-1) else Some 0.

(** Whether the characters of [s] up to its first 0, in lower case, end
    with [ext]. *)
Definition ends_with_ci (s ext : list Z) : Prop :=
  let chars := take (strlen s) s in
  map tolower (drop (length chars - length ext) chars) = ext.

(** A character of an extension: not the terminator, and in lower case. *)
Definition ext_char (c : Z) : Prop := c <> 0 /\ tolower c = c.

(** ** Files of several entries *)

(** An entry as it stands in a file: the key of its header, its date, its
    sample rate and its samples. *)
Record entry_data := mkEntry {
  e_key : list Z; e_lltime : Z; e_sr : Z; e_samples : list Z
}.

Definition image_of (e : entry_data) : list Z :=
  entry_image (e_key e) (e_lltime e) (e_sr e) (e_samples e).
Definition file_image (es : list entry_data) : list Z := concat (map image_of es).

(** The offset in the file of the entry at index [k], counting from 0. *)
Definition entry_offset (es : list entry_data) (k : nat) : Z :=
  zlen (file_image (take k es)).

(** An entry that the indexer finds: a key as [pcmseq2_write_hdr] makes it,
    between one and 10^9 samples, a sample rate and a date in range, and,
    when the count is a multiple of 2048, no bytes one segment into the
    entry that read as an entry header. *)
Definition entry_ok (e : entry_data) : Prop :=
  take 2 (e_key e) = [32; 50] /\ length (e_key e) = 28%nat
  /\ 0 < zlen (e_samples e) <= 1000000000
  /\ 0 <= e_sr e <= 2147483647
  /\ 0 <= e_lltime e < 18446744073709551616
  /\ (zlen (e_samples e) mod 2048 = 0 -> enthdr_at 2 (image_of e) 4134 = false).

#[global] Instance entry_ok_dec (e : entry_data) : Decision (entry_ok e).
Proof. unfold entry_ok. apply _. Defined.

(** A read handle that has the entries [es] of its file in its directory. *)
Definition indexed_file (p : P2FILE) (es : list entry_data) : Prop :=
  f_data (p_fp p) = file_image es /\ p_type p = 2
  /\ lastentry p = Z.of_nat (length es)
  /\ forall (k : nat) (e : entry_data), es !! k = Some e ->
       cache_get (entry_pos_cache p) (Z.of_nat k + 1) = entry_offset es k
       /\ cache_get (entry_size_cache p) (Z.of_nat k + 1) = zlen (e_samples e)
       /\ cache_get (entry_sr_cache p) (Z.of_nat k + 1) = e_sr e
       /\ cache_get (entry_time_cache p) (Z.of_nat k + 1) = e_lltime e.

(** Entries written one after the other, each under its number (which
    [pcmseq_seek] sets) and from its chunks, stopping at the first that
    fails. *)
Fixpoint write_entries (curtime : Z * Z) (fp : PCMFILE) (ents : list (Z * list (list Z)))
    : option (Z * PCMFILE) :=
  match ents with
  | [] => Some (0, fp)
  | ent :: ents' =>
      match write_entry curtime (set_entry fp (fst ent)) (snd ent) with
      | None => None
      | Some (rc, fp) => if rc =? 0 then write_entries curtime fp ents' else Some (rc, fp)
      end
  end.

(** The file that [write_entries] leaves, and the entry that it holds for
    a number and chunks. *)
Definition written_file (curtime : Z * Z) (fp : PCMFILE) (ents : list (Z * list (list Z)))
    : list Z :=
  match write_entries curtime fp ents with
  | Some (_, fp') => match outfp fp' with Some fd => f_data fd | None => [] end
  | None => []
  end.
Definition entry_written (curtime : Z * Z) (fp : PCMFILE) (ent : Z * list (list Z))
    : entry_data :=
  mkEntry (take 28 (init_key (name fp) (fst ent))) (hdr_lltime curtime fp)
    (samplerate fp) (concat (snd ent)).

(** What holds of the locals of [pcmseq2_read] when its loop stands before
    the last [n] segments of an entry that is followed in the file by
    [back]; [p0] is the handle as the seek to the entry left it. *)
Definition reading_in (disk back mkey : list Z) (total : Z) (padded B0 : list Z)
    (start stop : Z) (p0 : P2FILE) (n : nat) (r : rloop) : Prop :=
  let p := r_p r in
  same_dir p p0 /\ p_type p = 2 /\ f_data (p_fp p) = disk /\ 0 <= f_pos (p_fp p)
  /\ slice 6 16 (hdrbuf p) = slice 2 16 mkey
  /\ drop (Z.to_nat (f_pos (p_fp p))) disk
     = segs_image mkey total n (drop (Z.to_nat (r_blockstart r)) padded) ++ back
  /\ 0 <= r_blockstart r /\ r_blockstart r + 2048 * Z.of_nat n = zlen padded
  /\ r_curpos r = got start stop (r_blockstart r)
  /\ r_buf r = slice start (r_curpos r) padded ++ drop (Z.to_nat (r_curpos r)) B0.

(** The loop of [reverse_caches] on one array. *)
Fixpoint swap_range (fuel : nat) (c : list Z) (tmpentry curentry : Z) : list Z :=
  match fuel with
  | O => c
  | S fuel' =>
      if tmpentry <? curentry
      then swap_range fuel' (cache_swap c tmpentry curentry) (tmpentry + 1) (curentry - 1)
      else c
  end.

(** The directory that the indexing loop has built when the entries from
    index [i] on are done: entry [j] stands at index [n - j], counting the
    [n] entries of the file from the end. *)
Definition rev_dir (p : P2FILE) (es : list entry_data) (i : nat) : Prop :=
  forall (j : nat) (e : entry_data), (i <= j)%nat -> es !! j = Some e ->
    cache_get (entry_pos_cache p) (Z.of_nat (length es - j)) = entry_offset es j
    /\ cache_get (entry_size_cache p) (Z.of_nat (length es - j)) = zlen (e_samples e)
    /\ cache_get (entry_sr_cache p) (Z.of_nat (length es - j)) = e_sr e
    /\ cache_get (entry_time_cache p) (Z.of_nat (length es - j)) = e_lltime e.

(** The directory arrays have their [CACHESIZE] elements. *)
Definition caches_sized (p : P2FILE) : Prop :=
  length (entry_pos_cache p) = CACHESIZE /\ length (entry_size_cache p) = CACHESIZE
  /\ length (entry_sr_cache p) = CACHESIZE /\ length (entry_time_cache p) = CACHESIZE.

(** Three entries of one segment each. *)
Definition ex_ents3 : list (Z * list (list Z)) :=
  [(1, [ramp 700; ramp 301]); (2, [ramp 100]); (3, [ramp 10])].

(** ** Runs of writes, and more files of the examples *)




(** A last-segment header whose recordwords field holds -4096. *)
Definition ex_seghdr_neg : list Z :=
  enc16 1 ++ [32; 51] ++ replicate 26 32 ++ enc32 (-4096) ++ [0; 0].

(** 2048 samples of which the two that the writer puts 4134 bytes into the
    file hold 03 00 and 20 32, the first four bytes of an entry header. *)
Definition ex_samples_hdr : list Z :=
  <[2022%nat := 3]> (<[2023%nat := 12832]> (ramp 2048)).

(** Two entries of one segment each.  The last-segment header of the second
    has lost its recordwords field, and samples 10 and 11 of the first, which
    lie one segment before the segment of the second, hold 01 00 and 20 33,
    the first four bytes of a segment header. *)
Definition ex_disk4 : list Z :=
  Eval vm_compute in
    overwrite
      (disk_of ex_whandle
         [OpWrite (1000, 5) (<[10%nat := 1]> (<[11%nat := 13088]> (ramp 100))) 100;
          OpSeek 2; OpWrite (1000, 5) (ramp 10) 10])
      (4188 + 54 + 30) [0; 0; 0; 0].
(** * Properties *)

(** ** The episode aligner *)

Section Aligner.
Import Klustio.

(** The sweep on its own files each of the four events of the example under
    the episode it belongs to: 10 under episode 0, 5 under episode 1, and
    10 and 50 under episode 2. *)
Lemma align_example :
  let s0 := mkSweep 0 0 100 in
  exists s1 s2 s3 s4,
    align_one ex_atimes 10 s0 = Some (s1, 0, 10)
    /\ align_one ex_atimes 105 s1 = Some (s2, 1, 5)
    /\ align_one ex_atimes 260 s2 = Some (s3, 2, 10)
    /\ align_one ex_atimes 300 s3 = Some (s4, 2, 50).
Proof.
  do 4 eexists. repeat split; vm_compute; reflexivity.
Qed.

(** C9 (the code at the example).  On episode starts [0, 100, 250] and the
    event times [10, 105, 260, 300], [sort_unit_episode] files 10 under
    episode 0, 5 under episode 1 and 10, 50 and 50 again under episode 2:
    the turn of the loop in which both [fscanf] calls meet the end of
    their file still files the stale last event. *)
Theorem sort_unit_episode_example (clust0 atime0 : Z) :
  sort_unit_episode clust0 atime0 ex_clu ex_fet ex_atimes
  = Some ({[ 2 := [[10]; [5]; [10; 50; 50]] ]}, []).
Proof. vm_compute. reflexivity. Qed.

(** Whatever the files, the loop over the events runs once more after the
    last cluster number was read: [fscanf] returned 1 for it. *)
Lemma events_loop_stale_turn fuel clusters atimes nepisodes nfeats st :
  ev_rp st <> EOF ->
  t_toks (ev_cfp st) !! t_pos (ev_cfp st) = None ->
  ev_clust st ∈ clusters ->
  exists st',
    events_loop (S fuel) clusters atimes nepisodes nfeats st
    = (match advance (S (length atimes)) atimes nepisodes (ev_atime st') (ev_sweep st) with
       | Some s => Some (mkEvents EOF (ev_cfp st) (ev_ffp st') (ev_clust st) (ev_atime st') s
                    (push_back (ev_uvec st) (ev_clust st) (episode s) (ev_atime st' - et s))
                    (ev_warnings st'))
       | None => None
       end).
Proof.
  intros Hrp Hend Hin.
  destruct (read_feats (Z.to_nat nfeats) 0 nfeats (ev_rp st) (ev_atime st) (ev_ffp st))
    as [[rp atime] ffp] eqn:Hfeats.
  exists (mkEvents rp (ev_cfp st) ffp (ev_clust st) atime (ev_sweep st) (ev_uvec st)
            (if atime <? et (ev_sweep st) then ev_warnings st ++ [atime] else ev_warnings st)).
  cbn [events_loop ev_atime ev_ffp ev_warnings].
  destruct (Z.eqb_spec (ev_rp st) EOF) as [|_]; [contradiction|].
  rewrite Hfeats. unfold fscanf_d. rewrite Hend.
  rewrite bool_decide_eq_true_2 by assumption.
  destruct (advance _ _ _ _ _) as [s|]; [|reflexivity].
  destruct fuel; reflexivity.
Qed.
End Aligner.

(** ** Time stamps *)

Lemma getinfo_known (p : P2FILE) (e : Z) :
  0 < e ->
  (lastentry p = -1 \/ e <= lastentry p) ->
  cache_get (entry_size_cache p) e <> -1 ->
  pcmseq2_getinfo p e
  = (0, cache_get (entry_size_cache p) e,
     (if cache_get (entry_sr_cache p) e =? -1 then 0 else cache_get (entry_sr_cache p) e),
     (if cache_get (entry_time_cache p) e =? 18446744073709551615 then 0
      else cache_get (entry_time_cache p) e),
     (if lastentry p =? -1 then 0 else lastentry p)).
Proof.
  intros He Hlast Hsize. unfold pcmseq2_getinfo.
  replace (e <=? 0) with false by lia.
  replace (negb (lastentry p =? -1) && (lastentry p <? e)) with false
    by (destruct Hlast as [-> | ?]; [reflexivity | lia]).
  cbn [orb]. replace (cache_get (entry_size_cache p) e =? -1) with false by lia.
  reflexivity.
Qed.

(** C8.  For an entry whose 64-bit date is [0x007c95674beb4000 + 50000000],
    [pcmseq_stat] on the read handle reports the time stamp [5 + 18000] and
    the microsecond fraction 0. *)
Theorem pcmseq_stat_timestamp (fp : PCMFILE) (p : P2FILE) (buf : pcmstat) :
  flags fp = O_RDONLY ->
  p2file fp = Some p ->
  0 < entry fp ->
  (lastentry p = -1 \/ entry fp <= lastentry p) ->
  cache_get (entry_size_cache p) (entry fp) <> -1 ->
  cache_get (entry_time_cache p) (entry fp) = 0x007c95674beb4000 + 50000000 ->
  exists st,
    pcmseq_stat fp buf = (0, st)
    /\ st_timestamp st = 5 + 18000
    /\ st_microtimestamp st = 0.
Proof.
  intros Hflags Hp He Hlast Hsize Htime.
  unfold pcmseq_stat. rewrite Hflags, Hp. cbn [Z.eqb O_RDONLY].
  rewrite (getinfo_known p (entry fp) He Hlast Hsize), Htime.
  eexists. split; [reflexivity|]. split; reflexivity.
Qed.

(** ** The writer: position in the cycle, termination *)

Ltac destruct_puts :=
  repeat match goal with
    | |- context [putdata ?a ?b ?c ?d] => destruct (putdata a b c d) as [? ?]
    | |- context [putshort ?a ?b ?c] => destruct (putshort a b c) as [? ?]
    | |- context [putchars ?a ?b ?c ?d] => destruct (putchars a b c d) as [? ?]
    | |- context [putlong ?a ?b ?c] => destruct (putlong a b c) as [? ?]
    end.

Ltac wloop_simpl :=
  cbn [w_rc w_fd w_ptr w_nsamples w_cursamp w_state w_recordwords w_poscache] in *.

Lemma state_of_cursamp_spec (c : Z) :
  (c < 1005 -> state_of_cursamp c = FIRSTSEG)
  /\ (1005 <= c < 2026 -> state_of_cursamp c = MIDDLESEG)
  /\ (2026 <= c -> state_of_cursamp c = LASTSEG).
Proof.
  unfold state_of_cursamp.
  destruct (Z.ltb_spec c 1005), (Z.geb_spec c 2026); repeat split; intros; try lia; reflexivity.
Qed.

Lemma state_of_cursamp_inv (c : Z) :
  match state_of_cursamp c with
  | FIRSTSEG => c < 1005
  | MIDDLESEG => 1005 <= c < 2026
  | LASTSEG => 2026 <= c
  end.
Proof.
  unfold state_of_cursamp.
  destruct (Z.ltb_spec c 1005), (Z.geb_spec c 2026); lia.
Qed.

(** What the [switch] does to the position, the state and the count of
    samples left: it consumes [k] of them, none only for the turn that starts
    the first segment of an entry. *)
Lemma write_switch_shape key entrysize lastsegment (w : wloop) :
  wloop_ok w -> 0 < w_nsamples w ->
  let w' := write_switch key entrysize lastsegment w in
  exists k,
    0 <= k <= w_nsamples w
    /\ w_nsamples w' = w_nsamples w - k
    /\ (k = 0 -> w_cursamp w = 2048)
    /\ w_cursamp w + k <= 2048
    /\ w_cursamp w' = (if w_cursamp w + k =? 2048 then 0 else w_cursamp w + k)
    /\ w_state w' = state_of_cursamp (w_cursamp w').
Proof.
  intros [Hc Hst] Hn. cbv zeta.
  destruct (state_of_cursamp_spec (w_cursamp w)) as (H1 & H2 & H3).
  pose proof (state_of_cursamp_inv (w_cursamp w)) as Hinv. rewrite <- Hst in Hinv.
  unfold write_switch, fill_block.
  destruct (w_state w) eqn:Hs.
  - destruct (Z.geb_spec (w_nsamples w) (1005 - w_cursamp w)); destruct_puts; wloop_simpl.
    + exists (1005 - w_cursamp w).
      replace (w_cursamp w + (1005 - w_cursamp w)) with 1005 by lia.
      repeat split; try lia; reflexivity.
    + exists (w_nsamples w).
      replace (w_cursamp w + w_nsamples w =? 2048) with false by lia.
      repeat split; try lia. symmetry. apply state_of_cursamp_spec. lia.
  - destruct (Z.geb_spec (w_nsamples w) (2026 - w_cursamp w)); destruct_puts; wloop_simpl.
    + exists (2026 - w_cursamp w).
      replace (w_cursamp w + (2026 - w_cursamp w)) with 2026 by lia.
      repeat split; try lia; reflexivity.
    + exists (w_nsamples w).
      replace (w_cursamp w + w_nsamples w =? 2048) with false by lia.
      repeat split; try lia. symmetry. apply state_of_cursamp_spec. lia.
  - destruct (Z.geb_spec (w_nsamples w) (2048 - w_cursamp w)).
    + exists (2048 - w_cursamp w).
      replace (w_cursamp w + (2048 - w_cursamp w) =? 2048) with true by lia.
      destruct (Z.gtb_spec (2048 - w_cursamp w) 0); destruct_puts;
        match goal with |- context [if ?b then _ else mkWloop _ _ _ _ _ _ _ _] =>
          destruct b end; destruct_puts; wloop_simpl;
        repeat split; try lia; reflexivity.
    + exists (w_nsamples w). destruct_puts. wloop_simpl.
      replace (w_cursamp w + w_nsamples w =? 2048) with false by lia.
      repeat split; try lia. symmetry. apply state_of_cursamp_spec. lia.
Qed.

Lemma pad_entry_shape lastsegment (w : wloop) :
  w_cursamp (pad_entry lastsegment w) = w_cursamp w
  /\ w_state (pad_entry lastsegment w) = w_state w
  /\ w_nsamples (pad_entry lastsegment w)
     = (if negb (lastsegment =? 0) && (w_nsamples w =? 0) && (w_cursamp w >? 0)
        then 2048 - w_cursamp w else w_nsamples w).
Proof.
  unfold pad_entry.
  destruct (negb (lastsegment =? 0) && (w_nsamples w =? 0) && (w_cursamp w >? 0));
    repeat split; reflexivity.
Qed.

(** A turn of the loop keeps the position within [0, 2048] and the state in
    step with it, and brings the loop nearer to its end. *)
Lemma write_step_ok key entrysize lastsegment (w : wloop) :
  wloop_ok w -> 0 < w_nsamples w ->
  wloop_ok (write_step key entrysize lastsegment w)
  /\ 0 <= wmeasure lastsegment (write_step key entrysize lastsegment w)
     < wmeasure lastsegment w.
Proof.
  intros Hok Hn.
  destruct (write_switch_shape key entrysize lastsegment w Hok Hn)
    as (k & Hk & Hn' & Hk0 & Hle & Hc' & Hs').
  destruct (pad_entry_shape lastsegment (write_switch key entrysize lastsegment w))
    as (Hpc & Hps & Hpn).
  destruct Hok as [Hc Hst].
  unfold write_step, wloop_ok, wmeasure.
  rewrite Hpc, Hps, Hpn, Hs', Hc', Hn'.
  assert (Hmod : forall a, (a - 2048) mod 2048 = a mod 2048).
  { intros a. replace (a - 2048) with (a + (-1) * 2048) by lia.
    apply Z_mod_plus_full. }
  destruct (Z.eqb_spec (w_cursamp w + k) 2048) as [E|E].
  - (* the segment is complete *)
    replace (0 >? 0) with false by reflexivity. rewrite andb_false_r.
    replace (w_nsamples w - k + 0) with (w_nsamples w + w_cursamp w - 2048) by lia.
    rewrite Hmod. split; [split; [lia | reflexivity] | ].
    replace (0 =? 2048) with false by reflexivity.
    destruct (negb (lastsegment =? 0) && negb ((w_nsamples w + w_cursamp w) mod 2048 =? 0));
      destruct (Z.eqb_spec (w_cursamp w) 2048); lia.
  - split; [split; [lia | reflexivity] | ].
    replace (w_cursamp w + k =? 2048) with false by lia.
    replace (w_cursamp w =? 2048) with false by lia.
    destruct (negb (lastsegment =? 0)) eqn:Hlast; cbn [andb].
    + destruct (Z.eqb_spec (w_nsamples w - k) 0) as [E0|E0]; cbn [andb].
      * destruct (Z.gtb_spec (w_cursamp w + k) 0).
        -- replace (2048 - (w_cursamp w + k) + (w_cursamp w + k)) with 2048 by lia.
           replace (2048 mod 2048 =? 0) with true by reflexivity. cbn [negb].
           replace (w_nsamples w + w_cursamp w) with (w_cursamp w + k) by lia.
           rewrite Z.mod_small by lia.
           replace (w_cursamp w + k =? 0) with false by lia. cbn [negb]. lia.
        -- lia.
      * replace (w_nsamples w - k + (w_cursamp w + k)) with (w_nsamples w + w_cursamp w) by lia.
        destruct (negb ((w_nsamples w + w_cursamp w) mod 2048 =? 0)); lia.
    + lia.
Qed.

(** The loop of [pcmseq2_write_data] ends within the turns that [wmeasure]
    allows, with the position still within [0, 2048]. *)
Lemma write_loop_total key entrysize lastsegment :
  forall (fuel : nat) (w : wloop),
    wloop_ok w -> wmeasure lastsegment w < Z.of_nat fuel ->
    exists w', write_loop fuel key entrysize lastsegment w = Some w' /\ wloop_ok w'.
Proof.
  induction fuel as [|fuel IH]; intros w Hok Hm.
  - exfalso. unfold wmeasure in Hm.
    destruct (w_cursamp w =? 2048), (negb _ && negb _); lia.
  - cbn [write_loop]. destruct (Z.gtb_spec (w_nsamples w) 0) as [Hn|Hn].
    + destruct (write_step_ok key entrysize lastsegment w Hok Hn) as [Hok' Hm'].
      apply IH; [assumption | lia].
    + exists w. split; [reflexivity | assumption].
Qed.

Lemma wmeasure_bound lastsegment (w : wloop) :
  0 <= w_cursamp w <= 2048 ->
  wmeasure lastsegment w <= Z.max 0 (w_nsamples w) + 2049.
Proof.
  intros. unfold wmeasure.
  destruct (w_cursamp w =? 2048), (negb _ && negb _); lia.
Qed.

(** [pcmseq2_write_data] returns whenever it is entered with the position
    within [0, 2048], and leaves it there. *)
Lemma pcmseq2_write_data_total (fp : PCMFILE) data nsamples lastsegment :
  0 <= pcmseq3_cursamp fp <= 2048 ->
  exists rc fp',
    pcmseq2_write_data fp data nsamples lastsegment = Some (rc, fp')
    /\ 0 <= pcmseq3_cursamp fp' <= 2048
    /\ flags fp' = flags fp /\ entrystarted fp' = entrystarted fp
    /\ (outfp fp = None <-> outfp fp' = None).
Proof.
  intros Hc. unfold pcmseq2_write_data.
  destruct (outfp fp) as [fd|] eqn:Hfd.
  2: { exists (-1), fp. rewrite Hfd. repeat split; try lia; auto. }
  set (ns := if negb (lastsegment =? 0) && (nsamples =? 0)
             then (2048 - pcmseq3_cursamp fp, zeropad) else (nsamples, data)).
  destruct ns as [n ptr] eqn:Hns.
  match goal with |- context [write_loop ?f ?k ?e ?l ?w] =>
    destruct (write_loop_total k e l f w) as (w' & Hw & [Hc' _]) end.
  { split; [exact Hc | reflexivity]. }
  { match goal with |- wmeasure ?l ?w < _ =>
      pose proof (wmeasure_bound l w Hc) as Hb end. wloop_simpl. lia. }
  rewrite Hw.
  destruct (negb (lastsegment =? 0)).
  - destruct (putlong _ _ _) as [rc fd'].
    match goal with |- context [if ?b then Some (-1, ?f) else Some (0, ?f)] =>
      exists (if b then -1 else 0), f; destruct b end;
      (split; [reflexivity | cbn; repeat split; try lia; discriminate]).
  - match goal with |- context [if ?b then Some (-1, ?f) else Some (0, ?f)] =>
      exists (if b then -1 else 0), f; destruct b end;
      (split; [reflexivity | cbn; repeat split; try lia; discriminate]).
Qed.

Lemma write_hdr_fields curtime (fp : PCMFILE) (fd : FILE) :
  outfp fp = Some fd ->
  let fp' := snd (pcmseq2_write_hdr curtime fp) in
  pcmseq3_cursamp fp' = 2048 /\ pcmseq3_entrysize fp' = 0
  /\ flags fp' = flags fp /\ entrystarted fp' = entrystarted fp
  /\ outfp fp' <> None.
Proof.
  intros Hfd. unfold pcmseq2_write_hdr. rewrite Hfd. destruct_puts.
  match goal with |- context [if ?b then _ else _] => destruct b end;
    cbn; repeat split; discriminate.
Qed.

(** After a turn of the loop the position is below 2048. *)
Lemma write_step_below key entrysize lastsegment (w : wloop) :
  wloop_ok w -> 0 < w_nsamples w ->
  w_cursamp (write_step key entrysize lastsegment w) < 2048.
Proof.
  intros Hok Hn.
  destruct (write_switch_shape key entrysize lastsegment w Hok Hn)
    as (k & Hk & Hn' & Hk0 & Hle & Hc' & Hs').
  unfold write_step.
  destruct (pad_entry_shape lastsegment (write_switch key entrysize lastsegment w))
    as (-> & _ & _).
  rewrite Hc'. destruct (Z.eqb_spec (w_cursamp w + k) 2048); lia.
Qed.

Lemma write_loop_below key entrysize lastsegment :
  forall (fuel : nat) (w w' : wloop),
    wloop_ok w -> 0 < w_nsamples w ->
    write_loop fuel key entrysize lastsegment w = Some w' ->
    w_cursamp w' < 2048.
Proof.
  induction fuel as [|fuel IH]; intros w w' Hok Hn Hrun; cbn [write_loop] in Hrun.
  - replace (w_nsamples w >? 0) with true in Hrun by lia. discriminate.
  - replace (w_nsamples w >? 0) with true in Hrun by lia.
    pose proof (write_step_below key entrysize lastsegment w Hok Hn) as Hlt.
    destruct (write_step_ok key entrysize lastsegment w Hok Hn) as [Hok' _].
    destruct (Z.lt_ge_cases 0 (w_nsamples (write_step key entrysize lastsegment w))).
    + eapply IH; eassumption.
    + destruct fuel; cbn [write_loop] in Hrun;
        replace (w_nsamples (write_step key entrysize lastsegment w) >? 0)
          with false in Hrun by lia;
        injection Hrun as <-; assumption.
Qed.

Lemma pcmseq2_write_data_below (fp fp' : PCMFILE) data nsamples rc :
  0 <= pcmseq3_cursamp fp <= 2048 -> 0 < nsamples ->
  pcmseq2_write_data fp data nsamples 0 = Some (rc, fp') ->
  outfp fp <> None ->
  0 <= pcmseq3_cursamp fp' < 2048.
Proof.
  intros Hc Hn Hrun Hfd. unfold pcmseq2_write_data in Hrun.
  destruct (outfp fp) as [fd|]; [|contradiction].
  cbn [Z.eqb negb andb] in Hrun.
  match type of Hrun with context [write_loop ?f ?k ?e ?l ?w] =>
    destruct (write_loop f k e l w) as [w'|] eqn:Hw; [|discriminate];
    assert (0 <= w_cursamp w' < 2048) end.
  { split.
    - match type of Hw with write_loop ?f ?k ?e ?l ?w = _ =>
        destruct (write_loop_total k e l f w) as (w'' & Hw' & [Hc' _]) end.
      + split; [exact Hc | reflexivity].
      + match goal with |- wmeasure ?l ?w < _ =>
          pose proof (wmeasure_bound l w Hc) as Hb end. wloop_simpl. lia.
      + rewrite Hw in Hw'. injection Hw' as <-. lia.
    - eapply write_loop_below; [| |exact Hw].
      + split; [exact Hc | reflexivity].
      + exact Hn. }
  match type of Hrun with (if ?b then _ else _) = _ => destruct b end;
    injection Hrun as <- <-; assumption.
Qed.

(** C6, as the code has it.  [pcmseq2_write_hdr] sets the writer's position
    [cursamp] to 2048 and the entry size to 0; every turn of the loop of
    [pcmseq2_write_data] and every call of it keep the position within
    [0, 2048], a call that is given samples leaves it below 2048, and the
    sub-block state is FIRST when the position is below 1005, MIDDLE from 1005
    to below 2026, and LAST from 2026 on. *)
Theorem writer_cursamp_invariant :
  (forall curtime (fp : PCMFILE) (fd : FILE),
      outfp fp = Some fd ->
      pcmseq3_cursamp (snd (pcmseq2_write_hdr curtime fp)) = 2048
      /\ pcmseq3_entrysize (snd (pcmseq2_write_hdr curtime fp)) = 0)
  /\ (forall key entrysize lastsegment (w : wloop),
         wloop_ok w -> 0 < w_nsamples w ->
         wloop_ok (write_step key entrysize lastsegment w))
  /\ (forall (fp : PCMFILE) data nsamples lastsegment,
         0 <= pcmseq3_cursamp fp <= 2048 ->
         exists rc fp',
           pcmseq2_write_data fp data nsamples lastsegment = Some (rc, fp')
           /\ 0 <= pcmseq3_cursamp fp' <= 2048)
  /\ (forall (fp fp' : PCMFILE) data nsamples rc,
         0 <= pcmseq3_cursamp fp <= 2048 -> 0 < nsamples -> outfp fp <> None ->
         pcmseq2_write_data fp data nsamples 0 = Some (rc, fp') ->
         0 <= pcmseq3_cursamp fp' < 2048)
  /\ (forall c,
         (c < 1005 -> state_of_cursamp c = FIRSTSEG)
         /\ (1005 <= c < 2026 -> state_of_cursamp c = MIDDLESEG)
         /\ (2026 <= c -> state_of_cursamp c = LASTSEG)).
Proof.
  split; [|split; [|split; [|split]]].
  - intros curtime fp fd Hfd.
    destruct (write_hdr_fields curtime fp fd Hfd) as (H1 & H2 & _). auto.
  - intros. apply write_step_ok; assumption.
  - intros fp data nsamples lastsegment Hc.
    destruct (pcmseq2_write_data_total fp data nsamples lastsegment Hc)
      as (rc & fp' & Hrun & Hc' & _).
    eauto.
  - intros. eapply pcmseq2_write_data_below; eassumption.
  - exact state_of_cursamp_spec.
Qed.

(** The header of the example handle and 700 samples after it: the position
    goes from 2048 to 700. *)
Lemma writer_cursamp_invariant_witness :
  pcmseq3_cursamp (snd (pcmseq2_write_hdr (1000, 5) ex_whandle)) = 2048
  /\ exists rc fp',
       pcmseq2_write_data (snd (pcmseq2_write_hdr (1000, 5) ex_whandle)) (ramp 700) 700 0
       = Some (rc, fp')
       /\ 0 <= pcmseq3_cursamp fp' <= 2048.
Proof.
  destruct writer_cursamp_invariant as (Hhdr & _ & Hcall & _).
  split.
  - apply (Hhdr (1000, 5) ex_whandle fopen_w). reflexivity.
  - apply Hcall. vm_compute. split; discriminate.
Defined.

(** C6 (counterexample).  After [pcmseq2_write_hdr] the position is 2048: it
    is not 0 and not within [0, 2048). *)
Lemma write_hdr_cursamp_counterexample :
  pcmseq3_cursamp (snd (pcmseq2_write_hdr (1000, 5) ex_whandle)) <> 0
  /\ ~ (0 <= pcmseq3_cursamp (snd (pcmseq2_write_hdr (1000, 5) ex_whandle)) < 2048).
Proof.
  assert (H : pcmseq3_cursamp (snd (pcmseq2_write_hdr (1000, 5) ex_whandle)) = 2048)
    by (vm_compute; reflexivity).
  rewrite H. split; lia.
Qed.

(** ** The public write interface: no data without a header *)







(** The first entry of [ex_disk2] was written with the time stamp 18005. *)
Lemma pcmseq_stat_timestamp_witness :
  exists st,
    pcmseq_stat ex_rhandle (mkPcmstat 0 0 0 0 0 0 0) = (0, st)
    /\ st_timestamp st = 5 + 18000
    /\ st_microtimestamp st = 0.
Proof.
  apply (pcmseq_stat_timestamp ex_rhandle (open_of ex_disk2)).
  - reflexivity.
  - vm_compute. reflexivity.
  - reflexivity.
  - right. vm_compute. discriminate.
  - vm_compute. discriminate.
  - vm_compute. reflexivity.
Defined.

(** ** Seeking *)

Lemma pcmseq_seek_read (fp : PCMFILE) (e : Z) :
  flags fp = O_RDONLY ->
  pcmseq_seek fp e
  = if (0 <? e) && (e <=? nentries fp) then Some (0, set_entry fp e, [])
    else Some (-1, fp, []).
Proof.
  intros Hflags. unfold pcmseq_seek. rewrite Hflags. reflexivity.
Qed.

Lemma seektoentry_result (p : P2FILE) (e : Z) :
  pcmseq2_seektoentry p e
  = if (0 <? e) && ((lastentry p =? -1) || (e <=? lastentry p))
       && negb (cache_get (entry_pos_cache p) e =? -1)
    then (0, p_set_currententry
               (p_set_fp p (snd (fseek_set (p_fp p) (cache_get (entry_pos_cache p) e)))) e)
    else (-1, p).
Proof.
  unfold pcmseq2_seektoentry.
  destruct (Z.leb_spec e 0), (Z.ltb_spec 0 e); try lia; cbn [orb andb]; [reflexivity|].
  destruct (Z.eqb_spec (lastentry p) (-1)); cbn [negb orb andb].
  - destruct (negb _); reflexivity.
  - destruct (Z.ltb_spec (lastentry p) e), (Z.leb_spec e (lastentry p)); try lia;
      cbn [andb]; [reflexivity|].
    destruct (negb _); reflexivity.
Qed.

(** C7.  On a read-mode handle whose file was indexed with [n] entries,
    [pcmseq_seek] succeeds exactly for the entries 1 to [n]: it fails for 0
    and for [n + 1] and succeeds for [n]; and [pcmseq2_seektoentry] on the
    indexed handle, whose directory holds a position for each of the [n]
    entries, succeeds for exactly the same entries. *)
Theorem seek_bounds (fp : PCMFILE) (p : P2FILE) (n : Z) :
  flags fp = O_RDONLY ->
  nentries fp = n ->
  lastentry p = n ->
  1 <= n ->
  (forall e, 1 <= e <= n -> cache_get (entry_pos_cache p) e <> -1) ->
  (forall e, (exists fp', pcmseq_seek fp e = Some (0, fp', [])) <-> 1 <= e <= n)
  /\ (forall e, ~ 1 <= e <= n -> pcmseq_seek fp e = Some (-1, fp, []))
  /\ pcmseq_seek fp 0 = Some (-1, fp, [])
  /\ pcmseq_seek fp (n + 1) = Some (-1, fp, [])
  /\ pcmseq_seek fp n = Some (0, set_entry fp n, [])
  /\ (forall e, fst (pcmseq2_seektoentry p e) = 0 <-> 1 <= e <= n)
  /\ (forall e, ~ 1 <= e <= n -> pcmseq2_seektoentry p e = (-1, p)).
Proof.
  intros Hflags Hn Hlast Hpos Hdir.
  assert (Hseek : forall e,
             pcmseq_seek fp e
             = if (0 <? e) && (e <=? n) then Some (0, set_entry fp e, [])
               else Some (-1, fp, [])).
  { intros e. rewrite (pcmseq_seek_read fp e Hflags), Hn. reflexivity. }
  assert (Hto : forall e,
             pcmseq2_seektoentry p e
             = if (0 <? e) && (e <=? n)
               then (0, p_set_currententry
                          (p_set_fp p (snd (fseek_set (p_fp p)
                                              (cache_get (entry_pos_cache p) e)))) e)
               else (-1, p)).
  { intros e. rewrite seektoentry_result, Hlast.
    replace (n =? -1) with false by lia. cbn [orb].
    destruct (Z.ltb_spec 0 e), (Z.leb_spec e n); cbn [andb]; try reflexivity.
    replace (cache_get (entry_pos_cache p) e =? -1) with false; [reflexivity|].
    symmetry. apply Z.eqb_neq. apply Hdir. lia. }
  assert (Hin : forall e, (0 <? e) && (e <=? n) = true <-> 1 <= e <= n).
  { intros e. rewrite andb_true_iff, Z.ltb_lt, Z.leb_le. lia. }
  split; [|split; [|split; [|split; [|split; [|split]]]]].
  - intros e. rewrite <- Hin, Hseek. split.
    + intros [fp' H]. destruct ((0 <? e) && (e <=? n)); [reflexivity | discriminate].
    + intros ->. eauto.
  - intros e He. rewrite <- Hin in He. rewrite Hseek.
    destruct ((0 <? e) && (e <=? n)); [contradiction | reflexivity].
  - rewrite Hseek. reflexivity.
  - rewrite Hseek. replace (n + 1 <=? n) with false by lia. rewrite andb_false_r. reflexivity.
  - rewrite Hseek. replace (0 <? n) with true by lia. replace (n <=? n) with true by lia.
    reflexivity.
  - intros e. rewrite <- Hin, Hto. split.
    + destruct ((0 <? e) && (e <=? n)); [reflexivity | discriminate].
    + intros ->. reflexivity.
  - intros e He. rewrite <- Hin in He. rewrite Hto.
    destruct ((0 <? e) && (e <=? n)); [contradiction | reflexivity].
Qed.

(** The read handle on the two entries of [ex_disk2]. *)
Lemma seek_bounds_witness :
  pcmseq_seek ex_rhandle 0 = Some (-1, ex_rhandle, [])
  /\ pcmseq_seek ex_rhandle (2 + 1) = Some (-1, ex_rhandle, [])
  /\ pcmseq_seek ex_rhandle 2 = Some (0, set_entry ex_rhandle 2, []).
Proof.
  destruct (seek_bounds ex_rhandle (open_of ex_disk2) 2) as (_ & _ & H0 & H1 & H2 & _).
  - reflexivity.
  - vm_compute. reflexivity.
  - vm_compute. reflexivity.
  - lia.
  - intros e He. assert (e = 1 \/ e = 2) as [-> | ->] by lia; vm_compute; discriminate.
  - auto.
Defined.

(** ** Failed reads *)

Lemma same_dir_refl (p : P2FILE) : same_dir p p.
Proof. repeat split. Qed.

Lemma same_dir_trans (p q r : P2FILE) : same_dir p q -> same_dir q r -> same_dir p r.
Proof.
  unfold same_dir. intros (?&?&?&?&?&?&?) (?&?&?&?&?&?&?).
  repeat split; congruence.
Qed.

Lemma same_dir_set_fp (p : P2FILE) (fp : FILE) : same_dir (p_set_fp p fp) p.
Proof. repeat split. Qed.

Lemma fseek_set_pos (f : FILE) (off : Z) :
  0 <= off -> f_pos (snd (fseek_set f off)) = off.
Proof. intros H. unfold fseek_set. replace (off <? 0) with false by lia. reflexivity. Qed.

Lemma fseek_set_pos_nonneg (f : FILE) (off : Z) :
  0 <= f_pos f -> 0 <= f_pos (snd (fseek_set f off)).
Proof.
  intros H. unfold fseek_set. destruct (Z.ltb_spec off 0); cbn; lia.
Qed.

Lemma readentryhdr_dir (p : P2FILE) : same_dir (snd (readentryhdr p)) p.
Proof.
  unfold readentryhdr. destruct (fread _ _) as [[bytes ret] fp].
  destruct (negb (ret =? 1)); [repeat split|].
  destruct (_ || _); repeat split.
Qed.

Lemma readsegment_dir (p : P2FILE) : same_dir (snd (readsegment p)) p.
Proof.
  unfold readsegment. destruct (fread _ _) as [[bytes ret] fp].
  destruct (negb (ret =? 1)); [repeat split|].
  destruct (_ || _); repeat split.
Qed.

Lemma peekcontrolword_dir (p : P2FILE) : same_dir (snd (peekcontrolword p)) p.
Proof.
  unfold peekcontrolword. destruct (fread _ _) as [[bytes ret] fp].
  destruct (ret =? -1); repeat split.
Qed.

(** A turn of the loop of [pcmseq2_read] either leaves the directory and the
    status alone or ends the loop with status 0. *)
Lemma read_step_dir start stop (r : rloop) :
  match read_step start stop r with
  | Break r' | Continue r' =>
      (same_dir (r_p r') (r_p r) /\ r_status r' = r_status r) \/ r_status r' = 0
  end.
Proof.
  unfold read_step.
  pose proof (peekcontrolword_dir (r_p r)) as Hpeek.
  destruct (peekcontrolword (r_p r)) as [[rc cw] p]. cbn [snd] in Hpeek.
  destruct (rc =? -1); [left; split; [exact Hpeek | reflexivity]|].
  destruct (cw =? 3); [right; reflexivity|].
  destruct (cw =? 1); [|left; split; [exact Hpeek | reflexivity]].
  destruct (_ || _).
  - left. split; [|reflexivity]. cbn [r_p]. unfold skipsegment.
    eapply same_dir_trans; [apply same_dir_set_fp | exact Hpeek].
  - pose proof (readsegment_dir p) as Hseg.
    destruct (readsegment p) as [rc' p']. cbn [snd] in Hseg.
    destruct (rc' =? -1).
    + left. split; [|reflexivity]. eapply same_dir_trans; eassumption.
    + destruct (copy_block _ _ _ _ _ _ _ _) as [c1 b1].
      destruct (copy_block _ _ _ _ _ _ _ _) as [c2 b2].
      destruct (copy_block _ _ _ _ _ _ _ _) as [c3 b3].
      left. split; [|reflexivity]. eapply same_dir_trans; eassumption.
Qed.

Lemma read_loop_dir start stop : forall (fuel : nat) (r r' : rloop),
  read_loop fuel start stop r = Some r' ->
  (same_dir (r_p r') (r_p r) /\ r_status r' = r_status r) \/ r_status r' = 0.
Proof.
  induction fuel as [|fuel IH]; intros r r' Hrun; cbn [read_loop] in Hrun; [discriminate|].
  pose proof (read_step_dir start stop r) as Hstep.
  destruct (read_step start stop r) as [r1 | r1].
  - injection Hrun as <-. exact Hstep.
  - destruct (IH r1 r' Hrun) as [[Hd Hs] | H0]; [|right; exact H0].
    destruct Hstep as [[Hd1 Hs1] | H01].
    + left. split; [eapply same_dir_trans; eassumption | congruence].
    + right. congruence.
Qed.

(** C4, as the code has it.  When [pcmseq2_read] fails after its seek to the
    entry succeeded, the stream is back at the position the seek left it at,
    just before the entry header, the directory (the four caches, the entry
    count and the type) is as it was before the call, and the current entry
    is the one the seek stored, the entry asked for. *)
Theorem read_failure_restores (p : P2FILE) (e start stop : Z) (buf : list Z)
    (r : read_result) :
  0 <= f_pos (p_fp p) ->
  fst (pcmseq2_seektoentry p e) = 0 ->
  pcmseq2_read p e start stop buf = Some r ->
  rr_rc r = -1 ->
  f_pos (p_fp (rr_p r)) = f_pos (p_fp (snd (pcmseq2_seektoentry p e)))
  /\ currententry (rr_p r) = e
  /\ lastentry (rr_p r) = lastentry p
  /\ p_type (rr_p r) = p_type p
  /\ entry_pos_cache (rr_p r) = entry_pos_cache p
  /\ entry_size_cache (rr_p r) = entry_size_cache p
  /\ entry_sr_cache (rr_p r) = entry_sr_cache p
  /\ entry_time_cache (rr_p r) = entry_time_cache p.
Proof.
  intros Hpos Hseek Hread Hrc.
  unfold pcmseq2_read in Hread.
  assert (Hp1 : same_dir (p_set_currententry p e) (snd (pcmseq2_seektoentry p e))
                /\ 0 <= f_pos (p_fp (snd (pcmseq2_seektoentry p e)))).
  { rewrite seektoentry_result in Hseek |- *.
    destruct (_ && _ && _); [|discriminate].
    cbn [snd p_fp p_set_currententry p_set_fp]. split; [repeat split|].
    apply fseek_set_pos_nonneg. exact Hpos. }
  destruct (pcmseq2_seektoentry p e) as [rc p1]. cbn [fst snd] in *. subst rc.
  cbn [Z.eqb] in Hread. destruct Hp1 as [Hd1 Hpos1].
  assert (Hfin : forall q : P2FILE,
             same_dir q p1 ->
             let q' := p_set_fp q (snd (fseek_set (p_fp q) (ftell (p_fp p1)))) in
             f_pos (p_fp q') = f_pos (p_fp p1)
             /\ currententry q' = e /\ lastentry q' = lastentry p
             /\ p_type q' = p_type p
             /\ entry_pos_cache q' = entry_pos_cache p
             /\ entry_size_cache q' = entry_size_cache p
             /\ entry_sr_cache q' = entry_sr_cache p
             /\ entry_time_cache q' = entry_time_cache p).
  { intros q Hq. cbv zeta. cbn [p_fp p_set_fp currententry lastentry p_type
      entry_pos_cache entry_size_cache entry_sr_cache entry_time_cache].
    split; [apply fseek_set_pos; exact Hpos1|].
    destruct Hq as (?&?&?&?&?&?&?), Hd1 as (?&?&?&?&?&?&?).
    cbn in *. repeat split; congruence. }
  pose proof (readentryhdr_dir p1) as Hhdr.
  destruct (readentryhdr p1) as [rc2 p2]. cbn [snd] in Hhdr.
  destruct (rc2 =? -1).
  - injection Hread as <-. cbn [rr_p]. apply Hfin. exact Hhdr.
  - match type of Hread with context [read_loop ?f ?a ?b ?r0] =>
      destruct (read_loop f a b r0) as [r'|] eqn:Hloop; [|discriminate];
      pose proof (read_loop_dir a b f r0 r' Hloop) as Hdir end.
    cbn [r_p r_status] in Hdir.
    destruct (_ || _ || _) eqn:Hrescue.
    + cbn [Z.eqb] in Hread. injection Hread as <-. cbn in Hrc. discriminate.
    + destruct (Z.eqb_spec (r_status r') (-1)) as [Hst|Hst].
      * injection Hread as <-. cbn [rr_p]. apply Hfin.
        destruct Hdir as [[Hd _] | H0]; [|lia].
        eapply same_dir_trans; eassumption.
      * injection Hread as <-. cbn in Hrc. discriminate.
Qed.

(** The read of entry 2 of [ex_disk2_bad] fails at the segment whose match
    key is damaged. *)
Lemma read_failure_restores_witness :
  exists r,
    pcmseq2_read (open_of ex_disk2_bad) 2 0 49 (replicate 50 0) = Some r
    /\ f_pos (p_fp (rr_p r)) = 4188
    /\ currententry (rr_p r) = 2
    /\ entry_pos_cache (rr_p r) = entry_pos_cache (open_of ex_disk2_bad).
Proof.
  destruct (pcmseq2_read (open_of ex_disk2_bad) 2 0 49 (replicate 50 0)) as [r|] eqn:Hread;
    [|vm_compute in Hread; discriminate].
  exists r.
  destruct (read_failure_restores (open_of ex_disk2_bad) 2 0 49 (replicate 50 0) r)
    as (Hpos & Hcur & _ & _ & Hcache & _).
  - vm_compute. discriminate.
  - vm_compute. reflexivity.
  - exact Hread.
  - vm_compute in Hread. injection Hread as <-. reflexivity.
  - split; [reflexivity|]. rewrite Hpos. split; [vm_compute; reflexivity|]. auto.
Defined.

(** C4 (counterexample).  The handle on [ex_disk2_bad] has current entry 1
    after it is opened; the read of entry 2 fails and leaves the current
    entry at 2. *)
Lemma read_failure_counterexample :
  exists r,
    pcmseq2_read (open_of ex_disk2_bad) 2 0 49 (replicate 50 0) = Some r
    /\ rr_rc r = -1
    /\ fst (pcmseq2_seektoentry (open_of ex_disk2_bad) 2) = 0
    /\ currententry (open_of ex_disk2_bad) = 1
    /\ currententry (rr_p r) <> currententry (open_of ex_disk2_bad).
Proof.
  destruct (pcmseq2_read (open_of ex_disk2_bad) 2 0 49 (replicate 50 0)) as [r|] eqn:Hread;
    [|vm_compute in Hread; discriminate].
  exists r. vm_compute in Hread. injection Hread as <-.
  split; [reflexivity|]. repeat split; vm_compute; try reflexivity; discriminate.
Qed.

(** ** Streams: reading and seeking by position *)

Lemma zlen_nonneg (l : list Z) : 0 <= zlen l.
Proof. unfold zlen. lia. Qed.

Lemma zlen_drop (l : list Z) (q : Z) :
  0 <= q -> zlen (drop (Z.to_nat q) l) = Z.max 0 (zlen l - q).
Proof. intros H. unfold zlen. rewrite length_drop. lia. Qed.

(** A read of [n] bytes that are all there. *)
Lemma fread_full (n : Z) (f : FILE) :
  0 < n -> 0 <= f_pos f -> f_pos f + n <= zlen (f_data f) ->
  fread n f = (slice (f_pos f) n (f_data f), 1, set_pos f (f_pos f + n) (f_eof f)).
Proof.
  intros Hn Hpos Hlen. unfold fread.
  replace (n <=? 0) with false by lia.
  rewrite zlen_drop by assumption.
  replace (n <=? Z.max 0 (zlen (f_data f) - f_pos f)) with true by lia.
  reflexivity.
Qed.

(** A read of [n] bytes that are not all there fails, and leaves the stream
    at or behind its position. *)
Lemma fread_short (n : Z) (f : FILE) :
  0 < n -> 0 <= f_pos f -> zlen (f_data f) < f_pos f + n ->
  exists bytes f',
    fread n f = (bytes, 0, f')
    /\ f_data f' = f_data f /\ f_pos f <= f_pos f'.
Proof.
  intros Hn Hpos Hlen. unfold fread.
  replace (n <=? 0) with false by lia.
  rewrite zlen_drop by assumption.
  replace (n <=? Z.max 0 (zlen (f_data f) - f_pos f)) with false by lia.
  do 2 eexists. split; [reflexivity|]. cbn. split; [reflexivity | lia].
Qed.

Lemma fseek_set_ok (f : FILE) (off : Z) :
  0 <= off -> fseek_set f off = (0, set_pos f off false).
Proof. intros H. unfold fseek_set. replace (off <? 0) with false by lia. reflexivity. Qed.

Lemma fseek_cur_ok (f : FILE) (off : Z) :
  0 <= f_pos f + off -> fseek_cur f off = (0, set_pos f (f_pos f + off) false).
Proof. intros H. unfold fseek_cur. apply fseek_set_ok. exact H. Qed.

(** Reading a segment header at a position: the test is [seghdr_at]; a header
    that passes leaves the stream 36 bytes on. *)
Lemma read_seghdr_at (type : Z) (f : FILE) :
  0 <= f_pos f ->
  exists raw f',
    read_seghdr type f = (seghdr_at type (f_data f) (f_pos f), raw, f')
    /\ f_data f' = f_data f /\ 0 <= f_pos f'
    /\ (seghdr_at type (f_data f) (f_pos f) = true ->
        raw = slice (f_pos f) 36 (f_data f) /\ f_pos f' = f_pos f + 36).
Proof.
  intros Hpos. unfold read_seghdr, seghdr_at.
  destruct (Z.leb_spec (f_pos f + 36) (zlen (f_data f))) as [Hlen|Hlen].
  - rewrite fread_full by lia. do 2 eexists. split; [reflexivity|].
    cbn. repeat split; lia.
  - destruct (fread_short 36 f) as (bytes & f' & -> & Hd & Hp); try lia.
    exists bytes, f'. cbn [Z.eqb andb]. repeat split; try assumption; try lia; discriminate.
Qed.

Lemma read_enthdr_at (type : Z) (f : FILE) :
  0 <= f_pos f ->
  exists raw f',
    read_enthdr type f = (enthdr_at type (f_data f) (f_pos f), raw, f')
    /\ f_data f' = f_data f /\ 0 <= f_pos f'
    /\ (enthdr_at type (f_data f) (f_pos f) = true ->
        raw = slice (f_pos f) 56 (f_data f) /\ f_pos f' = f_pos f + 56).
Proof.
  intros Hpos. unfold read_enthdr, enthdr_at.
  destruct (Z.leb_spec (f_pos f + 56) (zlen (f_data f))) as [Hlen|Hlen].
  - rewrite fread_full by lia. do 2 eexists. split; [reflexivity|].
    cbn. repeat split; lia.
  - destruct (fread_short 56 f) as (bytes & f' & -> & Hd & Hp); try lia.
    exists bytes, f'. cbn [Z.eqb andb]. repeat split; try assumption; try lia; discriminate.
Qed.

(** ** The indexer: from the last segment header to the entry header *)

Lemma ceil_div_2048 (r : Z) :
  0 < r -> Z.quot (r + 2048 - 1) 2048 = - ((- r) / 2048).
Proof.
  intros Hr. rewrite Z.quot_div_nonneg by lia.
  pose proof (Z.div_mod (r + 2048 - 1) 2048 ltac:(lia)).
  pose proof (Z.mod_pos_bound (r + 2048 - 1) 2048 ltac:(lia)).
  pose proof (Z.div_mod (- r) 2048 ltac:(lia)).
  pose proof (Z.mod_pos_bound (- r) 2048 ltac:(lia)).
  lia.
Qed.

Lemma wrap32s_small (x : Z) : -2147483648 <= x <= 2147483647 -> wrap32s x = x.
Proof.
  intros H. unfold wrap32s. rewrite Z.mod_small by lia. lia.
Qed.

(** C2.  In a turn of the indexing loop that has read the last-segment
    header of an entry whose recordwords field is a sample count (positive,
    hence neither 0 nor -1; at most 10^9, so that the [int] arithmetic is
    exact), the segment count is [ceil (recordwords / 2048)] and the stream
    is moved from the current position, behind the 36 header bytes, to
    [current_pos + segment_size - 36 - segments * segment_size
    - entry_header_size], the candidate start of the entry, which lies in the
    file; the sizes are 4140 and 56 for type 1, 4134 and 54 for type 2. *)
Theorem locate_entry_offset (type : Z) (fp0 fp : FILE) (raw : list Z) :
  type = 1 \/ type = 2 ->
  read_seghdr type fp0 = (true, raw, fp) ->
  let recordwords := get_s32 raw (hdr_off type + 30) in
  let segment_size := if type =? 1 then 4140 else 4134 in
  let entry_header_size := if type =? 1 then 56 else 54 in
  let segments := - ((- recordwords) / 2048) in
  let current_pos := ftell fp in
  0 < recordwords <= 1000000000 ->
  0 <= current_pos + segment_size - 36 - segments * segment_size - entry_header_size ->
  entrysegments_of recordwords = segments
  /\ exists fp',
       locate_entry type raw fp = Some (Some (fp', recordwords))
       /\ f_data fp' = f_data fp
       /\ ftell fp'
          = current_pos + segment_size - 36 - segments * segment_size - entry_header_size.
Proof.
  intros Htype Hread. cbv zeta. intros Hrw Htarget.
  set (rw := get_s32 raw (hdr_off type + 30)) in *.
  assert (Hseg : entrysegments_of rw = - ((- rw) / 2048)).
  { unfold entrysegments_of. rewrite wrap32s_small by lia. apply ceil_div_2048. lia. }
  split; [exact Hseg|].
  assert (Hceil : 1 <= - ((- rw) / 2048) <= 488282).
  { pose proof (Z.div_mod (- rw) 2048 ltac:(lia)).
    pose proof (Z.mod_pos_bound (- rw) 2048 ltac:(lia)). lia. }
  unfold locate_entry. fold rw.
  replace (rw =? -1) with false by lia. replace (rw =? 0) with false by lia.
  cbn [orb]. rewrite Hseg. unfold deltapos_of, segment_bytes.
  assert (Hdelta : forall S H, (S = 4140 /\ H = 56) \/ (S = 4134 /\ H = 54) ->
             wrap32s (S - 36 - - (- rw / 2048) * S - H) = S - 36 - - (- rw / 2048) * S - H).
  { intros S H HS. apply wrap32s_small. lia. }
  destruct Htype as [-> | ->]; cbn [Z.eqb Pos.eqb] in *.
  - rewrite Hdelta by lia. rewrite fseek_cur_ok by (unfold ftell in Htarget; lia).
    eexists. split; [reflexivity|]. cbn. unfold ftell. split; [reflexivity | lia].
  - rewrite Hdelta by lia. rewrite fseek_cur_ok by (unfold ftell in Htarget; lia).
    eexists. split; [reflexivity|]. cbn. unfold ftell. split; [reflexivity | lia].
Qed.

(** The last segment header of [ex_disk1], an entry of 3000 samples: two
    segments, and the entry header at 0. *)
Lemma locate_entry_offset_witness :
  let fp0 := mkFILE ex_disk1 (54 + 4134) false false in
  let '(_, raw, fp) := read_seghdr 2 fp0 in
  get_s32 raw 30 = 3000
  /\ entrysegments_of 3000 = 2
  /\ exists fp', locate_entry 2 raw fp = Some (Some (fp', 3000)) /\ ftell fp' = 0.
Proof.
  cbv zeta.
  destruct (read_seghdr 2 (mkFILE ex_disk1 (54 + 4134) false false))
    as [[ok raw] fp] eqn:Hread.
  assert (Hok : ok = true) by (vm_compute in Hread; congruence). subst ok.
  assert (Hrw : get_s32 raw (hdr_off 2 + 30) = 3000)
    by (vm_compute in Hread; injection Hread as <- <-; vm_compute; reflexivity).
  assert (Hpos : ftell fp = 54 + 4134 + 36)
    by (vm_compute in Hread; injection Hread as <- <-; reflexivity).
  destruct (locate_entry_offset 2 _ fp raw (or_intror eq_refl) Hread)
    as (Hseg & fp' & Hloc & _ & Htell).
  - rewrite Hrw. lia.
  - rewrite Hrw, Hpos. vm_compute. discriminate.
  - split; [exact Hrw|]. rewrite Hrw in Hseg, Hloc, Htell.
    split; [exact Hseg|]. exists fp'. split; [exact Hloc|].
    rewrite Htell, Hpos. reflexivity.
Defined.

(** ** The scan for the start of an entry *)

(** The step after it was halved to fit the distance to the start of the
    file: it fits or is 0, and it is 0 only if even one segment does not fit. *)
Lemma shrink_step_spec (segmentsize prevpos : Z) :
  0 < segmentsize ->
  forall (fuel : nat) (step : Z),
    0 <= step < 2 ^ Z.of_nat fuel ->
    let r := shrink_step fuel step segmentsize prevpos in
    0 <= r <= step
    /\ (r = 0 \/ r * segmentsize <= prevpos)
    /\ (1 <= step -> r = 0 -> prevpos < segmentsize).
Proof.
  intros HS. induction fuel as [|fuel IH]; intros step Hstep; cbv zeta.
  - cbn in Hstep. assert (step = 0) by lia. subst. cbn. lia.
  - cbn [shrink_step].
    destruct (Z.ltb_spec 0 step) as [Hpos|Hpos]; cbn [andb].
    + destruct (Z.ltb_spec prevpos (step * segmentsize)) as [Hfar|Hfar].
      * assert (Hq : Z.quot step 2 = step / 2) by (apply Z.quot_div_nonneg; lia).
        rewrite Hq.
        assert (Hhalf : 0 <= step / 2 < 2 ^ Z.of_nat fuel).
        { rewrite Nat2Z.inj_succ, Z.pow_succ_r in Hstep by lia.
          split; [apply Z.div_pos; lia | apply Z.div_lt_upper_bound; lia]. }
        specialize (IH (step / 2) Hhalf). cbv zeta in IH.
        destruct IH as (Hr & Hfit & Hzero).
        assert (step / 2 <= step) by (apply Z.div_le_upper_bound; lia).
        split; [lia|]. split; [exact Hfit|].
        intros _ Hr0. destruct (Z.eq_dec step 1) as [->|Hne].
        -- lia.
        -- apply Hzero; [|exact Hr0].
           apply Z.div_le_lower_bound; lia.
      * split; [lia|]. split; [right; lia | lia].
    + split; [lia|]. split; [left; lia | lia].
Qed.

Lemma scan_sizes (type : Z) :
  type = 1 \/ type = 2 ->
  (segment_bytes type = 4140 /\ entryhdr_bytes type = 56)
  \/ (segment_bytes type = 4134 /\ entryhdr_bytes type = 54).
Proof.
  unfold segment_bytes, entryhdr_bytes. intros [-> | ->]; cbn; lia.
Qed.

Section EntryScan.

(** An entry of [n] segments whose header starts at [start], in a file
    whose bytes before the entry do not look like a segment header at the
    places a segment stride before its first segment. *)
Variables (type : Z) (data : list Z) (start n : Z).
Let S := segment_bytes type.
Let H := entryhdr_bytes type.
Hypothesis Htype : type = 1 \/ type = 2.
Hypothesis Hstart : 0 <= start.
Hypothesis Hn : 1 <= n.
Hypothesis Hsegs : forall i, 0 <= i < n -> seghdr_at type data (start + H + i * S) = true.
Hypothesis Hbefore :
  forall j, 1 <= j -> 0 <= start + H - j * S ->
            seghdr_at type data (start + H - j * S) = false.

(** From the [i]-th segment of the entry the loop of the scan ends at the
    first one, with [step] 0. *)
Lemma scan_loop_finds : forall (fuel : nat) (k : nat) (fp : FILE) (i step : Z),
  f_data fp = data ->
  f_pos fp = start + H + i * S ->
  0 <= i < n ->
  1 <= step < 2 ^ Z.of_nat k -> (k <= 64)%nat ->
  i + Z.of_nat k + 1 <= Z.of_nat fuel ->
  exists fp',
    scan_loop fuel type S fp step = Some (fp', 0)
    /\ f_data fp' = data /\ f_pos fp' = start + H.
Proof.
  pose proof (scan_sizes type Htype) as Hsz. fold S H in Hsz.
  induction fuel as [|fuel IH]; intros k fp i step Hdata Hpos Hi Hstep Hk Hfuel; [lia|].
  cbn [scan_loop]. unfold ftell.
  assert (Hstep64 : 0 <= step < 2 ^ Z.of_nat 64).
  { split; [lia|]. eapply Z.lt_le_trans; [apply Hstep|].
    apply Z.pow_le_mono_r; lia. }
  destruct (shrink_step_spec S (f_pos fp) ltac:(lia) 64 step Hstep64) as (Hr & Hfit & Hzero).
  set (s1 := shrink_step 64 step S (f_pos fp)) in *. clearbody s1.
  assert (Hback : 0 <= f_pos fp + -1 * s1 * S) by (destruct Hfit; nia).
  rewrite fseek_cur_ok by exact Hback. cbn [snd].
  set (f1 := set_pos fp (f_pos fp + -1 * s1 * S) false).
  destruct (read_seghdr_at type f1) as (raw & f2 & Hread & Hd2 & Hp2 & Hok2);
    [exact Hback|].
  rewrite Hread. cbn [f_data f_pos f1 set_pos] in Hread, Hd2, Hok2 |- *.
  rewrite Hdata in *.
  destruct (Z.le_gt_cases s1 i) as [Hin|Hout].
  - (* still inside the entry *)
    assert (Hvalid : seghdr_at type data (f_pos fp + -1 * s1 * S) = true).
    { replace (f_pos fp + -1 * s1 * S) with (start + H + (i - s1) * S) by lia.
      apply Hsegs. lia. }
    rewrite Hvalid. cbn [negb]. destruct (Hok2 Hvalid) as [_ Hp36].
    rewrite fseek_cur_ok by lia. cbn [snd].
    destruct (Z.eqb_spec s1 0) as [E0|E0].
    + assert (i = 0) by (specialize (Hzero ltac:(lia) E0); nia).
      rewrite E0. eexists. split; [reflexivity|]. cbn. split; [exact Hd2|].
      rewrite Hp36. nia.
    + apply (IH k _ (i - s1) s1); cbn [f_data f_pos set_pos]; try lia; assumption.
  - (* stepped into what precedes the entry *)
    assert (Hinvalid : seghdr_at type data (f_pos fp + -1 * s1 * S) = false).
    { replace (f_pos fp + -1 * s1 * S) with (start + H - (s1 - i) * S) by lia.
      apply Hbefore; lia. }
    rewrite Hinvalid. cbn [negb].
    rewrite fseek_set_ok by lia. cbn [snd].
    assert (Hq : Z.quot s1 2 = s1 / 2) by (apply Z.quot_div_nonneg; lia).
    rewrite Hq.
    destruct (Z.ltb_spec 0 (s1 / 2)) as [Hmore|Hdone].
    + destruct k as [|k]; [cbn in Hstep; lia|].
      assert (s1 / 2 < 2 ^ Z.of_nat k).
      { rewrite Nat2Z.inj_succ, Z.pow_succ_r in Hstep by lia.
        apply Z.div_lt_upper_bound; lia. }
      apply (IH k _ i (s1 / 2)); cbn [f_data f_pos set_pos]; try lia; assumption.
    + assert (s1 = 1).
      { destruct (Z.eq_dec s1 1); [assumption|].
        assert (1 <= s1 / 2) by (apply Z.div_le_lower_bound; lia). lia. }
      assert (E2 : s1 / 2 = 0) by (pose proof (Z.div_pos s1 2); lia).
      rewrite E2. eexists. split; [reflexivity|]. cbn. split; [exact Hd2|]. nia.
Qed.

(** [pcmseq2_scantoentrystart] from the last segment of the entry ends at
    the entry header. *)
Lemma scantoentrystart_finds (fp : FILE) :
  f_data fp = data ->
  f_pos fp = start + H + (n - 1) * S ->
  exists fp',
    pcmseq2_scantoentrystart fp type S H = Some (0, fp')
    /\ f_data fp' = data /\ f_pos fp' = start.
Proof.
  pose proof (scan_sizes type Htype) as Hsz. fold S H in Hsz.
  intros Hdata Hpos. unfold pcmseq2_scantoentrystart.
  destruct (read_seghdr_at type fp) as (raw & f1 & Hread & Hd1 & Hp1 & Hok1); [lia|].
  rewrite Hread, Hdata, Hpos in *.
  rewrite (Hsegs (n - 1)) in * by lia. cbn [negb].
  destruct (Hok1 eq_refl) as [_ Hp36].
  rewrite fseek_cur_ok by lia. unfold ftell. cbn [snd f_pos set_pos].
  destruct (scan_loop_finds (Z.to_nat (f_pos f1 + (0 - 36)) + 16) 9
              (set_pos f1 (f_pos f1 + (0 - 36)) false) (n - 1) 256)
    as (f2 & Hscan & Hd2 & Hp2); cbn; try lia; try assumption.
  rewrite Hscan. cbn [Z.eqb].
  rewrite fseek_cur_ok by lia. cbn [snd].
  eexists. split; [reflexivity|]. cbn. split; [exact Hd2 | lia].
Qed.

End EntryScan.

(** Whatever the file holds, the loop of the scan ends: a step that meets
    a segment header moves the stream back by at least one segment, and any
    other halves the step. *)
Lemma scan_loop_total (type : Z) :
  type = 1 \/ type = 2 ->
  forall (fuel : nat) (k : nat) (fp : FILE) (step : Z),
    0 <= f_pos fp ->
    0 <= step < 2 ^ Z.of_nat k -> (k <= 64)%nat ->
    f_pos fp / segment_bytes type + Z.of_nat k + 1 <= Z.of_nat fuel ->
    exists fp' step',
      scan_loop fuel type (segment_bytes type) fp step = Some (fp', step')
      /\ f_data fp' = f_data fp /\ 0 <= f_pos fp'.
Proof.
  intros Htype. pose proof (scan_sizes type Htype) as Hsz.
  set (S := segment_bytes type) in *.
  assert (HS : 0 < S) by lia.
  induction fuel as [|fuel IH]; intros k fp step Hpos Hstep Hk Hfuel.
  - pose proof (Z.div_pos (f_pos fp) S Hpos HS). lia.
  - cbn [scan_loop]. unfold ftell.
    assert (Hstep64 : 0 <= step < 2 ^ Z.of_nat 64).
    { split; [lia|]. eapply Z.lt_le_trans; [apply Hstep|].
      apply Z.pow_le_mono_r; lia. }
    destruct (shrink_step_spec S (f_pos fp) HS 64 step Hstep64) as (Hr & Hfit & Hzero).
    set (s1 := shrink_step 64 step S (f_pos fp)) in *. clearbody s1.
    assert (Hback : 0 <= f_pos fp + -1 * s1 * S) by (destruct Hfit; nia).
    rewrite fseek_cur_ok by exact Hback. cbn [snd].
    set (f1 := set_pos fp (f_pos fp + -1 * s1 * S) false).
    destruct (read_seghdr_at type f1) as (raw & f2 & Hread & Hd2 & Hp2 & Hok2);
      [exact Hback|].
    rewrite Hread. cbn [f_data f_pos f1 set_pos] in Hread, Hd2, Hok2 |- *.
    destruct (seghdr_at type (f_data fp) (f_pos fp + -1 * s1 * S)) eqn:Ev; cbn [negb].
    + destruct (Hok2 eq_refl) as [_ Hp36].
      rewrite fseek_cur_ok by lia. cbn [snd].
      destruct (Z.eqb_spec s1 0) as [E0|E0].
      * do 2 eexists. split; [reflexivity|]. cbn. split; [exact Hd2 | lia].
      * destruct (IH k (set_pos f2 (f_pos f2 + (0 - 36)) false) s1)
          as (fp' & st & Hrun & Hd & Hp); cbn [f_pos f_data set_pos]; try lia.
        { rewrite Hp36.
          replace (f_pos fp + -1 * s1 * S + 36 + (0 - 36)) with (f_pos fp + (- s1) * S) by lia.
          rewrite Z.div_add by lia. lia. }
        exists fp', st. cbn [f_data set_pos] in Hd.
        split; [exact Hrun|]. split; [congruence | exact Hp].
    + rewrite fseek_set_ok by lia. cbn [snd].
      assert (Hq : Z.quot s1 2 = s1 / 2) by (apply Z.quot_div_nonneg; lia).
      rewrite Hq.
      destruct (Z.ltb_spec 0 (s1 / 2)) as [Hmore|Hdone].
      * destruct k as [|k].
        { cbn in Hstep. assert (s1 = 0) by lia. subst s1.
          change (0 / 2) with 0 in Hmore. lia. }
        assert (s1 / 2 < 2 ^ Z.of_nat k).
        { rewrite Nat2Z.inj_succ, Z.pow_succ_r in Hstep by lia.
          apply Z.div_lt_upper_bound; lia. }
        destruct (IH k (set_pos f2 (f_pos fp) false) (s1 / 2))
          as (fp' & st & Hrun & Hd & Hp); cbn [f_pos f_data set_pos]; try lia.
        exists fp', st. cbn [f_data set_pos] in Hd.
        split; [exact Hrun|]. split; [congruence | exact Hp].
      * do 2 eexists. split; [reflexivity|]. cbn. split; [exact Hd2 | lia].
Qed.

(** Called at a segment header, [pcmseq2_scantoentrystart] returns 0. *)
Lemma scantoentrystart_total (type : Z) (f : FILE) :
  type = 1 \/ type = 2 -> 0 <= f_pos f ->
  seghdr_at type (f_data f) (f_pos f) = true ->
  exists fp',
    pcmseq2_scantoentrystart f type (segment_bytes type) (entryhdr_bytes type)
    = Some (0, fp')
    /\ f_data fp' = f_data f.
Proof.
  intros Htype Hpos Hv. pose proof (scan_sizes type Htype) as Hsz.
  unfold pcmseq2_scantoentrystart.
  destruct (read_seghdr_at type f) as (raw & f1 & Hread & Hd1 & Hp1 & Hok1); [exact Hpos|].
  rewrite Hread, Hv. cbn [negb]. destruct (Hok1 Hv) as [_ Hp36].
  rewrite fseek_cur_ok by lia. unfold ftell. cbn [snd f_pos set_pos].
  destruct (scan_loop_total type Htype (Z.to_nat (f_pos f1 + (0 - 36)) + 16) 9
              (set_pos f1 (f_pos f1 + (0 - 36)) false) 256)
    as (f2 & st & Hscan & Hd2 & Hp2); cbn [f_pos f_data set_pos]; try lia.
  { assert (0 < segment_bytes type) by lia.
    assert ((f_pos f1 + (0 - 36)) / segment_bytes type <= f_pos f1 + (0 - 36)).
    { apply Z.div_le_upper_bound; [lia|]. nia. }
    lia. }
  rewrite Hscan. cbn [set_pos f_data] in Hd2.
  destruct (st =? 0).
  - destruct (fseek_cur f2 (-1 * entryhdr_bytes type)) as [rc f3] eqn:Eseek.
    exists f3. split; [reflexivity|].
    unfold fseek_cur, fseek_set in Eseek.
    destruct (_ <? 0); injection Eseek as _ <-; cbn [set_pos f_data]; congruence.
  - exists f2. split; [reflexivity | congruence].
Qed.

Lemma cache_get_set (c : list Z) (i v : Z) :
  0 <= i -> (Z.to_nat i < length c)%nat -> cache_get (cache_set c i v) i = v.
Proof.
  intros Hi Hlen. unfold cache_get, cache_set.
  replace (i <? 0) with false by lia.
  rewrite nth_lookup, list_lookup_insert_eq by exact Hlen. reflexivity.
Qed.

(** C5.  For an entry of [n] whole segments whose last-segment header
    carries 0 or -1 as recordwords, in a file whose bytes a whole number of
    segments before the entry's first segment do not pass for a segment
    header, the turn of the indexing loop finds the start of the entry with
    the backward scan and records the entry with its position and with
    [n * 2048] samples.  The scan itself cannot fail there: called at the
    segment header that the indexer has just validated, it returns 0
    whatever the file holds, so the indexer never takes its branch for a
    failed scan. *)
Theorem corrupted_recordwords_fallback (type : Z) (p0 : P2FILE) (curentry start n : Z) :
  let data := f_data (p_fp p0) in
  let S := segment_bytes type in
  let H := entryhdr_bytes type in
  type = 1 \/ type = 2 ->
  0 <= start -> 1 <= n < 1048576 ->
  f_pos (p_fp p0) = start + H + (n - 1) * S ->
  (forall i, 0 <= i < n -> seghdr_at type data (start + H + i * S) = true) ->
  (forall j, 1 <= j -> 0 <= start + H - j * S ->
             seghdr_at type data (start + H - j * S) = false) ->
  (get_s32 (slice (f_pos (p_fp p0)) 36 data) (hdr_off type + 30) = 0
   \/ get_s32 (slice (f_pos (p_fp p0)) 36 data) (hdr_off type + 30) = -1) ->
  enthdr_at type data start = true ->
  0 <= curentry ->
  (Z.to_nat curentry < length (entry_pos_cache p0))%nat ->
  (Z.to_nat curentry < length (entry_size_cache p0))%nat ->
  (exists p',
     index_step type p0 curentry
     = Some (if start =? 0 then IndexDone p' curentry else IndexAgain p' (curentry + 1))
     /\ cache_get (entry_pos_cache p') curentry = start
     /\ cache_get (entry_size_cache p') curentry = n * 2048)
  /\ (forall (p : P2FILE) (raw : list Z) (fp : FILE),
        0 <= f_pos (p_fp p) ->
        read_seghdr type (p_fp p) = (true, raw, fp) ->
        exists fp',
          pcmseq2_scantoentrystart (snd (fseek_cur fp (0 - 36))) type S H = Some (0, fp')).
Proof.
  cbv zeta. intros Htype Hstart Hn Hpos Hsegs Hbefore Hrw Hent Hcur Hlen1 Hlen2.
  split.
  2: { intros p raw fp Hp Hread.
       destruct (read_seghdr_at type (p_fp p) Hp) as (raw' & f' & Hread' & Hd & _ & Hok).
       rewrite Hread in Hread'. injection Hread' as Hv <- <-.
       destruct (Hok (eq_sym Hv)) as [_ Hp36].
       rewrite fseek_cur_ok by lia. cbn [snd].
       destruct (scantoentrystart_total type (set_pos fp (f_pos fp + (0 - 36)) false) Htype)
         as (fp' & Hscan & _); cbn [f_pos f_data set_pos]; [lia | |].
       - rewrite Hd, Hp36. replace (f_pos (p_fp p) + 36 + (0 - 36)) with (f_pos (p_fp p)) by lia.
         symmetry. exact Hv.
       - exists fp'. exact Hscan. }
  pose proof (scan_sizes type Htype) as Hsz.
  assert (Hv : seghdr_at type (f_data (p_fp p0)) (f_pos (p_fp p0)) = true).
  { rewrite Hpos. apply Hsegs. lia. }
  unfold index_step.
  destruct (read_seghdr_at type (p_fp p0)) as (raw & f1 & Hread & Hd1 & Hp1 & Hok1); [lia|].
  rewrite Hread, Hv. cbn [negb].
  destruct (Hok1 Hv) as [-> Hp36].
  unfold locate_entry. fold (entryhdr_bytes type).
  replace ((_ =? -1) || (_ =? 0)) with true by (destruct Hrw as [-> | ->]; reflexivity).
  rewrite fseek_cur_ok by lia. unfold ftell. cbn [snd f_pos set_pos].
  destruct (scantoentrystart_finds type (f_data (p_fp p0)) start n Htype Hstart
              ltac:(lia) Hsegs Hbefore (set_pos f1 (f_pos f1 + (0 - 36)) false))
    as (f2 & Hscan & Hd2 & Hp2); cbn [f_data f_pos set_pos]; [assumption | lia |].
  rewrite Hscan. cbn [Z.eqb]. rewrite Hp2.
  replace (f_pos f1 + (0 - 36) + segment_bytes type - start - entryhdr_bytes type)
    with (n * segment_bytes type) by lia.
  rewrite Z.quot_mul by lia.
  rewrite (wrap32s_small n) by lia. rewrite (wrap32s_small (n * 2048)) by lia.
  destruct (read_enthdr_at type f2) as (raw2 & f3 & Hread2 & Hd3 & Hp3 & Hok3); [lia|].
  rewrite Hd2, Hp2, Hent in Hread2, Hok3. rewrite Hread2. cbn [negb].
  destruct (Hok3 eq_refl) as [_ Hp56]. rewrite Hp56.
  replace (start + 56 - 56) with start by lia.
  destruct (start =? 0); eexists; (split; [reflexivity|]);
    cbn [entry_pos_cache entry_size_cache p_set_caches p_set_fp];
    split; apply cache_get_set; assumption.
Qed.

(** The second entry of [ex_disk3]: three segments from 4188 on, and a
    recordwords field of 0. *)
Lemma corrupted_recordwords_fallback_witness :
  let p0 := p_set_fp (p2file_init ex_disk3) (mkFILE ex_disk3 12510 false false) in
  (exists p',
     index_step 2 p0 1 = Some (IndexAgain p' 2)
     /\ cache_get (entry_pos_cache p') 1 = 4188
     /\ cache_get (entry_size_cache p') 1 = 3 * 2048)
  /\ (forall (p : P2FILE) (raw : list Z) (fp : FILE),
        0 <= f_pos (p_fp p) ->
        read_seghdr 2 (p_fp p) = (true, raw, fp) ->
        exists fp',
          pcmseq2_scantoentrystart (snd (fseek_cur fp (0 - 36))) 2 4134 54 = Some (0, fp')).
Proof.
  apply (corrupted_recordwords_fallback 2
           (p_set_fp (p2file_init ex_disk3) (mkFILE ex_disk3 12510 false false))
           1 4188 3).
  - right. reflexivity.
  - lia.
  - lia.
  - reflexivity.
  - intros i Hi. assert (i = 0 \/ i = 1 \/ i = 2) as [-> | [-> | ->]] by lia;
      vm_compute; reflexivity.
  - intros j Hj Hpos. assert (j = 1) as -> by (cbn in Hpos; lia). vm_compute. reflexivity.
  - left. vm_compute. reflexivity.
  - vm_compute. reflexivity.
  - lia.
  - vm_compute. lia.
  - vm_compute. lia.
Defined.

(** Opening [ex_disk3] indexes both entries, the second with 6144 samples. *)
Lemma open_ex_disk3 :
  lastentry (open_of ex_disk3) = 2
  /\ take 3 (entry_pos_cache (open_of ex_disk3)) = [-1; 0; 4188]
  /\ take 3 (entry_size_cache (open_of ex_disk3)) = [-1; 100; 6144].
Proof. vm_compute. repeat split. Qed.

(** ** Lists of bytes and of samples *)

Lemma zlen_app (a b : list Z) : zlen (a ++ b) = zlen a + zlen b.
Proof. unfold zlen. rewrite length_app. lia. Qed.

Lemma zlen_nil : zlen [] = 0.
Proof. reflexivity. Qed.

Lemma zlen_cons (x : Z) (l : list Z) : zlen (x :: l) = 1 + zlen l.
Proof. unfold zlen. cbn [length]. lia. Qed.

Lemma zlen_replicate (n : nat) (x : Z) : zlen (replicate n x) = Z.of_nat n.
Proof. unfold zlen. rewrite length_replicate. reflexivity. Qed.

Lemma zlen_take (l : list Z) (k : Z) :
  0 <= k -> zlen (take (Z.to_nat k) l) = Z.min k (zlen l).
Proof. intros H. unfold zlen. rewrite length_take. lia. Qed.

Lemma zlen_slice (off len : Z) (l : list Z) :
  0 <= off -> 0 <= len -> off + len <= zlen l -> zlen (slice off len l) = len.
Proof.
  intros Ho Hl Hb. unfold slice. rewrite zlen_take, zlen_drop by lia. lia.
Qed.

Lemma slice_0 (len : Z) (l : list Z) : slice 0 len l = take (Z.to_nat len) l.
Proof. reflexivity. Qed.

(** A slice of a slice. *)
Lemma slice_slice (a k off len : Z) (l : list Z) :
  0 <= a -> 0 <= k -> 0 <= off -> a + k <= len ->
  slice a k (slice off len l) = slice (off + a) k l.
Proof.
  intros Ha Hk Ho Hb. unfold slice.
  rewrite skipn_firstn_comm, take_take, drop_drop.
  f_equal; [lia|]. f_equal. lia.
Qed.

(** Two slices that follow one another. *)
Lemma slice_app_next (a k j : Z) (l : list Z) :
  0 <= a -> 0 <= k -> 0 <= j ->
  slice a k l ++ slice (a + k) j l = slice a (k + j) l.
Proof.
  intros Ha Hk Hj. unfold slice.
  replace (Z.to_nat (a + k)) with (Z.to_nat a + Z.to_nat k)%nat by lia.
  replace (Z.to_nat (k + j)) with (Z.to_nat k + Z.to_nat j)%nat by lia.
  rewrite <- drop_drop.
  rewrite <- (take_drop (Z.to_nat k) (drop (Z.to_nat a) l)) at 3.
  rewrite take_app_ge by (rewrite length_take; lia).
  rewrite length_take.
  destruct (Nat.le_gt_cases (Z.to_nat k) (length (drop (Z.to_nat a) l))) as [Hle|Hgt].
  - rewrite Nat.min_l by exact Hle.
    replace (Z.to_nat k + Z.to_nat j - Z.to_nat k)%nat with (Z.to_nat j) by lia.
    reflexivity.
  - rewrite (drop_ge (drop (Z.to_nat a) l)) by lia. rewrite !take_nil. reflexivity.
Qed.

(** The middle of three lists, by its place. *)
Lemma slice_middle (a b c : list Z) :
  slice (zlen a) (zlen b) (a ++ b ++ c) = b.
Proof.
  unfold slice, zlen. rewrite !Nat2Z.id.
  rewrite drop_app_length, take_app_length. reflexivity.
Qed.

Lemma slice_middle' (a b c : list Z) (off len : Z) :
  off = zlen a -> len = zlen b -> slice off len (a ++ b ++ c) = b.
Proof. intros -> ->. apply slice_middle. Qed.

Lemma drop_prefix (a b : list Z) (q : Z) :
  q = zlen a -> drop (Z.to_nat q) (a ++ b) = b.
Proof. intros ->. unfold zlen. rewrite Nat2Z.id. apply drop_app_length. Qed.

(** ** Images of samples *)

Lemma length_enc16 (v : Z) : length (enc16 v) = 2%nat.
Proof. reflexivity. Qed.

Lemma length_enc32 (v : Z) : length (enc32 v) = 4%nat.
Proof. reflexivity. Qed.

Lemma length_encs (l : list Z) : length (encs l) = (2 * length l)%nat.
Proof.
  induction l as [|s l IH]; [reflexivity|].
  cbn [encs length app enc16]. rewrite IH. lia.
Qed.

Lemma zlen_encs (l : list Z) : zlen (encs l) = 2 * zlen l.
Proof. unfold zlen. rewrite length_encs. lia. Qed.

Lemma encs_app (a b : list Z) : encs (a ++ b) = encs a ++ encs b.
Proof.
  induction a as [|s a IH]; [reflexivity|].
  cbn [encs app]. rewrite IH. reflexivity.
Qed.

Lemma encs_nonempty (l : list Z) : l <> [] -> encs l <> [].
Proof. destruct l; [contradiction | discriminate]. Qed.

Lemma take_encs (l : list Z) : forall k : nat,
  take (2 * k) (encs l) = encs (take k l).
Proof.
  induction l as [|s l IH]; intros [|k]; try reflexivity.
  replace (2 * S k)%nat with (S (S (2 * k))) by lia.
  cbn [encs take app enc16]. rewrite IH. reflexivity.
Qed.

Lemma drop_encs (l : list Z) : forall k : nat,
  drop (2 * k) (encs l) = encs (drop k l).
Proof.
  induction l as [|s l IH]; intros [|k]; try reflexivity.
  replace (2 * S k)%nat with (S (S (2 * k))) by lia.
  cbn [encs drop app enc16]. rewrite IH. reflexivity.
Qed.

Lemma slice_encs (a k : Z) (l : list Z) :
  0 <= a -> 0 <= k -> slice (2 * a) (2 * k) (encs l) = encs (slice a k l).
Proof.
  intros Ha Hk. unfold slice.
  replace (Z.to_nat (2 * a)) with (2 * Z.to_nat a)%nat by lia.
  replace (Z.to_nat (2 * k)) with (2 * Z.to_nat k)%nat by lia.
  rewrite drop_encs, take_encs. reflexivity.
Qed.

Lemma encs_replicate_0 (n : nat) : encs (replicate n 0) = replicate (2 * n) 0.
Proof.
  induction n as [|n IH]; [reflexivity|].
  replace (2 * S n)%nat with (S (S (2 * n))) by lia.
  cbn [replicate encs]. rewrite IH. reflexivity.
Qed.

(** A sample read back from its two bytes. *)
Lemma wrap16s_enc16 (s : Z) :
  is_short s -> wrap16s (s mod 256 + 256 * ((s / 256) mod 256)) = s.
Proof.
  unfold is_short, wrap16s. intros Hs.
  pose proof (Z.div_mod s 256 ltac:(lia)).
  pose proof (Z.mod_pos_bound s 256 ltac:(lia)).
  pose proof (Z.div_mod (s / 256) 256 ltac:(lia)).
  pose proof (Z.mod_pos_bound (s / 256) 256 ltac:(lia)).
  set (q := s / 256) in *. set (r := s mod 256) in *.
  set (q2 := q / 256) in *. set (r2 := q mod 256) in *.
  assert (q2 = 0 \/ q2 = -1) as [E|E] by lia.
  - replace (r + 256 * r2 + 32768) with (s + 32768) by lia.
    rewrite Z.mod_small by lia. lia.
  - replace (r + 256 * r2 + 32768) with (s + 32768 + 1 * 65536) by lia.
    rewrite Z_mod_plus_full. rewrite Z.mod_small by lia. lia.
Qed.

Lemma decs_encs (l : list Z) : Forall is_short l -> decs (encs l) = l.
Proof.
  induction 1 as [|s l Hs _ IH]; [reflexivity|].
  cbn [encs enc16 app decs]. rewrite wrap16s_enc16 by exact Hs. rewrite IH. reflexivity.
Qed.

Lemma Forall_slice (P : Z -> Prop) (off len : Z) (l : list Z) :
  Forall P l -> Forall P (slice off len l).
Proof. intros H. unfold slice. apply Forall_take, Forall_drop, H. Qed.

(** ** Stores into a buffer *)

(** A store leaves what was stored at its place. *)
Lemma overwrite_shape (l : list Z) (pos : Z) (bs : list Z) :
  0 <= pos ->
  exists pre post, overwrite l pos bs = pre ++ bs ++ post /\ zlen pre = pos.
Proof.
  intros Hpos. unfold overwrite. do 2 eexists. split.
  - rewrite (app_assoc (take _ _)). reflexivity.
  - rewrite zlen_app, zlen_replicate. unfold zlen. rewrite length_take. lia.
Qed.

(** A store at the end appends. *)
Lemma overwrite_end (l bs : list Z) : overwrite l (zlen l) bs = l ++ bs.
Proof.
  unfold overwrite, zlen. rewrite Nat2Z.id.
  rewrite take_ge by lia. rewrite Nat.sub_diag. cbn [replicate app].
  rewrite drop_ge by lia. rewrite app_nil_r. reflexivity.
Qed.

(** A store of as many bytes as it replaces, in the middle. *)
Lemma overwrite_middle (a old new c : list Z) (pos : Z) :
  pos = zlen a -> length old = length new ->
  overwrite (a ++ old ++ c) pos new = a ++ new ++ c.
Proof.
  intros -> Hlen. unfold overwrite, zlen. rewrite Nat2Z.id.
  rewrite take_app_length.
  replace (length a - length (a ++ old ++ c))%nat with 0%nat
    by (rewrite length_app; lia).
  cbn [replicate app].
  rewrite drop_app_ge by lia.
  replace (length a + length new - length a)%nat with (length old) by lia.
  rewrite drop_app_length. reflexivity.
Qed.

(** The output buffer after a copy behind what was copied before. *)
Lemma overwrite_next (done new rest : list Z) (g : Z) :
  g = zlen done ->
  overwrite (done ++ drop (Z.to_nat g) rest) g new
  = (done ++ new) ++ drop (Z.to_nat (g + zlen new)) rest.
Proof.
  intros ->. unfold overwrite, zlen. rewrite !Nat2Z.id.
  rewrite take_app_length.
  replace (length done - length (done ++ drop (length done) rest))%nat with 0%nat
    by (rewrite length_app; lia).
  cbn [replicate app].
  rewrite drop_app_ge by lia.
  replace (length done + length new - length done)%nat with (length new) by lia.
  rewrite drop_drop. rewrite <- app_assoc.
  replace (Z.to_nat (Z.of_nat (length done) + Z.of_nat (length new)))
    with (length done + length new)%nat by lia.
  reflexivity.
Qed.

(** ** Appending to a stream *)

Lemma appended_nil (fd : FILE) : appended fd [] = fd.
Proof.
  destruct fd. unfold appended. cbn. rewrite app_nil_r, Z.add_0_r. reflexivity.
Qed.

Lemma appended_app (fd : FILE) (a b : list Z) :
  appended (appended fd a) b = appended fd (a ++ b).
Proof.
  unfold appended. cbn. rewrite zlen_app, app_assoc, Z.add_assoc. reflexivity.
Qed.

Lemma at_end_appended (fd : FILE) (bs : list Z) : at_end fd -> at_end (appended fd bs).
Proof.
  unfold at_end. intros Hpos. cbn. rewrite zlen_app. lia.
Qed.

Lemma fwrite_at_end (fd : FILE) (bs : list Z) :
  at_end fd -> bs <> [] -> fwrite bs fd = (1, appended fd bs).
Proof.
  unfold at_end. intros Hpos Hbs. unfold fwrite. destruct bs as [|b bs]; [contradiction|].
  unfold appended. rewrite Hpos, overwrite_end. reflexivity.
Qed.

Lemma put_at_end (rc : Z) (fd : FILE) (bs : list Z) :
  at_end fd -> bs <> [] -> put rc fd bs = (rc, appended fd bs).
Proof.
  intros Hend Hbs. unfold put. rewrite fwrite_at_end by assumption.
  cbn [Z.eqb Pos.eqb]. rewrite Z.lor_0_r. reflexivity.
Qed.

Lemma put_bytes_unchecked_at_end (bs : list Z) : forall fd : FILE,
  at_end fd -> put_bytes_unchecked fd bs = appended fd bs.
Proof.
  induction bs as [|b bs IH]; intros fd Hend; cbn [put_bytes_unchecked].
  - symmetry. apply appended_nil.
  - rewrite fwrite_at_end by (assumption || discriminate). cbn [snd].
    rewrite IH by (apply at_end_appended; exact Hend).
    apply appended_app.
Qed.

(** ** The keys *)

Lemma length_overwrite_ge (l : list Z) (pos : Z) (bs : list Z) :
  (length l <= length (overwrite l pos bs))%nat.
Proof.
  unfold overwrite. rewrite !length_app, length_take, length_replicate, length_drop. lia.
Qed.

Lemma take2_overwrite (l : list Z) (pos : Z) (bs : list Z) :
  2 <= pos -> (2 <= length l)%nat -> take 2 (overwrite l pos bs) = take 2 l.
Proof.
  intros Hpos Hlen. unfold overwrite.
  rewrite take_app_le by (rewrite length_take; lia).
  rewrite take_take. f_equal. lia.
Qed.

(** The init_key is [" 2"] and 26 more bytes; the match key differs from
    it in its second byte, ['3']. *)
Lemma init_key_shape (name : list Z) (entry : Z) :
  exists ktail,
    length ktail = 26%nat
    /\ take 28 (init_key name entry) = 32 :: 50 :: ktail
    /\ take 28 (<[1%nat := 51]> (init_key name entry)) = 32 :: 51 :: ktail.
Proof.
  assert (Hkey : (29 <= length (init_key name entry))%nat
                 /\ take 2 (init_key name entry) = [32; 50]).
  { unfold init_key, strcat.
    set (k1 := strcpy (strcpy (replicate 29 0) (replicate 28 32)) [32; 50]).
    assert (Hk1 : (29 <= length k1)%nat /\ take 2 k1 = [32; 50] /\ strlen k1 = 2%nat)
      by (vm_compute; repeat split; lia).
    destruct Hk1 as (Hl1 & Ht1 & ->). clearbody k1.
    set (basename := take 7 (take (strlen name) name)).
    set (k2 := overwrite k1 (Z.of_nat 2) (basename ++ [0])).
    assert (Hk2 : (29 <= length k2)%nat /\ take 2 k2 = [32; 50]).
    { split.
      - etransitivity; [exact Hl1 | apply length_overwrite_ge].
      - unfold k2. rewrite take2_overwrite by lia. exact Ht1. }
    destruct Hk2 as [Hl2 Ht2]. clearbody k2.
    split.
    - etransitivity; [|apply length_overwrite_ge]. rewrite length_insert. exact Hl2.
    - rewrite take2_overwrite by (rewrite ?length_insert; lia).
      rewrite take_insert_ge by lia. exact Ht2. }
  destruct Hkey as [Hlen Htake].
  destruct (init_key name entry) as [|a [|b rest]]; cbn [length] in Hlen; try lia.
  cbn [take] in Htake. injection Htake as -> ->.
  exists (take 26 rest). split; [rewrite length_take; lia|].
  split; reflexivity.
Qed.

(** ** The entry header *)

Lemma write_hdr_image curtime (fp : PCMFILE) (fd : FILE) :
  outfp fp = Some fd -> at_end fd -> f_err fd = false -> f_eof fd = false ->
  pcmseq2_write_hdr curtime fp
  = (0, set_writer fp 0 (<[1%nat := 51]> (init_key (name fp) (entry fp))) 2048
          (pcmseq3_poscache fp)
          (appended fd (enthdr_image (take 28 (init_key (name fp) (entry fp)))
                          (hdr_lltime curtime fp) (samplerate fp)))).
Proof.
  intros Hfd Hend Herr Heof. unfold pcmseq2_write_hdr. rewrite Hfd.
  destruct (init_key_shape (name fp) (entry fp)) as (ktail & Hlen & Hkey & _).
  unfold putshort, putchars, putlong.
  change (Z.to_nat 28) with 28%nat. rewrite Hkey.
  rewrite put_at_end by (assumption || discriminate).
  rewrite put_at_end by (try apply at_end_appended; assumption || discriminate).
  rewrite put_bytes_unchecked_at_end by (repeat apply at_end_appended; assumption).
  fold (hdr_lltime curtime fp).
  repeat (rewrite put_at_end
            by (repeat apply at_end_appended; assumption || discriminate)).
  rewrite !appended_app.
  unfold feof, ferror. cbn [f_eof f_err appended]. rewrite Herr, Heof.
  cbn [Z.eqb negb orb]. unfold enthdr_image. reflexivity.
Qed.

(** ** What the writer emits *)

Lemma cs_after_range (c k : Z) :
  0 <= c <= 2048 -> 0 <= cs_after c k <= 2048
  /\ (0 < k -> cs_after c k < 2048).
Proof.
  intros Hc. unfold cs_after. destruct (Z.eqb_spec k 0).
  - lia.
  - pose proof (Z.mod_pos_bound (c + k) 2048 ltac:(lia)). lia.
Qed.

Lemma mod_2048_eq (a b : Z) (q : Z) : a = b + q * 2048 -> a mod 2048 = b mod 2048.
Proof. intros ->. apply Z_mod_plus_full. Qed.

(** The position after one sample and [k] more. *)
Lemma cs_after_step (c k : Z) :
  0 <= c <= 2048 -> 0 <= k ->
  let c1 := (if c =? 2048 then 0 else c) + 1 in
  cs_after (if c1 =? 2048 then 0 else c1) k = cs_after c (1 + k).
Proof.
  intros Hc Hk. cbv zeta. unfold cs_after.
  replace (1 + k =? 0) with false by lia.
  destruct (Z.eqb_spec c 2048) as [->|Hne].
  - change (0 + 1 =? 2048) with false. cbv iota.
    destruct (Z.eqb_spec k 0) as [->|Hk0].
    + reflexivity.
    + apply (mod_2048_eq _ _ (-1)). lia.
  - destruct (Z.eqb_spec (c + 1) 2048) as [E|E].
    + destruct (Z.eqb_spec k 0) as [->|Hk0].
      * replace (c + (1 + 0)) with 2048 by lia. reflexivity.
      * apply (mod_2048_eq _ _ (-1)). lia.
    + destruct (Z.eqb_spec k 0) as [->|Hk0].
      * rewrite Z.mod_small by lia. lia.
      * f_equal. lia.
Qed.

Lemma cs_after_add (c j k : Z) :
  0 <= c <= 2048 -> 0 <= j -> 0 <= k ->
  cs_after (cs_after c j) k = cs_after c (j + k).
Proof.
  intros Hc Hj Hk. unfold cs_after.
  destruct (Z.eqb_spec j 0) as [->|Hj0]; [reflexivity|].
  destruct (Z.eqb_spec k 0) as [->|Hk0].
  - replace (j + 0 =? 0) with false by lia. f_equal. lia.
  - replace (j + k =? 0) with false by lia.
    rewrite Zplus_mod_idemp_l. f_equal. lia.
Qed.

Lemma emit_app (mkey : list Z) (a b : list Z) : forall c,
  0 <= c <= 2048 ->
  emit mkey c (a ++ b) = emit mkey c a ++ emit mkey (cs_after c (zlen a)) b.
Proof.
  induction a as [|x a IH]; intros c Hc.
  - reflexivity.
  - cbn [app emit]. rewrite IH.
    2: { destruct (Z.eqb_spec c 2048);
         match goal with |- context [?a =? 2048] => destruct (Z.eqb_spec a 2048) end;
         lia. }
    rewrite cs_after_step by (unfold zlen; lia).
    rewrite zlen_cons. rewrite <- !app_assoc. reflexivity.
Qed.

(** Samples that stay within a sub-block go out as they are, followed by
    the marker of the position they reach. *)
Lemma emit_run (mkey : list Z) (a : list Z) : forall c,
  0 <= c < 2048 -> a <> [] ->
  (c < 1005 /\ c + zlen a <= 1005
   \/ 1005 <= c /\ c + zlen a <= 2026
   \/ 2026 <= c /\ c + zlen a <= 2048) ->
  emit mkey c a = encs a ++ marker mkey (c + zlen a).
Proof.
  induction a as [|x a IH]; intros c Hc Hne Hrun; [contradiction|].
  cbn [emit encs]. replace (c =? 2048) with false by lia. cbn [app].
  rewrite zlen_cons in *. rewrite <- app_assoc. f_equal.
  destruct a as [|y a].
  - cbn [emit encs app]. rewrite zlen_nil, app_nil_r. f_equal; lia.
  - pose proof (zlen_nonneg a). rewrite zlen_cons in Hrun.
    replace (c + 1 =? 2048) with false by lia.
    rewrite IH; [| lia | discriminate | rewrite zlen_cons; lia].
    replace (marker mkey (c + 1)) with (@nil Z).
    + cbn [app]. do 2 f_equal. lia.
    + unfold marker.
      replace (c + 1 =? 1005) with false by lia.
      replace (c + 1 =? 2026) with false by lia.
      replace (c + 1 =? 2048) with false by lia. reflexivity.
Qed.

(** From the position behind the entry header the first segment header
    comes first. *)
Lemma emit_first (mkey : list Z) (a : list Z) :
  a <> [] -> emit mkey 2048 a = seghdr_image mkey 0 ++ emit mkey 0 a.
Proof. destruct a; [contradiction | reflexivity]. Qed.

(** ** The loop of [pcmseq2_write_data] on the samples of an open entry *)

Lemma take_nonempty (l : list Z) (k : Z) :
  0 < k -> k <= zlen l -> take (Z.to_nat k) l <> [].
Proof.
  intros Hk Hl E. apply (f_equal length) in E. rewrite length_take in E.
  unfold zlen in Hl. cbn in E. lia.
Qed.

Lemma zlen_take_le (l : list Z) (k : Z) :
  0 <= k -> k <= zlen l -> zlen (take (Z.to_nat k) l) = k.
Proof. intros. rewrite zlen_take by lia. lia. Qed.

Lemma zlen_drop_le (l : list Z) (k : Z) :
  0 <= k -> k <= zlen l -> zlen (drop (Z.to_nat k) l) = zlen l - k.
Proof. intros. rewrite zlen_drop by lia. lia. Qed.

Lemma length_drop_lt (l : list Z) (k : Z) :
  0 < k -> l <> [] -> (length (drop (Z.to_nat k) l) < length l)%nat.
Proof.
  intros Hk Hl. rewrite length_drop. destruct l; [contradiction|]. cbn [length]. lia.
Qed.

Lemma encs_zeros_nonempty (k : Z) : 0 < k -> encs (replicate (Z.to_nat k) 0) <> [].
Proof.
  intros Hk. apply encs_nonempty. destruct (Z.to_nat k) eqn:E; [lia | discriminate].
Qed.

Ltac wdata_split :=
  unfold wdata_ok;
  cbn [w_rc w_fd w_ptr w_nsamples w_cursamp w_state w_recordwords w_poscache];
  split; [| split; [try apply at_end_appended; try assumption
                   | split; [| split; [| split; [| split]]]]];
  cbn [appended f_data f_pos].

Section WriteLoop.

Variables (k29 : list Z) (es : Z).
Let mkey := take 28 k29.
Hypothesis Hmkey : length mkey = 28%nat.

Lemma zlen_seghdr (rw : Z) : zlen (seghdr_image mkey rw) = 34.
Proof.
  unfold seghdr_image, zlen. rewrite !length_app, Hmkey. reflexivity.
Qed.

Lemma mkey_nonempty : take (Z.to_nat 28) k29 <> [].
Proof.
  change (Z.to_nat 28) with 28%nat. fold mkey. intros E. rewrite E in Hmkey. discriminate.
Qed.

(** The cases of the [switch] for the first and the middle sub-block. *)
Lemma fill_block_data (lo bound ctl : Z) (here next : segstate) (w : wloop) :
  (lo = 0 /\ bound = 1005 /\ ctl = 0 /\ here = FIRSTSEG /\ next = MIDDLESEG)
  \/ (lo = 1005 /\ bound = 2026 /\ ctl = 2 /\ here = MIDDLESEG /\ next = LASTSEG) ->
  wdata_ok w -> w_ptr w <> [] -> lo <= w_cursamp w < bound ->
  let w1 := fill_block bound ctl here next w in
  wdata_ok w1 /\ w_cursamp w1 < 2048
  /\ exists X,
       w_fd w1 = appended (w_fd w) X
       /\ emit mkey (w_cursamp w) (w_ptr w) = X ++ emit mkey (w_cursamp w1) (w_ptr w1)
       /\ cs_after (w_cursamp w) (zlen (w_ptr w))
          = cs_after (w_cursamp w1) (zlen (w_ptr w1))
       /\ (length (w_ptr w1) < length (w_ptr w))%nat.
Proof.
  intros Hcase (Hrc & Hend & Hns & Hc & Hst & Hrw & Hpc) Hne Hlo. cbv zeta.
  assert (Hpos : 0 < zlen (w_ptr w))
    by (unfold zlen; destruct (w_ptr w); [contradiction | cbn [length]; lia]).
  assert (Hpc' : w_poscache w = zlen (f_data (w_fd w)) - within (w_cursamp w) + 30)
    by (destruct Hpc; [lia | assumption]).
  assert (Hmark : marker mkey bound = enc16 ctl)
    by (destruct Hcase as [(_ & -> & -> & _) | (_ & -> & -> & _)]; reflexivity).
  assert (Hnext : next = state_of_cursamp bound)
    by (destruct Hcase as [(_ & -> & _ & _ & ->) | (_ & -> & _ & _ & ->)]; reflexivity).
  assert (Hhere : forall c', lo <= c' < bound -> here = state_of_cursamp c').
  { intros c' Hc'. symmetry.
    destruct Hcase as [(-> & -> & _ & -> & _) | (-> & -> & _ & -> & _)];
      apply state_of_cursamp_spec; lia. }
  assert (Hrun : forall a, a <> [] -> w_cursamp w + zlen a <= bound ->
                   emit mkey (w_cursamp w) a = encs a ++ marker mkey (w_cursamp w + zlen a)).
  { intros a Ha Hle. apply emit_run; [lia | exact Ha |].
    destruct Hcase as [(-> & -> & _) | (-> & -> & _)]; lia. }
  assert (Hbounds : 0 <= lo /\ bound < 2048)
    by (destruct Hcase as [(-> & -> & _) | (-> & -> & _)]; lia).
  assert (Hwithin : forall c', lo <= c' <= bound ->
            within c' - within (w_cursamp w)
            = 2 * (c' - w_cursamp w) + (if c' =? bound then 2 else 0)).
  { intros c' Hc'. unfold within.
    destruct Hcase as [(-> & -> & _) | (-> & -> & _)];
      repeat match goal with
             | |- context [?a =? ?b] => destruct (Z.eqb_spec a b)
             | |- context [?a <=? ?b] => destruct (Z.leb_spec a b)
             end; lia. }
  unfold fill_block. rewrite Hns, Hrc. unfold putdata, putshort.
  destruct (Z.geb_spec (zlen (w_ptr w)) (bound - w_cursamp w)) as [Hfull|Hpart].
  - (* the sub-block is completed *)
    set (togo := bound - w_cursamp w) in *.
    rewrite put_at_end
      by (try apply encs_nonempty; try apply take_nonempty; assumption || lia).
    rewrite put_at_end by (try apply at_end_appended; assumption || discriminate).
    rewrite appended_app.
    split; [|split; [cbn; lia|]].
    + wdata_split; try lia; try tauto.
      * rewrite zlen_drop_le by lia. reflexivity.
      * right. rewrite zlen_app, zlen_app, zlen_encs, zlen_take_le by lia.
        specialize (Hwithin bound ltac:(lia)). rewrite Z.eqb_refl in Hwithin.
        change (zlen (enc16 ctl)) with 2. lia.
    + eexists. split; [reflexivity|].
      cbn [w_ptr w_cursamp].
      assert (Hcs : cs_after (w_cursamp w) togo = bound).
      { unfold cs_after. replace (togo =? 0) with false by lia.
        replace (w_cursamp w + togo) with bound by (unfold togo; lia).
        apply Z.mod_small. lia. }
      split; [|split].
      * rewrite <- (take_drop (Z.to_nat togo) (w_ptr w)) at 1.
        rewrite emit_app by lia.
        rewrite Hrun by (try apply take_nonempty; rewrite ?zlen_take_le; lia).
        rewrite zlen_take_le by lia.
        replace (w_cursamp w + togo) with bound by (unfold togo; lia).
        rewrite Hcs, Hmark, <- app_assoc. reflexivity.
      * rewrite <- Hcs, cs_after_add by (rewrite ?zlen_drop_le; lia).
        rewrite zlen_drop_le by lia. f_equal. lia.
      * apply length_drop_lt; [lia | exact Hne].
  - (* the samples run out inside the sub-block *)
    rewrite put_at_end
      by (try apply encs_nonempty; try apply take_nonempty; assumption || lia).
    rewrite take_ge by (unfold zlen; lia).
    rewrite drop_ge by (unfold zlen; lia).
    split; [|split; [cbn; lia|]].
    + wdata_split; try lia; try tauto.
      * apply Hhere. lia.
      * right. rewrite zlen_app, zlen_encs.
        specialize (Hwithin (w_cursamp w + zlen (w_ptr w)) ltac:(lia)).
        replace (w_cursamp w + zlen (w_ptr w) =? bound) with false in Hwithin by lia.
        lia.
    + eexists. split; [reflexivity|].
      cbn [w_ptr w_cursamp emit]. rewrite app_nil_r.
      rewrite Hrun by (assumption || lia).
      replace (marker mkey (w_cursamp w + zlen (w_ptr w))) with (@nil Z).
      * rewrite app_nil_r. split; [reflexivity|]. split.
        -- unfold cs_after. rewrite zlen_nil. cbn [Z.eqb].
           replace (zlen (w_ptr w) =? 0) with false by lia.
           apply Z.mod_small. lia.
        -- cbn [length]. destruct (w_ptr w); [contradiction | cbn [length]; lia].
      * unfold marker.
        destruct Hcase as [(-> & -> & _) | (-> & -> & _)];
          repeat match goal with |- context [?a =? ?b] => destruct (Z.eqb_spec a b) end;
          try reflexivity; lia.
Qed.

(** The case of the last sub-block, which ends with the header of the next
    segment. *)
Lemma last_block_data (w : wloop) :
  wdata_ok w -> w_ptr w <> [] -> 2026 <= w_cursamp w ->
  let w1 := write_switch k29 es 0 w in
  wdata_ok w1 /\ w_cursamp w1 < 2048
  /\ exists X,
       w_fd w1 = appended (w_fd w) X
       /\ emit mkey (w_cursamp w) (w_ptr w) = X ++ emit mkey (w_cursamp w1) (w_ptr w1)
       /\ cs_after (w_cursamp w) (zlen (w_ptr w))
          = cs_after (w_cursamp w1) (zlen (w_ptr w1))
       /\ (length (w_ptr w1) < length (w_ptr w) + (if (w_cursamp w =? 2048)%Z then 1 else 0))%nat.
Proof.
  intros (Hrc & Hend & Hns & Hc & Hst & Hrw & Hpc) Hne Hlo. cbv zeta.
  assert (Hpos : 0 < zlen (w_ptr w))
    by (unfold zlen; destruct (w_ptr w); [contradiction | cbn [length]; lia]).
  unfold write_switch. rewrite Hst.
  replace (state_of_cursamp (w_cursamp w)) with LASTSEG
    by (symmetry; apply state_of_cursamp_spec; lia).
  rewrite Hns, Hrc, Hrw. change (0 =? 0) with true. cbn [orb negb andb].
  unfold putdata, putshort, putchars, putlong, ftell.
  destruct (Z.geb_spec (zlen (w_ptr w)) (2048 - w_cursamp w)) as [Hfull|Hpart].
  - destruct (Z.gtb_spec (2048 - w_cursamp w) 0) as [Htogo|Htogo].
    + (* the segment is completed *)
      set (togo := 2048 - w_cursamp w) in *.
      rewrite put_at_end
        by (try apply encs_nonempty; try apply take_nonempty; assumption || lia).
      rewrite put_at_end by (try apply at_end_appended; assumption || discriminate).
      rewrite put_at_end by (repeat apply at_end_appended; assumption || apply mkey_nonempty).
      rewrite put_at_end by (repeat apply at_end_appended; assumption || discriminate).
      rewrite !appended_app.
      assert (Hcs : cs_after (w_cursamp w) togo = 0).
      { unfold cs_after. replace (togo =? 0) with false by lia.
        replace (w_cursamp w + togo) with 2048 by (unfold togo; lia). reflexivity. }
      split; [|split; [cbn; lia|]].
      * wdata_split; try lia; try tauto.
        -- rewrite zlen_drop_le by lia. reflexivity.
        -- right. pose proof Hend as Hp. unfold at_end in Hp. rewrite Hp.
           change (Z.to_nat 28) with 28%nat. fold mkey.
           rewrite !zlen_app, zlen_encs, zlen_take_le by lia.
           change (zlen (enc16 1)) with 2. change (zlen (enc32 0)) with 4.
           change (within 0) with 34. lia.
      * eexists. split; [reflexivity|].
        cbn [w_ptr w_cursamp]. split; [|split].
        -- rewrite <- (take_drop (Z.to_nat togo) (w_ptr w)) at 1.
           rewrite emit_app by lia.
           rewrite emit_run by (try apply take_nonempty; rewrite ?zlen_take_le; lia).
           rewrite zlen_take_le by lia.
           replace (w_cursamp w + togo) with 2048 by (unfold togo; lia).
           rewrite Hcs.
           change (marker mkey 2048) with (enc16 1 ++ take (Z.to_nat 28) k29 ++ enc32 0).
           rewrite <- !app_assoc. reflexivity.
        -- rewrite <- Hcs, cs_after_add by (rewrite ?zlen_drop_le; lia).
           rewrite zlen_drop_le by lia. f_equal. lia.
        -- pose proof (length_drop_lt (w_ptr w) togo ltac:(lia) Hne). lia.
    + (* a segment begins *)
      assert (Hc2 : w_cursamp w = 2048) by lia.
      rewrite put_at_end by (assumption || discriminate).
      rewrite put_at_end by (repeat apply at_end_appended; assumption || apply mkey_nonempty).
      rewrite put_at_end by (repeat apply at_end_appended; assumption || discriminate).
      rewrite !appended_app.
      split; [|split; [cbn; lia|]].
      * wdata_split; try lia; try tauto.
        right. pose proof Hend as Hp. unfold at_end in Hp. rewrite Hp.
        change (Z.to_nat 28) with 28%nat. fold mkey.
        rewrite !zlen_app.
        change (zlen (enc16 1)) with 2. change (zlen (enc32 0)) with 4.
        change (within 0) with 34. lia.
      * eexists. split; [reflexivity|].
        cbn [w_ptr w_cursamp]. rewrite Hc2. split; [|split].
        -- rewrite emit_first by exact Hne. reflexivity.
        -- unfold cs_after. replace (zlen (w_ptr w) =? 0) with false by lia.
           rewrite <- (Z.add_mod_idemp_l 2048) by lia. reflexivity.
        -- cbn. lia.
  - (* the samples run out inside the sub-block *)
    rewrite put_at_end
      by (try apply encs_nonempty; try apply take_nonempty; assumption || lia).
    rewrite take_ge by (unfold zlen; lia).
    rewrite drop_ge by (unfold zlen; lia).
    assert (Hpc' : w_poscache w = zlen (f_data (w_fd w)) - within (w_cursamp w) + 30)
      by (destruct Hpc; [lia | assumption]).
    split; [|split; [cbn; lia|]].
    + wdata_split; try lia; try tauto.
      * symmetry. apply state_of_cursamp_spec. lia.
      * right. rewrite zlen_app, zlen_encs. rewrite Hpc'. unfold within.
        repeat match goal with |- context [?a <=? ?b] => destruct (Z.leb_spec a b) end; lia.
    + eexists. split; [reflexivity|].
      cbn [w_ptr w_cursamp emit]. rewrite app_nil_r.
      rewrite emit_run by (assumption || lia).
      replace (marker mkey (w_cursamp w + zlen (w_ptr w))) with (@nil Z).
      * rewrite app_nil_r. split; [reflexivity|]. split.
        -- unfold cs_after. rewrite zlen_nil. cbn [Z.eqb].
           replace (zlen (w_ptr w) =? 0) with false by lia.
           apply Z.mod_small. lia.
        -- cbn [length]. destruct (w_ptr w); [contradiction | cbn [length]; lia].
      * unfold marker.
        repeat match goal with |- context [?a =? ?b] => destruct (Z.eqb_spec a b) end;
          try reflexivity; lia.
Qed.

Lemma pad_entry_open (w : wloop) : pad_entry 0 w = w.
Proof. reflexivity. Qed.

(** One turn of the loop while the entry stays open. *)
Lemma write_step_data (w : wloop) :
  wdata_ok w -> w_ptr w <> [] ->
  let w1 := write_step k29 es 0 w in
  wdata_ok w1 /\ w_cursamp w1 < 2048
  /\ exists X,
       w_fd w1 = appended (w_fd w) X
       /\ emit mkey (w_cursamp w) (w_ptr w) = X ++ emit mkey (w_cursamp w1) (w_ptr w1)
       /\ cs_after (w_cursamp w) (zlen (w_ptr w))
          = cs_after (w_cursamp w1) (zlen (w_ptr w1))
       /\ (length (w_ptr w1) < length (w_ptr w) + (if (w_cursamp w =? 2048)%Z then 1 else 0))%nat.
Proof.
  intros Hok Hne. unfold write_step. rewrite pad_entry_open.
  pose proof Hok as (_ & _ & _ & Hc & Hst & _).
  pose proof (state_of_cursamp_inv (w_cursamp w)) as Hinv.
  destruct (state_of_cursamp (w_cursamp w)) eqn:E.
  - unfold write_switch. rewrite Hst.
    destruct (fill_block_data 0 1005 0 FIRSTSEG MIDDLESEG w) as (H1 & H2 & X & H3 & H4 & H5 & H6);
      [left; tauto | assumption | assumption | lia |].
    split; [exact H1|]. split; [exact H2|]. exists X. repeat split; try assumption. lia.
  - unfold write_switch. rewrite Hst.
    destruct (fill_block_data 1005 2026 2 MIDDLESEG LASTSEG w) as (H1 & H2 & X & H3 & H4 & H5 & H6);
      [right; tauto | assumption | assumption | lia |].
    split; [exact H1|]. split; [exact H2|]. exists X. repeat split; try assumption. lia.
  - apply last_block_data; assumption.
Qed.

(** The loop on the samples of one call with [lastsegment] 0: it ends, and
    has appended the samples with the control words and segment headers that
    fall between them. *)
Lemma write_loop_data : forall (fuel : nat) (w : wloop),
  wdata_ok w ->
  (length (w_ptr w) + (if (w_cursamp w =? 2048)%Z then 1 else 0) < fuel)%nat ->
  exists w',
    write_loop fuel k29 es 0 w = Some w'
    /\ wdata_ok w' /\ w_ptr w' = []
    /\ w_fd w' = appended (w_fd w) (emit mkey (w_cursamp w) (w_ptr w))
    /\ w_cursamp w' = cs_after (w_cursamp w) (zlen (w_ptr w)).
Proof.
  induction fuel as [|fuel IH]; intros w Hok Hfuel; [lia|].
  pose proof Hok as (_ & _ & Hns & _).
  destruct (w_ptr w) as [|x l] eqn:Eptr.
  - exists w. cbn [write_loop]. rewrite Hns, Eptr. cbn.
    rewrite appended_nil.
    split; [reflexivity|]. split; [exact Hok|]. split; [reflexivity|]. split; reflexivity.
  - assert (Hne : w_ptr w <> []) by (rewrite Eptr; discriminate).
    destruct (write_step_data w Hok Hne) as (Hok1 & Hc1 & X & Hfd & Hemit & Hcs & Hlen).
    destruct (IH (write_step k29 es 0 w) Hok1) as (w' & Hrun & Hok' & Hptr' & Hfd' & Hc').
    { replace (w_cursamp (write_step k29 es 0 w) =? 2048) with false by lia.
      rewrite Eptr in Hlen. cbn [length] in *. lia. }
    exists w'. cbn [write_loop]. rewrite Hns.
    replace (zlen (x :: l) >? 0) with true by (rewrite zlen_cons; pose proof (zlen_nonneg l); lia).
    rewrite <- Eptr. split; [exact Hrun|]. split; [exact Hok'|]. split; [exact Hptr'|]. split.
    + rewrite Hfd', Hfd, appended_app, Hemit. reflexivity.
    + rewrite Hc', Hcs. reflexivity.
Qed.

(** *** The closing call: zeros up to the end of the segment *)

Lemma close_last (fd : FILE) (c n rw pc : Z) (m fuel : nat) :
  at_end fd -> 2026 <= c < 2048 -> n = 2048 - c -> n <= Z.of_nat m -> (1 <= fuel)%nat ->
  exists ptr',
    write_loop fuel k29 es 1 (mkWloop 0 fd (replicate m 0) n c LASTSEG rw pc)
    = Some (mkWloop 0 (appended fd (encs (replicate (Z.to_nat (2048 - c)) 0)))
              ptr' 0 0 FIRSTSEG rw pc).
Proof.
  intros Hend Hc -> Hm Hfuel. destruct fuel as [|fuel]; [lia|].
  eexists. cbn [write_loop w_nsamples].
  replace (2048 - c >? 0) with true by lia.
  unfold write_step, write_switch.
  cbn [w_state w_nsamples w_cursamp w_rc w_fd w_ptr w_recordwords w_poscache].
  replace (2048 - c >=? 2048 - c) with true by lia.
  replace (2048 - c >? 0) with true by lia.
  unfold putdata. rewrite take_replicate.
  replace (Z.to_nat (2048 - c) `min` m)%nat with (Z.to_nat (2048 - c)) by lia.
  rewrite put_at_end by (try apply encs_zeros_nonempty; assumption || lia).
  rewrite Z.sub_diag. cbn [Z.eqb Z.gtb Z.compare orb].
  unfold pad_entry.
  cbn [w_state w_nsamples w_cursamp w_rc w_fd w_ptr w_recordwords w_poscache
       Z.eqb Z.gtb Z.compare negb andb].
  destruct fuel; reflexivity.
Qed.

Lemma close_middle (fd : FILE) (c n rw pc : Z) (m fuel : nat) :
  at_end fd -> 1005 <= c < 2026 -> n = 2048 - c -> n <= Z.of_nat m -> (2 <= fuel)%nat ->
  exists ptr',
    write_loop fuel k29 es 1 (mkWloop 0 fd (replicate m 0) n c MIDDLESEG rw pc)
    = Some (mkWloop 0
              (appended fd (encs (replicate (Z.to_nat (2026 - c)) 0) ++ enc16 2
                            ++ encs (replicate 22 0)))
              ptr' 0 0 FIRSTSEG rw pc).
Proof.
  intros Hend Hc -> Hm Hfuel. destruct fuel as [|fuel]; [lia|].
  cbn [write_loop w_nsamples].
  replace (2048 - c >? 0) with true by lia.
  unfold write_step, write_switch, fill_block.
  cbn [w_state w_nsamples w_cursamp w_rc w_fd w_ptr w_recordwords w_poscache].
  replace (2048 - c >=? 2026 - c) with true by lia.
  unfold putdata, putshort. rewrite take_replicate, drop_replicate.
  replace (Z.to_nat (2026 - c) `min` m)%nat with (Z.to_nat (2026 - c)) by lia.
  rewrite put_at_end by (try apply encs_zeros_nonempty; assumption || lia).
  rewrite put_at_end by (try apply at_end_appended; assumption || discriminate).
  rewrite appended_app.
  unfold pad_entry.
  cbn [w_state w_nsamples w_cursamp w_rc w_fd w_ptr w_recordwords w_poscache].
  replace (2048 - c - (2026 - c)) with 22 by lia.
  cbn [Z.eqb negb andb].
  destruct (close_last (appended fd (encs (replicate (Z.to_nat (2026 - c)) 0) ++ enc16 2))
              2026 22 rw pc (m - Z.to_nat (2026 - c)) fuel) as [ptr' Hrun];
    [apply at_end_appended; exact Hend | lia | lia | lia | lia |].
  exists ptr'. rewrite Hrun, appended_app, <- app_assoc. reflexivity.
Qed.

Lemma close_first (fd : FILE) (c n rw pc : Z) (m fuel : nat) :
  at_end fd -> 0 <= c < 1005 -> n = 2048 - c -> n <= Z.of_nat m -> (3 <= fuel)%nat ->
  exists ptr',
    write_loop fuel k29 es 1 (mkWloop 0 fd (replicate m 0) n c FIRSTSEG rw pc)
    = Some (mkWloop 0
              (appended fd (encs (replicate (Z.to_nat (1005 - c)) 0) ++ enc16 0
                            ++ encs (replicate 1021 0) ++ enc16 2
                            ++ encs (replicate 22 0)))
              ptr' 0 0 FIRSTSEG rw pc).
Proof.
  intros Hend Hc -> Hm Hfuel. destruct fuel as [|fuel]; [lia|].
  cbn [write_loop w_nsamples].
  replace (2048 - c >? 0) with true by lia.
  unfold write_step, write_switch, fill_block.
  cbn [w_state w_nsamples w_cursamp w_rc w_fd w_ptr w_recordwords w_poscache].
  replace (2048 - c >=? 1005 - c) with true by lia.
  unfold putdata, putshort. rewrite take_replicate, drop_replicate.
  replace (Z.to_nat (1005 - c) `min` m)%nat with (Z.to_nat (1005 - c)) by lia.
  rewrite put_at_end by (try apply encs_zeros_nonempty; assumption || lia).
  rewrite put_at_end by (try apply at_end_appended; assumption || discriminate).
  rewrite appended_app.
  unfold pad_entry.
  cbn [w_state w_nsamples w_cursamp w_rc w_fd w_ptr w_recordwords w_poscache].
  replace (2048 - c - (1005 - c)) with 1043 by lia.
  cbn [Z.eqb negb andb].
  destruct (close_middle (appended fd (encs (replicate (Z.to_nat (1005 - c)) 0) ++ enc16 0))
              1005 1043 rw pc (m - Z.to_nat (1005 - c)) fuel) as [ptr' Hrun];
    [apply at_end_appended; exact Hend | lia | lia | lia | lia |].
  exists ptr'. rewrite Hrun, appended_app, <- app_assoc. reflexivity.
Qed.

Lemma close_loop (fd : FILE) (c rw pc : Z) (m fuel : nat) :
  at_end fd -> 0 <= c < 2048 -> 2048 - c <= Z.of_nat m -> (3 <= fuel)%nat ->
  exists ptr',
    write_loop fuel k29 es 1
      (mkWloop 0 fd (replicate m 0) (2048 - c) c (state_of_cursamp c) rw pc)
    = Some (mkWloop 0 (appended fd (closing_image c)) ptr' 0 0 FIRSTSEG rw pc).
Proof.
  intros Hend Hc Hm Hfuel. unfold closing_image.
  pose proof (state_of_cursamp_inv c) as Hinv.
  destruct (state_of_cursamp c).
  - replace (c <? 1005) with true by lia. replace (c <? 2026) with true by lia.
    replace (Z.max c 1005) with 1005 by lia. replace (Z.max c 2026) with 2026 by lia.
    destruct (close_first fd c (2048 - c) rw pc m fuel) as [ptr' Hrun]; try lia; try assumption.
    exists ptr'. rewrite Hrun, <- !app_assoc. reflexivity.
  - replace (c <? 1005) with false by lia. replace (c <? 2026) with true by lia.
    replace (Z.max c 1005) with c by lia. replace (Z.max c 2026) with 2026 by lia.
    destruct (close_middle fd c (2048 - c) rw pc m fuel) as [ptr' Hrun]; try lia; try assumption.
    exists ptr'. rewrite Hrun, <- !app_assoc. reflexivity.
  - replace (c <? 1005) with false by lia. replace (c <? 2026) with false by lia.
    replace (Z.max c 2026) with c by lia.
    destruct (close_last fd c (2048 - c) rw pc m fuel) as [ptr' Hrun]; try lia; try assumption.
    exists ptr'. rewrite Hrun. reflexivity.
Qed.

End WriteLoop.

(** ** The calls of [pcmseq2_write_data] on an open entry *)

Lemma write_data_open (fp : PCMFILE) (fd : FILE) (mkey chunk : list Z) (c sz : Z) :
  wfile_ok fp fd mkey c sz -> 0 <= sz -> sz + zlen chunk <= 2147483647 ->
  exists fp',
    pcmseq2_write_data fp chunk (zlen chunk) 0 = Some (0, fp')
    /\ wfile_ok fp' (appended fd (emit mkey c chunk)) mkey
         (cs_after c (zlen chunk)) (sz + zlen chunk).
Proof.
  intros (Hfd & Hend & Herr & Heof & Hkey & Hlen & Hc & Hcr & Hsz & Hpc) Hsz0 Hmax.
  pose proof (zlen_nonneg chunk) as Hn.
  set (es := wrap32s (pcmseq3_entrysize fp + zlen chunk)).
  set (w := mkWloop 0 fd chunk (zlen chunk) (pcmseq3_cursamp fp)
              (state_of_cursamp (pcmseq3_cursamp fp)) 0 (pcmseq3_poscache fp)).
  assert (Hok : wdata_ok w).
  { unfold wdata_ok, w.
    cbn [w_rc w_fd w_ptr w_nsamples w_cursamp w_state w_recordwords w_poscache].
    rewrite Hc. tauto. }
  assert (Hlen' : length (take 28 (pcmseq3_key fp)) = 28%nat) by (rewrite Hkey; exact Hlen).
  destruct (write_loop_data (pcmseq3_key fp) es Hlen' (Z.to_nat (zlen chunk) + 2050) w Hok)
    as (w' & Hrun & Hok' & Hptr' & Hfd' & Hc').
  { unfold w. cbn [w_ptr w_cursamp]. unfold zlen. rewrite Nat2Z.id.
    destruct (_ =? _); lia. }
  destruct Hok' as (Hrc' & Hend' & _ & Hcr' & _ & _ & Hpc').
  unfold pcmseq2_write_data. rewrite Hfd.
  change (negb (0 =? 0)) with false. cbn [andb]. cbv iota. fold es. fold w.
  rewrite Hrun, Hrc', Hfd'. cbn [Z.eqb negb orb feof ferror appended f_eof f_err].
  unfold w in Hc', Hpc', Hfd' |- *. cbn [w_cursamp w_ptr w_fd] in Hc', Hpc', Hfd' |- *.
  rewrite Heof, Herr. cbn [orb].
  eexists. split; [reflexivity|].
  rewrite Hkey, Hc in *. rewrite Hfd' in Hpc'.
  unfold wfile_ok, set_writer. cbn [outfp pcmseq3_key pcmseq3_cursamp pcmseq3_entrysize
                                     pcmseq3_poscache].
  split; [reflexivity|]. split; [apply at_end_appended; exact Hend|].
  split; [exact Herr|]. split; [exact Heof|]. split; [exact Hkey|]. split; [exact Hlen|].
  split; [exact Hc'|]. split; [apply cs_after_range; lia|]. split.
  - unfold es. rewrite Hsz. apply wrap32s_small. lia.
  - rewrite <- Hc'. exact Hpc'.
Qed.

Lemma write_chunks_image : forall (chunks : list (list Z)) (fp : PCMFILE) (fd : FILE)
    (mkey : list Z) (c sz : Z),
  wfile_ok fp fd mkey c sz -> 0 <= sz -> sz + zlen (concat chunks) <= 2147483647 ->
  exists fp',
    write_chunks fp chunks = Some (0, fp')
    /\ wfile_ok fp' (appended fd (emit mkey c (concat chunks))) mkey
         (cs_after c (zlen (concat chunks))) (sz + zlen (concat chunks)).
Proof.
  induction chunks as [|ch chunks IH]; intros fp fd mkey c sz Hok Hsz Hmax.
  - exists fp. cbn [write_chunks concat emit]. rewrite appended_nil, zlen_nil, Z.add_0_r.
    split; [reflexivity|]. unfold cs_after. cbn [Z.eqb]. exact Hok.
  - cbn [concat] in *. rewrite zlen_app in *.
    pose proof (zlen_nonneg ch). pose proof (zlen_nonneg (concat chunks)).
    destruct (write_data_open fp fd mkey ch c sz Hok Hsz) as (fp1 & Hrun1 & Hok1); [lia|].
    destruct (IH fp1 _ mkey _ _ Hok1) as (fp2 & Hrun2 & Hok2); [lia | lia |].
    exists fp2. cbn [write_chunks]. rewrite Hrun1. cbn [Z.eqb]. split; [exact Hrun2|].
    rewrite appended_app in Hok2.
    assert (Hcr : 0 <= c <= 2048) by apply Hok.
    rewrite emit_app by exact Hcr.
    rewrite <- cs_after_add by lia.
    replace (sz + (zlen ch + zlen (concat chunks))) with (sz + zlen ch + zlen (concat chunks))
      by lia.
    exact Hok2.
Qed.

Lemma backpatch (fd : FILE) (pc v : Z) :
  0 <= pc ->
  putlong 0 (fseek_set fd pc).2 v
  = (0, mkFILE (overwrite (f_data fd) pc (enc32 v)) (pc + 4) false (f_err fd)).
Proof.
  intros Hpc. unfold fseek_set. replace (pc <? 0) with false by lia.
  cbn [snd]. unfold putlong, put, fwrite, enc32.
  cbn [set_pos f_data f_pos f_eof f_err]. reflexivity.
Qed.

(** The closing call: zeros up to the end of the segment, then the count of
    the entry written over the recordwords field of that segment. *)
Lemma write_data_close (fp : PCMFILE) (fd : FILE) (mkey : list Z) (c sz : Z) :
  wfile_ok fp fd mkey c sz -> c < 2048 -> 0 <= sz <= 2147483647 ->
  0 <= pcmseq3_poscache fp ->
  exists fp' fd',
    pcmseq2_write_data fp [] 0 1 = Some (0, fp')
    /\ outfp fp' = Some fd' /\ at_end fd'
    /\ f_data fd' = overwrite (f_data fd ++ closing_image c) (pcmseq3_poscache fp) (enc32 sz)
    /\ f_err fd' = false /\ f_eof fd' = false.
Proof.
  intros (Hfd & Hend & Herr & Heof & Hkey & Hlen & Hc & Hcr & Hsz & Hpc) Hc2 Hsz0 Hpc0.
  assert (Hlen' : length (take 28 (pcmseq3_key fp)) = 28%nat) by (rewrite Hkey; exact Hlen).
  destruct (close_loop (pcmseq3_key fp) (wrap32s (pcmseq3_entrysize fp + 0)) Hlen' fd c 0
              (pcmseq3_poscache fp) 2048 (Z.to_nat (2048 - c) + 2050)) as [ptr' Hrun];
    [exact Hend | lia | lia | lia |].
  unfold pcmseq2_write_data. rewrite Hfd.
  change (negb (1 =? 0) && (0 =? 0)) with true. cbv iota.
  rewrite Hc. unfold zeropad. rewrite Hrun.
  cbn [w_rc w_fd w_poscache w_cursamp]. change (negb (1 =? 0)) with true. cbv iota.
  rewrite Hsz, Z.add_0_r, wrap32s_small by lia.
  pose proof Hend as Hp. unfold at_end in Hp.
  rewrite backpatch by (assumption || lia).
  unfold fseek_end, fseek_set. cbn [f_data].
  match goal with |- context [zlen ?a + 0 <? 0] =>
    replace (zlen a + 0 <? 0) with false by (pose proof (zlen_nonneg a); lia) end.
  cbn [snd set_pos feof ferror f_eof f_err f_data f_pos orb Z.eqb negb appended].
  rewrite Herr. do 2 eexists. split; [reflexivity|].
  cbn [set_writer outfp]. split; [reflexivity|]. split.
  - unfold at_end. cbn [set_pos f_pos f_data]. lia.
  - split; [reflexivity|]. split; reflexivity.
Qed.

(** ** The bytes of an entry *)

Lemma cs_after_small (c k : Z) : 0 <= c -> 0 < k -> c + k < 2048 -> cs_after c k = c + k.
Proof.
  intros. unfold cs_after. replace (k =? 0) with false by lia. apply Z.mod_small. lia.
Qed.

Lemma cs_after_full (c k : Z) : 0 < k -> c + k = 2048 -> cs_after c k = 0.
Proof.
  intros Hk E. unfold cs_after. replace (k =? 0) with false by lia. rewrite E. reflexivity.
Qed.

Lemma replicate_nonempty (k : nat) : (0 < k)%nat -> replicate k 0 <> [].
Proof. destruct k; [lia | discriminate]. Qed.

(** A run of samples that begins at [c] and ends at the end of the segment. *)
Lemma emit_to_end (mkey a : list Z) (c : Z) :
  0 <= c < 2048 -> c + zlen a = 2048 ->
  emit mkey c a
  = encs (take (Z.to_nat (1005 - c)) a)
    ++ (if c <? 1005 then enc16 0 else [])
    ++ encs (take (Z.to_nat (2026 - Z.max c 1005)) (drop (Z.to_nat (1005 - c)) a))
    ++ (if c <? 2026 then enc16 2 else [])
    ++ encs (drop (Z.to_nat (2026 - c)) a)
    ++ seghdr_image mkey 0.
Proof.
  intros Hc Hlen.
  assert (Hne : forall l : list Z, 0 < zlen l -> l <> [])
    by (intros [|? ?] Hl; [rewrite zlen_nil in Hl; lia | discriminate]).
  destruct (Z.ltb_spec c 1005) as [H1|H1].
  - replace (c <? 2026) with true by lia. replace (Z.max c 1005) with 1005 by lia.
    rewrite <- (take_drop (Z.to_nat (1005 - c)) a) at 1.
    rewrite emit_app by lia. rewrite zlen_take_le by lia.
    rewrite emit_run by (try apply Hne; rewrite ?zlen_take_le; lia).
    rewrite zlen_take_le, cs_after_small by lia.
    replace (c + (1005 - c)) with 1005 by lia.
    set (b := drop (Z.to_nat (1005 - c)) a).
    assert (Hb : zlen b = 1043) by (unfold b; rewrite zlen_drop_le; lia).
    rewrite <- (take_drop (Z.to_nat (2026 - 1005)) b) at 1.
    rewrite emit_app by lia. rewrite zlen_take_le by lia.
    rewrite emit_run by (try apply Hne; rewrite ?zlen_take_le; lia).
    rewrite zlen_take_le, cs_after_small by lia.
    replace (drop (Z.to_nat (2026 - 1005)) b) with (drop (Z.to_nat (2026 - c)) a)
      by (unfold b; rewrite drop_drop; f_equal; lia).
    rewrite emit_run
      by (try apply Hne; rewrite ?zlen_drop_le; try lia; right; right; rewrite ?zlen_drop_le; lia).
    rewrite zlen_drop_le by lia.
    replace (1005 + (2026 - 1005) + (zlen a - (2026 - c))) with 2048 by lia.
    change (marker mkey 1005) with (enc16 0).
    change (marker mkey (1005 + (2026 - 1005))) with (enc16 2).
    change (marker mkey 2048) with (seghdr_image mkey 0).
    rewrite <- !app_assoc. reflexivity.
  - replace (Z.to_nat (1005 - c)) with 0%nat by lia. cbn [take drop encs app].
    replace (Z.max c 1005) with c by lia.
    destruct (Z.ltb_spec c 2026) as [H2|H2].
    + rewrite <- (take_drop (Z.to_nat (2026 - c)) a) at 1.
      rewrite emit_app by lia. rewrite zlen_take_le by lia.
      rewrite emit_run by (try apply Hne; rewrite ?zlen_take_le; lia).
      rewrite zlen_take_le, cs_after_small by lia.
      rewrite emit_run
        by (try apply Hne; rewrite ?zlen_drop_le; try lia; right; right;
            rewrite ?zlen_drop_le; lia).
      rewrite zlen_drop_le by lia.
      replace (c + (2026 - c) + (zlen a - (2026 - c))) with 2048 by lia.
      replace (c + (2026 - c)) with 2026 by lia.
      change (marker mkey 2026) with (enc16 2).
      change (marker mkey 2048) with (seghdr_image mkey 0).
      rewrite <- !app_assoc. reflexivity.
    + replace (Z.to_nat (2026 - c)) with 0%nat by lia. cbn [take drop encs app].
      rewrite emit_run by (try apply Hne; lia).
      replace (c + zlen a) with 2048 by lia. reflexivity.
Qed.

Lemma emit_block (mkey blk : list Z) :
  zlen blk = 2048 -> emit mkey 0 blk = segbody_image blk ++ seghdr_image mkey 0.
Proof.
  intros Hlen. rewrite emit_to_end by lia. unfold segbody_image.
  change (Z.to_nat (1005 - 0)) with 1005%nat.
  change (Z.to_nat (2026 - Z.max 0 1005)) with 1021%nat.
  change (Z.to_nat (2026 - 0)) with 2026%nat.
  cbn [Z.ltb Z.compare]. rewrite <- !app_assoc. reflexivity.
Qed.

Lemma closing_emit (mkey : list Z) (c : Z) :
  0 <= c < 2048 ->
  closing_image c ++ seghdr_image mkey 0 = emit mkey c (replicate (Z.to_nat (2048 - c)) 0).
Proof.
  intros Hc. rewrite emit_to_end by (rewrite ?zlen_replicate; lia).
  unfold closing_image.
  rewrite take_replicate, !drop_replicate, take_replicate.
  destruct (Z.ltb_spec c 1005), (Z.ltb_spec c 2026); try lia.
  - rewrite <- !app_assoc. repeat (f_equal; try lia).
  - replace (Z.to_nat (1005 - c)) with 0%nat by lia.
    rewrite Nat.sub_0_r. cbn [Nat.min replicate encs app].
    rewrite <- !app_assoc. repeat (f_equal; try lia).
  - replace (Z.to_nat (1005 - c)) with 0%nat by lia.
    replace (Z.to_nat (2026 - c)) with 0%nat by lia.
    replace (Z.to_nat (2026 - Z.max c 1005)) with 0%nat by lia.
    rewrite Nat.sub_0_r. cbn [Nat.min replicate encs app].
    repeat (f_equal; try lia).
Qed.

Lemma zlen_closing (c : Z) : 0 <= c < 2048 -> zlen (closing_image c) = 4134 - within c.
Proof.
  intros Hc. unfold closing_image, within.
  rewrite !zlen_app, !zlen_encs, !zlen_replicate.
  repeat match goal with
         | |- context [?a <? ?b] => destruct (Z.ltb_spec a b)
         | |- context [?a <=? ?b] => destruct (Z.leb_spec a b)
         end;
    rewrite ?zlen_app, ?zlen_encs, ?zlen_replicate, ?zlen_nil;
    change (zlen (enc16 0)) with 2; change (zlen (enc16 2)) with 2; lia.
Qed.

Lemma zlen_segbody (blk : list Z) : zlen blk = 2048 -> zlen (segbody_image blk) = 4100.
Proof.
  intros Hlen. unfold segbody_image, zlen in *.
  rewrite !length_app, !length_encs, !length_take, !length_drop, !length_enc16. lia.
Qed.

Lemma zlen_seghdr_image (mkey : list Z) (rw : Z) :
  length mkey = 28%nat -> zlen (seghdr_image mkey rw) = 34.
Proof.
  intros Hk. unfold seghdr_image, zlen. rewrite !length_app, Hk. reflexivity.
Qed.

Lemma zlen_seg_image (mkey blk : list Z) (rw : Z) :
  length mkey = 28%nat -> zlen blk = 2048 -> zlen (seg_image mkey rw blk) = 4134.
Proof.
  intros Hk Hlen. unfold seg_image.
  rewrite zlen_app, zlen_seghdr_image, zlen_segbody by assumption.
  reflexivity.
Qed.

(** Whole segments of samples, as the loop emits them and as segments. *)
Lemma emit_blocks (mkey : list Z) : forall (n : nat) (P : list Z),
  zlen P = 2048 * Z.of_nat n ->
  seghdr_image mkey 0 ++ emit mkey 0 P = segs_image mkey 0 n P ++ seghdr_image mkey 0.
Proof.
  induction n as [|n IH]; intros P Hlen.
  - destruct P; [cbn [emit segs_image app]; apply app_nil_r
                | rewrite zlen_cons in Hlen; pose proof (zlen_nonneg P); lia].
  - rewrite <- (take_drop (Z.to_nat 2048) P) at 1.
    rewrite emit_app by lia. rewrite zlen_take_le by lia.
    rewrite cs_after_full, emit_block by (rewrite ?zlen_take_le; lia).
    cbn [segs_image].
    replace (match n with O => 0 | S _ => 0 end) with 0 by (destruct n; reflexivity).
    unfold seg_image. change (Z.to_nat 2048) with 2048%nat.
    rewrite <- !app_assoc. do 2 f_equal.
    apply IH. change 2048%nat with (Z.to_nat 2048). rewrite zlen_drop_le by lia. lia.
Qed.

(** The segments of an entry are some bytes that do not depend on the count
    of the entry, and the last segment. *)
Lemma segs_image_last (mkey : list Z) : forall (n : nat) (P : list Z),
  length mkey = 28%nat -> zlen P = 2048 * (Z.of_nat n + 1) ->
  exists pre,
    zlen pre = 4134 * Z.of_nat n
    /\ forall t, segs_image mkey t (S n) P
                 = pre ++ seg_image mkey t (take 2048 (drop (2048 * n) P)).
Proof.
  induction n as [|n IH]; intros P Hk Hlen.
  - exists []. split; [reflexivity|]. intros t. cbn [segs_image Nat.mul drop app].
    rewrite app_nil_r. reflexivity.
  - destruct (IH (drop 2048 P) Hk) as (pre & Hpre & Heq).
    { change 2048%nat with (Z.to_nat 2048). rewrite zlen_drop_le by lia. lia. }
    exists (seg_image mkey 0 (take 2048 P) ++ pre). split.
    + rewrite zlen_app, zlen_seg_image, Hpre; try assumption; [lia|].
      change 2048%nat with (Z.to_nat 2048). rewrite zlen_take_le by lia. reflexivity.
    + intros t. change (segs_image mkey t (S (S n)) P)
        with (seg_image mkey 0 (take 2048 P) ++ segs_image mkey t (S n) (drop 2048 P)).
      rewrite Heq, drop_drop, <- app_assoc.
      replace (2048 + 2048 * n)%nat with (2048 * S n)%nat by lia. reflexivity.
Qed.

Lemma entry_bytes (mkey samples : list Z) :
  length mkey = 28%nat -> 0 < zlen samples ->
  exists pre lastblk,
    emit mkey 2048 samples ++ closing_image (zlen samples mod 2048)
    = pre ++ seg_image mkey 0 lastblk
    /\ segs_image mkey (zlen samples) (Z.to_nat (entry_segments samples))
         (entry_padded samples)
       = pre ++ seg_image mkey (zlen samples) lastblk
    /\ zlen pre = 4134 * (zlen samples / 2048)
    /\ zlen (emit mkey 2048 samples) = zlen pre + within (zlen samples mod 2048).
Proof.
  intros Hk HT. set (T := zlen samples) in *. set (c := T mod 2048).
  assert (Hc : 0 <= c < 2048) by (apply Z.mod_pos_bound; lia).
  assert (Hq : 0 <= T / 2048) by (apply Z.div_pos; lia).
  assert (HTq : T = 2048 * (T / 2048) + c) by (apply Z.div_mod; lia).
  set (n := Z.to_nat (T / 2048)).
  assert (Hpad : zlen (entry_padded samples) = 2048 * (Z.of_nat n + 1)).
  { unfold entry_padded, entry_segments. fold T.
    rewrite zlen_app, zlen_replicate. fold T. unfold n. lia. }
  destruct (segs_image_last mkey n (entry_padded samples) Hk Hpad) as (pre & Hpre & Heq).
  exists pre, (take 2048 (drop (2048 * n) (entry_padded samples))).
  assert (Hn : Z.to_nat (entry_segments samples) = S n)
    by (unfold entry_segments, n; fold T; lia).
  assert (Himg : emit mkey 2048 samples ++ closing_image c
                 = segs_image mkey 0 (S n) (entry_padded samples)).
  { apply (app_inv_tail (seghdr_image mkey 0)).
    rewrite <- emit_blocks by (rewrite Hpad; lia).
    rewrite <- emit_first
      by (intros E; rewrite E, zlen_nil in Hpad; lia).
    unfold entry_padded. rewrite emit_app by lia. fold T.
    rewrite <- app_assoc, closing_emit by exact Hc.
    do 2 f_equal.
    - unfold cs_after. replace (T =? 0) with false by lia.
      rewrite <- Z.add_mod_idemp_l by lia. reflexivity.
    - do 2 f_equal. unfold entry_segments. fold T. lia. }
  split; [rewrite Himg; apply Heq|]. split; [rewrite Hn; apply Heq|].
  split; [rewrite Hpre; unfold n; lia|].
  apply (f_equal zlen) in Himg. rewrite Heq, !zlen_app, zlen_closing in Himg by exact Hc.
  rewrite zlen_seg_image in Himg; [lia | exact Hk |].
  clear - Hpad. unfold zlen in *. rewrite length_take, length_drop. lia.
Qed.

Lemma zlen_enthdr (key : list Z) (lltime sr : Z) :
  length key = 28%nat -> zlen (enthdr_image key lltime sr) = 54.
Proof.
  intros Hk. unfold enthdr_image, zlen. rewrite !length_app, Hk. reflexivity.
Qed.

(** ** One entry, from the header to the closing call *)

Lemma write_entry_image curtime (fp : PCMFILE) (fd : FILE) (chunks : list (list Z)) :
  outfp fp = Some fd -> at_end fd -> f_err fd = false -> f_eof fd = false ->
  0 < zlen (concat chunks) <= 2147483647 ->
  exists fp' fd',
    write_entry curtime fp chunks = Some (0, fp')
    /\ outfp fp' = Some fd' /\ at_end fd'
    /\ f_data fd'
       = f_data fd ++ entry_image (take 28 (init_key (name fp) (entry fp)))
                        (hdr_lltime curtime fp) (samplerate fp) (concat chunks)
    /\ f_err fd' = false /\ f_eof fd' = false.
Proof.
  intros Hfd Hend Herr Heof HT.
  destruct (init_key_shape (name fp) (entry fp)) as (ktail & Hkt & Hkey & Hmkey).
  set (key := take 28 (init_key (name fp) (entry fp))) in *.
  set (mkey := take 28 (<[1%nat := 51]> (init_key (name fp) (entry fp)))) in *.
  assert (Hklen : length key = 28%nat) by (rewrite Hkey; cbn [length]; lia).
  assert (Hmlen : length mkey = 28%nat) by (rewrite Hmkey; cbn [length]; lia).
  assert (Hmk : <[1%nat := 51]> key = mkey) by (rewrite Hkey, Hmkey; reflexivity).
  set (samples := concat chunks) in *. set (T := zlen samples) in *.
  set (hdr := enthdr_image key (hdr_lltime curtime fp) (samplerate fp)).
  unfold write_entry. rewrite (write_hdr_image curtime fp fd Hfd Hend Herr Heof).
  cbn [Z.eqb]. fold key hdr.
  set (fp1 := set_writer _ _ _ _ _ _).
  assert (Hok1 : wfile_ok fp1 (appended fd hdr) mkey 2048 0).
  { unfold wfile_ok, fp1, set_writer.
    cbn [outfp pcmseq3_key pcmseq3_cursamp pcmseq3_entrysize pcmseq3_poscache
         appended f_err f_eof].
    split; [reflexivity|]. split; [apply at_end_appended; exact Hend|].
    repeat split; try assumption; try lia. }
  destruct (write_chunks_image chunks fp1 _ mkey 2048 0 Hok1) as (fp2 & Hrun2 & Hok2);
    [lia | fold samples T; lia |].
  fold samples T in Hok2. rewrite Hrun2. cbn [Z.eqb].
  assert (Hc : cs_after 2048 T = T mod 2048).
  { unfold cs_after. replace (T =? 0) with false by lia.
    rewrite <- Z.add_mod_idemp_l by lia. reflexivity. }
  rewrite Hc in Hok2.
  assert (Hcr : 0 <= T mod 2048 < 2048) by (apply Z.mod_pos_bound; lia).
  destruct (entry_bytes mkey samples Hmlen) as (pre & lastblk & Himg0 & HimgT & Hpre & Hemit);
    [exact (proj1 HT)|].
  fold T in Himg0, HimgT, Hpre, Hemit.
  assert (Hq : 0 <= T / 2048) by (apply Z.div_pos; lia).
  assert (Hpc : pcmseq3_poscache fp2 = zlen (f_data fd) + 54 + zlen pre + 30).
  { destruct Hok2 as (_ & _ & _ & _ & _ & _ & _ & _ & _ & [Hbad | Hpc]); [lia|].
    rewrite Hpc. rewrite appended_app. cbn [appended f_data].
    rewrite !zlen_app, Hemit. unfold hdr. rewrite zlen_enthdr by exact Hklen. lia. }
  destruct (write_data_close fp2 _ mkey _ T Hok2)
    as (fp3 & fd3 & Hrun3 & Hfd3 & Hend3 & Hdata3 & Herr3 & Heof3);
    [lia | lia | pose proof (zlen_nonneg (f_data fd)); lia |].
  rewrite Hrun3. exists fp3, fd3. split; [reflexivity|]. split; [exact Hfd3|].
  split; [exact Hend3|]. split; [|split; assumption].
  rewrite Hdata3, appended_app. cbn [appended f_data].
  unfold entry_image. rewrite Hmk. fold samples T hdr. rewrite HimgT.
  rewrite <- !app_assoc, Himg0.
  unfold seg_image, seghdr_image.
  replace (f_data fd ++ hdr ++ pre ++ (enc16 1 ++ mkey ++ enc32 0) ++ segbody_image lastblk)
    with ((f_data fd ++ hdr ++ pre ++ enc16 1 ++ mkey) ++ enc32 0 ++ segbody_image lastblk)
    by (rewrite <- !app_assoc; reflexivity).
  rewrite overwrite_middle.
  - rewrite <- !app_assoc. reflexivity.
  - rewrite Hpc, !zlen_app. unfold hdr. rewrite zlen_enthdr by exact Hklen.
    change (zlen (enc16 1)) with 2.
    replace (zlen mkey) with 28 by (unfold zlen; rewrite Hmlen; reflexivity). lia.
  - reflexivity.
Qed.

(** ** Reading the samples of a range ([pcmseq2_read]) *)

Lemma slice_inside (a b c : list Z) (off a' k : Z) :
  off = zlen a -> 0 <= a' -> 0 <= k -> a' + k <= zlen b ->
  slice (off + a') k (a ++ b ++ c) = slice a' k b.
Proof.
  intros -> Ha Hk Hb.
  rewrite <- (slice_slice a' k (zlen a) (zlen b)) by (try apply zlen_nonneg; lia).
  rewrite slice_middle. reflexivity.
Qed.

Lemma slice_take (a k : Z) (m : nat) (l : list Z) :
  0 <= a -> 0 <= k -> a + k <= Z.of_nat m -> slice a k (take m l) = slice a k l.
Proof.
  intros Ha Hk Hm. unfold slice. rewrite skipn_firstn_comm, take_take. f_equal. lia.
Qed.

Lemma slice_drop (a k : Z) (m : nat) (l : list Z) :
  0 <= a -> slice a k (drop m l) = slice (Z.of_nat m + a) k l.
Proof.
  intros Ha. unfold slice. rewrite drop_drop. do 2 f_equal. lia.
Qed.

Lemma slice_app_l (a k : Z) (l r : list Z) :
  0 <= a -> 0 <= k -> a + k <= zlen l -> slice a k (l ++ r) = slice a k l.
Proof.
  intros Ha Hk Hl. unfold slice, zlen in *.
  rewrite drop_app_le by lia. rewrite take_app_le by (rewrite length_drop; lia).
  reflexivity.
Qed.

(** The copy of one sub-block extends what has been copied by the part of the
    sub-block that lies in the range. *)
Lemma copy_block_spec (segbuf padded B0 : list Z) (off n start stop bs : Z) :
  0 <= start <= stop -> 0 <= bs -> 0 < n -> bs + n <= zlen padded ->
  (forall a k, 0 <= a -> 0 <= k -> a + k <= n ->
     slice (off + 2 * a) (2 * k) segbuf = encs (slice (bs + a) k padded)) ->
  Forall is_short padded ->
  copy_block segbuf off n start stop bs (got start stop bs)
    (slice start (got start stop bs) padded ++ drop (Z.to_nat (got start stop bs)) B0)
  = (got start stop (bs + n),
     slice start (got start stop (bs + n)) padded
     ++ drop (Z.to_nat (got start stop (bs + n))) B0).
Proof.
  intros Hr Hbs Hn Hlen Hseg Hshort. unfold copy_block.
  destruct (Z.leb_spec bs stop) as [H1|H1]; cbn [andb];
    [destruct (Z.leb_spec start (bs + n - 1)) as [H2|H2]|].
  - set (startpad := if bs <? start then start - bs else 0).
    set (endpad := if stop <? bs + n - 1 then bs + n - 1 - stop else 0).
    set (cnt := bs + n - 1 - bs - startpad - endpad + 1).
    assert (Hsp : startpad = Z.max 0 (start - bs))
      by (unfold startpad; destruct (Z.ltb_spec bs start); lia).
    assert (Hep : endpad = Z.max 0 (bs + n - 1 - stop))
      by (unfold endpad; destruct (Z.ltb_spec stop (bs + n - 1)); lia).
    assert (Hgot : got start stop (bs + n) = got start stop bs + cnt)
      by (unfold got, cnt; lia).
    assert (Hnext : start + got start stop bs = bs + startpad) by (unfold got; lia).
    rewrite Hseg by (unfold cnt; lia).
    rewrite decs_encs by (apply Forall_slice; exact Hshort).
    rewrite overwrite_next
      by (rewrite zlen_slice; unfold got; lia).
    rewrite zlen_slice by (unfold cnt; lia).
    rewrite <- Hnext, slice_app_next by (unfold got, cnt; lia).
    rewrite <- Hgot. reflexivity.
  - replace (got start stop (bs + n)) with (got start stop bs) by (unfold got; lia).
    reflexivity.
  - replace (got start stop (bs + n)) with (got start stop bs) by (unfold got; lia).
    reflexivity.
Qed.

(** Where the samples of a segment lie in [segbuf] once [readsegment] has put
    the segment two bytes into it. *)
Lemma segbuf_samples (mkey blk pre post : list Z) (rw : Z) :
  length mkey = 28%nat -> zlen blk = 2048 -> zlen pre = 2 ->
  let buf := pre ++ seg_image mkey rw blk ++ post in
  (forall a k, 0 <= a -> 0 <= k -> a + k <= 1005 ->
     slice (36 + 2 * a) (2 * k) buf = encs (slice a k blk))
  /\ (forall a k, 0 <= a -> 0 <= k -> a + k <= 1021 ->
        slice (2048 + 2 * a) (2 * k) buf = encs (slice (1005 + a) k blk))
  /\ (forall a k, 0 <= a -> 0 <= k -> a + k <= 22 ->
        slice (4092 + 2 * a) (2 * k) buf = encs (slice (2026 + a) k blk)).
Proof.
  intros Hk Hblk Hpre buf. unfold buf, seg_image, segbody_image.
  assert (Hh : zlen (seghdr_image mkey rw) = 34) by (apply zlen_seghdr_image; exact Hk).
  assert (H1 : zlen (encs (take 1005 blk)) = 2010)
    by (unfold zlen in *; rewrite length_encs, length_take; lia).
  assert (H2 : zlen (encs (take 1021 (drop 1005 blk))) = 2042)
    by (unfold zlen in *; rewrite length_encs, length_take, length_drop; lia).
  assert (H3 : zlen (encs (drop 2026 blk)) = 44)
    by (unfold zlen in *; rewrite length_encs, length_drop; lia).
  split; [|split]; intros a k Ha Hk' Hb.
  - replace (pre ++ (seghdr_image mkey rw ++ encs (take 1005 blk) ++ enc16 0
                     ++ encs (take 1021 (drop 1005 blk)) ++ enc16 2
                     ++ encs (drop 2026 blk)) ++ post)
      with ((pre ++ seghdr_image mkey rw) ++ encs (take 1005 blk)
            ++ (enc16 0 ++ encs (take 1021 (drop 1005 blk)) ++ enc16 2
                ++ encs (drop 2026 blk) ++ post))
      by (rewrite <- !app_assoc; reflexivity).
    rewrite slice_inside by (rewrite ?zlen_app; lia).
    rewrite slice_encs by lia. rewrite slice_take by lia. reflexivity.
  - replace (pre ++ (seghdr_image mkey rw ++ encs (take 1005 blk) ++ enc16 0
                     ++ encs (take 1021 (drop 1005 blk)) ++ enc16 2
                     ++ encs (drop 2026 blk)) ++ post)
      with ((pre ++ seghdr_image mkey rw ++ encs (take 1005 blk) ++ enc16 0)
            ++ encs (take 1021 (drop 1005 blk))
            ++ (enc16 2 ++ encs (drop 2026 blk) ++ post))
      by (rewrite <- !app_assoc; reflexivity).
    rewrite slice_inside
      by (rewrite ?zlen_app; try change (zlen (enc16 0)) with 2; lia).
    rewrite slice_encs by lia. rewrite slice_take, slice_drop by lia. reflexivity.
  - replace (pre ++ (seghdr_image mkey rw ++ encs (take 1005 blk) ++ enc16 0
                     ++ encs (take 1021 (drop 1005 blk)) ++ enc16 2
                     ++ encs (drop 2026 blk)) ++ post)
      with ((pre ++ seghdr_image mkey rw ++ encs (take 1005 blk) ++ enc16 0
             ++ encs (take 1021 (drop 1005 blk)) ++ enc16 2)
            ++ encs (drop 2026 blk) ++ post)
      by (rewrite <- !app_assoc; reflexivity).
    rewrite slice_inside
      by (rewrite ?zlen_app;
          try change (zlen (enc16 0)) with 2; try change (zlen (enc16 2)) with 2; lia).
    rewrite slice_encs by lia. rewrite slice_drop by lia. reflexivity.
Qed.

Lemma byte_at_app (pre l : list Z) (off i : Z) :
  off = zlen pre -> 0 <= i -> byte_at (pre ++ l) (off + i) = byte_at l i.
Proof.
  intros -> Hi. unfold byte_at, zlen.
  destruct (Z.ltb_spec (Z.of_nat (length pre) + i) 0); [lia|].
  destruct (Z.ltb_spec i 0); [lia|].
  replace (Z.to_nat (Z.of_nat (length pre) + i)) with (length pre + Z.to_nat i)%nat by lia.
  rewrite app_nth2_plus. reflexivity.
Qed.

Lemma slice_at (disk bs rest : list Z) (pos k : Z) :
  drop (Z.to_nat pos) disk = bs ++ rest -> k = zlen bs -> slice pos k disk = bs.
Proof.
  intros Hd ->. unfold slice. rewrite Hd. unfold zlen. rewrite Nat2Z.id.
  apply take_app_length.
Qed.

Lemma zlen_at (disk bs : list Z) (pos : Z) :
  0 <= pos -> drop (Z.to_nat pos) disk = bs -> bs <> [] -> pos + zlen bs = zlen disk.
Proof.
  intros Hpos Hd Hne. apply (f_equal length) in Hd. rewrite length_drop in Hd.
  assert (length bs <> 0%nat) by (destruct bs; [contradiction | discriminate]).
  unfold zlen. lia.
Qed.

Section ReadLoop.

Variables (disk mkey kt padded B0 : list Z) (total start stop L : Z).
Hypothesis Hmkey : mkey = 32 :: 51 :: kt.
Hypothesis Hkt : length kt = 26%nat.
Hypothesis Hrange : 0 <= start <= stop.
Hypothesis Hshort : Forall is_short padded.

Let inv := reading disk mkey total padded B0 start stop L.

Lemma mkey_length : length mkey = 28%nat.
Proof. rewrite Hmkey. cbn [length]. rewrite Hkt. reflexivity. Qed.

(** The control word of a segment, and the end of the file, which reads as
    control word 0. *)
Lemma peek_segment (p : P2FILE) (rw : Z) (blk rest : list Z) :
  p_type p = 2 -> 0 <= f_pos (p_fp p) ->
  drop (Z.to_nat (f_pos (p_fp p))) (f_data (p_fp p)) = seg_image mkey rw blk ++ rest ->
  peekcontrolword p
  = (0, 1, p_set_fp p (set_pos (p_fp p) (f_pos (p_fp p)) false)).
Proof.
  intros Ht Hpos Hd. unfold peekcontrolword. rewrite Ht.
  change (2 =? 1) with false. cbv iota. change (4 - 2) with 2.
  assert (Hlen : f_pos (p_fp p) + zlen (seg_image mkey rw blk ++ rest)
                 = zlen (f_data (p_fp p))).
  { apply zlen_at; [exact Hpos | exact Hd |]. unfold seg_image, seghdr_image. discriminate. }
  assert (H2 : 2 <= zlen (seg_image mkey rw blk ++ rest)).
  { unfold seg_image, seghdr_image. rewrite <- !app_assoc, zlen_app.
    change (zlen (enc16 1)) with 2. pose proof (zlen_nonneg (mkey ++ enc32 rw ++
      segbody_image blk ++ rest)). lia. }
  rewrite fread_full by lia.
  rewrite (slice_at _ (enc16 1) (mkey ++ enc32 rw ++ segbody_image blk ++ rest))
    by (try reflexivity; rewrite Hd; unfold seg_image, seghdr_image;
        rewrite <- !app_assoc; reflexivity).
  change (get_u16 (overwrite [0; 0; 0; 0] 2 (enc16 1)) 2) with 1.
  change (1 =? -1) with false. cbv iota.
  rewrite fseek_cur_ok by (cbn [set_pos f_pos]; lia).
  cbn [snd set_pos f_pos f_data f_eof f_err].
  replace (f_pos (p_fp p) + 2 + -2) with (f_pos (p_fp p)) by lia. reflexivity.
Qed.

Lemma peek_eof (p : P2FILE) :
  p_type p = 2 -> 0 <= f_pos (p_fp p) ->
  drop (Z.to_nat (f_pos (p_fp p))) (f_data (p_fp p)) = [] ->
  exists fp',
    peekcontrolword p = (0, 0, p_set_fp p fp') /\ f_data fp' = f_data (p_fp p).
Proof.
  intros Ht Hpos Hd. unfold peekcontrolword, fread. rewrite Ht, Hd.
  change (2 =? 1) with false. cbv iota. change (4 - 2) with 2.
  cbn [Z.leb Z.compare zlen length Z.of_nat].
  change (get_u16 (overwrite [0; 0; 0; 0] 2 []) 2) with 0.
  change (0 =? -1) with false. cbv iota.
  eexists. split; [reflexivity|].
  unfold fseek_cur, fseek_set. destruct (_ <? 0); reflexivity.
Qed.

Lemma readsegment_ok (p : P2FILE) (rw : Z) (blk rest : list Z) :
  p_type p = 2 -> 0 <= f_pos (p_fp p) -> zlen blk = 2048 ->
  slice 6 16 (hdrbuf p) = slice 2 16 mkey ->
  drop (Z.to_nat (f_pos (p_fp p))) (f_data (p_fp p)) = seg_image mkey rw blk ++ rest ->
  exists p' pre post,
    readsegment p = (0, p')
    /\ p_type p' = 2 /\ lastentry p' = lastentry p /\ hdrbuf p' = hdrbuf p
    /\ f_data (p_fp p') = f_data (p_fp p)
    /\ f_pos (p_fp p') = f_pos (p_fp p) + 4134
    /\ segbuf p' = pre ++ seg_image mkey rw blk ++ post /\ zlen pre = 2.
Proof.
  intros Ht Hpos Hblk Hkey Hd. unfold readsegment, segment_bytes. rewrite Ht.
  change (2 =? 1) with false. cbv iota.
  pose proof mkey_length as Hml.
  assert (Hseg : zlen (seg_image mkey rw blk) = 4134) by (apply zlen_seg_image; assumption).
  assert (Hlen : f_pos (p_fp p) + zlen (seg_image mkey rw blk ++ rest)
                 = zlen (f_data (p_fp p))).
  { apply zlen_at; [exact Hpos | exact Hd |]. unfold seg_image, seghdr_image. discriminate. }
  rewrite zlen_app in Hlen. pose proof (zlen_nonneg rest).
  rewrite fread_full by lia.
  rewrite (slice_at _ (seg_image mkey rw blk) rest) by (rewrite ?Hseg; auto).
  destruct (overwrite_shape (segbuf p) 2 (seg_image mkey rw blk)) as (pre & post & Hbuf & Hpre);
    [lia|].
  rewrite Hbuf.
  assert (Hb4 : byte_at (pre ++ seg_image mkey rw blk ++ post) 4 = 32).
  { rewrite (byte_at_app pre _ 2 2) by lia. rewrite Hmkey. reflexivity. }
  assert (Hb5 : byte_at (pre ++ seg_image mkey rw blk ++ post) 5 = 51).
  { rewrite (byte_at_app pre _ 2 3) by lia. rewrite Hmkey. reflexivity. }
  assert (Hsl : slice 6 16 (pre ++ seg_image mkey rw blk ++ post) = slice 2 16 mkey).
  { rewrite (slice_inside pre _ post 2 4 16) by lia.
    unfold seg_image, seghdr_image. rewrite <- !app_assoc.
    rewrite (slice_inside (enc16 1) mkey _ 2 2 16); [reflexivity | reflexivity | lia | lia |].
    unfold zlen. rewrite Hml. lia. }
  rewrite Hb4, Hb5, Hkey, Hsl.
  rewrite bool_decide_eq_true_2 by reflexivity.
  cbn [Z.eqb Pos.eqb negb orb].
  exists (p_set_seg p (set_pos (p_fp p) (f_pos (p_fp p) + 4134) (f_eof (p_fp p)))
            (pre ++ seg_image mkey rw blk ++ post)
            (mkP2seg (get_u16 (pre ++ seg_image mkey rw blk ++ post) 2)
               (get_u32 (pre ++ seg_image mkey rw blk ++ post) 32)
               (get_u16 (pre ++ seg_image mkey rw blk ++ post) (2048 + -2))
               (get_u16 (pre ++ seg_image mkey rw blk ++ post) (4094 + -4)))),
    pre, post.
  repeat split; try reflexivity; assumption.
Qed.

(** A turn of the loop at a segment: the segment is skipped when no sample of
    it is in the range, else read and its three sub-blocks copied. *)
Lemma read_step_segment (n : nat) (r : rloop) :
  inv (S n) r ->
  exists r',
    read_step start stop r = Continue r' /\ inv n r'
    /\ r_curentry r' = r_curentry r /\ r_status r' = r_status r.
Proof.
  intros (Ht & HL & Hdata & Hpos & Hkey & Hdrop & Hb0 & Hbn & Hcur & Hbuf).
  pose proof mkey_length as Hml.
  cbn [segs_image] in Hdrop.
  set (b := r_blockstart r) in *.
  set (rw := match n with O => total | S _ => 0 end) in *.
  set (blk := take 2048 (drop (Z.to_nat b) padded)) in *.
  set (rest := segs_image mkey total n (drop 2048 (drop (Z.to_nat b) padded))) in *.
  assert (Hblk : zlen blk = 2048)
    by (unfold blk, zlen in *; rewrite length_take, length_drop; lia).
  assert (Hslice : forall a k, 0 <= a -> 0 <= k -> a + k <= 2048 ->
            slice a k blk = slice (b + a) k padded).
  { intros a k Ha Hk Hak. unfold blk. rewrite slice_take, slice_drop by lia.
    f_equal. lia. }
  assert (Hseg : zlen (seg_image mkey rw blk) = 4134) by (apply zlen_seg_image; assumption).
  assert (Hrest : drop (Z.to_nat (f_pos (p_fp (r_p r)) + 4134)) disk = rest).
  { replace (Z.to_nat (f_pos (p_fp (r_p r)) + 4134))
      with (Z.to_nat (f_pos (p_fp (r_p r))) + Z.to_nat 4134)%nat by lia.
    rewrite <- drop_drop, Hdrop. apply drop_prefix. lia. }
  assert (Hrest' : rest = segs_image mkey total n (drop (Z.to_nat (b + 2048)) padded)).
  { unfold rest. rewrite drop_drop. do 2 f_equal. lia. }
  rewrite <- Hdata in Hdrop.
  unfold read_step. rewrite (peek_segment (r_p r) rw blk rest Ht Hpos Hdrop).
  change (0 =? -1) with false. change (1 =? 3) with false. change (1 =? 1) with true.
  cbv iota. fold b.
  set (p1 := p_set_fp (r_p r) (set_pos (p_fp (r_p r)) (f_pos (p_fp (r_p r))) false)).
  destruct ((stop <? b) || (b + 2048 - 1 <? start)) eqn:Eout.
  - (* no sample of the segment is in the range *)
    eexists. split; [reflexivity|]. split; [|split; reflexivity].
    unfold inv, reading, skipsegment, segment_bytes.
    cbn [r_p r_blockstart r_curpos r_buf p1 p_set_fp p_type p_fp lastentry hdrbuf].
    rewrite Ht. change (2 =? 1) with false. cbv iota.
    rewrite fseek_cur_ok by (cbn [set_pos f_pos]; lia).
    cbn [snd set_pos f_pos f_data].
    repeat split; try assumption; try lia.
    + rewrite Hrest. exact Hrest'.
    + rewrite Hcur. fold b. unfold got.
      apply orb_true_iff in Eout. destruct Eout as [E|E]; apply Z.ltb_lt in E; lia.
  - (* the segment holds samples of the range *)
    destruct (readsegment_ok p1 rw blk rest) as (p' & pre & post & Hrs & Ht' & HL' & Hh' & Hd'
                                                 & Hp' & Hsb & Hpre);
      [exact Ht | exact Hpos | exact Hblk | exact Hkey | exact Hdrop |].
    rewrite Hrs. change (0 =? -1) with false. cbv iota.
    destruct (segbuf_samples mkey blk pre post rw Hml Hblk Hpre) as (S1 & S2 & S3).
    rewrite <- Hsb in S1, S2, S3.
    rewrite Ht'. unfold samples1_off, samples2_off, samples3_off.
    change (2 =? 1) with false. cbv iota.
    change (2050 + -2) with 2048. change (4096 + -4) with 4092.
    rewrite Hbuf, Hcur. fold b.
    rewrite (copy_block_spec (segbuf p') padded B0 36 1005 start stop b)
      by (try assumption; try lia; intros a k Ha Hk Hak; rewrite S1, Hslice by lia;
          reflexivity).
    rewrite (copy_block_spec (segbuf p') padded B0 2048 1021 start stop (b + 1005))
      by (try assumption; try lia; intros a k Ha Hk Hak; rewrite S2, Hslice by lia;
          do 2 f_equal; lia).
    rewrite (copy_block_spec (segbuf p') padded B0 4092 22 start stop (b + 1005 + 1021))
      by (try assumption; try lia; intros a k Ha Hk Hak; rewrite S3, Hslice by lia;
          do 2 f_equal; lia).
    eexists. split; [reflexivity|]. split; [|split; reflexivity].
    unfold inv, reading. cbn [r_p r_blockstart r_curpos r_buf].
    replace (b + 1005 + 1021 + 22) with (b + 2048) by lia.
    rewrite Hp', Hh', HL', Hd'. cbn [p1 p_set_fp p_fp set_pos f_pos f_data lastentry hdrbuf].
    repeat split; try assumption; try lia.
    rewrite Hrest. exact Hrest'.
Qed.

(** The turn at the end of the file. *)
Lemma read_step_eof (r : rloop) :
  inv 0 r ->
  exists r',
    read_step start stop r = Break r'
    /\ lastentry (r_p r') = L /\ f_data (p_fp (r_p r')) = disk
    /\ p_type (r_p r') = 2
    /\ r_blockstart r' = zlen padded
    /\ r_curpos r' = got start stop (zlen padded)
    /\ r_buf r' = slice start (r_curpos r') padded ++ drop (Z.to_nat (r_curpos r')) B0
    /\ r_curentry r' = r_curentry r /\ r_status r' = r_status r.
Proof.
  intros (Ht & HL & Hdata & Hpos & Hkey & Hdrop & Hb0 & Hbn & Hcur & Hbuf).
  cbn [segs_image] in Hdrop. rewrite <- Hdata in Hdrop.
  destruct (peek_eof (r_p r) Ht Hpos Hdrop) as (fp' & Hpeek & Hfd).
  unfold read_step. rewrite Hpeek.
  change (0 =? -1) with false. change (0 =? 3) with false. change (0 =? 1) with false.
  cbv iota. eexists. split; [reflexivity|].
  cbn [r_p r_blockstart r_curpos r_buf r_curentry r_status p_set_fp lastentry p_fp p_type].
  replace (zlen padded) with (r_blockstart r) by lia.
  repeat split; try assumption; congruence.
Qed.

Lemma read_loop_segments : forall (n fuel : nat) (r : rloop),
  inv n r -> (n < fuel)%nat ->
  exists r',
    read_loop fuel start stop r = Some r'
    /\ lastentry (r_p r') = L /\ f_data (p_fp (r_p r')) = disk
    /\ p_type (r_p r') = 2
    /\ r_blockstart r' = zlen padded
    /\ r_curpos r' = got start stop (zlen padded)
    /\ r_buf r' = slice start (r_curpos r') padded ++ drop (Z.to_nat (r_curpos r')) B0
    /\ r_curentry r' = r_curentry r /\ r_status r' = r_status r.
Proof.
  induction n as [|n IH]; intros fuel r Hinv Hfuel;
    (destruct fuel as [|fuel]; [lia|]); cbn [read_loop].
  - destruct (read_step_eof r Hinv) as (r' & Hstep & Hr').
    rewrite Hstep. exists r'. split; [reflexivity | exact Hr'].
  - destruct (read_step_segment n r Hinv) as (r1 & Hstep & Hinv1 & Hce & Hst).
    rewrite Hstep.
    destruct (IH fuel r1 Hinv1) as (r' & Hrun & H1 & H2 & H3 & H4 & H5 & H6 & H7 & H8); [lia|].
    exists r'. rewrite Hrun. repeat split; try assumption; congruence.
Qed.

End ReadLoop.

Lemma readentryhdr_ok (p : P2FILE) (key kt rest : list Z) (lltime sr : Z) :
  key = 32 :: 50 :: kt -> length kt = 26%nat ->
  p_type p = 2 -> f_pos (p_fp p) = 0 ->
  f_data (p_fp p) = enthdr_image key lltime sr ++ rest ->
  exists p',
    readentryhdr p = (0, p')
    /\ p_type p' = 2 /\ lastentry p' = lastentry p
    /\ f_data (p_fp p') = f_data (p_fp p) /\ f_pos (p_fp p') = 54
    /\ slice 6 16 (hdrbuf p') = slice 2 16 key.
Proof.
  intros Hkey Hkt Ht Hpos Hdata. unfold readentryhdr. rewrite Ht.
  change (2 =? 1) with false. cbv iota.
  assert (Hkl : length key = 28%nat) by (rewrite Hkey; cbn [length]; lia).
  assert (Hh : zlen (enthdr_image key lltime sr) = 54) by (apply zlen_enthdr; exact Hkl).
  pose proof (zlen_nonneg rest).
  rewrite fread_full by (rewrite ?Hdata, ?zlen_app; lia).
  rewrite (slice_at _ (enthdr_image key lltime sr) rest)
    by (rewrite ?Hpos, ?Hh; auto).
  destruct (overwrite_shape (hdrbuf p) 2 (enthdr_image key lltime sr))
    as (pre & post & Hbuf & Hpre); [lia|].
  rewrite Hbuf.
  assert (Hb4 : byte_at (pre ++ enthdr_image key lltime sr ++ post) 4 = 32).
  { rewrite (byte_at_app pre _ 2 2) by lia. rewrite Hkey. reflexivity. }
  assert (Hb5 : byte_at (pre ++ enthdr_image key lltime sr ++ post) 5 = 50).
  { rewrite (byte_at_app pre _ 2 3) by lia. rewrite Hkey. reflexivity. }
  rewrite Hb4, Hb5. cbn [Z.eqb Pos.eqb negb orb].
  eexists. split; [reflexivity|].
  cbn [p_set_hdr p_type lastentry p_fp hdrbuf set_pos f_data f_pos].
  repeat split; try assumption; try lia.
  rewrite (slice_inside pre _ post 2 4 16) by lia.
  unfold enthdr_image.
  rewrite (slice_inside (enc16 3) key _ 2 2 16); [reflexivity | reflexivity | lia | lia |].
  unfold zlen. rewrite Hkl. lia.
Qed.

Lemma zlen_entry_padded (samples : list Z) :
  zlen (entry_padded samples) = 2048 * entry_segments samples.
Proof.
  pose proof (zlen_nonneg samples) as HT.
  assert (Hq : 0 <= zlen samples / 2048) by (apply Z.div_pos; lia).
  pose proof (Z.mod_pos_bound (zlen samples) 2048 ltac:(lia)).
  pose proof (Z.div_mod (zlen samples) 2048 ltac:(lia)).
  unfold entry_padded, entry_segments. rewrite zlen_app, zlen_replicate. lia.
Qed.

Lemma zlen_segs_image (mkey : list Z) (total : Z) : forall (n : nat) (all : list Z),
  length mkey = 28%nat -> zlen all = 2048 * Z.of_nat n ->
  zlen (segs_image mkey total n all) = 4134 * Z.of_nat n.
Proof.
  induction n as [|n IH]; intros all Hk Hlen; [reflexivity|].
  cbn [segs_image]. rewrite zlen_app, zlen_seg_image, IH; try assumption; try lia.
  - unfold zlen in *. rewrite length_drop. lia.
  - unfold zlen in *. rewrite length_take. lia.
Qed.

(** ** Reading a range of the only entry of a file *)

Lemma read_entry_range (p : P2FILE) (key kt : list Z) (lltime sr : Z)
    (samples : list Z) (start stop : Z) (buf : list Z) :
  key = 32 :: 50 :: kt -> length kt = 26%nat ->
  f_data (p_fp p) = entry_image key lltime sr samples ->
  Forall is_short samples ->
  p_type p = 2 -> lastentry p = 1 -> cache_get (entry_pos_cache p) 1 = 0 ->
  0 <= start <= stop -> stop < zlen samples ->
  exists rr,
    pcmseq2_read p 1 start stop buf = Some rr
    /\ rr_rc rr = 0 /\ rr_numwritten rr = stop - start + 1
    /\ rr_buf rr = slice start (stop - start + 1) samples
                   ++ drop (Z.to_nat (stop - start + 1)) buf.
Proof.
  intros Hkey Hkt Hdata Hshort Ht HL Hcache Hrange Hstop.
  set (mkey := 32 :: 51 :: kt).
  assert (Hmk : <[1%nat := 51]> key = mkey) by (rewrite Hkey; reflexivity).
  assert (Hml : length mkey = 28%nat) by (unfold mkey; cbn [length]; lia).
  set (n := Z.to_nat (entry_segments samples)).
  set (padded := entry_padded samples).
  assert (Hq : 0 <= zlen samples / 2048) by (apply Z.div_pos; lia).
  assert (Hn : Z.of_nat n = entry_segments samples) by (unfold n, entry_segments; lia).
  assert (Hpad : zlen padded = 2048 * Z.of_nat n)
    by (unfold padded; rewrite zlen_entry_padded; lia).
  assert (Hpadshort : Forall is_short padded).
  { unfold padded, entry_padded. apply Forall_app. split; [exact Hshort|].
    apply Forall_replicate. unfold is_short. lia. }
  unfold entry_image in Hdata. rewrite Hmk in Hdata. fold n padded in Hdata.
  unfold pcmseq2_read, pcmseq2_seektoentry. rewrite HL, Hcache.
  cbn [Z.leb Z.ltb Z.eqb Z.compare Pos.compare Pos.compare_cont negb andb orb Pos.eqb].
  rewrite fseek_set_ok by lia. cbn [snd]. cbv iota.
  set (p1 := p_set_currententry _ _).
  destruct (readentryhdr_ok p1 key kt (segs_image mkey (zlen samples) n padded) lltime sr)
    as (p2 & Hreh & Ht2 & HL2 & Hd2 & Hp2 & Hk2); try assumption; try reflexivity.
  rewrite Hreh. cbv iota. change (0 =? -1) with false. cbv iota.
  assert (Hdisk : f_data (p_fp p2) = f_data (p_fp p)) by (rewrite Hd2; reflexivity).
  destruct (read_loop_segments (f_data (p_fp p)) mkey kt padded buf (zlen samples)
              start stop 1 eq_refl Hkt Hrange Hpadshort n
              (length (f_data (p_fp p2)) + 3)
              (mkRloop p2 (currententry p1) (-1) 0 0 buf 0))
    as (r' & Hrun & HL' & Hd' & Ht' & Hb' & Hc' & Hbuf' & Hce' & Hst').
  { unfold reading. cbn [r_p r_blockstart r_curpos r_buf].
    rewrite Hp2. change (Z.to_nat 54) with 54%nat. change (Z.to_nat 0) with 0%nat.
    cbn [drop]. repeat split; try assumption; try lia.
    - rewrite HL2. exact HL.
    - rewrite Hk2, Hkey. reflexivity.
    - change (drop 0 padded) with padded. change 54%nat with (Z.to_nat 54).
      rewrite Hdata. apply drop_prefix. rewrite zlen_enthdr; [reflexivity|].
      rewrite Hkey. cbn [length]. lia.
    - unfold got. lia. }
  { rewrite Hdisk, Hdata, length_app.
    pose proof (zlen_segs_image mkey (zlen samples) n padded Hml Hpad) as Hs.
    unfold zlen at 1 in Hs. lia. }
  rewrite Hrun, HL', Hb'.
  assert (Hlt : zlen samples <= zlen padded).
  { pose proof (Z.mod_pos_bound (zlen samples) 2048 ltac:(lia)).
    pose proof (Z.div_mod (zlen samples) 2048 ltac:(lia)).
    unfold entry_segments in Hn. lia. }
  rewrite (proj2 (Z.ltb_lt stop (zlen padded))) by lia.
  change (1 =? 1) with true. cbn [andb]. rewrite orb_true_r. cbn [orb]. cbv iota.
  change (0 =? -1) with false. cbv iota.
  eexists. split; [reflexivity|]. cbn [rr_rc rr_numwritten rr_buf].
  assert (Hgot : got start stop (zlen padded) = stop - start + 1) by (unfold got; lia).
  split; [reflexivity|]. split; [rewrite Hc'; exact Hgot|].
  rewrite Hbuf', Hc', Hgot. f_equal.
  unfold padded, entry_padded. apply slice_app_l; lia.
Qed.

(** ** Writing an entry and reading it back *)

Lemma get_u32_enc32 (a c : list Z) (off v : Z) :
  off = zlen a -> 0 <= v < 4294967296 -> get_u32 (a ++ enc32 v ++ c) off = v.
Proof.
  intros Hoff Hv. unfold get_u32.
  rewrite <- (Z.add_0_r off) at 1.
  rewrite !(byte_at_app a _ off) by (assumption || lia).
  unfold enc32, byte_at. cbn.
  repeat match goal with
         | |- context [Z.to_nat ?k] =>
             let k' := eval vm_compute in (Z.to_nat k) in change (Z.to_nat k) with k'
         end.
  cbv beta iota.
  pose proof (Z.div_mod v 256 ltac:(lia)).
  pose proof (Z.mod_pos_bound v 256 ltac:(lia)).
  pose proof (Z.div_mod (v / 256) 256 ltac:(lia)).
  pose proof (Z.mod_pos_bound (v / 256) 256 ltac:(lia)).
  pose proof (Z.div_mod (v / 65536) 256 ltac:(lia)).
  pose proof (Z.mod_pos_bound (v / 65536) 256 ltac:(lia)).
  assert (v / 65536 = v / 256 / 256) by (rewrite Z.div_div by lia; reflexivity).
  assert (v / 16777216 = v / 65536 / 256) by (rewrite Z.div_div by lia; reflexivity).
  assert (0 <= v / 16777216 < 256)
    by (split; [apply Z.div_pos; lia | apply Z.div_lt_upper_bound; lia]).
  rewrite (Z.mod_small (v / 16777216)) by lia. lia.
Qed.

(** The file that the writer leaves for one entry on a fresh stream. *)
Lemma written_image curtime (fp : PCMFILE) (chunks : list (list Z)) :
  outfp fp = Some fopen_w -> 0 < zlen (concat chunks) <= 2147483647 ->
  (exists fp', write_entry curtime fp chunks = Some (0, fp'))
  /\ written curtime fp chunks
     = entry_image (take 28 (init_key (name fp) (entry fp))) (hdr_lltime curtime fp)
         (samplerate fp) (concat chunks).
Proof.
  intros Hfd HT.
  destruct (write_entry_image curtime fp fopen_w chunks Hfd)
    as (fp' & fd' & Hrun & Hfd' & _ & Hdata & _); try reflexivity; try exact HT.
  split; [exists fp'; exact Hrun|].
  unfold written. rewrite Hrun, Hfd', Hdata. reflexivity.
Qed.

Lemma Forall_concat_short (chunks : list (list Z)) :
  Forall (Forall is_short) chunks -> Forall is_short (concat chunks).
Proof.
  induction 1 as [|c cs Hc _ IH]; [constructor|].
  cbn [concat]. apply Forall_app. split; assumption.
Qed.

(** C3.  Partial-range read.  Take an entry of 3000 16-bit samples written
    to a fresh file; it fills two segments.  On a handle that has the entry
    in its directory, [pcmseq2_read] with [start] 1000 and [stop] 2500 returns
    0, reports 1501 samples, and leaves samples 1000 to 2500 of the entry, in
    order, at the front of the buffer. *)
Theorem partial_range_read curtime (fp : PCMFILE) (chunks : list (list Z))
    (p : P2FILE) (buf : list Z) :
  outfp fp = Some fopen_w ->
  Forall (Forall is_short) chunks ->
  zlen (concat chunks) = 3000 ->
  indexed p (written curtime fp chunks) ->
  zlen (written curtime fp chunks) = 54 + 2 * 4134
  /\ exists rr,
       pcmseq2_read p 1 1000 2500 buf = Some rr
       /\ rr_rc rr = 0 /\ rr_numwritten rr = 1501
       /\ rr_buf rr = slice 1000 1501 (concat chunks) ++ drop 1501 buf.
Proof.
  intros Hfd Hshort HT (Hdisk & Htype & Hlast & Hcache).
  destruct (written_image curtime fp chunks Hfd ltac:(lia)) as (_ & Himg).
  destruct (init_key_shape (name fp) (entry fp)) as (kt & Hkt & Hkey & Hmkey).
  split.
  - rewrite Himg. unfold entry_image.
    rewrite zlen_app, zlen_enthdr by (rewrite Hkey; cbn [length]; lia).
    replace (Z.to_nat (entry_segments (concat chunks))) with 2%nat
      by (unfold entry_segments; rewrite HT; reflexivity).
    rewrite (zlen_segs_image _ _ 2).
    + reflexivity.
    + rewrite length_insert, Hkey. cbn [length]. lia.
    + rewrite zlen_entry_padded. unfold entry_segments. rewrite HT. reflexivity.
  - rewrite Himg in Hdisk.
    destruct (read_entry_range p _ kt _ _ (concat chunks) 1000 2500 buf
                Hkey Hkt Hdisk) as (rr & Hread & Hrc & Hnum & Hbuf);
      try assumption; try lia; [apply Forall_concat_short; exact Hshort|].
    exists rr. split; [exact Hread|]. split; [exact Hrc|]. split; [rewrite Hnum; lia|].
    rewrite Hbuf. reflexivity.
Qed.

Lemma partial_range_read_witness :
  zlen (written (1000, 5) ex_whandle ex_chunks1) = 54 + 2 * 4134
  /\ exists rr,
       pcmseq2_read (open_of ex_disk1) 1 1000 2500 (replicate 1501 7) = Some rr
       /\ rr_rc rr = 0 /\ rr_numwritten rr = 1501
       /\ rr_buf rr = slice 1000 1501 (concat ex_chunks1) ++ drop 1501 (replicate 1501 7).
Proof.
  apply (partial_range_read (1000, 5) ex_whandle ex_chunks1 (open_of ex_disk1)).
  - vm_compute. reflexivity.
  - apply (bool_decide_unpack (Forall (Forall is_short) ex_chunks1)). vm_compute. exact I.
  - vm_compute. reflexivity.
  - unfold indexed. repeat split; vm_compute; reflexivity.
Defined.

(** * Further properties of the writer and the reader *)

Lemma zlen_entry_image (key : list Z) (lltime sr : Z) (samples : list Z) :
  length key = 28%nat ->
  zlen (entry_image key lltime sr samples) = 54 + 4134 * (zlen samples / 2048 + 1).
Proof.
  intros Hk. pose proof (zlen_nonneg samples) as HT.
  assert (Hq : 0 <= zlen samples / 2048) by (apply Z.div_pos; lia).
  unfold entry_image. rewrite zlen_app, zlen_enthdr by exact Hk.
  rewrite zlen_segs_image.
  - unfold entry_segments. lia.
  - rewrite length_insert. exact Hk.
  - rewrite zlen_entry_padded. unfold entry_segments. lia.
Qed.

Lemma init_key_28 (name : list Z) (entry : Z) :
  length (take 28 (init_key name entry)) = 28%nat.
Proof.
  destruct (init_key_shape name entry) as (kt & Hkt & Hkey & _).
  rewrite Hkey. cbn [length]. lia.
Qed.

(** X1.  The bytes of an entry.  Writing the header, any chunks holding
    [total] > 0 samples in all, and the closing call, on a stream that stands
    at its end without error, succeeds, leaves the bytes already in the file
    alone, and appends the entry header and [total / 2048 + 1] segments of
    2048 samples (the samples, then zeros), every recordwords field 0 but the
    last, which holds [total]: 54 + 4134 * (total / 2048 + 1) bytes.  A total
    that is a multiple of 2048 so ends in a segment of zeros only. *)
Theorem entry_appended curtime (fp : PCMFILE) (fd : FILE) (chunks : list (list Z)) :
  outfp fp = Some fd -> at_end fd -> f_err fd = false -> f_eof fd = false ->
  0 < zlen (concat chunks) <= 2147483647 ->
  let image := entry_image (take 28 (init_key (name fp) (entry fp)))
                 (hdr_lltime curtime fp) (samplerate fp) (concat chunks) in
  exists fp' fd',
    write_entry curtime fp chunks = Some (0, fp')
    /\ outfp fp' = Some fd'
    /\ f_data fd' = f_data fd ++ image
    /\ f_pos fd' = zlen (f_data fd')
    /\ zlen image = 54 + 4134 * (zlen (concat chunks) / 2048 + 1).
Proof.
  intros Hfd Hend Herr Heof HT. cbv zeta.
  destruct (write_entry_image curtime fp fd chunks Hfd Hend Herr Heof HT)
    as (fp' & fd' & Hrun & Hfd' & Hend' & Hdata & _).
  exists fp', fd'. split; [exact Hrun|]. split; [exact Hfd'|]. split; [exact Hdata|].
  split; [apply Hend'|]. apply zlen_entry_image, init_key_28.
Qed.

Lemma entry_appended_witness :
  exists fp' fd',
    write_entry (1000, 5) ex_whandle ex_chunks1 = Some (0, fp')
    /\ outfp fp' = Some fd'
    /\ f_data fd'
       = f_data fopen_w
         ++ entry_image (take 28 (init_key (name ex_whandle) (entry ex_whandle)))
              (hdr_lltime (1000, 5) ex_whandle) (samplerate ex_whandle) (concat ex_chunks1)
    /\ f_pos fd' = zlen (f_data fd')
    /\ zlen (entry_image (take 28 (init_key (name ex_whandle) (entry ex_whandle)))
               (hdr_lltime (1000, 5) ex_whandle) (samplerate ex_whandle)
               (concat ex_chunks1))
       = 54 + 4134 * (zlen (concat ex_chunks1) / 2048 + 1).
Proof.
  apply (entry_appended (1000, 5) ex_whandle fopen_w ex_chunks1).
  - vm_compute. reflexivity.
  - split; reflexivity.
  - reflexivity.
  - reflexivity.
  - vm_compute. split; [reflexivity | discriminate].
Defined.

(** X2.  The file does not depend on how the samples are cut into chunks:
    two lists of chunks with the same samples in the same order leave the
    same file. *)
Theorem chunking_independent curtime (fp : PCMFILE) (chunks1 chunks2 : list (list Z)) :
  outfp fp = Some fopen_w ->
  concat chunks1 = concat chunks2 ->
  0 < zlen (concat chunks1) <= 2147483647 ->
  (exists fp1, write_entry curtime fp chunks1 = Some (0, fp1))
  /\ (exists fp2, write_entry curtime fp chunks2 = Some (0, fp2))
  /\ written curtime fp chunks1 = written curtime fp chunks2.
Proof.
  intros Hfd Heq HT.
  destruct (written_image curtime fp chunks1 Hfd HT) as (Hrun1 & Himg1).
  destruct (written_image curtime fp chunks2 Hfd) as (Hrun2 & Himg2);
    [rewrite <- Heq; exact HT|].
  split; [exact Hrun1|]. split; [exact Hrun2|].
  rewrite Himg1, Himg2, Heq. reflexivity.
Qed.

Lemma chunking_independent_witness :
  (exists fp1, write_entry (1000, 5) ex_whandle [ramp 5; []; ramp 3] = Some (0, fp1))
  /\ (exists fp2, write_entry (1000, 5) ex_whandle [ramp 5 ++ ramp 3] = Some (0, fp2))
  /\ written (1000, 5) ex_whandle [ramp 5; []; ramp 3]
     = written (1000, 5) ex_whandle [ramp 5 ++ ramp 3].
Proof.
  apply (chunking_independent (1000, 5) ex_whandle [ramp 5; []; ramp 3] [ramp 5 ++ ramp 3]).
  - vm_compute. reflexivity.
  - vm_compute. reflexivity.
  - vm_compute. split; [reflexivity | discriminate].
Defined.

(** X3.  Reading any range.  For an entry of 16-bit samples written to a
    fresh file and a handle that has it in its directory, [pcmseq2_read] of
    samples [start..stop], with 0 <= start <= stop below the count of the
    entry, returns 0, reports [stop - start + 1] samples, stores these
    samples of the entry at the front of the buffer and leaves the rest of
    the buffer as it was. *)
Theorem read_any_range curtime (fp : PCMFILE) (chunks : list (list Z))
    (p : P2FILE) (start stop : Z) (buf : list Z) :
  outfp fp = Some fopen_w ->
  Forall (Forall is_short) chunks ->
  zlen (concat chunks) <= 2147483647 ->
  indexed p (written curtime fp chunks) ->
  0 <= start <= stop -> stop < zlen (concat chunks) ->
  exists rr,
    pcmseq2_read p 1 start stop buf = Some rr
    /\ rr_rc rr = 0 /\ rr_numwritten rr = stop - start + 1
    /\ rr_buf rr = slice start (stop - start + 1) (concat chunks)
                   ++ drop (Z.to_nat (stop - start + 1)) buf.
Proof.
  intros Hfd Hshort HT (Hdisk & Htype & Hlast & Hcache) Hrange Hstop.
  destruct (written_image curtime fp chunks Hfd ltac:(lia)) as (_ & Himg).
  destruct (init_key_shape (name fp) (entry fp)) as (kt & Hkt & Hkey & _).
  rewrite Himg in Hdisk.
  apply (read_entry_range p _ kt _ _ (concat chunks) start stop buf Hkey Hkt Hdisk);
    try assumption.
  apply Forall_concat_short. exact Hshort.
Qed.

Lemma read_any_range_witness :
  exists rr,
    pcmseq2_read (open_of ex_disk1) 1 2047 2048 [9; 9; 9] = Some rr
    /\ rr_rc rr = 0 /\ rr_numwritten rr = 2048 - 2047 + 1
    /\ rr_buf rr = slice 2047 (2048 - 2047 + 1) (concat ex_chunks1)
                   ++ drop (Z.to_nat (2048 - 2047 + 1)) [9; 9; 9].
Proof.
  apply (read_any_range (1000, 5) ex_whandle ex_chunks1 (open_of ex_disk1)).
  - vm_compute. reflexivity.
  - apply (bool_decide_unpack (Forall (Forall is_short) ex_chunks1)). vm_compute. exact I.
  - vm_compute. discriminate.
  - unfold indexed. repeat split; vm_compute; reflexivity.
  - lia.
  - vm_compute. reflexivity.
Defined.

(** What [pcmseq2_write_data] leaves alone in the handle. *)
Lemma write_data_frame (fp fp' : PCMFILE) (data : list Z) (nsamples lastsegment rc : Z) :
  pcmseq2_write_data fp data nsamples lastsegment = Some (rc, fp') ->
  name fp' = name fp /\ flags fp' = flags fp /\ entry fp' = entry fp
  /\ samplerate fp' = samplerate fp /\ timestamp fp' = timestamp fp
  /\ microtimestamp fp' = microtimestamp fp /\ nentries fp' = nentries fp
  /\ p2file fp' = p2file fp /\ entrystarted fp' = entrystarted fp
  /\ pcmseq3_key fp' = pcmseq3_key fp.
Proof.
  unfold pcmseq2_write_data. destruct (outfp fp) as [fd|].
  - destruct (negb (lastsegment =? 0) && (nsamples =? 0)).
    + destruct (write_loop _ _ _ _ _) as [w|]; [|discriminate].
      destruct (if negb (lastsegment =? 0) then _ else _) as [rc1 fd1].
      destruct (negb (rc1 =? 0) || feof fd1 || ferror fd1);
        intros [= <- <-]; repeat split.
    + destruct (write_loop _ _ _ _ _) as [w|]; [|discriminate].
      destruct (if negb (lastsegment =? 0) then _ else _) as [rc1 fd1].
      destruct (negb (rc1 =? 0) || feof fd1 || ferror fd1);
        intros [= <- <-]; repeat split.
  - intros [= <- <-]. repeat split.
Qed.

Lemma write_chunks_frame : forall (chunks : list (list Z)) (fp fp' : PCMFILE) (rc : Z),
  write_chunks fp chunks = Some (rc, fp') ->
  flags fp' = flags fp /\ entry fp' = entry fp /\ samplerate fp' = samplerate fp.
Proof.
  induction chunks as [|c cs IH]; intros fp fp' rc; cbn [write_chunks].
  - intros [= <- <-]. repeat split.
  - destruct (pcmseq2_write_data fp c (zlen c) 0) as [[rc1 fp1]|] eqn:E; [|discriminate].
    apply write_data_frame in E. destruct E as (_ & Hf & He & Hs & _).
    destruct (rc1 =? 0).
    + intros H. apply IH in H. destruct H as (Hf' & He' & Hs'). repeat split; congruence.
    + intros [= <- <-]. repeat split; assumption.
Qed.

(** X4.  The running count of an entry.  After the header and any chunks,
    all calls have returned 0 and [pcmseq3_entrysize], which [pcmseq_stat]
    reports as [nsamples] of a handle opened for writing, is the count of the
    samples handed over so far. *)
Theorem entrysize_running_total curtime (fp : PCMFILE) (fd : FILE)
    (chunks : list (list Z)) (buf : pcmstat) :
  flags fp = O_WRONLY ->
  outfp fp = Some fd -> at_end fd -> f_err fd = false -> f_eof fd = false ->
  zlen (concat chunks) <= 2147483647 ->
  exists fp1 fp2,
    pcmseq2_write_hdr curtime fp = (0, fp1)
    /\ write_chunks fp1 chunks = Some (0, fp2)
    /\ pcmseq3_entrysize fp2 = zlen (concat chunks)
    /\ fst (pcmseq_stat fp2 buf) = 0
    /\ st_nsamples (snd (pcmseq_stat fp2 buf)) = zlen (concat chunks)
    /\ st_entry (snd (pcmseq_stat fp2 buf)) = entry fp.
Proof.
  intros Hflags Hfd Hend Herr Heof HT.
  destruct (init_key_shape (name fp) (entry fp)) as (kt & Hkt & Hkey & Hmkey).
  rewrite (write_hdr_image curtime fp fd Hfd Hend Herr Heof).
  set (fp1 := set_writer _ _ _ _ _ _).
  assert (Hok1 : wfile_ok fp1 (appended fd (enthdr_image (take 28 (init_key (name fp) (entry fp)))
                                              (hdr_lltime curtime fp) (samplerate fp)))
                   (32 :: 51 :: kt) 2048 0).
  { unfold wfile_ok, fp1, set_writer.
    cbn [outfp pcmseq3_key pcmseq3_cursamp pcmseq3_entrysize pcmseq3_poscache
         appended f_err f_eof].
    split; [reflexivity|]. split; [apply at_end_appended; exact Hend|].
    repeat split; try assumption; try lia. cbn [length]. lia. }
  destruct (write_chunks_image chunks fp1 _ _ 2048 0 Hok1) as (fp2 & Hrun2 & Hok2);
    [lia | lia |].
  exists fp1, fp2. split; [reflexivity|]. split; [exact Hrun2|].
  destruct Hok2 as (_ & _ & _ & _ & _ & _ & _ & _ & Hsz & _).
  destruct (write_chunks_frame chunks fp1 fp2 0 Hrun2) as (Hf2 & He2 & _).
  assert (Hfl : flags fp2 = O_WRONLY) by (rewrite Hf2; exact Hflags).
  assert (Hstat : pcmseq_stat fp2 buf
                  = (0, mkPcmstat (entry fp2) (pcmseq3_entrysize fp2) (samplerate fp2)
                          (st_timestamp buf) (st_microtimestamp buf)
                          (Z.lor PCMIOCAP_MULTENTRY PCMIOCAP_SAMPRATE) (st_nentries buf)))
    by (unfold pcmseq_stat; rewrite Hfl; reflexivity).
  rewrite Hstat. cbn [fst snd st_nsamples st_entry].
  rewrite Hsz, He2. repeat split; try reflexivity; lia.
Qed.

Lemma entrysize_running_total_witness :
  exists fp1 fp2,
    pcmseq2_write_hdr (1000, 5) ex_whandle = (0, fp1)
    /\ write_chunks fp1 [ramp 5; ramp 4000] = Some (0, fp2)
    /\ pcmseq3_entrysize fp2 = zlen (concat [ramp 5; ramp 4000])
    /\ fst (pcmseq_stat fp2 (mkPcmstat 0 0 0 0 0 0 0)) = 0
    /\ st_nsamples (snd (pcmseq_stat fp2 (mkPcmstat 0 0 0 0 0 0 0)))
       = zlen (concat [ramp 5; ramp 4000])
    /\ st_entry (snd (pcmseq_stat fp2 (mkPcmstat 0 0 0 0 0 0 0))) = entry ex_whandle.
Proof.
  apply (entrysize_running_total (1000, 5) ex_whandle fopen_w).
  - reflexivity.
  - vm_compute. reflexivity.
  - split; reflexivity.
  - reflexivity.
  - reflexivity.
  - vm_compute. discriminate.
Defined.

(** ** Dates *)

Lemma lltime_of_small (sec usec : Z) :
  18000 <= sec <= 2147483647 -> 0 <= usec < 1000000 ->
  lltime_of sec usec = (sec - 18000) * 10000000 + usec * 10 + EPOCH.
Proof.
  intros Hs Hu. unfold lltime_of, wrap64u, EPOCH.
  rewrite (Z.mod_small sec) by lia.
  rewrite (Z.mod_small ((sec - 18000) * 10000000)) by lia.
  rewrite (Z.mod_small ((sec - 18000) * 10000000 + usec * 10)) by lia.
  apply Z.mod_small. lia.
Qed.

(** X5.  Dates survive the header.  A date of [sec] seconds (from 18000 on,
    an [int]) and [usec] microseconds, stored in an entry header the way
    [pcmseq2_write_hdr] computes it, is what [pcmseq_stat] reports as
    [timestamp] and [microtimestamp] for that entry. *)
Theorem stat_time_roundtrip (fp : PCMFILE) (p : P2FILE) (buf : pcmstat) (sec usec : Z) :
  flags fp = O_RDONLY ->
  p2file fp = Some p ->
  0 < entry fp ->
  (lastentry p = -1 \/ entry fp <= lastentry p) ->
  cache_get (entry_size_cache p) (entry fp) <> -1 ->
  18000 <= sec <= 2147483647 -> 0 <= usec < 1000000 ->
  cache_get (entry_time_cache p) (entry fp) = lltime_of sec usec ->
  exists st,
    pcmseq_stat fp buf = (0, st)
    /\ st_timestamp st = sec /\ st_microtimestamp st = usec.
Proof.
  intros Hflags Hp He Hlast Hsize Hs Hu Htime.
  unfold pcmseq_stat. rewrite Hflags, Hp.
  rewrite (getinfo_known p (entry fp) He Hlast Hsize).
  change (O_RDONLY =? O_RDONLY) with true. cbv iota. change (0 =? 0) with true.
  cbn [negb]. eexists. split; [reflexivity|].
  cbn [st_timestamp st_microtimestamp].
  rewrite Htime, lltime_of_small by assumption.
  assert (Hne : ((sec - 18000) * 10000000 + usec * 10 + EPOCH =? 18446744073709551615) = false)
    by (unfold EPOCH; lia).
  rewrite Hne.
  replace ((sec - 18000) * 10000000 + usec * 10 + EPOCH - EPOCH)
    with ((sec - 18000) * 10000000 + usec * 10) by lia.
  unfold wrap64u.
  rewrite (Z.mod_small ((sec - 18000) * 10000000 + usec * 10)) by lia.
  rewrite Z.quot_div_nonneg, Z.rem_mod_nonneg by lia.
  replace (((sec - 18000) * 10000000 + usec * 10) / 10000000) with (sec - 18000)
    by (apply Z.div_unique with (r := usec * 10); lia).
  replace (((sec - 18000) * 10000000 + usec * 10) mod 10000000) with (usec * 10)
    by (apply Z.mod_unique with (q := sec - 18000); lia).
  rewrite Z.quot_div_nonneg by lia.
  rewrite Z.div_mul by lia.
  replace (sec - 18000 + 18000) with sec by lia.
  rewrite Z.mod_small by lia. split; [apply wrap32s_small; lia | reflexivity].
Qed.

Lemma stat_time_roundtrip_witness :
  exists st,
    pcmseq_stat ex_rhandle (mkPcmstat 0 0 0 0 0 0 0) = (0, st)
    /\ st_timestamp st = 18005 /\ st_microtimestamp st = 0.
Proof.
  apply (stat_time_roundtrip ex_rhandle (open_of ex_disk2)).
  - reflexivity.
  - vm_compute. reflexivity.
  - vm_compute. reflexivity.
  - right. vm_compute. discriminate.
  - vm_compute. discriminate.
  - lia.
  - lia.
  - vm_compute. reflexivity.
Defined.

(** ** Write errors *)

Lemma fwrite_err (bs : list Z) (fd : FILE) :
  f_err fd = true -> f_err (snd (fwrite bs fd)) = true.
Proof.
  intros Herr. unfold fwrite. destruct bs as [|b bs]; exact Herr.
Qed.

Lemma put_err (rc : Z) (fd : FILE) (bs : list Z) :
  f_err fd = true -> f_err (snd (put rc fd bs)) = true.
Proof.
  intros Herr. unfold put. pose proof (fwrite_err bs fd Herr) as H.
  destruct (fwrite bs fd) as [n fd']. exact H.
Qed.

Ltac err_puts :=
  unfold putdata, putshort, putchars, putlong;
  repeat match goal with
    | |- context [put ?a ?b ?c] =>
        let H := fresh "Herr" in
        pose proof (put_err a b c) as H;
        destruct (put a b c) as [? ?]; cbn [snd] in H;
        specialize (H ltac:(assumption))
    end.

Lemma write_step_err key entrysize lastsegment (w : wloop) :
  f_err (w_fd w) = true -> f_err (w_fd (write_step key entrysize lastsegment w)) = true.
Proof.
  intros Herr. unfold write_step, pad_entry.
  assert (H : f_err (w_fd (write_switch key entrysize lastsegment w)) = true).
  { unfold write_switch, fill_block.
    destruct (w_state w).
    - destruct (_ >=? _); err_puts; wloop_simpl; assumption.
    - destruct (_ >=? _); err_puts; wloop_simpl; assumption.
    - destruct (_ >=? _).
      + destruct (_ >? 0); err_puts;
          match goal with |- context [if ?b then _ else mkWloop _ _ _ _ _ _ _ _] =>
            destruct b end; err_puts; wloop_simpl; assumption.
      + err_puts. wloop_simpl. assumption. }
  destruct (_ && _); wloop_simpl; exact H.
Qed.

Lemma write_loop_err key entrysize lastsegment : forall (fuel : nat) (w w' : wloop),
  f_err (w_fd w) = true ->
  write_loop fuel key entrysize lastsegment w = Some w' ->
  f_err (w_fd w') = true.
Proof.
  induction fuel as [|fuel IH]; intros w w' Herr; cbn [write_loop];
    destruct (w_nsamples w >? 0); try discriminate;
    try (intros [= <-]; exact Herr).
  apply IH, write_step_err, Herr.
Qed.

(** The end of [pcmseq2_write_data]: the count written over the recordwords
    field when the entry is closed, and the test of the stream. *)
Lemma write_data_end_err (fp : PCMFILE) (w : wloop) (entrysize lastsegment : Z) :
  f_err (w_fd w) = true ->
  exists fd',
    (let '(rc, fd) :=
       if negb (lastsegment =? 0) then
         let fd := snd (fseek_set (w_fd w) (w_poscache w)) in
         let '(rc, fd) := putlong (w_rc w) fd entrysize in
         (rc, snd (fseek_end fd 0))
       else (w_rc w, w_fd w) in
     let fp := set_writer fp entrysize (pcmseq3_key fp) (w_cursamp w) (w_poscache w) fd in
     if negb (rc =? 0) || feof fd || ferror fd then Some (-1, fp) else Some (0, fp))
    = Some (-1, set_writer fp entrysize (pcmseq3_key fp) (w_cursamp w) (w_poscache w) fd')
    /\ f_err fd' = true.
Proof.
  intros Herr. destruct (negb (lastsegment =? 0)).
  - assert (H1 : f_err (snd (fseek_set (w_fd w) (w_poscache w))) = true)
      by (unfold fseek_set; destruct (_ <? 0); exact Herr).
    unfold putlong. pose proof (put_err (w_rc w) _ (enc32 entrysize) H1) as H2.
    destruct (put _ _ _) as [rc1 fd1]. cbn [snd] in H2.
    assert (H3 : f_err (snd (fseek_end fd1 0)) = true)
      by (unfold fseek_end, fseek_set; destruct (_ <? 0); exact H2).
    exists (snd (fseek_end fd1 0)). split; [|exact H3].
    unfold ferror. rewrite H3, orb_true_r. reflexivity.
  - exists (w_fd w). split; [|exact Herr].
    unfold ferror. rewrite Herr, orb_true_r. reflexivity.
Qed.

(** X6.  Write errors are not lost.  When the error indicator of the output
    stream is set, [pcmseq2_write_data] returns -1 whatever it is given, and
    leaves the indicator set. *)
Theorem write_error_sticky (fp : PCMFILE) (fd : FILE) (data : list Z)
    (nsamples lastsegment : Z) :
  outfp fp = Some fd -> f_err fd = true -> 0 <= pcmseq3_cursamp fp <= 2048 ->
  exists fp' fd',
    pcmseq2_write_data fp data nsamples lastsegment = Some (-1, fp')
    /\ outfp fp' = Some fd' /\ f_err fd' = true.
Proof.
  intros Hfd Herr Hc.
  destruct (pcmseq2_write_data_total fp data nsamples lastsegment Hc)
    as (rc & fp' & Hrun & _).
  assert (Hshape : rc = -1 /\ exists fd', outfp fp' = Some fd' /\ f_err fd' = true).
  { revert Hrun. unfold pcmseq2_write_data. rewrite Hfd.
    destruct (negb (lastsegment =? 0) && (nsamples =? 0));
      (destruct (write_loop _ _ _ _ _) as [w|] eqn:Eloop; [|discriminate]);
      apply write_loop_err in Eloop; try exact Herr;
      destruct (write_data_end_err fp w (wrap32s (pcmseq3_entrysize fp + nsamples))
                  lastsegment Eloop) as (fd' & Hend & Hfd');
      intros Hrun; pose proof (eq_trans (eq_sym Hend) Hrun) as Heq;
      injection Heq as <- <-; (split; [reflexivity|]); exists fd';
      (split; [reflexivity | exact Hfd']). }
  destruct Hshape as (-> & fd' & Hfd' & Herr').
  exists fp', fd'. split; [exact Hrun|]. split; assumption.
Qed.

Lemma write_error_sticky_witness :
  exists fp' fd',
    pcmseq2_write_data
      (set_outfp ex_whandle (Some (mkFILE [] 0 false true))) (ramp 3) 3 0
    = Some (-1, fp')
    /\ outfp fp' = Some fd' /\ f_err fd' = true.
Proof.
  apply (write_error_sticky _ (mkFILE [] 0 false true)).
  - reflexivity.
  - reflexivity.
  - vm_compute. split; discriminate.
Defined.

Lemma put_bytes_unchecked_err (bs : list Z) : forall (fd : FILE),
  f_err fd = true -> f_err (put_bytes_unchecked fd bs) = true.
Proof.
  induction bs as [|b bs IH]; intros fd Herr; cbn [put_bytes_unchecked]; [exact Herr|].
  apply IH, fwrite_err, Herr.
Qed.

Lemma write_hdr_err curtime (fp : PCMFILE) (fd : FILE) :
  outfp fp = Some fd -> f_err fd = true ->
  fst (pcmseq2_write_hdr curtime fp) = -1.
Proof.
  intros Hfd Hfull. unfold pcmseq2_write_hdr. rewrite Hfd.
  assert (H1 : f_err (snd (putshort 0 fd 3)) = true) by (apply put_err, Hfull).
  destruct (putshort 0 fd 3) as [rc1 fd1]. cbn [snd] in H1.
  unfold putchars, putlong.
  pose proof (put_err rc1 fd1 (take (Z.to_nat 28) (init_key (name fp) (entry fp))) H1) as H2.
  destruct (put rc1 fd1 _) as [rc2 fd2]. cbn [snd] in H2.
  apply (put_bytes_unchecked_err
           (enc64 (if timestamp fp =? 0 then lltime_of (fst curtime) (snd curtime)
                   else lltime_of (timestamp fp) (microtimestamp fp)))) in H2.
  err_puts. unfold ferror.
  match goal with H : f_err ?f = true |- context [f_err ?f] => rewrite H end.
  rewrite orb_true_r. reflexivity.
Qed.

(** X7.  A stream in error.  When the error indicator of the output stream
    is set, the first [pcmseq_write] of an entry returns -1 after the call
    for the header alone: no sample is handed to [pcmseq2_write_data].  The
    handle counts the entry as started all the same. *)
Theorem write_on_failed_stream curtime (fp : PCMFILE) (fd : FILE) (buf : list Z)
    (nsamples : Z) :
  flags fp = O_WRONLY -> outfp fp = Some fd -> entrystarted fp = 0 ->
  f_err fd = true ->
  exists fp',
    pcmseq_write curtime fp buf nsamples = Some (-1, fp', [CallHdr])
    /\ entrystarted fp' = 1.
Proof.
  intros Hflags Hfd Hstart Hfull.
  pose proof (write_hdr_err curtime fp fd Hfd Hfull) as Hrc.
  unfold pcmseq_write. rewrite Hflags, Hfd, Hstart.
  change (O_WRONLY =? O_WRONLY) with true. change (0 =? 0) with true. cbv iota.
  destruct (pcmseq2_write_hdr curtime fp) as [rc fp1]. cbn [fst] in Hrc. subst rc.
  change (-1 =? 0) with false. cbv iota.
  eexists. split; reflexivity.
Qed.

Lemma write_on_failed_stream_witness :
  exists fp',
    pcmseq_write (1000, 5) (set_outfp ex_whandle (Some (mkFILE [] 0 false true))) (ramp 3) 3
    = Some (-1, fp', [CallHdr])
    /\ entrystarted fp' = 1.
Proof.
  apply (write_on_failed_stream (1000, 5) _ (mkFILE [] 0 false true)).
  - reflexivity.
  - reflexivity.
  - reflexivity.
  - reflexivity.
Defined.

(** * Further properties of the cluster files *)

#[local] Set Warnings "-clear-no-such-hyp".

Section Clusters.
Import Klustio.

Lemma clamp64_small (x : Z) : is_long x -> clamp64 x = x.
Proof. unfold is_long, clamp64. lia. Qed.

Lemma is_int_long (x : Z) : is_int x -> is_long x.
Proof. unfold is_int, is_long. lia. Qed.

Lemma fscanf_d_at (pre rest : list Z) (x v : Z) :
  is_int x ->
  fscanf_d (mkTFILE (pre ++ x :: rest) (length pre)) v
  = (1, x, mkTFILE (pre ++ x :: rest) (S (length pre))).
Proof.
  intros Hx. unfold fscanf_d. cbn [t_toks t_pos].
  rewrite lookup_app_r by lia. rewrite Nat.sub_diag. cbn [lookup list_lookup].
  rewrite clamp64_small by (apply is_int_long, Hx).
  rewrite wrap32s_small by exact Hx. reflexivity.
Qed.

Lemma fscanf_ld_at (pre rest : list Z) (x v : Z) :
  is_long x ->
  fscanf_ld (mkTFILE (pre ++ x :: rest) (length pre)) v
  = (1, x, mkTFILE (pre ++ x :: rest) (S (length pre))).
Proof.
  intros Hx. unfold fscanf_ld. cbn [t_toks t_pos].
  rewrite lookup_app_r by lia. rewrite Nat.sub_diag. cbn [lookup list_lookup].
  rewrite clamp64_small by exact Hx. reflexivity.
Qed.

Lemma fscanf_ld_eof (toks : list Z) (pos : nat) (v : Z) :
  (length toks <= pos)%nat ->
  fscanf_ld (mkTFILE toks pos) v = (EOF, v, mkTFILE toks pos).
Proof.
  intros Hpos. unfold fscanf_ld. cbn [t_toks t_pos].
  rewrite lookup_ge_None_2 by lia. reflexivity.
Qed.

Lemma fscanf_d_eof (toks : list Z) (pos : nat) (v : Z) :
  (length toks <= pos)%nat ->
  fscanf_d (mkTFILE toks pos) v = (EOF, v, mkTFILE toks pos).
Proof.
  intros Hpos. unfold fscanf_d. cbn [t_toks t_pos].
  rewrite lookup_ge_None_2 by lia. reflexivity.
Qed.

(** The loop of [getclusters] from the middle of the file: it puts in the
    numbers left and, in the turn that meets the end of the file, once more
    the number read last. *)
Lemma getclusters_loop_rest : forall (rest pre : list Z) (fuel : nat) (clust : Z)
    (clusters : gset Z) (nlines : Z),
  Forall is_int rest ->
  (length rest < fuel)%nat ->
  getclusters_loop fuel 1 clust (mkTFILE (pre ++ rest) (length pre)) clusters nlines
  = Some (nlines + zlen rest + 1,
          list_to_set rest ∪ {[ List.last rest clust ]} ∪ clusters,
          mkTFILE (pre ++ rest) (length (pre ++ rest))).
Proof.
  induction rest as [|x rest IH]; intros pre fuel clust clusters nlines Hint Hfuel;
    (destruct fuel as [|fuel]; [cbn [length] in Hfuel; lia|]).
  - cbn [getclusters_loop]. change (1 =? EOF) with false. cbv iota.
    rewrite app_nil_r. rewrite fscanf_d_eof by lia.
    assert (Hend : forall f, getclusters_loop f EOF clust (mkTFILE pre (length pre))
                               ({[clust]} ∪ clusters) (nlines + 1)
                             = Some (nlines + 1, {[clust]} ∪ clusters, mkTFILE pre (length pre)))
      by (intros []; reflexivity).
    rewrite Hend, zlen_nil. cbn [List.last list_to_set].
    replace (nlines + 0 + 1) with (nlines + 1) by lia.
    replace (∅ ∪ {[clust]} ∪ clusters) with ({[clust]} ∪ clusters) by set_solver.
    reflexivity.
  - cbn [getclusters_loop]. change (1 =? EOF) with false. cbv iota.
    apply Forall_cons in Hint. destruct Hint as (Hx & Hint).
    rewrite fscanf_d_at by exact Hx.
    replace (pre ++ x :: rest) with ((pre ++ [x]) ++ rest) by (rewrite <- app_assoc; reflexivity).
    replace (S (length pre)) with (length (pre ++ [x])) by (rewrite length_app; cbn; lia).
    rewrite IH by (assumption || cbn [length] in Hfuel; lia).
    assert (Hlast : List.last (x :: rest) clust = List.last rest x)
      by (clear; revert x; induction rest as [|y rest IH]; intros x; [reflexivity|];
          cbn [List.last] in *; destruct rest; [reflexivity | apply IH]).
    rewrite Hlast, zlen_cons. cbn [list_to_set].
    replace (nlines + 1 + zlen rest + 1) with (nlines + (1 + zlen rest) + 1) by lia.
    replace (list_to_set rest ∪ {[List.last rest x]} ∪ ({[x]} ∪ clusters))
      with ({[x]} ∪ list_to_set rest ∪ {[List.last rest x]} ∪ clusters) by set_solver.
    reflexivity.
Qed.

Lemma getclusters_file (clust0 h : Z) (body : list Z) (pos : nat) :
  is_int h -> Forall is_int body ->
  getclusters clust0 (mkTFILE (h :: body) pos)
  = Some (zlen body + 1, clusters_of h body, mkTFILE (h :: body) pos).
Proof.
  intros Hh Hbody.
  unfold clusters_of, getclusters, ftell, fseek. cbn [t_toks t_pos].
  change (fscanf_d (mkTFILE (h :: body) 0) clust0)
    with (fscanf_d (mkTFILE ([] ++ h :: body) (length (@nil Z))) clust0).
  rewrite fscanf_d_at by exact Hh. cbn [t_toks app].
  change (mkTFILE (h :: body) (S (length (@nil Z))))
    with (mkTFILE ([h] ++ body) (length [h])).
  rewrite getclusters_loop_rest by (assumption || cbn [length app]; lia).
  cbn [t_toks app length].
  replace (0 + zlen body + 1) with (zlen body + 1) by lia.
  replace (list_to_set body ∪ {[List.last body h]} ∪ ∅)
    with (if decide (body = []) then ({[h]} : gset Z) else list_to_set body); [reflexivity|].
  destruct (decide (body = [])) as [-> | Hne].
  - cbn [List.last list_to_set]. set_solver.
  - assert (Hin : List.last body h ∈ body).
    { clear - Hne. revert h. induction body as [|x body IH]; intros h; [contradiction|].
      destruct body as [|y body]; [cbn; set_solver|].
      change (List.last (x :: y :: body) h) with (List.last (y :: body) h).
      apply list_elem_of_further, IH. discriminate. }
    apply (elem_of_list_to_set (C := gset Z)) in Hin. set_solver.
Qed.

(** X8.  The clusters of a file.  On a cluster file of numbers that fit an
    [int], whose first number (the cluster count) is followed by at least
    one cluster number, [getclusters] yields the set of the numbers that
    follow the first, leaves the stream where it was, and returns their
    count plus one: the loop runs one more turn at the end of the file.  On
    a file of the count alone that turn puts the count itself into the
    set. *)
Theorem getclusters_spec (clust0 h : Z) (body : list Z) (pos : nat) :
  is_int h -> Forall is_int body ->
  getclusters clust0 (mkTFILE (h :: body) pos)
  = Some (zlen body + 1,
          (if decide (body = []) then {[ h ]} else list_to_set body),
          mkTFILE (h :: body) pos).
Proof.
  apply getclusters_file.
Qed.

Lemma getclusters_spec_witness :
  getclusters 9 (mkTFILE (3 :: [2; 0; 5; 2]) 1)
  = Some (zlen [2; 0; 5; 2] + 1,
          (if decide ([2; 0; 5; 2] = []) then {[ 3 ]} else list_to_set [2; 0; 5; 2]),
          mkTFILE (3 :: [2; 0; 5; 2]) 1).
Proof.
  apply (getclusters_spec 9 3 [2; 0; 5; 2] 1).
  - vm_compute. split; discriminate.
  - apply (bool_decide_unpack (Forall is_int [2; 0; 5; 2])). vm_compute. exact I.
Defined.

Lemma size_le_1_singleton (X : gset Z) (x : Z) :
  x ∈ X -> ~ (1 < size X)%nat -> X = {[ x ]}.
Proof.
  intros Hx Hsize.
  assert (H1 : size X = 1%nat).
  { assert (size X <> 0%nat) by (apply size_non_empty_iff; set_solver). lia. }
  apply set_eq. intros y. rewrite elem_of_singleton. split.
  - intros Hy. apply (size_singleton_inv X y x H1 Hy Hx).
  - intros ->. exact Hx.
Qed.

(** X9.  Dropping the noise clusters.  [drop_noise] (the rule that
    [sort_unit] and [sort_unit_episode] apply to the clusters of a file) only
    ever removes 0 and 1; it keeps every other cluster, never empties a set
    that has a cluster, keeps 0 only when 0 is the only cluster, and keeps 1
    only when 1 is the only cluster left. *)
Theorem drop_noise_spec (clusters : gset Z) :
  drop_noise clusters ⊆ clusters
  /\ (forall c, c ∈ clusters -> c <> 0 -> c <> 1 -> c ∈ drop_noise clusters)
  /\ (clusters <> ∅ -> drop_noise clusters <> ∅)
  /\ (0 ∈ drop_noise clusters -> clusters = {[ 0 ]})
  /\ (1 ∈ drop_noise clusters -> drop_noise clusters = {[ 1 ]}).
Proof.
  unfold drop_noise.
  set (c1 := if bool_decide (1 < size clusters)%nat && bool_decide (0 ∈ clusters)
             then clusters ∖ {[0]} else clusters).
  assert (H1 : c1 ⊆ clusters) by (unfold c1; destruct (_ && _); set_solver).
  assert (H1' : forall c, c ∈ clusters -> c <> 0 -> c ∈ c1)
    by (unfold c1; destruct (_ && _); set_solver).
  assert (H10 : 0 ∈ c1 -> clusters = {[0]}).
  { unfold c1. destruct (bool_decide (1 < size clusters)%nat) eqn:Es;
      destruct (bool_decide (0 ∈ clusters)) eqn:E0; cbn [andb]; try set_solver.
    - apply bool_decide_eq_false in E0. set_solver.
    - apply bool_decide_eq_false in Es. apply bool_decide_eq_true in E0.
      intros _. apply size_le_1_singleton; assumption.
    - apply bool_decide_eq_false in E0. set_solver. }
  assert (H1ne : clusters <> ∅ -> c1 <> ∅).
  { unfold c1. destruct (bool_decide (1 < size clusters)%nat) eqn:Es;
      destruct (bool_decide (0 ∈ clusters)) eqn:E0; cbn [andb]; try tauto.
    apply bool_decide_eq_true in Es, E0. intros _ Hemp.
    pose proof (size_difference clusters {[0]} ltac:(set_solver)) as Hsz.
    rewrite Hemp, size_empty, size_singleton in Hsz. lia. }
  destruct (bool_decide (1 < size c1)%nat) eqn:Es;
    destruct (bool_decide (1 ∈ c1)) eqn:E1; cbn [andb].
  - apply bool_decide_eq_true in Es, E1.
    split; [set_solver|]. split; [set_solver|]. split.
    + intros Hne Hemp.
      pose proof (size_difference c1 {[1]} ltac:(set_solver)) as Hsz.
      rewrite Hemp, size_empty, size_singleton in Hsz. lia.
    + split; [set_solver|]. set_solver.
  - apply bool_decide_eq_false in E1.
    split; [exact H1|]. split; [intros; apply H1'; assumption|].
    split; [exact H1ne|]. split; [exact H10|]. intros H. contradiction.
  - apply bool_decide_eq_false in Es. apply bool_decide_eq_true in E1.
    split; [exact H1|]. split; [intros; apply H1'; assumption|].
    split; [exact H1ne|]. split; [exact H10|].
    intros _. apply size_le_1_singleton; assumption.
  - apply bool_decide_eq_false in E1.
    split; [exact H1|]. split; [intros; apply H1'; assumption|].
    split; [exact H1ne|]. split; [exact H10|]. intros H. contradiction.
Qed.

(** ** The sweep over the episodes *)

Lemma advance_spec (atimes : list Z) (atime : Z) :
  (forall i, 1 <= i < zlen atimes -> 0 < vec_get atimes i) ->
  forall (fuel : nat) (s : sweep),
    sweep_at atimes s ->
    zlen atimes - episode s <= Z.of_nat fuel ->
    exists s',
      advance fuel atimes (zlen atimes) atime s = Some s'
      /\ sweep_at atimes s'
      /\ episode s <= episode s'
      /\ (episode s < episode s' -> et s' <= atime)
      /\ (et s' = et s \/ et s' <= atime)
      /\ (episode s' + 1 < zlen atimes -> atime < vec_get atimes (episode s' + 1)).
Proof.
  intros Hpos. induction fuel as [|fuel IH]; intros s (He & Het & Hnt & Hlast) Hfuel.
  - assert (Hn : zlen atimes <= episode s) by lia.
    exists s. cbn [advance].
    assert (Hcond : (0 <? nt s) && (nt s <=? atime) = false)
      by (apply andb_false_iff; left; apply Z.ltb_ge, Hlast; lia).
    rewrite Hcond. split; [reflexivity|]. split; [repeat split; assumption || lia|].
    repeat split; lia.
  - cbn [advance].
    destruct ((0 <? nt s) && (nt s <=? atime)) eqn:Hcond.
    + apply andb_true_iff in Hcond. destruct Hcond as [Hp Hle].
      apply Z.ltb_lt in Hp. apply Z.leb_le in Hle.
      assert (Hin : episode s + 1 < zlen atimes) by (destruct (Z.lt_ge_cases (episode s + 1) (zlen atimes)); [assumption | specialize (Hlast ltac:(lia)); lia]).
      set (s1 := mkSweep (episode s + 1) (nt s)
                   (if episode s + 1 + 1 <? zlen atimes
                    then vec_get atimes (episode s + 1 + 1) else -1)).
      destruct (IH s1) as (s' & Hrun & Hat' & Hep' & Hadv' & Het' & Hnext').
      { unfold sweep_at, s1. cbn [episode et nt].
        split; [lia|]. split; [apply Hnt; exact Hin|].
        split; intros H.
        - replace (episode s + 1 + 1 <? zlen atimes) with true by lia. reflexivity.
        - replace (episode s + 1 + 1 <? zlen atimes) with false by lia. lia. }
      { unfold s1. cbn [episode]. lia. }
      exists s'. split; [exact Hrun|]. split; [exact Hat'|].
      unfold s1 in Hep', Hadv', Het'. cbn [episode et] in Hep', Hadv', Het'.
      split; [lia|]. split.
      * intros _. destruct Het' as [-> | H]; [exact Hle | exact H].
      * split; [right; destruct Het' as [-> | H]; [exact Hle | exact H] | exact Hnext'].
    + exists s. split; [reflexivity|]. split; [repeat split; assumption || lia|].
      split; [lia|]. split; [lia|]. split; [left; reflexivity|].
      intros Hin. apply andb_false_iff in Hcond.
      specialize (Hnt Hin). specialize (Hpos (episode s + 1) ltac:(lia)).
      destruct Hcond as [H | H]; [apply Z.ltb_ge in H | apply Z.leb_gt in H]; lia.
Qed.

(** X10.  The episode of an event.  Let the episode starts after the first
    be positive.  From pointers that stand at an episode which starts at or
    before the event, the sweep ([advance], the inner loop of
    [sort_unit_episode]) ends within one turn per episode at an episode [e]
    at or after the one it left, with [atimes[e]] at or before the event and
    the event before [atimes[e + 1]] when there is a later episode; the event
    is filed under [e] with the offset [atime - atimes[e]], which is not
    negative. *)
Theorem advance_aligns (atimes : list Z) (atime : Z) (s : sweep) :
  (forall i, 1 <= i < zlen atimes -> 0 < vec_get atimes i) ->
  sweep_at atimes s ->
  et s <= atime ->
  exists s' e,
    align_one atimes atime s = Some (s', e, atime - vec_get atimes e)
    /\ sweep_at atimes s'
    /\ episode s' = e /\ episode s <= e
    /\ vec_get atimes e <= atime
    /\ (e + 1 < zlen atimes -> atime < vec_get atimes (e + 1)).
Proof.
  intros Hpos Hat Het.
  destruct (advance_spec atimes atime Hpos (S (length atimes)) s Hat)
    as (s' & Hrun & Hat' & Hep & _ & Het' & Hnext).
  { destruct Hat as (He & _). unfold zlen. lia. }
  exists s', (episode s'). unfold align_one. rewrite Hrun.
  destruct Hat' as (He' & Hets' & Hrest).
  rewrite Hets'. split; [reflexivity|]. split; [repeat split; assumption || lia|].
  split; [reflexivity|]. split; [exact Hep|]. split; [|exact Hnext].
  rewrite <- Hets'. destruct Het' as [-> | H]; [exact Het | exact H].
Qed.

Lemma advance_aligns_witness :
  exists s' e,
    align_one ex_atimes 260 (mkSweep 0 0 100) = Some (s', e, 260 - vec_get ex_atimes e)
    /\ sweep_at ex_atimes s'
    /\ episode s' = e /\ episode (mkSweep 0 0 100) <= e
    /\ vec_get ex_atimes e <= 260
    /\ (e + 1 < zlen ex_atimes -> 260 < vec_get ex_atimes (e + 1)).
Proof.
  apply (advance_aligns ex_atimes 260 (mkSweep 0 0 100)).
  - intros i Hi. change (zlen ex_atimes) with 3 in Hi.
    assert (i = 1 \/ i = 2) as [-> | ->] by lia; reflexivity.
  - unfold sweep_at. change (zlen ex_atimes) with 3. cbn [episode et nt].
    split; [lia|]. split; [reflexivity|]. split; [intros _; reflexivity | lia].
  - cbn [et]. lia.
Defined.

End Clusters.

(** * Opening a file that the writer has left *)

Lemma byte_at_slice (l : list Z) (off len k : Z) :
  0 <= off -> 0 <= k < len -> byte_at (slice off len l) k = byte_at l (off + k).
Proof.
  intros Hoff Hk. unfold byte_at, slice.
  destruct (Z.ltb_spec k 0); [lia|]. destruct (Z.ltb_spec (off + k) 0); [lia|].
  destruct (decide (Z.to_nat off + Z.to_nat k < length l)%nat) as [Hin|Hout].
  - rewrite !nth_lookup. rewrite lookup_take_lt by lia. rewrite lookup_drop.
    replace (Z.to_nat (off + k)) with (Z.to_nat off + Z.to_nat k)%nat by lia. reflexivity.
  - rewrite !nth_overflow; [reflexivity | lia |].
    rewrite length_take, length_drop. lia.
Qed.

Lemma get_u32_slice (l : list Z) (off len k : Z) :
  0 <= off -> 0 <= k -> k + 4 <= len ->
  get_u32 (slice off len l) k = get_u32 l (off + k).
Proof.
  intros Hoff Hk Hlen. unfold get_u32.
  rewrite !byte_at_slice by lia. rewrite !Z.add_assoc. reflexivity.
Qed.

Lemma get_u32_app (a l : list Z) (off k : Z) :
  off = zlen a -> 0 <= k -> get_u32 (a ++ l) (off + k) = get_u32 l k.
Proof.
  intros Hoff Hk. unfold get_u32.
  rewrite <- !Z.add_assoc. rewrite !(byte_at_app a l off) by (assumption || lia). reflexivity.
Qed.

Lemma byte_of_enc64 (v k : Z) :
  0 <= v -> 0 <= k ->
  Z.shiftr (Z.land v (Z.shiftl 255 (8 * k))) (8 * k) = (v / 2 ^ (8 * k)) mod 256.
Proof.
  intros Hv Hk. rewrite Z.shiftr_land, Z.shiftr_shiftl_l by lia.
  rewrite Z.sub_diag, Z.shiftl_0_r, Z.shiftr_div_pow2 by lia.
  change 255 with (Z.ones 8). rewrite Z.land_ones by lia. reflexivity.
Qed.

Lemma get_u64_enc64 (v : Z) (rest : list Z) :
  0 <= v < 18446744073709551616 -> get_u64 (enc64 v ++ rest) 0 = v.
Proof.
  intros Hv. unfold enc64. cbn [map app].
  rewrite !byte_of_enc64 by lia.
  unfold get_u64, get_u32, byte_at.
  repeat match goal with
         | |- context [?a <? 0] =>
             let b := eval vm_compute in (a <? 0) in change (a <? 0) with b
         end.
  cbv beta iota.
  repeat match goal with
         | |- context [Z.to_nat ?k] =>
             let k' := eval vm_compute in (Z.to_nat k) in change (Z.to_nat k) with k'
         end.
  cbn [nth].
  change (8 * 0) with 0. change (8 * 1) with 8. change (8 * 2) with 16.
  change (8 * 3) with 24. change (8 * 4) with 32. change (8 * 5) with 40.
  change (8 * 6) with 48. change (8 * 7) with 56.
  change (2 ^ 0) with 1. rewrite Z.div_1_r.
  change (2 ^ 8) with 256. change (2 ^ 16) with 65536. change (2 ^ 24) with 16777216.
  change (2 ^ 32) with 4294967296. change (2 ^ 40) with 1099511627776.
  change (2 ^ 48) with 281474976710656. change (2 ^ 56) with 72057594037927936.
  pose proof (Z.div_mod v 256 ltac:(lia)).
  pose proof (Z.mod_pos_bound v 256 ltac:(lia)).
  assert (Hstep : forall a b, 0 < a -> 0 < b ->
            v / (a * b) = v / a / b) by (intros; rewrite Z.div_div by lia; reflexivity).
  pose proof (Hstep 256 256 ltac:(lia) ltac:(lia)) as E1.
  pose proof (Hstep 65536 256 ltac:(lia) ltac:(lia)) as E2.
  pose proof (Hstep 16777216 256 ltac:(lia) ltac:(lia)) as E3.
  pose proof (Hstep 4294967296 256 ltac:(lia) ltac:(lia)) as E4.
  pose proof (Hstep 1099511627776 256 ltac:(lia) ltac:(lia)) as E5.
  pose proof (Hstep 281474976710656 256 ltac:(lia) ltac:(lia)) as E6.
  change (256 * 256) with 65536 in E1. change (65536 * 256) with 16777216 in E2.
  change (16777216 * 256) with 4294967296 in E3.
  change (4294967296 * 256) with 1099511627776 in E4.
  change (1099511627776 * 256) with 281474976710656 in E5.
  change (281474976710656 * 256) with 72057594037927936 in E6.
  pose proof (Z.div_mod (v / 256) 256 ltac:(lia)).
  pose proof (Z.div_mod (v / 65536) 256 ltac:(lia)).
  pose proof (Z.div_mod (v / 16777216) 256 ltac:(lia)).
  pose proof (Z.div_mod (v / 4294967296) 256 ltac:(lia)).
  pose proof (Z.div_mod (v / 1099511627776) 256 ltac:(lia)).
  pose proof (Z.div_mod (v / 281474976710656) 256 ltac:(lia)).
  assert (0 <= v / 72057594037927936 < 256)
    by (split; [apply Z.div_pos; lia | apply Z.div_lt_upper_bound; lia]).
  rewrite (Z.mod_small (v / 72057594037927936)) by lia. lia.
Qed.

(** A 32-bit value goes through its four bytes, read back as an [int]. *)
Lemma enc32_mod (v : Z) : enc32 (v mod 4294967296) = enc32 v.
Proof.
  unfold enc32. rewrite (Z.mod_eq v 4294967296) by lia.
  set (q := v / 4294967296).
  assert (H0 : (v - 4294967296 * q) mod 256 = v mod 256).
  { replace (v - 4294967296 * q) with (v + (- q * 16777216) * 256) by lia.
    apply Z.mod_add. lia. }
  assert (H1 : ((v - 4294967296 * q) / 256) mod 256 = (v / 256) mod 256).
  { replace (v - 4294967296 * q) with (v + (- q * 16777216) * 256) by lia.
    rewrite Z.div_add by lia.
    replace (v / 256 + - q * 16777216) with (v / 256 + (- q * 65536) * 256) by lia.
    apply Z.mod_add. lia. }
  assert (H2 : ((v - 4294967296 * q) / 65536) mod 256 = (v / 65536) mod 256).
  { replace (v - 4294967296 * q) with (v + (- q * 65536) * 65536) by lia.
    rewrite Z.div_add by lia.
    replace (v / 65536 + - q * 65536) with (v / 65536 + (- q * 256) * 256) by lia.
    apply Z.mod_add. lia. }
  assert (H3 : ((v - 4294967296 * q) / 16777216) mod 256 = (v / 16777216) mod 256).
  { replace (v - 4294967296 * q) with (v + (- q * 256) * 16777216) by lia.
    rewrite Z.div_add by lia.
    replace (v / 16777216 + - q * 256) with (v / 16777216 + (- q) * 256) by lia.
    apply Z.mod_add. lia. }
  rewrite H0, H1, H2, H3. reflexivity.
Qed.

Lemma wrap32s_mod (v : Z) :
  -2147483648 <= v <= 2147483647 -> wrap32s (v mod 4294967296) = v.
Proof.
  intros Hv. unfold wrap32s.
  destruct (Z_lt_le_dec v 0) as [Hneg | Hpos].
  - rewrite <- (Z.mod_unique v 4294967296 (-1) (v + 4294967296)) by lia.
    rewrite <- (Z.mod_unique (v + 4294967296 + 2147483648) 4294967296 1 (v + 2147483648))
      by lia.
    lia.
  - rewrite (Z.mod_small v) by lia. rewrite Z.mod_small by lia. lia.
Qed.

Section OpenWritten.

Variables (key kt samples : list Z) (lltime sr : Z).
Hypothesis Hkey : key = 32 :: 50 :: kt.
Hypothesis Hkt : length kt = 26%nat.
Hypothesis Hsize : 0 < zlen samples <= 1000000000.
Hypothesis Hsr : -2147483648 <= sr <= 2147483647.
Hypothesis Hlltime : 0 <= lltime < 18446744073709551616.

Let disk := entry_image key lltime sr samples.
Let total := zlen samples.
Let q := total / 2048.
Let mkey := 32 :: 51 :: kt.

Lemma written_shape :
  exists pre lastblk,
    disk = enthdr_image key lltime sr ++ pre ++ seg_image mkey total lastblk
    /\ zlen pre = 4134 * q
    /\ zlen (seg_image mkey total lastblk) = 4134
    /\ zlen disk = 54 + 4134 * (q + 1)
    /\ 0 <= q <= 488281.
Proof.
  assert (Hml : length mkey = 28%nat) by (unfold mkey; cbn [length]; lia).
  assert (Hkl : length key = 28%nat) by (rewrite Hkey; cbn [length]; lia).
  assert (Hmk : <[1%nat := 51]> key = mkey) by (rewrite Hkey; reflexivity).
  destruct (entry_bytes mkey samples Hml (proj1 Hsize)) as (pre & lastblk & _ & Himg & Hpre & _).
  exists pre, lastblk. change (zlen pre = 4134 * q) in Hpre.
  assert (Hq : 0 <= q <= 488281).
  { unfold q, total. split; [apply Z.div_pos; lia|].
    assert (zlen samples / 2048 < 488282) by (apply Z.div_lt_upper_bound; lia). lia. }
  assert (Hlen : zlen disk = 54 + 4134 * (q + 1))
    by (unfold disk; rewrite zlen_entry_image by exact Hkl; reflexivity).
  assert (Hdisk : disk = enthdr_image key lltime sr ++ pre ++ seg_image mkey total lastblk)
    by (unfold disk, entry_image; rewrite Hmk, Himg; reflexivity).
  split; [exact Hdisk|]. split; [exact Hpre|]. split; [|split; assumption].
  rewrite Hdisk, !zlen_app, zlen_enthdr, Hpre in Hlen by exact Hkl. lia.
Qed.

(** The last segment header of the file, and the entry header at its
    start, as the indexer tests and reads them. *)
Lemma written_seghdr :
  seghdr_at 2 disk (54 + 4134 * q) = true
  /\ get_s32 (slice (54 + 4134 * q) 36 disk) 30 = total.
Proof.
  destruct written_shape as (pre & lastblk & Hdisk & Hpre & Hseg & Hlen & Hq).
  assert (Hkl : length key = 28%nat) by (rewrite Hkey; cbn [length]; lia).
  assert (Hoff : 54 + 4134 * q = zlen (enthdr_image key lltime sr ++ pre))
    by (rewrite zlen_app, zlen_enthdr, Hpre by exact Hkl; reflexivity).
  assert (Hbyte : forall k, 0 <= k < 36 ->
            byte_at (slice (54 + 4134 * q) 36 disk) k
            = byte_at (seg_image mkey total lastblk) k).
  { intros k Hk. rewrite byte_at_slice by lia.
    rewrite Hdisk, app_assoc. apply byte_at_app; [exact Hoff | lia]. }
  split.
  - unfold seghdr_at. rewrite Hlen.
    replace (54 + 4134 * q + 36 <=? 54 + 4134 * (q + 1)) with true by lia.
    unfold valid_seghdr, hdr_off. change (2 =? 1) with false. cbv iota.
    change (0 + 1) with 1. change (0 + 2) with 2. change (0 + 3) with 3.
    rewrite !Hbyte by lia. reflexivity.
  - unfold get_s32. rewrite get_u32_slice by lia.
    rewrite Hdisk, app_assoc, (get_u32_app _ _ (54 + 4134 * q)) by (exact Hoff || lia).
    unfold seg_image, seghdr_image.
    replace ((enc16 1 ++ mkey ++ enc32 total) ++ segbody_image lastblk)
      with ((enc16 1 ++ mkey) ++ enc32 total ++ segbody_image lastblk)
      by (rewrite <- !app_assoc; reflexivity).
    rewrite get_u32_enc32; [apply wrap32s_small; unfold total; lia | | unfold total; lia].
    unfold zlen, mkey. rewrite length_app. cbn [length enc16]. rewrite Hkt. reflexivity.
Qed.

Lemma written_enthdr :
  enthdr_at 2 disk 0 = true
  /\ get_s32 (slice 0 56 disk) 50 = sr
  /\ get_u64 (slice 0 56 disk) 30 = lltime
  /\ byte_at disk 0 = 3.
Proof.
  destruct written_shape as (pre & lastblk & Hdisk & Hpre & Hseg & Hlen & Hq).
  assert (Hbyte : forall k, 0 <= k < 56 -> byte_at (slice 0 56 disk) k = byte_at disk k)
    by (intros k Hk; rewrite byte_at_slice by lia; reflexivity).
  assert (Hd : disk = enc16 3 ++ key ++ enc64 lltime ++ enc32 2048 ++ enc32 1
                      ++ enc32 0x20f01 ++ enc32 sr
                      ++ pre ++ seg_image mkey total lastblk)
    by (rewrite Hdisk; unfold enthdr_image; rewrite <- !app_assoc; reflexivity).
  assert (Hkl : length key = 28%nat) by (rewrite Hkey; cbn [length]; lia).
  split; [|split; [|split]].
  - unfold enthdr_at. rewrite Hlen. replace (0 + 56 <=? 54 + 4134 * (q + 1)) with true by lia.
    unfold valid_enthdr, hdr_off. change (2 =? 1) with false. cbv iota.
    change (0 + 1) with 1. change (0 + 2) with 2. change (0 + 3) with 3.
    rewrite !Hbyte by lia. rewrite Hd, Hkey. reflexivity.
  - unfold get_s32. rewrite get_u32_slice by lia. rewrite Hd.
    replace (enc16 3 ++ key ++ enc64 lltime ++ enc32 2048 ++ enc32 1 ++ enc32 134913
             ++ enc32 sr ++ pre ++ seg_image mkey total lastblk)
      with ((enc16 3 ++ key ++ enc64 lltime ++ enc32 2048 ++ enc32 1 ++ enc32 134913)
            ++ enc32 sr ++ pre ++ seg_image mkey total lastblk)
      by (rewrite <- !app_assoc; reflexivity).
    rewrite <- (enc32_mod sr).
    rewrite get_u32_enc32;
      [apply wrap32s_mod; exact Hsr | | apply Z.mod_pos_bound; lia].
    unfold zlen. rewrite !length_app, Hkl. reflexivity.
  - unfold get_u64. rewrite !get_u32_slice by lia. rewrite Hd.
    replace (enc16 3 ++ key ++ enc64 lltime ++ enc32 2048 ++ enc32 1 ++ enc32 134913
             ++ enc32 sr ++ pre ++ seg_image mkey total lastblk)
      with ((enc16 3 ++ key) ++ enc64 lltime ++ enc32 2048 ++ enc32 1 ++ enc32 134913
            ++ enc32 sr ++ pre ++ seg_image mkey total lastblk)
      by (rewrite <- !app_assoc; reflexivity).
    assert (H30 : 30 = zlen (enc16 3 ++ key))
      by (unfold zlen; rewrite length_app, Hkl; reflexivity).
    change (0 + 30) with (30 + 0). change (0 + (30 + 4)) with (30 + 4).
    rewrite !(get_u32_app (enc16 3 ++ key) _ 30) by (exact H30 || lia).
    match goal with
    | |- get_u32 (enc64 lltime ++ ?r) _ + _ = _ => exact (get_u64_enc64 lltime r Hlltime)
    end.
  - rewrite Hd. reflexivity.
Qed.

Lemma written_segments :
  entrysegments_of total = (if total mod 2048 =? 0 then q else q + 1)
  /\ (total mod 2048 = 0 -> 1 <= q).
Proof.
  pose proof (Z.div_mod total 2048 ltac:(lia)) as Hdm.
  pose proof (Z.mod_pos_bound total 2048 ltac:(lia)) as Hm.
  fold q in Hdm. split.
  - unfold entrysegments_of. rewrite wrap32s_small by (unfold total; lia).
    rewrite Z.quot_div_nonneg by (unfold total; lia).
    destruct (Z.eqb_spec (total mod 2048) 0) as [E|E].
    + symmetry. apply Z.div_unique with (r := 2047); lia.
    + symmetry. apply Z.div_unique with (r := total mod 2048 - 1); lia.
  - intros E. unfold total in *. lia.
Qed.

Lemma fread_at (f : FILE) (n : Z) :
  0 < n -> 0 <= f_pos f -> f_pos f + n <= zlen (f_data f) ->
  fread n f = (slice (f_pos f) n (f_data f), 1,
               mkFILE (f_data f) (f_pos f + n) (f_eof f) (f_err f)).
Proof. intros. rewrite fread_full by assumption. reflexivity. Qed.

(** The first turn of the indexing loop on the file: from the last segment
    header to the entry header, which is at the start of the file. *)
Lemma index_step_written (p : P2FILE) :
  f_data (p_fp p) = disk -> f_pos (p_fp p) = 54 + 4134 * q ->
  (total mod 2048 = 0 -> enthdr_at 2 disk 4134 = false) ->
  exists fp',
    index_step 2 p 1
    = Some (IndexDone
              (p_set_caches p fp'
                 (cache_set (entry_pos_cache p) 1 0)
                 (cache_set (entry_size_cache p) 1 total)
                 (cache_set (entry_sr_cache p) 1 sr)
                 (cache_set (entry_time_cache p) 1 lltime)) 1)
    /\ f_data fp' = disk.
Proof.
  intros Hdata Hpos Hfalse.
  destruct written_shape as (pre & lastblk & Hdisk & Hpre & Hseg & Hlen & Hq).
  destruct written_seghdr as (Hsh & Hrw).
  destruct written_enthdr as (Heh & Hsrv & Htime & _).
  destruct written_segments as (Hsegs & Hq1).
  unfold index_step, read_seghdr, segment_bytes. change (2 =? 1) with false. cbv iota.
  rewrite fread_at by (rewrite ?Hdata, ?Hpos, ?Hlen; lia).
  rewrite Hdata, Hpos.
  unfold seghdr_at in Hsh. apply andb_true_iff in Hsh. destruct Hsh as [_ Hvalid].
  rewrite Hvalid. change ((1 =? 1) && true) with true. cbn [negb]. cbv iota.
  unfold locate_entry, hdr_off, segment_bytes. change (2 =? 1) with false. cbv iota.
  change (0 + 30) with 30. rewrite Hrw.
  replace (total =? -1) with false by (unfold total; lia).
  replace (total =? 0) with false by (unfold total; lia). cbn [orb]. cbv iota.
  rewrite Hsegs. unfold deltapos_of, read_enthdr.
  destruct (Z.eqb_spec (total mod 2048) 0) as [E|E].
  - (* a total that fills its segments: the header is tried one segment in *)
    specialize (Hq1 E). specialize (Hfalse E).
    rewrite wrap32s_small by lia.
    rewrite fseek_cur_ok by (cbn [f_pos]; lia).
    cbn [snd]; unfold set_pos; cbn [f_data f_pos f_eof f_err].
    replace (54 + 4134 * q + 36 + (4134 - 36 - q * 4134 - 54)) with 4134 by lia.
    rewrite fread_at by (cbn [f_data f_pos]; rewrite ?Hlen; lia).
    cbn [f_data f_pos f_eof f_err].
    unfold enthdr_at in Hfalse. rewrite Hlen in Hfalse.
    replace (4134 + 56 <=? 54 + 4134 * (q + 1)) with true in Hfalse by lia.
    cbn [andb] in Hfalse. rewrite Hfalse.
    change ((1 =? 1) && false) with false. cbn [negb]. cbv iota.
    rewrite fseek_cur_ok by (cbn [f_pos]; lia).
    cbn [snd]; unfold set_pos; cbn [f_data f_pos f_eof f_err].
    replace (4134 + 56 + (4134 * -1 - 56)) with 0 by lia.
    rewrite fread_at by (cbn [f_data f_pos]; rewrite ?Hlen; lia).
    cbn [f_data f_pos f_eof f_err].
    unfold enthdr_at in Heh. apply andb_true_iff in Heh. destruct Heh as [_ Hv2].
    rewrite Hv2. change ((1 =? 1) && true) with true. cbn [negb]. cbv iota.
    unfold ftell. cbn [f_pos]. change (0 + 56 - 56) with 0. change (0 =? 0) with true.
    cbv iota. change (0 + 50) with 50. change (0 + 30) with 30.
    rewrite Hsrv, Htime.
    exists (mkFILE disk (0 + 56) false (f_err (p_fp p))).
    split; reflexivity.
  - rewrite wrap32s_small by lia.
    rewrite fseek_cur_ok by (cbn [f_pos]; lia).
    cbn [snd]; unfold set_pos; cbn [f_data f_pos f_eof f_err].
    replace (54 + 4134 * q + 36 + (4134 - 36 - (q + 1) * 4134 - 54)) with 0 by lia.
    rewrite fread_at by (cbn [f_data f_pos]; rewrite ?Hlen; lia).
    cbn [f_data f_pos f_eof f_err].
    unfold enthdr_at in Heh. apply andb_true_iff in Heh. destruct Heh as [_ Hv2].
    rewrite Hv2. change ((1 =? 1) && true) with true. cbn [negb]. cbv iota.
    unfold ftell. cbn [f_pos]. change (0 + 56 - 56) with 0. change (0 =? 0) with true.
    cbv iota. change (0 + 50) with 50. change (0 + 30) with 30.
    rewrite Hsrv, Htime.
    exists (mkFILE disk (0 + 56) false (f_err (p_fp p))).
    split; reflexivity.
Qed.

Lemma open_written_image :
  (total mod 2048 = 0 -> enthdr_at 2 disk 4134 = false) ->
  exists p,
    pcmseq2_open disk = Some (Some p)
    /\ f_data (p_fp p) = disk /\ f_pos (p_fp p) = 0
    /\ p_type p = 2 /\ lastentry p = 1 /\ currententry p = 1
    /\ cache_get (entry_pos_cache p) 1 = 0
    /\ cache_get (entry_size_cache p) 1 = total
    /\ cache_get (entry_sr_cache p) 1 = sr
    /\ cache_get (entry_time_cache p) 1 = lltime.
Proof.
  intros Hfalse.
  destruct written_shape as (pre & lastblk & Hdisk & Hpre & Hseg & Hlen & Hq).
  destruct written_enthdr as (_ & _ & _ & Hb0).
  unfold pcmseq2_open, pcmseq2_indexfile.
  change (p_fp (p2file_init disk)) with (mkFILE disk 0 false false).
  rewrite fseek_set_ok by lia. cbn [snd]. unfold set_pos.
  cbn [f_data f_pos f_eof f_err].
  rewrite fread_at by (cbn [f_data f_pos]; rewrite ?Hlen; lia).
  cbn [f_data f_pos f_eof f_err].
  rewrite byte_at_slice by lia.
  change (byte_at disk (0 + 0)) with (byte_at disk 0). rewrite Hb0.
  change (3 =? 54) with false. change (3 =? 3) with true. cbv iota.
  change (2 =? 0) with false. cbv iota.
  unfold segment_bytes. change (2 =? 1) with false. cbv iota.
  rewrite fseek_set_ok by (rewrite Hlen; lia). cbn [snd]. unfold set_pos.
  cbn [f_data f_pos f_eof f_err].
  set (p0 := p_set_fp _ _).
  destruct (index_step_written p0) as (fp' & Hstep & Hfp');
    [reflexivity | unfold p0; cbn [p_set_fp p_fp f_pos]; rewrite Hlen; lia | exact Hfalse |].
  cbn [index_loop].
  replace (length disk + 2)%nat with (S (length disk + 1)) by lia.
  cbn [index_loop]. rewrite Hstep.
  change (Z.to_nat 1) with 1%nat. cbn [reverse_caches]. change (1 <? 1) with false. cbv iota.
  change (0 =? 0) with true. cbv iota.
  eexists. split; [reflexivity|].
  cbn [p_set_fp p_set_index p_set_caches p_fp rewind f_data f_pos p_type lastentry
       currententry entry_pos_cache entry_size_cache entry_sr_cache entry_time_cache].
  split; [exact Hfp'|]. split; [reflexivity|]. split; [reflexivity|]. split; [reflexivity|].
  split; [reflexivity|].
  unfold p0, p2file_init.
  cbn [p_set_fp entry_pos_cache entry_size_cache entry_sr_cache entry_time_cache].
  repeat split; apply cache_get_set; try lia; rewrite length_replicate; unfold CACHESIZE; lia.
Qed.

End OpenWritten.

Lemma hdr_lltime_range curtime (fp : PCMFILE) :
  0 <= hdr_lltime curtime fp < 18446744073709551616.
Proof.
  unfold hdr_lltime, lltime_of, wrap64u.
  destruct (timestamp fp =? 0); apply Z.mod_pos_bound; lia.
Qed.

(** X11.  Opening what the writer left.  [pcmseq2_open] accepts a file that
    holds one entry of up to 10^9 samples written to a fresh file (sample
    rate an [int] that is not negative), and indexes it: one entry, at the
    start of the file, of the count of samples supplied, with the sample rate
    and the date that the header was given.  When the count is a multiple of
    2048 the indexer first looks for the entry header one segment into the
    file, so the four bytes there (sample data) must not read 03 00 20 32. *)
Theorem open_written curtime (fp : PCMFILE) (chunks : list (list Z)) :
  outfp fp = Some fopen_w ->
  0 < zlen (concat chunks) <= 1000000000 ->
  0 <= samplerate fp <= 2147483647 ->
  (zlen (concat chunks) mod 2048 = 0 ->
   enthdr_at 2 (written curtime fp chunks) 4134 = false) ->
  exists p,
    pcmseq2_open (written curtime fp chunks) = Some (Some p)
    /\ indexed p (written curtime fp chunks)
    /\ f_pos (p_fp p) = 0 /\ currententry p = 1
    /\ pcmseq2_getinfo p 1
       = (0, zlen (concat chunks), samplerate fp,
          (if hdr_lltime curtime fp =? 18446744073709551615 then 0
           else hdr_lltime curtime fp), 1).
Proof.
  intros Hfd HT Hsr Hfalse.
  destruct (written_image curtime fp chunks Hfd ltac:(lia)) as (_ & Himg).
  destruct (init_key_shape (name fp) (entry fp)) as (kt & Hkt & Hkey & _).
  rewrite Himg in *.
  destruct (open_written_image _ kt (concat chunks) (hdr_lltime curtime fp) (samplerate fp)
              Hkey Hkt HT ltac:(lia) (hdr_lltime_range curtime fp) Hfalse)
    as (p & Hopen & Hdata & Hpos & Htype & Hlast & Hcur & Hc1 & Hc2 & Hc3 & Hc4).
  exists p. split; [exact Hopen|]. split; [repeat split; assumption|].
  split; [exact Hpos|]. split; [exact Hcur|].
  rewrite getinfo_known by (rewrite ?Hlast, ?Hc2; lia).
  rewrite Hc2, Hc3, Hc4, Hlast.
  replace (samplerate fp =? -1) with false by lia. reflexivity.
Qed.

Lemma open_written_witness :
  exists p,
    pcmseq2_open (written (1000, 5) ex_whandle ex_chunks1) = Some (Some p)
    /\ indexed p (written (1000, 5) ex_whandle ex_chunks1)
    /\ f_pos (p_fp p) = 0 /\ currententry p = 1
    /\ pcmseq2_getinfo p 1
       = (0, zlen (concat ex_chunks1), samplerate ex_whandle,
          (if hdr_lltime (1000, 5) ex_whandle =? 18446744073709551615 then 0
           else hdr_lltime (1000, 5) ex_whandle), 1).
Proof.
  apply (open_written (1000, 5) ex_whandle ex_chunks1).
  - vm_compute. reflexivity.
  - vm_compute. split; [reflexivity | discriminate].
  - vm_compute. split; discriminate.
  - vm_compute. discriminate.
Defined.

(** X12.  Round trip through the file alone.  Under the conditions of X11
    and for 16-bit samples, the handle that [pcmseq2_open] builds on the file
    that the writer left reads the entry back whole: [pcmseq2_read] over
    samples 0 to the count less one returns 0 and the samples supplied. *)
Theorem write_open_read curtime (fp : PCMFILE) (chunks : list (list Z)) (buf : list Z) :
  outfp fp = Some fopen_w ->
  Forall (Forall is_short) chunks ->
  0 < zlen (concat chunks) <= 1000000000 ->
  0 <= samplerate fp <= 2147483647 ->
  (zlen (concat chunks) mod 2048 = 0 ->
   enthdr_at 2 (written curtime fp chunks) 4134 = false) ->
  exists p rr,
    pcmseq2_open (written curtime fp chunks) = Some (Some p)
    /\ pcmseq2_read p 1 0 (zlen (concat chunks) - 1) buf = Some rr
    /\ rr_rc rr = 0 /\ rr_numwritten rr = zlen (concat chunks)
    /\ rr_buf rr = concat chunks ++ drop (Z.to_nat (zlen (concat chunks))) buf.
Proof.
  intros Hfd Hshort HT Hsr Hfalse.
  destruct (written_image curtime fp chunks Hfd ltac:(lia)) as (_ & Himg).
  destruct (init_key_shape (name fp) (entry fp)) as (kt & Hkt & Hkey & _).
  rewrite Himg in *.
  destruct (open_written_image _ kt (concat chunks) (hdr_lltime curtime fp) (samplerate fp)
              Hkey Hkt HT ltac:(lia) (hdr_lltime_range curtime fp) Hfalse)
    as (p & Hopen & Hdata & Hpos & Htype & Hlast & Hcur & Hc1 & _).
  destruct (read_entry_range p _ kt _ _ (concat chunks) 0 (zlen (concat chunks) - 1) buf
              Hkey Hkt Hdata) as (rr & Hread & Hrc & Hnum & Hbuf);
    try assumption; try lia; [apply Forall_concat_short; exact Hshort|].
  exists p, rr. split; [exact Hopen|]. split; [exact Hread|]. split; [exact Hrc|].
  split; [rewrite Hnum; lia|].
  rewrite Hbuf. replace (zlen (concat chunks) - 1 - 0 + 1) with (zlen (concat chunks)) by lia.
  f_equal. unfold slice, zlen. rewrite Nat2Z.id. cbn [drop]. apply take_ge. lia.
Qed.

Lemma write_open_read_witness :
  exists p rr,
    pcmseq2_open (written (1000, 5) ex_whandle [ramp 2048]) = Some (Some p)
    /\ pcmseq2_read p 1 0 (zlen (concat [ramp 2048]) - 1) [] = Some rr
    /\ rr_rc rr = 0 /\ rr_numwritten rr = zlen (concat [ramp 2048])
    /\ rr_buf rr = concat [ramp 2048] ++ drop (Z.to_nat (zlen (concat [ramp 2048]))) [].
Proof.
  apply (write_open_read (1000, 5) ex_whandle [ramp 2048]).
  - vm_compute. reflexivity.
  - apply (bool_decide_unpack (Forall (Forall is_short) [ramp 2048])). vm_compute. exact I.
  - vm_compute. split; [reflexivity | discriminate].
  - vm_compute. split; discriminate.
  - intros _. vm_compute. reflexivity.
Defined.

(** ** The public read interface on a written file *)

Lemma pcmseq_read_image (fp0 : PCMFILE) (key kt samples : list Z) (lltime sr : Z)
    (memalloctype : Z) (junk : list Z) :
  key = 32 :: 50 :: kt -> length kt = 26%nat ->
  0 < zlen samples <= 1000000000 ->
  0 <= sr <= 2147483647 ->
  0 <= lltime < 18446744073709551616 ->
  Forall is_short samples ->
  (zlen samples mod 2048 = 0 ->
   enthdr_at 2 (entry_image key lltime sr samples) 4134 = false) ->
  flags fp0 = O_RDONLY ->
  memalloctype = PCMIOMMAP \/ memalloctype = PCMIOMALLOC ->
  exists fp1 fp2,
    pcmseq_open fp0 (entry_image key lltime sr samples) None = Some (0, fp1)
    /\ entry fp1 = 1 /\ nentries fp1 = 1 /\ samplerate fp1 = sr
    /\ pcmseq_read fp1 memalloctype true junk
       = Some (0, fp2, Some (samples, zlen samples))
    /\ entry fp2 = 1 /\ nentries fp2 = 1 /\ samplerate fp2 = sr.
Proof.
  intros Hkey Hkt HT Hsr Hll Hshort Hfalse Hflags Hmem.
  destruct (open_written_image key kt samples lltime sr Hkey Hkt HT ltac:(lia) Hll Hfalse)
    as (p & Hopen & Hdata & Hpos & Htype & Hlast & Hcur & Hc1 & Hsz & Hsrc & Htime).
  assert (Hinfo : pcmseq2_getinfo p 1
                  = (0, zlen samples, sr,
                     (if lltime =? 18446744073709551615 then 0 else lltime), 1)).
  { unfold pcmseq2_getinfo. rewrite Hlast, Hsz, Hsrc, Htime.
    cbn [Z.leb Z.ltb Z.eqb Z.compare Pos.compare Pos.compare_cont negb andb orb Pos.eqb].
    destruct (Z.eqb_spec (zlen samples) (-1)); [lia|].
    destruct (Z.eqb_spec sr (-1)); [lia|]. reflexivity. }
  assert (Hlen : wrap32s (zlen samples * 2) = zlen samples * 2).
  { unfold wrap32s. rewrite Z.mod_small by lia. lia. }
  assert (Hhalf : Z.quot (zlen samples * 2) 2 = zlen samples)
    by (rewrite Z.quot_mul; lia).
  set (buf0 := match (if memalloctype =? PCMIOMMAP then mmap_tmp true (zlen samples * 2)
                      else if memalloctype =? PCMIOMALLOC
                           then malloc_buf true (zlen samples * 2) junk else None)
               with Some b => b | None => [] end).
  assert (Hbuf0 : (if memalloctype =? PCMIOMMAP then mmap_tmp true (zlen samples * 2)
                   else if memalloctype =? PCMIOMALLOC
                        then malloc_buf true (zlen samples * 2) junk else None)
                  = Some buf0 /\ zlen buf0 = zlen samples).
  { unfold buf0, mmap_tmp, malloc_buf. rewrite Hhalf.
    rewrite (proj2 (Z.ltb_lt 0 (zlen samples * 2))) by lia.
    rewrite (proj2 (Z.leb_le 0 (zlen samples * 2))) by lia.
    cbn [andb].
    destruct Hmem as [-> | ->]; cbn [Z.eqb PCMIOMMAP PCMIOMALLOC Pos.eqb].
    - split; [reflexivity|]. unfold zlen at 1. rewrite length_replicate. lia.
    - split; [reflexivity|]. unfold zlen at 1.
      rewrite length_take, length_app, length_replicate. lia. }
  destruct Hbuf0 as (Hbuf0 & Hblen).
  destruct (read_entry_range p key kt lltime sr samples 0 (zlen samples - 1) buf0
              Hkey Hkt Hdata Hshort Htype Hlast Hc1 ltac:(lia) ltac:(lia))
    as (rr & Hread & Hrc & Hnum & Hbuf).
  eexists. eexists.
  split.
  { unfold pcmseq_open. cbn [flags]. rewrite Hflags.
    change (O_RDONLY =? O_RDONLY) with true. cbv iota. rewrite Hopen, Hinfo.
    reflexivity. }
  cbn [entry nentries samplerate set_read_info].
  split; [reflexivity|]. split; [reflexivity|]. split; [reflexivity|].
  unfold pcmseq_read. cbn [flags p2file entry set_read_info nentries samplerate].
  change (O_RDONLY =? O_RDONLY) with true. cbv iota.
  rewrite Hinfo. cbn [Z.eqb negb]. cbv iota. rewrite Hlen, Hbuf0, Hhalf.
  rewrite Hread, Hrc, Hnum.
  replace (zlen samples - 1 - 0 + 1) with (zlen samples) by lia.
  rewrite (Z.eqb_refl (zlen samples)). cbn [Z.eqb negb andb orb]. rewrite ?andb_false_r.
  cbv iota.
  assert (Hrb : rr_buf rr = samples).
  { rewrite Hbuf.
    replace (zlen samples - 1 - 0 + 1) with (zlen samples) by lia.
    rewrite drop_ge by (clear -Hblen; unfold zlen in *; lia). rewrite app_nil_r.
    unfold slice, zlen. rewrite Nat2Z.id. cbn [drop]. apply take_ge. lia. }
  rewrite Hrb. split; [reflexivity|].
  cbn [entry nentries samplerate set_read_info set_p2file].
  split; [reflexivity|split; reflexivity].
Qed.

(** X13.  Round trip through the public interface.  An entry of 16-bit
    samples (at least one, at most 1000000000) is written to a fresh stream
    and closed; when its count is a multiple of 2048 the file is supposed not to show an entry header at offset 4134, as in
    X11.  Then [pcmseq_open] of that file for reading returns 0 and reports
    one entry and the sample rate of the writer, and [pcmseq_read] returns 0
    and hands back exactly the samples written and their count, whether the
    buffer is mapped or allocated. *)
Theorem public_roundtrip curtime (fp fp0 : PCMFILE) (chunks : list (list Z))
    (memalloctype : Z) (junk : list Z) :
  outfp fp = Some fopen_w ->
  Forall (Forall is_short) chunks ->
  0 < zlen (concat chunks) <= 1000000000 ->
  0 <= samplerate fp <= 2147483647 ->
  (zlen (concat chunks) mod 2048 = 0 ->
   enthdr_at 2 (written curtime fp chunks) 4134 = false) ->
  flags fp0 = O_RDONLY ->
  memalloctype = PCMIOMMAP \/ memalloctype = PCMIOMALLOC ->
  exists fp1 fp2,
    pcmseq_open fp0 (written curtime fp chunks) None = Some (0, fp1)
    /\ entry fp1 = 1 /\ nentries fp1 = 1 /\ samplerate fp1 = samplerate fp
    /\ pcmseq_read fp1 memalloctype true junk
       = Some (0, fp2, Some (concat chunks, zlen (concat chunks)))
    /\ entry fp2 = 1 /\ nentries fp2 = 1 /\ samplerate fp2 = samplerate fp.
Proof.
  intros Hfd Hshort HT Hsr Hfalse Hflags Hmem.
  destruct (written_image curtime fp chunks Hfd ltac:(lia)) as (_ & Himg).
  destruct (init_key_shape (name fp) (entry fp)) as (kt & Hkt & Hkey & _).
  rewrite Himg in *.
  apply (pcmseq_read_image fp0 _ kt (concat chunks) (hdr_lltime curtime fp) (samplerate fp)
           memalloctype junk Hkey Hkt HT Hsr (hdr_lltime_range curtime fp)
           (Forall_concat_short _ Hshort) Hfalse Hflags Hmem).
Qed.

Lemma public_roundtrip_witness :
  exists fp1 fp2,
    pcmseq_open (ex_raw O_RDONLY) (written (1000, 5) ex_whandle [ramp 2048; ramp 2048]) None
    = Some (0, fp1)
    /\ entry fp1 = 1 /\ nentries fp1 = 1 /\ samplerate fp1 = samplerate ex_whandle
    /\ pcmseq_read fp1 PCMIOMALLOC true [7; 7]
       = Some (0, fp2, Some (concat [ramp 2048; ramp 2048],
                             zlen (concat [ramp 2048; ramp 2048])))
    /\ entry fp2 = 1 /\ nentries fp2 = 1 /\ samplerate fp2 = samplerate ex_whandle.
Proof.
  apply (public_roundtrip (1000, 5) ex_whandle (ex_raw O_RDONLY) [ramp 2048; ramp 2048]
           PCMIOMALLOC [7; 7]).
  - vm_compute. reflexivity.
  - apply (bool_decide_unpack (Forall (Forall is_short) [ramp 2048; ramp 2048])).
    vm_compute. exact I.
  - vm_compute. split; [reflexivity | discriminate].
  - vm_compute. split; discriminate.
  - intros _. vm_compute. reflexivity.
  - reflexivity.
  - right. reflexivity.
Defined.

(** * File names *)

Lemma strlen_drop : forall (s : list Z) (k : nat),
  (k <= strlen s)%nat -> strlen (drop k s) = (strlen s - k)%nat.
Proof.
  induction s as [|c s IH]; intros k Hk.
  - cbn [strlen] in *. rewrite drop_nil. reflexivity.
  - destruct k as [|k]; [rewrite drop_0; lia|].
    cbn [strlen] in *. destruct (c =? 0); [lia|].
    cbn [drop]. rewrite IH by lia. lia.
Qed.

Lemma strlen_le_length : forall (s : list Z), (strlen s <= length s)%nat.
Proof.
  induction s as [|c s IH]; cbn [strlen length]; [lia|].
  destruct (c =? 0); lia.
Qed.

Lemma strncasecmp_zero : forall (n : nat) (s ext : list Z),
  length ext = n -> Forall ext_char ext -> (n <= strlen s)%nat ->
  strncasecmp s ext n = 0 <-> map tolower (take n s) = ext.
Proof.
  induction n as [|n IH]; intros s ext Hlen Hext Hs.
  - destruct ext; [|discriminate]. cbn. tauto.
  - destruct ext as [|e ext]; [discriminate|].
    destruct s as [|c s]; [cbn [strlen] in Hs; lia|].
    cbn [strlen] in Hs. destruct (Z.eqb_spec c 0) as [|Hc]; [lia|].
    apply Forall_cons in Hext. destruct Hext as ((He0 & Hel) & Hext).
    cbn [strncasecmp hd tl take map]. rewrite Hel.
    destruct (Z.eqb_spec (tolower c) e) as [Hce|Hce].
    + destruct (Z.eqb_spec c 0) as [|_]; [contradiction|].
      rewrite (IH s ext) by (cbn [length] in Hlen; lia || assumption).
      split; [intros ->; rewrite Hce; reflexivity|].
      intros H. injection H as _ H. exact H.
    + split; [lia|]. intros H. injection H as H _. contradiction.
Qed.

Lemma ends_with_ci_drop (s ext : list Z) :
  (length ext <= strlen s)%nat ->
  ends_with_ci s ext
  <-> map tolower (take (length ext) (drop (strlen s - length ext) s)) = ext.
Proof.
  intros Hle. unfold ends_with_ci.
  pose proof (strlen_le_length s) as Hsl.
  rewrite length_take, Nat.min_l by exact Hsl.
  replace (take (length ext) (drop (strlen s - length ext) s))
    with (drop (strlen s - length ext) (take (strlen s) s)); [tauto|].
  rewrite take_drop_commute. do 2 f_equal. lia.
Qed.

Lemma suffix_test (s ext : list Z) :
  Forall ext_char ext -> (length ext <= strlen s)%nat ->
  strncasecmp (drop (strlen s - length ext) s) ext (length ext) = 0
  <-> ends_with_ci s ext.
Proof.
  intros Hext Hle. rewrite ends_with_ci_drop by exact Hle.
  apply strncasecmp_zero; [reflexivity|exact Hext|].
  rewrite strlen_drop by lia. lia.
Qed.

Lemma ext_chars :
  Forall ext_char ext_pcm_seq2 /\ Forall ext_char ext_pcm_seq
  /\ Forall ext_char ext_pcmseq2 /\ Forall ext_char ext_pcmseq.
Proof.
  repeat split; repeat (apply Forall_cons; split; [split; [discriminate|reflexivity]|]);
    apply Forall_nil; exact I.
Qed.

(** X14.  Which names are sequence files.  For a name of nine characters or
    more, [pcmseq_recognizer] returns 0 or -1, and 0 exactly when the name,
    letters of either case taken as lower case, ends with [.pcm_seq2],
    [.pcm_seq], [.pcmseq2] or [.pcmseq].  (For a shorter name the source
    compares from before the start of the name.) *)
Theorem recognizer_spec (fp : PCMFILE) :
  (9 <= strlen (name fp))%nat ->
  exists r,
    pcmseq_recognizer fp = Some r /\ (r = 0 \/ r = -1)
    /\ (r = 0 <-> ends_with_ci (name fp) ext_pcm_seq2
                  \/ ends_with_ci (name fp) ext_pcm_seq
                  \/ ends_with_ci (name fp) ext_pcmseq2
                  \/ ends_with_ci (name fp) ext_pcmseq).
Proof.
  intros Hlen.
  destruct ext_chars as (H1 & H2 & H3 & H4).
  pose proof (suffix_test (name fp) ext_pcm_seq2 H1 ltac:(cbn [length ext_pcm_seq2]; lia)) as T1.
  pose proof (suffix_test (name fp) ext_pcm_seq H2 ltac:(cbn [length ext_pcm_seq]; lia)) as T2.
  pose proof (suffix_test (name fp) ext_pcmseq2 H3 ltac:(cbn [length ext_pcmseq2]; lia)) as T3.
  pose proof (suffix_test (name fp) ext_pcmseq H4 ltac:(cbn [length ext_pcmseq]; lia)) as T4.
  change (length ext_pcm_seq2) with 9%nat in T1.
  change (length ext_pcm_seq) with 8%nat in T2.
  change (length ext_pcmseq2) with 8%nat in T3.
  change (length ext_pcmseq) with 7%nat in T4.
  unfold pcmseq_recognizer.
  destruct (Nat.ltb_spec (strlen (name fp)) 9) as [|_]; [lia|].
  destruct (Z.eqb_spec (strncasecmp (drop (strlen (name fp) - 9) (name fp)) ext_pcm_seq2 9) 0)
    as [E1|E1];
  destruct (Z.eqb_spec (strncasecmp (drop (strlen (name fp) - 8) (name fp)) ext_pcm_seq 8) 0)
    as [E2|E2];
  destruct (Z.eqb_spec (strncasecmp (drop (strlen (name fp) - 8) (name fp)) ext_pcmseq2 8) 0)
    as [E3|E3];
  destruct (Z.eqb_spec (strncasecmp (drop (strlen (name fp) - 7) (name fp)) ext_pcmseq 7) 0)
    as [E4|E4];
  cbn [negb andb]; eexists; (split; [reflexivity|]);
  (split; [auto|]); split; intros H; try reflexivity; try discriminate; tauto.
Qed.

Lemma recognizer_spec_witness :
  exists r,
    pcmseq_recognizer (ex_raw O_RDONLY) = Some r /\ (r = 0 \/ r = -1)
    /\ (r = 0 <-> ends_with_ci (name (ex_raw O_RDONLY)) ext_pcm_seq2
                  \/ ends_with_ci (name (ex_raw O_RDONLY)) ext_pcm_seq
                  \/ ends_with_ci (name (ex_raw O_RDONLY)) ext_pcmseq2
                  \/ ends_with_ci (name (ex_raw O_RDONLY)) ext_pcmseq).
Proof.
  apply (recognizer_spec (ex_raw O_RDONLY)). vm_compute. lia.
Defined.

(** ** Requests on a handle *)

Lemma stat_time_fields (sec usec : Z) :
  18000 <= sec <= 2147483647 -> 0 <= usec < 1000000 ->
  (lltime_of sec usec =? 18446744073709551615) = false
  /\ wrap32s (wrap64u (Z.quot (wrap64u (lltime_of sec usec - EPOCH)) 10000000 + 18000)) = sec
  /\ Z.quot (Z.rem (wrap64u (lltime_of sec usec - EPOCH)) 10000000) 10 = usec.
Proof.
  intros Hs Hu. rewrite lltime_of_small by assumption.
  split; [unfold EPOCH; lia|].
  replace ((sec - 18000) * 10000000 + usec * 10 + EPOCH - EPOCH)
    with ((sec - 18000) * 10000000 + usec * 10) by lia.
  unfold wrap64u.
  rewrite (Z.mod_small ((sec - 18000) * 10000000 + usec * 10)) by lia.
  rewrite Z.quot_div_nonneg, Z.rem_mod_nonneg by lia.
  replace (((sec - 18000) * 10000000 + usec * 10) / 10000000) with (sec - 18000)
    by (apply Z.div_unique with (r := usec * 10); lia).
  replace (((sec - 18000) * 10000000 + usec * 10) mod 10000000) with (usec * 10)
    by (apply Z.mod_unique with (q := sec - 18000); lia).
  rewrite Z.quot_div_nonneg by lia.
  rewrite Z.div_mul by lia.
  replace (sec - 18000 + 18000) with sec by lia.
  rewrite Z.mod_small by lia. split; [apply wrap32s_small; lia | reflexivity].
Qed.

Lemma read_ctl_image curtime (fp fp0 : PCMFILE) (chunks : list (list Z))
    (addr_null : bool) (m a : Z) (b0 : pcmstat) :
  outfp fp = Some fopen_w ->
  0 < zlen (concat chunks) <= 1000000000 ->
  0 <= samplerate fp <= 2147483647 ->
  18000 <= timestamp fp <= 2147483647 ->
  0 <= microtimestamp fp < 1000000 ->
  (zlen (concat chunks) mod 2048 = 0 ->
   enthdr_at 2 (written curtime fp chunks) 4134 = false) ->
  flags fp0 = O_RDONLY ->
  exists fp1,
    pcmseq_open fp0 (written curtime fp chunks) None = Some (0, fp1)
    /\ pcmseq_ctl fp1 addr_null m b0 PCMIOGETSIZE (Some a)
       = (0, fp1, m, Some (zlen (concat chunks)))
    /\ pcmseq_ctl fp1 addr_null m b0 PCMIOGETSR (Some a)
       = (0, fp1, m, Some (samplerate fp))
    /\ pcmseq_ctl fp1 addr_null m b0 PCMIOGETENTRY (Some a) = (0, fp1, m, Some 1)
    /\ pcmseq_ctl fp1 addr_null m b0 PCMIOGETNENTRIES (Some a) = (0, fp1, m, Some 1)
    /\ pcmseq_ctl fp1 addr_null m b0 PCMIOGETTIME (Some a)
       = (0, fp1, m, Some (timestamp fp))
    /\ pcmseq_ctl fp1 addr_null m b0 PCMIOGETTIMEFRACTION (Some a)
       = (0, fp1, m, Some (microtimestamp fp)).
Proof.
  intros Hfd HT Hsr Hsec Husec Hfalse Hflags.
  destruct (written_image curtime fp chunks Hfd ltac:(lia)) as (_ & Himg).
  destruct (init_key_shape (name fp) (entry fp)) as (kt & Hkt & Hkey & _).
  rewrite Himg in *.
  assert (Hll : hdr_lltime curtime fp = lltime_of (timestamp fp) (microtimestamp fp)).
  { unfold hdr_lltime. destruct (Z.eqb_spec (timestamp fp) 0); [lia|reflexivity]. }
  destruct (open_written_image _ kt (concat chunks) (hdr_lltime curtime fp) (samplerate fp)
              Hkey Hkt HT ltac:(lia) (hdr_lltime_range curtime fp) Hfalse)
    as (p & Hopen & Hdata & Hpos & Htype & Hlast & Hcur & Hc1 & Hsz & Hsrc & Htime).
  destruct (stat_time_fields (timestamp fp) (microtimestamp fp) Hsec Husec)
    as (Hne & Hts & Hus).
  assert (Hinfo : pcmseq2_getinfo p 1
                  = (0, zlen (concat chunks), samplerate fp,
                     lltime_of (timestamp fp) (microtimestamp fp), 1)).
  { unfold pcmseq2_getinfo. rewrite Hlast, Hsz, Hsrc, Htime, Hll, Hne.
    cbn [Z.leb Z.ltb Z.eqb Z.compare Pos.compare Pos.compare_cont negb andb orb Pos.eqb].
    destruct (Z.eqb_spec (zlen (concat chunks)) (-1)); [lia|].
    destruct (Z.eqb_spec (samplerate fp) (-1)); [lia|]. reflexivity. }
  eexists. split.
  { unfold pcmseq_open. cbn [flags]. rewrite Hflags.
    change (O_RDONLY =? O_RDONLY) with true. cbv iota. rewrite Hopen, Hinfo.
    reflexivity. }
  assert (Hstat : forall fp1,
             flags fp1 = O_RDONLY -> p2file fp1 = Some p -> entry fp1 = 1 ->
             nentries fp1 = 1 ->
             pcmseq_stat fp1 b0
             = (0, mkPcmstat 1 (zlen (concat chunks)) (samplerate fp) (timestamp fp)
                     (microtimestamp fp) (Z.lor PCMIOCAP_MULTENTRY PCMIOCAP_SAMPRATE) 1)).
  { intros fp1 Hf Hp He Hn. unfold pcmseq_stat. rewrite Hf, Hp, He, Hinfo.
    change (O_RDONLY =? O_RDONLY) with true. cbv iota. cbn [Z.eqb negb]. cbv iota.
    rewrite Hts, Hus, wrap32s_small by lia. reflexivity. }
  unfold pcmseq_ctl.
  rewrite Hstat by reflexivity.
  cbn [flags set_read_info entry nentries st_nsamples st_samplerate st_timestamp
       st_microtimestamp].
  change (O_RDONLY =? O_RDONLY) with true. cbv iota.
  destruct addr_null; cbn; repeat split; reflexivity.
Qed.

(** X15.  What a reader is told about a written entry.  An entry of at
    least one and at most 1000000000 samples is written to a fresh stream by
    a handle whose date is [timestamp] seconds (from 18000 on) and
    [microtimestamp] microseconds (below a million); when its count is a
    multiple of 2048 the file is supposed not to show an entry header at
    offset 4134.  On the handle that [pcmseq_open] makes of the file,
    [pcmseq_ctl] returns 0, leaves the handle as it is, and stores: for
    [PCMIOGETSIZE] the number of samples, for [PCMIOGETSR] the sample rate
    of the writer, for [PCMIOGETENTRY] and [PCMIOGETNENTRIES] 1, for
    [PCMIOGETTIME] and [PCMIOGETTIMEFRACTION] the date of the writer. *)
Theorem read_ctl_reports curtime (fp fp0 : PCMFILE) (chunks : list (list Z))
    (addr_null : bool) (m a : Z) (b0 : pcmstat) :
  outfp fp = Some fopen_w ->
  0 < zlen (concat chunks) <= 1000000000 ->
  0 <= samplerate fp <= 2147483647 ->
  18000 <= timestamp fp <= 2147483647 ->
  0 <= microtimestamp fp < 1000000 ->
  (zlen (concat chunks) mod 2048 = 0 ->
   enthdr_at 2 (written curtime fp chunks) 4134 = false) ->
  flags fp0 = O_RDONLY ->
  exists fp1,
    pcmseq_open fp0 (written curtime fp chunks) None = Some (0, fp1)
    /\ pcmseq_ctl fp1 addr_null m b0 PCMIOGETSIZE (Some a)
       = (0, fp1, m, Some (zlen (concat chunks)))
    /\ pcmseq_ctl fp1 addr_null m b0 PCMIOGETSR (Some a)
       = (0, fp1, m, Some (samplerate fp))
    /\ pcmseq_ctl fp1 addr_null m b0 PCMIOGETENTRY (Some a) = (0, fp1, m, Some 1)
    /\ pcmseq_ctl fp1 addr_null m b0 PCMIOGETNENTRIES (Some a) = (0, fp1, m, Some 1)
    /\ pcmseq_ctl fp1 addr_null m b0 PCMIOGETTIME (Some a)
       = (0, fp1, m, Some (timestamp fp))
    /\ pcmseq_ctl fp1 addr_null m b0 PCMIOGETTIMEFRACTION (Some a)
       = (0, fp1, m, Some (microtimestamp fp)).
Proof.
  apply read_ctl_image.
Qed.

Lemma read_ctl_reports_witness :
  exists fp1,
    pcmseq_open (ex_raw O_RDONLY) (written (1000, 5) ex_whandle_dated ex_chunks1) None
    = Some (0, fp1)
    /\ pcmseq_ctl fp1 true PCMIOMMAP (mkPcmstat 0 0 0 0 0 0 0) PCMIOGETSIZE (Some 0)
       = (0, fp1, PCMIOMMAP, Some (zlen (concat ex_chunks1)))
    /\ pcmseq_ctl fp1 true PCMIOMMAP (mkPcmstat 0 0 0 0 0 0 0) PCMIOGETSR (Some 0)
       = (0, fp1, PCMIOMMAP, Some (samplerate ex_whandle_dated))
    /\ pcmseq_ctl fp1 true PCMIOMMAP (mkPcmstat 0 0 0 0 0 0 0) PCMIOGETENTRY (Some 0)
       = (0, fp1, PCMIOMMAP, Some 1)
    /\ pcmseq_ctl fp1 true PCMIOMMAP (mkPcmstat 0 0 0 0 0 0 0) PCMIOGETNENTRIES (Some 0)
       = (0, fp1, PCMIOMMAP, Some 1)
    /\ pcmseq_ctl fp1 true PCMIOMMAP (mkPcmstat 0 0 0 0 0 0 0) PCMIOGETTIME (Some 0)
       = (0, fp1, PCMIOMMAP, Some (timestamp ex_whandle_dated))
    /\ pcmseq_ctl fp1 true PCMIOMMAP (mkPcmstat 0 0 0 0 0 0 0) PCMIOGETTIMEFRACTION (Some 0)
       = (0, fp1, PCMIOMMAP, Some (microtimestamp ex_whandle_dated)).
Proof.
  apply (read_ctl_reports (1000, 5) ex_whandle_dated (ex_raw O_RDONLY) ex_chunks1 true
           PCMIOMMAP 0 (mkPcmstat 0 0 0 0 0 0 0)).
  - vm_compute. reflexivity.
  - vm_compute. split; [reflexivity | discriminate].
  - vm_compute. split; discriminate.
  - vm_compute. split; discriminate.
  - vm_compute. split; [discriminate | reflexivity].
  - vm_compute. discriminate.
  - reflexivity.
Defined.

(** X18.  Settings made through [pcmseq_ctl] reach the reader.  On a write
    handle the requests [PCMIOSETSR], [PCMIOSETTIME] and
    [PCMIOSETTIMEFRACTION] return 0 and set the sample rate and the date
    ([sec] from 18000 on, [usec] below a million).  When an entry is then
    written to a fresh stream (with the provision of X15 for a count that is
    a multiple of 2048), the handle that [pcmseq_open] makes of the file
    answers [PCMIOGETSR], [PCMIOGETTIME] and [PCMIOGETTIMEFRACTION] with the
    values that were set. *)
Theorem ctl_settings_roundtrip curtime (fp fp0 : PCMFILE) (chunks : list (list Z))
    (addr_null : bool) (m a sr sec usec : Z) (b0 : pcmstat) :
  flags fp = O_WRONLY ->
  outfp fp = Some fopen_w ->
  0 < zlen (concat chunks) <= 1000000000 ->
  0 <= sr <= 2147483647 ->
  18000 <= sec <= 2147483647 ->
  0 <= usec < 1000000 ->
  (zlen (concat chunks) mod 2048 = 0 ->
   enthdr_at 2 (written curtime (set_time (set_samplerate fp sr) sec usec) chunks) 4134
   = false) ->
  flags fp0 = O_RDONLY ->
  exists fpa fpb fp1,
    pcmseq_ctl fp addr_null m b0 PCMIOSETSR (Some sr) = (0, fpa, m, None)
    /\ pcmseq_ctl fpa addr_null m b0 PCMIOSETTIME (Some sec) = (0, fpb, m, None)
    /\ pcmseq_ctl fpb addr_null m b0 PCMIOSETTIMEFRACTION (Some usec)
       = (0, set_time (set_samplerate fp sr) sec usec, m, None)
    /\ pcmseq_open fp0 (written curtime (set_time (set_samplerate fp sr) sec usec) chunks)
         None = Some (0, fp1)
    /\ pcmseq_ctl fp1 addr_null m b0 PCMIOGETSR (Some a) = (0, fp1, m, Some sr)
    /\ pcmseq_ctl fp1 addr_null m b0 PCMIOGETTIME (Some a) = (0, fp1, m, Some sec)
    /\ pcmseq_ctl fp1 addr_null m b0 PCMIOGETTIMEFRACTION (Some a)
       = (0, fp1, m, Some usec).
Proof.
  intros Hflags Hfd HT Hsr Hsec Husec Hfalse Hflags0.
  destruct (read_ctl_image curtime (set_time (set_samplerate fp sr) sec usec) fp0 chunks
              addr_null m a b0 Hfd HT Hsr Hsec Husec Hfalse Hflags0)
    as (fp1 & Hopen & _ & Hgsr & _ & _ & Hgt & Hgtf).
  exists (set_samplerate fp sr), (set_time (set_samplerate fp sr) sec (microtimestamp fp)), fp1.
  assert (Hctl : forall (h : PCMFILE) (req : Z),
             flags h = O_WRONLY ->
             req = PCMIOSETSR \/ req = PCMIOSETTIME \/ req = PCMIOSETTIMEFRACTION ->
             forall v, pcmseq_ctl h addr_null m b0 req (Some v)
             = (0, (if req =? PCMIOSETSR then set_samplerate h (wrap32s v)
                    else if req =? PCMIOSETTIME
                         then set_time h (wrap32s v) (microtimestamp h)
                         else set_time h (timestamp h) v), m, None)).
  { intros h req Hh Hreq v. unfold pcmseq_ctl. rewrite Hh.
    change (O_WRONLY =? O_RDONLY) with false. change (O_WRONLY =? O_WRONLY) with true.
    cbv iota. destruct Hreq as [-> | [-> | ->]]; reflexivity. }
  split; [rewrite Hctl by (assumption || tauto); rewrite wrap32s_small by lia; reflexivity|].
  split; [rewrite Hctl by (assumption || tauto); rewrite wrap32s_small by lia; reflexivity|].
  split; [rewrite Hctl by (assumption || tauto); reflexivity|].
  cbn [set_time set_samplerate samplerate timestamp microtimestamp] in Hgsr, Hgt, Hgtf.
  tauto.
Qed.

Lemma ctl_settings_roundtrip_witness :
  exists fpa fpb fp1,
    pcmseq_ctl ex_whandle true PCMIOMMAP (mkPcmstat 0 0 0 0 0 0 0) PCMIOSETSR (Some 44100)
    = (0, fpa, PCMIOMMAP, None)
    /\ pcmseq_ctl fpa true PCMIOMMAP (mkPcmstat 0 0 0 0 0 0 0) PCMIOSETTIME (Some 1000000000)
       = (0, fpb, PCMIOMMAP, None)
    /\ pcmseq_ctl fpb true PCMIOMMAP (mkPcmstat 0 0 0 0 0 0 0) PCMIOSETTIMEFRACTION (Some 250)
       = (0, set_time (set_samplerate ex_whandle 44100) 1000000000 250, PCMIOMMAP, None)
    /\ pcmseq_open (ex_raw O_RDONLY)
         (written (1000, 5) (set_time (set_samplerate ex_whandle 44100) 1000000000 250)
            ex_chunks1) None = Some (0, fp1)
    /\ pcmseq_ctl fp1 true PCMIOMMAP (mkPcmstat 0 0 0 0 0 0 0) PCMIOGETSR (Some 0)
       = (0, fp1, PCMIOMMAP, Some 44100)
    /\ pcmseq_ctl fp1 true PCMIOMMAP (mkPcmstat 0 0 0 0 0 0 0) PCMIOGETTIME (Some 0)
       = (0, fp1, PCMIOMMAP, Some 1000000000)
    /\ pcmseq_ctl fp1 true PCMIOMMAP (mkPcmstat 0 0 0 0 0 0 0) PCMIOGETTIMEFRACTION (Some 0)
       = (0, fp1, PCMIOMMAP, Some 250).
Proof.
  apply (ctl_settings_roundtrip (1000, 5) ex_whandle (ex_raw O_RDONLY) ex_chunks1 true
           PCMIOMMAP 0 44100 1000000000 250 (mkPcmstat 0 0 0 0 0 0 0)).
  - reflexivity.
  - vm_compute. reflexivity.
  - vm_compute. split; [reflexivity | discriminate].
  - lia.
  - lia.
  - lia.
  - vm_compute. discriminate.
  - reflexivity.
Defined.

(** * Events sorted by cluster *)

#[local] Set Warnings "-clear-no-such-hyp".

Section Units.
Import Klustio.

Lemma last_default (e : list Z) (a b : Z) : e <> [] -> List.last e a = List.last e b.
Proof.
  induction e as [|x e IH]; intros Hne; [contradiction|].
  destruct e as [|y e]; [reflexivity|].
  change (List.last (y :: e) a = List.last (y :: e) b). apply IH. discriminate.
Qed.

Lemma last_cons (x : Z) (e : list Z) (a : Z) : List.last (x :: e) a = List.last e x.
Proof.
  revert x. induction e as [|y e IH]; intros x; [reflexivity|].
  change (List.last (y :: e) a = List.last (y :: e) x). apply last_default. discriminate.
Qed.

Lemma read_feats_done (n : nat) (j nfeats atime : Z) (ffp : TFILE) :
  read_feats n j nfeats EOF atime ffp = (EOF, atime, ffp).
Proof.
  destruct n; cbn [read_feats]; [reflexivity|].
  change (EOF =? EOF) with true. cbn [negb]. rewrite andb_false_r. reflexivity.
Qed.

(** The features of one event: the last one is kept. *)
Lemma read_feats_event : forall (e pre rest : list Z) (j nfeats rp atime : Z),
  Forall is_long e ->
  rp <> EOF -> j + zlen e = nfeats ->
  read_feats (length e) j nfeats rp atime (mkTFILE (pre ++ e ++ rest) (length pre))
  = ((if decide (e = []) then rp else 1), List.last e atime,
     mkTFILE (pre ++ e ++ rest) (length (pre ++ e))).
Proof.
  induction e as [|x e IH]; intros pre rest j nfeats rp atime Hlong Hrp Hj.
  - cbn [length read_feats List.last app]. rewrite app_nil_r. reflexivity.
  - cbn [length read_feats]. rewrite zlen_cons in Hj.
    pose proof (Zle_0_nat (length e)) as Hlen. fold (zlen e) in Hlen.
    rewrite (proj2 (Z.ltb_lt j nfeats)) by lia.
    destruct (Z.eqb_spec rp EOF) as [|_]; [contradiction|]. cbn [negb andb].
    change (pre ++ (x :: e) ++ rest) with (pre ++ x :: (e ++ rest)).
    apply Forall_cons in Hlong. destruct Hlong as (Hx & Hlong).
    rewrite fscanf_ld_at by exact Hx.
    replace (pre ++ x :: e ++ rest) with ((pre ++ [x]) ++ e ++ rest)
      by (rewrite <- app_assoc; reflexivity).
    replace (S (length pre)) with (length (pre ++ [x])) by (rewrite length_app; cbn; lia).
    rewrite IH by (assumption || unfold EOF; lia).
    rewrite last_cons. destruct (decide (x :: e = [])) as [|_]; [discriminate|].
    replace ((pre ++ [x]) ++ e) with (pre ++ x :: e) by (rewrite <- app_assoc; reflexivity).
    destruct (decide (e = [])); reflexivity.
Qed.

(** At the end of the feature file nothing is read. *)
Lemma read_feats_eof (n : nat) (nfeats rp atime : Z) (toks : list Z) (pos : nat) :
  (length toks <= pos)%nat -> 1 <= nfeats -> n = Z.to_nat nfeats ->
  read_feats n 0 nfeats rp atime (mkTFILE toks pos) = (EOF, atime, mkTFILE toks pos).
Proof.
  intros Hpos Hn ->. destruct (Z.to_nat nfeats) as [|n] eqn:En; [lia|].
  cbn [read_feats]. rewrite (proj2 (Z.ltb_lt 0 nfeats)) by lia.
  destruct (Z.eqb_spec rp EOF) as [->|_]; cbn [negb andb]; [reflexivity|].
  rewrite fscanf_ld_eof by exact Hpos. apply read_feats_done.
Qed.

Lemma file_all_lookup (clusters : gset Z) : forall (pairs : list (Z * Z))
    (uvec : gmap Z (list Z)) (c : Z),
  foldl (file_one clusters) uvec pairs !! c
  = if bool_decide (c ∈ clusters)
    then (fun l => l ++ filed pairs c) <$> uvec !! c
    else uvec !! c.
Proof.
  induction pairs as [|[c' t] pairs IH]; intros uvec c.
  - cbn [foldl]. unfold filed. cbn. destruct (bool_decide _); [|reflexivity].
    destruct (uvec !! c) as [l|]; cbn; [rewrite app_nil_r|]; reflexivity.
  - cbn [foldl]. rewrite IH. unfold file_one. cbn [fst snd].
    destruct (bool_decide (c ∈ clusters)) eqn:Ec.
    + unfold filed. rewrite filter_cons. cbn [fst].
      destruct (decide (c' = c)) as [->|Hne].
      * rewrite Ec. unfold push_event. rewrite lookup_alter_eq.
        destruct (uvec !! c) as [l|]; cbn; [|reflexivity].
        rewrite <- app_assoc. reflexivity.
      * destruct (bool_decide (c' ∈ clusters)); [|reflexivity].
        unfold push_event. rewrite lookup_alter_ne by exact Hne. reflexivity.
    + destruct (bool_decide (c' ∈ clusters)) eqn:Ec'; [|reflexivity].
      unfold push_event. rewrite lookup_alter_ne; [reflexivity|].
      intros ->. rewrite Ec in Ec'. discriminate.
Qed.

Lemma uvec_init_lookup (clusters : gset Z) (c : Z) :
  (set_fold (fun c m => <[c := []]> m) (∅ : gmap Z (list Z)) clusters) !! c
  = if bool_decide (c ∈ clusters) then Some [] else None.
Proof.
  unfold set_fold. cbn.
  assert (H : forall l : list Z,
             foldr (fun c m => <[c := []]> m) (∅ : gmap Z (list Z)) l !! c
             = if bool_decide (c ∈ l) then Some [] else None).
  { induction l as [|x l IH]; cbn [foldr].
    - rewrite lookup_empty. rewrite bool_decide_eq_false_2 by set_solver. reflexivity.
    - destruct (decide (x = c)) as [->|Hne].
      + rewrite lookup_insert_eq. rewrite bool_decide_eq_true_2 by set_solver.
        reflexivity.
      + rewrite lookup_insert_ne by exact Hne. rewrite IH.
        destruct (bool_decide (c ∈ l)) eqn:E.
        * apply bool_decide_eq_true in E. rewrite bool_decide_eq_true_2 by set_solver.
          reflexivity.
        * apply bool_decide_eq_false in E. rewrite bool_decide_eq_false_2 by set_solver.
          reflexivity. }
  rewrite H. destruct (bool_decide (c ∈ clusters)) eqn:E.
  - apply bool_decide_eq_true in E. rewrite bool_decide_eq_true_2; [reflexivity|].
    apply elem_of_elements. exact E.
  - apply bool_decide_eq_false in E. rewrite bool_decide_eq_false_2; [reflexivity|].
    rewrite elem_of_elements. exact E.
Qed.

Lemma filed_start (clusters : gset Z) (pairs : list (Z * Z)) (c : Z) :
  foldl (file_one clusters)
    (set_fold (fun c m => <[c := []]> m) (∅ : gmap Z (list Z)) clusters) pairs !! c
  = if bool_decide (c ∈ clusters) then Some (filed pairs c) else None.
Proof.
  rewrite file_all_lookup, uvec_init_lookup.
  destruct (bool_decide (c ∈ clusters)); reflexivity.
Qed.

Variables (clusters : gset Z) (nfeats : Z).
Hypothesis Hnfeats : 1 <= nfeats.

(** The loop of [klusters.cc] from the middle of the two files. *)
Lemma klusters_loop : forall (events : list (list Z)) (clus cpre fpre : list Z)
    (fuel : nat) (clust atime : Z) (uvec : gmap Z (list Z)),
  length clus = length events ->
  Forall (fun e => length e = Z.to_nat nfeats) events ->
  Forall is_int clus -> Forall (Forall is_long) events ->
  (length clus < fuel)%nat ->
  Klusters.unit_loop fuel clusters nfeats 1 (mkTFILE (cpre ++ clus) (length cpre))
    (mkTFILE (fpre ++ concat events) (length fpre)) clust atime uvec
  = Some (foldl (file_one clusters) uvec (zip clus (map event_time events))).
Proof.
  induction events as [|e events IH];
    intros clus cpre fpre fuel clust atime uvec Hlen Hev Hint Hlong Hfuel;
    (destruct fuel as [|fuel]; [lia|]).
  - destruct clus; [|discriminate]. cbn [Klusters.unit_loop concat zip_with map foldl].
    change (1 =? EOF) with false. cbv iota. rewrite !app_nil_r.
    rewrite read_feats_eof by (lia || reflexivity).
    rewrite fscanf_d_eof by lia. change (EOF =? EOF) with true. reflexivity.
  - destruct clus as [|c clus]; [discriminate|].
    apply Forall_cons in Hev. destruct Hev as (He & Hev).
    apply Forall_cons in Hint. destruct Hint as (Hc & Hint).
    apply Forall_cons in Hlong. destruct Hlong as (Hel & Hlong).
    cbn [Klusters.unit_loop concat]. change (1 =? EOF) with false. cbv iota.
    rewrite <- He.
    rewrite read_feats_event
      by (try assumption; try discriminate; unfold zlen; rewrite He; lia).
    rewrite fscanf_d_at by exact Hc. change (1 =? EOF) with false. cbv iota.
    replace (cpre ++ c :: clus) with ((cpre ++ [c]) ++ clus)
      by (rewrite <- app_assoc; reflexivity).
    replace (S (length cpre)) with (length (cpre ++ [c])) by (rewrite length_app; cbn; lia).
    replace (fpre ++ e ++ concat events) with ((fpre ++ e) ++ concat events)
      by (rewrite <- app_assoc; reflexivity).
    rewrite IH by (cbn [length] in *; lia || assumption).
    cbn [zip_with map foldl]. unfold file_one at 2. cbn [fst snd].
    assert (Hne : e <> []) by (intros ->; cbn [length] in He; lia).
    rewrite (last_default e atime 0 Hne). reflexivity.
Qed.

(** The loop of [klustio.cc] from the middle of the two files, where the
    cluster file holds one number more than there are events left. *)
Lemma klustio_loop : forall (events : list (list Z)) (c : Z) (clus cpre fpre : list Z)
    (fuel : nat) (clust atime : Z) (uvec : gmap Z (list Z)),
  length clus = length events ->
  Forall (fun e => length e = Z.to_nat nfeats) events ->
  is_int c -> Forall is_int clus -> Forall (Forall is_long) events ->
  (S (length clus) < fuel)%nat ->
  unit_loop fuel clusters nfeats 1 (mkTFILE (cpre ++ c :: clus) (length cpre))
    (mkTFILE (fpre ++ concat events) (length fpre)) clust atime uvec
  = Some (foldl (file_one clusters) uvec
            (zip (c :: clus)
               (map event_time events ++ [List.last (map event_time events) atime])
             ++ [(List.last clus c, List.last (map event_time events) atime)])).
Proof.
  induction events as [|e events IH];
    intros c clus cpre fpre fuel clust atime uvec Hlen Hev Hc Hint Hlong Hfuel;
    (destruct fuel as [|fuel]; [lia|]).
  - destruct clus; [|discriminate].
    destruct fuel as [|fuel]; [cbn [length] in Hfuel; lia|].
    cbn [unit_loop concat zip_with map foldl app List.last].
    change (1 =? EOF) with false. cbv iota. rewrite !app_nil_r.
    rewrite read_feats_eof by (lia || reflexivity).
    rewrite fscanf_d_at by exact Hc.
    rewrite read_feats_eof by (lia || reflexivity).
    rewrite fscanf_d_eof by (rewrite length_app; cbn [length]; lia).
    destruct fuel; cbn [unit_loop]; change (EOF =? EOF) with true; reflexivity.
  - destruct clus as [|c' clus]; [discriminate|].
    apply Forall_cons in Hev. destruct Hev as (He & Hev).
    apply Forall_cons in Hint. destruct Hint as (Hc' & Hint).
    apply Forall_cons in Hlong. destruct Hlong as (Hel & Hlong).
    cbn [unit_loop concat]. change (1 =? EOF) with false. cbv iota.
    rewrite <- He.
    rewrite read_feats_event
      by (try assumption; try discriminate; unfold zlen; rewrite He; lia).
    rewrite fscanf_d_at by exact Hc.
    replace (cpre ++ c :: c' :: clus) with ((cpre ++ [c]) ++ c' :: clus)
      by (rewrite <- app_assoc; reflexivity).
    replace (S (length cpre)) with (length (cpre ++ [c])) by (rewrite length_app; cbn; lia).
    replace (fpre ++ e ++ concat events) with ((fpre ++ e) ++ concat events)
      by (rewrite <- app_assoc; reflexivity).
    assert (Hne : e <> []) by (intros ->; cbn [length] in He; lia).
    destruct (decide (e = [])) as [|_]; [contradiction|].
    rewrite IH by (cbn [length] in *; lia || assumption).
    cbn [zip_with map foldl app]. unfold file_one at 2. cbn [fst snd].
    rewrite (last_default e atime 0 Hne). fold (event_time e).
    rewrite !last_cons. reflexivity.
Qed.

End Units.

(** X16.  Events by cluster ([klusters.cc]).  The cluster file holds a
    count and one cluster number per event, the feature file the number of
    features (at least one) and that many features per event, the last of
    them the time of the event; the numbers of the cluster file and the
    number of features fit an [int], the features a [long].  Then
    [sort_unit] of [klusters.cc] ends, and its map has exactly the clusters
    that [drop_noise] keeps of those of the file, each with the times of its
    events in file order. *)
Theorem sort_unit_groups (nfeats0 clust0 atime0 h nfeats : Z) (clus : list Z)
    (events : list (list Z)) :
  1 <= nfeats <= 2147483647 ->
  Forall (fun e => length e = Z.to_nat nfeats) events ->
  length clus = length events ->
  is_int h -> Forall is_int clus -> Forall (Forall is_long) events ->
  exists uvec,
    Klusters.sort_unit nfeats0 clust0 atime0 (Klustio.mkTFILE (h :: clus) 0)
      (Klustio.fet_file nfeats events) = Some uvec
    /\ forall c,
         uvec !! c
         = if bool_decide (c ∈ Klustio.drop_noise (Klustio.clusters_of h clus))
           then Some (Klustio.filed (zip clus (map Klustio.event_time events)) c)
           else None.
Proof.
  intros Hn Hev Hlen Hh Hint Hlong. eexists. split.
  - unfold Klusters.sort_unit, Klusters.getclusters, Klustio.fet_file.
    rewrite getclusters_file by assumption.
    change (Klustio.fscanf_d (Klustio.mkTFILE (nfeats :: concat events) 0) nfeats0)
      with (Klustio.fscanf_d
              (Klustio.mkTFILE ([] ++ nfeats :: concat events) (length (@nil Z))) nfeats0).
    rewrite fscanf_d_at by (unfold is_int; lia).
    change (Klustio.fscanf_d (Klustio.mkTFILE (h :: clus) 0) clust0)
      with (Klustio.fscanf_d
              (Klustio.mkTFILE ([] ++ h :: clus) (length (@nil Z))) clust0).
    rewrite fscanf_d_at by exact Hh. cbn [Klustio.t_toks app].
    change (Klustio.mkTFILE (h :: clus) (S (length (@nil Z))))
      with (Klustio.mkTFILE ([h] ++ clus) (length [h])).
    change (Klustio.mkTFILE (nfeats :: concat events) (S (length (@nil Z))))
      with (Klustio.mkTFILE ([nfeats] ++ concat events) (length [nfeats])).
    apply (klusters_loop _ nfeats (proj1 Hn) events clus [h] [nfeats]); try assumption.
    cbn [length app]. lia.
  - intros c. apply filed_start.
Qed.

Lemma sort_unit_groups_witness :
  exists uvec,
    Klusters.sort_unit 0 0 0 (Klustio.mkTFILE (3 :: [2; 0; 5; 2]) 0)
      (Klustio.fet_file 2 [[7; 10]; [7; 20]; [7; 30]; [7; 40]]) = Some uvec
    /\ forall c,
         uvec !! c
         = if bool_decide (c ∈ Klustio.drop_noise (Klustio.clusters_of 3 [2; 0; 5; 2]))
           then Some (Klustio.filed
                        (zip [2; 0; 5; 2]
                           (map Klustio.event_time [[7; 10]; [7; 20]; [7; 30]; [7; 40]])) c)
           else None.
Proof.
  apply (sort_unit_groups 0 0 0 3 2 [2; 0; 5; 2] [[7; 10]; [7; 20]; [7; 30]; [7; 40]]).
  - lia.
  - repeat (apply Forall_cons; split; [reflexivity|]). apply Forall_nil. exact I.
  - reflexivity.
  - vm_compute. split; discriminate.
  - apply (bool_decide_unpack (Forall is_int [2; 0; 5; 2])). vm_compute. exact I.
  - apply (bool_decide_unpack
             (Forall (Forall is_long) [[7; 10]; [7; 20]; [7; 30]; [7; 40]])).
    vm_compute. exact I.
Defined.

(** X17.  Events by cluster ([klustio.cc]).  On the same files (numbers
    within the range of the variables they are read into) [sort_unit] of
    [klustio.cc] ends too, but it does not skip the count that heads the
    cluster file and runs two turns past the last event: the first event is
    filed under the count, every later event under the cluster of the event
    before it, and the time of the last event (an indeterminate value when
    there is no event) twice more under the last number of the file. *)
Theorem sort_unit_shifted (nfeats0 clust0 atime0 h nfeats : Z) (clus : list Z)
    (events : list (list Z)) :
  1 <= nfeats <= 2147483647 ->
  Forall (fun e => length e = Z.to_nat nfeats) events ->
  length clus = length events ->
  is_int h -> Forall is_int clus -> Forall (Forall is_long) events ->
  exists uvec,
    Klustio.sort_unit nfeats0 clust0 atime0 (Klustio.mkTFILE (h :: clus) 0)
      (Klustio.fet_file nfeats events) = Some uvec
    /\ forall c,
         uvec !! c
         = if bool_decide (c ∈ Klustio.drop_noise (Klustio.clusters_of h clus))
           then Some (Klustio.filed
                        (zip (h :: clus)
                           (map Klustio.event_time events
                            ++ [List.last (map Klustio.event_time events) atime0])
                         ++ [(List.last clus h,
                              List.last (map Klustio.event_time events) atime0)]) c)
           else None.
Proof.
  intros Hn Hev Hlen Hh Hint Hlong. eexists. split.
  - unfold Klustio.sort_unit, Klustio.fet_file.
    rewrite getclusters_file by assumption.
    change (Klustio.fscanf_d (Klustio.mkTFILE (nfeats :: concat events) 0) nfeats0)
      with (Klustio.fscanf_d
              (Klustio.mkTFILE ([] ++ nfeats :: concat events) (length (@nil Z))) nfeats0).
    rewrite fscanf_d_at by (unfold is_int; lia). cbn [Klustio.t_toks app].
    change (Klustio.mkTFILE (h :: clus) 0)
      with (Klustio.mkTFILE ([] ++ h :: clus) (length (@nil Z))).
    change (Klustio.mkTFILE (nfeats :: concat events) (S (length (@nil Z))))
      with (Klustio.mkTFILE ([nfeats] ++ concat events) (length [nfeats])).
    apply (klustio_loop _ nfeats (proj1 Hn) events h clus [] [nfeats]); try assumption.
    cbn [length app]. lia.
  - intros c. apply filed_start.
Qed.

Lemma sort_unit_shifted_witness :
  exists uvec,
    Klustio.sort_unit 0 0 0 (Klustio.mkTFILE (3 :: [2; 0; 5; 2]) 0)
      (Klustio.fet_file 2 [[7; 10]; [7; 20]; [7; 30]; [7; 40]]) = Some uvec
    /\ forall c,
         uvec !! c
         = if bool_decide (c ∈ Klustio.drop_noise (Klustio.clusters_of 3 [2; 0; 5; 2]))
           then Some (Klustio.filed
                        (zip (3 :: [2; 0; 5; 2])
                           (map Klustio.event_time [[7; 10]; [7; 20]; [7; 30]; [7; 40]]
                            ++ [List.last
                                  (map Klustio.event_time
                                     [[7; 10]; [7; 20]; [7; 30]; [7; 40]]) 0])
                         ++ [(List.last [2; 0; 5; 2] 3,
                              List.last
                                (map Klustio.event_time
                                   [[7; 10]; [7; 20]; [7; 30]; [7; 40]]) 0)]) c)
           else None.
Proof.
  apply (sort_unit_shifted 0 0 0 3 2 [2; 0; 5; 2] [[7; 10]; [7; 20]; [7; 30]; [7; 40]]).
  - lia.
  - repeat (apply Forall_cons; split; [reflexivity|]). apply Forall_nil. exact I.
  - reflexivity.
  - vm_compute. split; discriminate.
  - apply (bool_decide_unpack (Forall is_int [2; 0; 5; 2])). vm_compute. exact I.
  - apply (bool_decide_unpack
             (Forall (Forall is_long) [[7; 10]; [7; 20]; [7; 30]; [7; 40]])).
    vm_compute. exact I.
Defined.

(** * Files of several entries *)

(** ** Writing *)

Lemma write_hdr_frame curtime (fp : PCMFILE) :
  let fp' := snd (pcmseq2_write_hdr curtime fp) in
  name fp' = name fp /\ samplerate fp' = samplerate fp
  /\ timestamp fp' = timestamp fp /\ microtimestamp fp' = microtimestamp fp.
Proof.
  unfold pcmseq2_write_hdr. destruct (outfp fp) as [fd|]; [|repeat split].
  destruct_puts.
  match goal with |- context [if ?b then _ else _] => destruct b end;
    cbn; repeat split.
Qed.

Lemma write_chunks_frame_date : forall (chunks : list (list Z)) (fp fp' : PCMFILE) (rc : Z),
  write_chunks fp chunks = Some (rc, fp') ->
  name fp' = name fp /\ samplerate fp' = samplerate fp
  /\ timestamp fp' = timestamp fp /\ microtimestamp fp' = microtimestamp fp.
Proof.
  induction chunks as [|c cs IH]; intros fp fp' rc; cbn [write_chunks].
  - intros [= <- <-]. repeat split.
  - destruct (pcmseq2_write_data fp c (zlen c) 0) as [[rc1 fp1]|] eqn:E; [|discriminate].
    apply write_data_frame in E. destruct E as (Hn & _ & _ & Hs & Ht & Hm & _).
    destruct (rc1 =? 0).
    + intros H. apply IH in H. destruct H as (Hn' & Hs' & Ht' & Hm').
      repeat split; congruence.
    + intros [= <- <-]. repeat split; assumption.
Qed.

Lemma write_entry_frame curtime (fp fp' : PCMFILE) (chunks : list (list Z)) (rc : Z) :
  write_entry curtime fp chunks = Some (rc, fp') ->
  name fp' = name fp /\ samplerate fp' = samplerate fp
  /\ timestamp fp' = timestamp fp /\ microtimestamp fp' = microtimestamp fp.
Proof.
  unfold write_entry. pose proof (write_hdr_frame curtime fp) as Hh. cbv zeta in Hh.
  destruct (pcmseq2_write_hdr curtime fp) as [rc1 fp1]. cbn [snd] in Hh.
  destruct Hh as (Hn1 & Hs1 & Ht1 & Hm1).
  destruct (rc1 =? 0); [|intros [= <- <-]; repeat split; assumption].
  destruct (write_chunks fp1 chunks) as [[rc2 fp2]|] eqn:E2; [|discriminate].
  apply write_chunks_frame_date in E2. destruct E2 as (Hn2 & Hs2 & Ht2 & Hm2).
  destruct (rc2 =? 0); [|intros [= <- <-]; repeat split; congruence].
  intros E3. apply write_data_frame in E3.
  destruct E3 as (Hn3 & _ & _ & Hs3 & Ht3 & Hm3 & _). repeat split; congruence.
Qed.

Lemma entry_written_ext curtime (fp fp' : PCMFILE) (ent : Z * list (list Z)) :
  name fp' = name fp -> samplerate fp' = samplerate fp ->
  timestamp fp' = timestamp fp -> microtimestamp fp' = microtimestamp fp ->
  entry_written curtime fp' ent = entry_written curtime fp ent.
Proof.
  intros Hn Hs Ht Hm. unfold entry_written, hdr_lltime. rewrite Hn, Hs, Ht, Hm. reflexivity.
Qed.

Lemma file_image_cons (e : entry_data) (es : list entry_data) :
  file_image (e :: es) = image_of e ++ file_image es.
Proof. reflexivity. Qed.

Lemma file_image_app (es1 es2 : list entry_data) :
  file_image (es1 ++ es2) = file_image es1 ++ file_image es2.
Proof. unfold file_image. rewrite map_app, concat_app. reflexivity. Qed.

(** Each entry is appended behind the ones before it. *)
Lemma write_entries_image curtime : forall (ents : list (Z * list (list Z)))
    (fp : PCMFILE) (fd : FILE),
  outfp fp = Some fd -> at_end fd -> f_err fd = false -> f_eof fd = false ->
  Forall (fun ent => 0 < zlen (concat (snd ent)) <= 2147483647) ents ->
  exists fp' fd',
    write_entries curtime fp ents = Some (0, fp')
    /\ outfp fp' = Some fd' /\ at_end fd'
    /\ f_data fd' = f_data fd ++ file_image (map (entry_written curtime fp) ents).
Proof.
  induction ents as [|ent ents IH]; intros fp fd Hfd Hend Herr Heof Hall.
  - exists fp, fd. cbn [write_entries map]. unfold file_image. cbn [map concat].
    rewrite app_nil_r. repeat split; try assumption; apply Hend.
  - apply Forall_cons in Hall. destruct Hall as (HT & Hall).
    destruct (write_entry_image curtime (set_entry fp (fst ent)) fd (snd ent))
      as (fp1 & fd1 & Hrun1 & Hfd1 & Hend1 & Hdata1 & Herr1 & Heof1);
      try assumption.
    destruct (write_entry_frame _ _ _ _ _ Hrun1) as (Hn & Hs & Ht & Hm).
    cbn [set_entry name samplerate timestamp microtimestamp] in Hn, Hs, Ht, Hm.
    destruct (IH fp1 fd1 Hfd1 Hend1 Herr1 Heof1 Hall)
      as (fp2 & fd2 & Hrun2 & Hfd2 & Hend2 & Hdata2).
    exists fp2, fd2. cbn [write_entries]. rewrite Hrun1. cbn [Z.eqb].
    split; [exact Hrun2|]. split; [exact Hfd2|]. split; [exact Hend2|].
    rewrite Hdata2, Hdata1. cbn [map]. rewrite file_image_cons, <- app_assoc.
    f_equal. f_equal.
    f_equal. apply map_ext. intros ent'. apply entry_written_ext; assumption.
Qed.

(** X19.  A file of several entries.  Entries written one after the other
    to a fresh stream, each of at least one sample, all succeed, and the
    file is the sequence of their images in the order written: each image
    is the header and the segments of that entry alone, as in X1, so that an
    entry written later leaves the bytes of the earlier ones as they were,
    and entry [k] starts where the images before it end. *)
Theorem file_of_entries curtime (fp : PCMFILE) (ents : list (Z * list (list Z))) :
  outfp fp = Some fopen_w ->
  Forall (fun ent => 0 < zlen (concat (snd ent)) <= 2147483647) ents ->
  (exists fp', write_entries curtime fp ents = Some (0, fp'))
  /\ written_file curtime fp ents = file_image (map (entry_written curtime fp) ents)
  /\ forall k ent1 ent2,
       ents !! k = Some ent1 -> ents !! S k = Some ent2 ->
       entry_offset (map (entry_written curtime fp) ents) (S k)
       = entry_offset (map (entry_written curtime fp) ents) k
         + 54 + 4134 * (zlen (concat (snd ent1)) / 2048 + 1).
Proof.
  intros Hfd Hall.
  destruct (write_entries_image curtime ents fp fopen_w Hfd)
    as (fp' & fd' & Hrun & Hfd' & _ & Hdata); try reflexivity; try assumption.
  split; [exists fp'; exact Hrun|]. split.
  - unfold written_file. rewrite Hrun, Hfd', Hdata. reflexivity.
  - intros k ent1 ent2 H1 H2. unfold entry_offset.
    rewrite (take_S_r _ k (entry_written curtime fp ent1))
      by (rewrite list_lookup_fmap, H1; reflexivity).
    rewrite file_image_app, zlen_app. unfold file_image at 2. cbn [map concat].
    rewrite app_nil_r. unfold image_of, entry_written.
    cbn [e_key e_lltime e_sr e_samples].
    rewrite zlen_entry_image by apply init_key_28. lia.
Qed.

Lemma file_of_entries_witness :
  (exists fp', write_entries (1000, 5) ex_whandle ex_ents3 = Some (0, fp'))
  /\ written_file (1000, 5) ex_whandle ex_ents3
     = file_image (map (entry_written (1000, 5) ex_whandle) ex_ents3)
  /\ forall k ent1 ent2,
       ex_ents3 !! k = Some ent1 -> ex_ents3 !! S k = Some ent2 ->
       entry_offset (map (entry_written (1000, 5) ex_whandle) ex_ents3) (S k)
       = entry_offset (map (entry_written (1000, 5) ex_whandle) ex_ents3) k
         + 54 + 4134 * (zlen (concat (snd ent1)) / 2048 + 1).
Proof.
  apply (file_of_entries (1000, 5) ex_whandle ex_ents3).
  - vm_compute. reflexivity.
  - repeat (apply Forall_cons; split; [vm_compute; split; [reflexivity | discriminate]|]).
    apply Forall_nil. exact I.
Defined.

(** ** Reading an entry of a file of several *)

Lemma key_shape (key : list Z) :
  take 2 key = [32; 50] -> length key = 28%nat ->
  exists kt, key = 32 :: 50 :: kt /\ length kt = 26%nat.
Proof.
  intros Ht Hl. destruct key as [|a [|b kt]]; try discriminate.
  cbn [take] in Ht. injection Ht as -> ->. exists kt. split; [reflexivity|].
  cbn [length] in Hl. lia.
Qed.

(** The control word of an entry header. *)
Lemma peek_enthdr (p : P2FILE) (rest : list Z) :
  p_type p = 2 -> 0 <= f_pos (p_fp p) ->
  drop (Z.to_nat (f_pos (p_fp p))) (f_data (p_fp p)) = enc16 3 ++ rest ->
  peekcontrolword p
  = (0, 3, p_set_fp p (set_pos (p_fp p) (f_pos (p_fp p)) false)).
Proof.
  intros Ht Hpos Hd. unfold peekcontrolword. rewrite Ht.
  change (2 =? 1) with false. cbv iota. change (4 - 2) with 2.
  assert (Hlen : f_pos (p_fp p) + zlen (enc16 3 ++ rest) = zlen (f_data (p_fp p)))
    by (apply zlen_at; [exact Hpos | exact Hd | discriminate]).
  rewrite zlen_app in Hlen. change (zlen (enc16 3)) with 2 in Hlen.
  pose proof (zlen_nonneg rest).
  rewrite fread_full by lia.
  rewrite (slice_at _ (enc16 3) rest) by (try reflexivity; exact Hd).
  change (get_u16 (overwrite [0; 0; 0; 0] 2 (enc16 3)) 2) with 3.
  change (1 =? -1) with false. cbv iota.
  rewrite fseek_cur_ok by (cbn [set_pos f_pos]; lia).
  cbn [snd set_pos f_pos f_data f_eof f_err].
  replace (f_pos (p_fp p) + 2 + -2) with (f_pos (p_fp p)) by lia. reflexivity.
Qed.

(** The header of an entry anywhere in the file. *)
Lemma readentryhdr_at (p : P2FILE) (key kt rest : list Z) (lltime sr : Z) :
  key = 32 :: 50 :: kt -> length kt = 26%nat ->
  p_type p = 2 -> 0 <= f_pos (p_fp p) ->
  drop (Z.to_nat (f_pos (p_fp p))) (f_data (p_fp p)) = enthdr_image key lltime sr ++ rest ->
  exists p',
    readentryhdr p = (0, p')
    /\ p_type p' = 2 /\ same_dir p' p
    /\ f_data (p_fp p') = f_data (p_fp p) /\ f_pos (p_fp p') = f_pos (p_fp p) + 54
    /\ slice 6 16 (hdrbuf p') = slice 2 16 key.
Proof.
  intros Hkey Hkt Ht Hpos Hdata. unfold readentryhdr. rewrite Ht.
  change (2 =? 1) with false. cbv iota.
  assert (Hkl : length key = 28%nat) by (rewrite Hkey; cbn [length]; lia).
  assert (Hh : zlen (enthdr_image key lltime sr) = 54) by (apply zlen_enthdr; exact Hkl).
  assert (Hlen : f_pos (p_fp p) + zlen (enthdr_image key lltime sr ++ rest)
                 = zlen (f_data (p_fp p)))
    by (apply zlen_at; [exact Hpos | exact Hdata | unfold enthdr_image; discriminate]).
  rewrite zlen_app, Hh in Hlen. pose proof (zlen_nonneg rest).
  rewrite fread_full by lia.
  rewrite (slice_at _ (enthdr_image key lltime sr) rest) by (rewrite ?Hh; auto).
  destruct (overwrite_shape (hdrbuf p) 2 (enthdr_image key lltime sr))
    as (pre & post & Hbuf & Hpre); [lia|].
  rewrite Hbuf.
  assert (Hb4 : byte_at (pre ++ enthdr_image key lltime sr ++ post) 4 = 32).
  { rewrite (byte_at_app pre _ 2 2) by lia. rewrite Hkey. reflexivity. }
  assert (Hb5 : byte_at (pre ++ enthdr_image key lltime sr ++ post) 5 = 50).
  { rewrite (byte_at_app pre _ 2 3) by lia. rewrite Hkey. reflexivity. }
  rewrite Hb4, Hb5. cbn [Z.eqb Pos.eqb negb orb].
  eexists. split; [reflexivity|].
  cbn [p_set_hdr p_type lastentry p_fp hdrbuf set_pos f_data f_pos].
  split; [exact Ht|]. split; [repeat split|]. split; [reflexivity|]. split; [reflexivity|].
  rewrite (slice_inside pre _ post 2 4 16) by lia.
  unfold enthdr_image.
  rewrite (slice_inside (enc16 3) key _ 2 2 16); [reflexivity | reflexivity | lia | lia |].
  unfold zlen. rewrite Hkl. lia.
Qed.

Section ReadLoopIn.

Variables (disk back mkey kt padded B0 : list Z) (total start stop : Z) (p0 : P2FILE).
Hypothesis Hmkey : mkey = 32 :: 51 :: kt.
Hypothesis Hkt : length kt = 26%nat.
Hypothesis Hrange : 0 <= start <= stop.
Hypothesis Hshort : Forall is_short padded.

Let inv := reading_in disk back mkey total padded B0 start stop p0.

(** A turn of the loop at a segment of the entry. *)
Lemma read_step_segment_in (n : nat) (r : rloop) :
  inv (S n) r ->
  exists r',
    read_step start stop r = Continue r' /\ inv n r'
    /\ r_curentry r' = r_curentry r /\ r_status r' = r_status r.
Proof.
  intros (Hdir & Ht & Hdata & Hpos & Hkey & Hdrop & Hb0 & Hbn & Hcur & Hbuf).
  pose proof (mkey_length mkey kt Hmkey Hkt) as Hml.
  cbn [segs_image] in Hdrop. rewrite <- app_assoc in Hdrop.
  set (b := r_blockstart r) in *.
  set (rw := match n with O => total | S _ => 0 end) in *.
  set (blk := take 2048 (drop (Z.to_nat b) padded)) in *.
  set (rest := segs_image mkey total n (drop 2048 (drop (Z.to_nat b) padded)) ++ back) in *.
  assert (Hblk : zlen blk = 2048)
    by (unfold blk, zlen in *; rewrite length_take, length_drop; lia).
  assert (Hslice : forall a k, 0 <= a -> 0 <= k -> a + k <= 2048 ->
            slice a k blk = slice (b + a) k padded).
  { intros a k Ha Hk Hak. unfold blk. rewrite slice_take, slice_drop by lia.
    f_equal. lia. }
  assert (Hseg : zlen (seg_image mkey rw blk) = 4134) by (apply zlen_seg_image; assumption).
  assert (Hrest : drop (Z.to_nat (f_pos (p_fp (r_p r)) + 4134)) disk = rest).
  { replace (Z.to_nat (f_pos (p_fp (r_p r)) + 4134))
      with (Z.to_nat (f_pos (p_fp (r_p r))) + Z.to_nat 4134)%nat by lia.
    rewrite <- drop_drop, Hdrop. apply drop_prefix. lia. }
  assert (Hrest' : rest = segs_image mkey total n (drop (Z.to_nat (b + 2048)) padded) ++ back).
  { unfold rest. rewrite drop_drop. do 3 f_equal. lia. }
  rewrite <- Hdata in Hdrop.
  unfold read_step. rewrite (peek_segment mkey kt Hkt (r_p r) rw blk rest Ht Hpos Hdrop).
  change (0 =? -1) with false. change (1 =? 3) with false. change (1 =? 1) with true.
  cbv iota. fold b.
  set (p1 := p_set_fp (r_p r) (set_pos (p_fp (r_p r)) (f_pos (p_fp (r_p r))) false)).
  assert (Hdir1 : same_dir p1 p0)
    by (eapply same_dir_trans; [apply same_dir_set_fp | exact Hdir]).
  destruct ((stop <? b) || (b + 2048 - 1 <? start)) eqn:Eout.
  - (* no sample of the segment is in the range *)
    eexists. split; [reflexivity|]. split; [|split; reflexivity].
    unfold inv, reading_in, skipsegment, segment_bytes.
    cbn [r_p r_blockstart r_curpos r_buf p1 p_set_fp p_type p_fp lastentry hdrbuf].
    rewrite Ht. change (2 =? 1) with false. cbv iota.
    rewrite fseek_cur_ok by (cbn [set_pos f_pos]; lia).
    cbn [snd set_pos f_pos f_data].
    split; [eapply same_dir_trans; [apply same_dir_set_fp | exact Hdir]|].
    repeat split; try assumption; try lia.
    + rewrite Hrest. exact Hrest'.
    + rewrite Hcur. fold b. unfold got.
      apply orb_true_iff in Eout. destruct Eout as [E|E]; apply Z.ltb_lt in E; lia.
  - (* the segment holds samples of the range *)
    destruct (readsegment_ok mkey kt Hmkey Hkt p1 rw blk rest)
      as (p' & pre & post & Hrs & Ht' & HL' & Hh' & Hd' & Hp' & Hsb & Hpre);
      [exact Ht | exact Hpos | exact Hblk | exact Hkey | exact Hdrop |].
    pose proof (readsegment_dir p1) as Hdir'. rewrite Hrs in Hdir'. cbn [snd] in Hdir'.
    rewrite Hrs. change (0 =? -1) with false. cbv iota.
    destruct (segbuf_samples mkey blk pre post rw Hml Hblk Hpre) as (S1 & S2 & S3).
    rewrite <- Hsb in S1, S2, S3.
    rewrite Ht'. unfold samples1_off, samples2_off, samples3_off.
    change (2 =? 1) with false. cbv iota.
    change (2050 + -2) with 2048. change (4096 + -4) with 4092.
    rewrite Hbuf, Hcur. fold b.
    rewrite (copy_block_spec (segbuf p') padded B0 36 1005 start stop b)
      by (try assumption; try lia; intros a k Ha Hk Hak; rewrite S1, Hslice by lia;
          reflexivity).
    rewrite (copy_block_spec (segbuf p') padded B0 2048 1021 start stop (b + 1005))
      by (try assumption; try lia; intros a k Ha Hk Hak; rewrite S2, Hslice by lia;
          do 2 f_equal; lia).
    rewrite (copy_block_spec (segbuf p') padded B0 4092 22 start stop (b + 1005 + 1021))
      by (try assumption; try lia; intros a k Ha Hk Hak; rewrite S3, Hslice by lia;
          do 2 f_equal; lia).
    eexists. split; [reflexivity|]. split; [|split; reflexivity].
    unfold inv, reading_in. cbn [r_p r_blockstart r_curpos r_buf].
    replace (b + 1005 + 1021 + 22) with (b + 2048) by lia.
    rewrite Hp', Hh', Hd'. cbn [p1 p_set_fp p_fp set_pos f_pos f_data lastentry hdrbuf].
    split; [eapply same_dir_trans; [exact Hdir' | exact Hdir1]|].
    repeat split; try assumption; try lia.
    rewrite Hrest. exact Hrest'.
Qed.

(** The turn behind the last segment when the entry is the last of the
    file. *)
Lemma read_step_end_in (r : rloop) :
  inv 0 r -> back = [] ->
  exists r',
    read_step start stop r = Break r'
    /\ same_dir (r_p r') p0 /\ f_data (p_fp (r_p r')) = disk
    /\ p_type (r_p r') = 2
    /\ r_blockstart r' = zlen padded
    /\ r_curpos r' = got start stop (zlen padded)
    /\ r_buf r' = slice start (r_curpos r') padded ++ drop (Z.to_nat (r_curpos r')) B0
    /\ r_curentry r' = r_curentry r /\ r_status r' = r_status r.
Proof.
  intros (Hdir & Ht & Hdata & Hpos & Hkey & Hdrop & Hb0 & Hbn & Hcur & Hbuf) Hback.
  cbn [segs_image] in Hdrop. rewrite Hback in Hdrop. cbn [app] in Hdrop.
  rewrite <- Hdata in Hdrop.
  destruct (peek_eof (r_p r) Ht Hpos Hdrop) as (fp' & Hpeek & Hfd).
  unfold read_step. rewrite Hpeek.
  change (0 =? -1) with false. change (0 =? 3) with false. change (0 =? 1) with false.
  cbv iota. eexists. split; [reflexivity|].
  cbn [r_p r_blockstart r_curpos r_buf r_curentry r_status p_set_fp lastentry p_fp p_type].
  replace (zlen padded) with (r_blockstart r) by lia.
  split; [eapply same_dir_trans; [apply same_dir_set_fp | exact Hdir]|].
  repeat split; try assumption; congruence.
Qed.

(** The turn behind the last segment when another entry follows: the loop
    ends with status 0, and writes the position of that entry into the
    directory. *)
Lemma read_step_next_in (r : rloop) (rest : list Z) :
  inv 0 r -> back = enc16 3 ++ rest ->
  exists r',
    read_step start stop r = Break r'
    /\ r_status r' = 0 /\ r_curentry r' = r_curentry r + 1
    /\ f_data (p_fp (r_p r')) = disk /\ p_type (r_p r') = 2
    /\ f_eof (p_fp (r_p r')) = false
    /\ f_pos (p_fp (r_p r')) = f_pos (p_fp (r_p r))
    /\ lastentry (r_p r') = lastentry p0
    /\ entry_pos_cache (r_p r')
       = cache_set (entry_pos_cache p0) (r_curentry r + 1) (f_pos (p_fp (r_p r)))
    /\ entry_size_cache (r_p r') = entry_size_cache p0
    /\ entry_sr_cache (r_p r') = entry_sr_cache p0
    /\ entry_time_cache (r_p r') = entry_time_cache p0
    /\ r_blockstart r' = zlen padded
    /\ r_curpos r' = got start stop (zlen padded)
    /\ r_buf r' = slice start (r_curpos r') padded ++ drop (Z.to_nat (r_curpos r')) B0.
Proof.
  intros (Hdir & Ht & Hdata & Hpos & Hkey & Hdrop & Hb0 & Hbn & Hcur & Hbuf) Hback.
  cbn [segs_image] in Hdrop. rewrite Hback in Hdrop. cbn [app] in Hdrop.
  rewrite <- Hdata in Hdrop.
  unfold read_step. rewrite (peek_enthdr (r_p r) rest Ht Hpos Hdrop).
  change (0 =? -1) with false. change (3 =? 3) with true. cbv iota.
  destruct Hdir as (_ & HL & _ & Hpc & Hsc & Hrc & Htc).
  eexists. split; [reflexivity|].
  cbn [r_p r_blockstart r_curpos r_buf r_curentry r_status p_set_fp p_set_pos_cache
       lastentry p_fp p_type entry_pos_cache entry_size_cache entry_sr_cache
       entry_time_cache set_pos f_data f_eof f_pos ftell].
  replace (zlen padded) with (r_blockstart r) by lia.
  rewrite Hpc. repeat split; try assumption; congruence.
Qed.

Hypothesis Hback : back = [] \/ exists rest, back = enc16 3 ++ rest.

Lemma read_loop_in : forall (n fuel : nat) (r : rloop),
  inv n r -> (n < fuel)%nat ->
  exists r',
    read_loop fuel start stop r = Some r'
    /\ f_data (p_fp (r_p r')) = disk /\ p_type (r_p r') = 2
    /\ r_blockstart r' = zlen padded
    /\ r_curpos r' = got start stop (zlen padded)
    /\ r_buf r' = slice start (r_curpos r') padded ++ drop (Z.to_nat (r_curpos r')) B0
    /\ ((back = [] /\ same_dir (r_p r') p0
         /\ r_curentry r' = r_curentry r /\ r_status r' = r_status r)
        \/ (back <> [] /\ r_status r' = 0 /\ r_curentry r' = r_curentry r + 1
            /\ f_eof (p_fp (r_p r')) = false
            /\ lastentry (r_p r') = lastentry p0
            /\ entry_pos_cache (r_p r')
               = cache_set (entry_pos_cache p0) (r_curentry r + 1)
                   (f_pos (p_fp (r_p r')))
            /\ f_pos (p_fp (r_p r')) + zlen back = zlen disk
            /\ entry_size_cache (r_p r') = entry_size_cache p0
            /\ entry_sr_cache (r_p r') = entry_sr_cache p0
            /\ entry_time_cache (r_p r') = entry_time_cache p0)).
Proof.
  induction n as [|n IH]; intros fuel r Hinv Hfuel;
    (destruct fuel as [|fuel]; [lia|]); cbn [read_loop].
  - destruct Hback as [Hb | (rest & Hb)].
    + destruct (read_step_end_in r Hinv Hb) as (r' & Hstep & Hd & H1 & H2 & H3 & H4 & H5 & H6 & H7).
      rewrite Hstep. exists r'. split; [reflexivity|].
      repeat (split; [assumption|]). left.
      split; [exact Hb|]. split; [exact Hd|]. split; assumption.
    + destruct (read_step_next_in r rest Hinv Hb)
        as (r' & Hstep & Hs & Hc & Hd & Ht & He & Hp & HL & Hpc & Hsc & Hrc & Htc & H3 & H4 & H5).
      rewrite Hstep. exists r'. split; [reflexivity|].
      repeat (split; [assumption|]). right.
      assert (Hne : back <> []) by (rewrite Hb; discriminate).
      destruct Hinv as (_ & _ & Hdata & Hpos & _ & Hdrop & _).
      cbn [segs_image app] in Hdrop.
      pose proof (zlen_at disk back (f_pos (p_fp (r_p r))) Hpos Hdrop Hne) as Hlen.
      rewrite Hp. repeat split; assumption.
  - destruct (read_step_segment_in n r Hinv) as (r1 & Hstep & Hinv1 & Hce & Hst).
    rewrite Hstep.
    destruct (IH fuel r1 Hinv1) as (r' & Hrun & H1 & H2 & H3 & H4 & H5 & H6); [lia|].
    exists r'. rewrite Hrun. split; [reflexivity|].
    repeat (split; [assumption|]). rewrite <- Hce, <- Hst. exact H6.
Qed.

End ReadLoopIn.

Lemma cache_set_same (c : list Z) (i v : Z) :
  cache_get c i = v -> forall j, cache_get (cache_set c i v) j = cache_get c j.
Proof.
  intros Hv j. unfold cache_get, cache_set in *.
  destruct (Z.ltb_spec i 0); [reflexivity|].
  destruct (Z.ltb_spec j 0); [reflexivity|].
  rewrite !nth_lookup.
  destruct (decide (Z.to_nat i = Z.to_nat j)) as [E|E].
  - rewrite <- E. destruct (decide (Z.to_nat i < length c)%nat) as [Hl|Hl].
    + rewrite list_lookup_insert_eq by exact Hl. rewrite nth_lookup in Hv.
      rewrite Hv. reflexivity.
    + rewrite list_insert_ge by lia. reflexivity.
  - rewrite list_lookup_insert_ne by exact E. reflexivity.
Qed.

Lemma enthdr_starts (key : list Z) (lltime sr : Z) (samples : list Z) :
  exists rest, entry_image key lltime sr samples = enc16 3 ++ rest.
Proof. unfold entry_image, enthdr_image. rewrite <- !app_assoc. eexists. reflexivity. Qed.

Lemma entry_padded_length (samples : list Z) :
  zlen (entry_padded samples) = 2048 * Z.of_nat (Z.to_nat (entry_segments samples))
  /\ zlen samples <= zlen (entry_padded samples).
Proof.
  pose proof (zlen_nonneg samples) as HT.
  assert (Hq : 0 <= zlen samples / 2048) by (apply Z.div_pos; lia).
  pose proof (Z.mod_pos_bound (zlen samples) 2048 ltac:(lia)).
  pose proof (Z.div_mod (zlen samples) 2048 ltac:(lia)).
  rewrite zlen_entry_padded. unfold entry_segments. lia.
Qed.

(** Reading a range of an entry that has the bytes [front] before it in the
    file and [back] behind it. *)
Lemma read_entry_in (p : P2FILE) (front back : list Z) (e : entry_data) (k : Z)
    (start stop : Z) (buf : list Z) :
  take 2 (e_key e) = [32; 50] -> length (e_key e) = 28%nat ->
  Forall is_short (e_samples e) ->
  f_data (p_fp p) = front ++ image_of e ++ back ->
  p_type p = 2 -> 0 < k <= lastentry p ->
  cache_get (entry_pos_cache p) k = zlen front ->
  ((back = [] /\ k = lastentry p)
   \/ ((exists rest, back = enc16 3 ++ rest) /\ k < lastentry p
       /\ cache_get (entry_pos_cache p) (k + 1) = zlen front + zlen (image_of e))) ->
  0 <= start <= stop -> stop < zlen (entry_padded (e_samples e)) ->
  exists rr,
    pcmseq2_read p k start stop buf = Some rr
    /\ rr_rc rr = 0 /\ rr_numwritten rr = stop - start + 1
    /\ rr_buf rr = slice start (stop - start + 1) (entry_padded (e_samples e))
                   ++ drop (Z.to_nat (stop - start + 1)) buf
    /\ f_data (p_fp (rr_p rr)) = f_data (p_fp p) /\ p_type (rr_p rr) = 2
    /\ lastentry (rr_p rr) = lastentry p
    /\ (forall j, cache_get (entry_pos_cache (rr_p rr)) j = cache_get (entry_pos_cache p) j)
    /\ entry_size_cache (rr_p rr) = entry_size_cache p
    /\ entry_sr_cache (rr_p rr) = entry_sr_cache p
    /\ entry_time_cache (rr_p rr) = entry_time_cache p.
Proof.
  intros Hk2 Hk28 Hshort Hdata Ht Hk Hcache Hback Hrange Hstop.
  destruct (key_shape _ Hk2 Hk28) as (kt & Hkey & Hkt).
  set (samples := e_samples e) in *.
  set (mkey := 32 :: 51 :: kt).
  assert (Hmk : <[1%nat := 51]> (e_key e) = mkey) by (rewrite Hkey; reflexivity).
  assert (Hml : length mkey = 28%nat) by (unfold mkey; cbn [length]; lia).
  set (n := Z.to_nat (entry_segments samples)).
  set (padded := entry_padded samples) in *.
  destruct (entry_padded_length samples) as (Hpad & Hle). fold n padded in Hpad, Hle.
  assert (Hpadshort : Forall is_short padded).
  { unfold padded, entry_padded. apply Forall_app. split; [exact Hshort|].
    apply Forall_replicate. unfold is_short. lia. }
  assert (Himg : image_of e
                 = enthdr_image (e_key e) (e_lltime e) (e_sr e)
                   ++ segs_image mkey (zlen samples) n padded)
    by (unfold image_of, entry_image; rewrite Hmk; reflexivity).
  pose proof (zlen_nonneg front) as Hfront.
  unfold pcmseq2_read. rewrite seektoentry_result.
  replace (0 <? k) with true by lia.
  replace (k <=? lastentry p) with true by lia. rewrite orb_true_r.
  rewrite Hcache. replace (zlen front =? -1) with false by lia.
  cbn [andb negb]. cbv iota. change (0 =? -1) with false. cbv iota.
  rewrite fseek_set_ok by lia. cbn [snd].
  set (p1 := p_set_currententry _ _).
  assert (Hd1 : f_data (p_fp p1) = f_data (p_fp p)) by reflexivity.
  assert (Hp1 : f_pos (p_fp p1) = zlen front) by reflexivity.
  assert (Hpos1 : 0 <= f_pos (p_fp p1)) by (rewrite Hp1; lia).
  assert (Hdrop1 : drop (Z.to_nat (f_pos (p_fp p1))) (f_data (p_fp p1))
                   = enthdr_image (e_key e) (e_lltime e) (e_sr e)
                     ++ segs_image mkey (zlen samples) n padded ++ back)
    by (rewrite Hp1, Hd1, Hdata, Himg, <- !app_assoc; apply drop_prefix; reflexivity).
  destruct (readentryhdr_at p1 (e_key e) kt (segs_image mkey (zlen samples) n padded ++ back)
              (e_lltime e) (e_sr e) Hkey Hkt Ht Hpos1 Hdrop1)
    as (p2 & Hreh & Ht2 & Hdir2 & Hd2 & Hp2 & Hk2').
  rewrite Hreh. cbv iota. change (0 =? -1) with false. cbv iota.
  assert (Hh : zlen (enthdr_image (e_key e) (e_lltime e) (e_sr e)) = 54)
    by (apply zlen_enthdr; exact Hk28).
  assert (Hback' : back = [] \/ exists rest, back = enc16 3 ++ rest)
    by (destruct Hback as [[Hb _] | [Hb _]]; [left | right]; assumption).
  assert (Hsegs : zlen (segs_image mkey (zlen samples) n padded) = 4134 * Z.of_nat n)
    by (apply zlen_segs_image; assumption).
  destruct (read_loop_in (f_data (p_fp p)) back mkey kt padded buf (zlen samples)
              start stop p1 eq_refl Hkt Hrange Hpadshort Hback' n
              (length (f_data (p_fp p2)) + 3)
              (mkRloop p2 (currententry p1) (-1) 0 0 buf 0))
    as (r' & Hrun & Hd' & Ht' & Hb' & Hc' & Hbuf' & Hend);
    [| |].
  { unfold reading_in. cbn [r_p r_blockstart r_curpos r_buf].
    rewrite Hp2, Hp1. change (Z.to_nat 0) with 0%nat. cbn [drop].
    split; [exact Hdir2|]. split; [exact Ht2|]. split; [rewrite Hd2; reflexivity|].
    split; [lia|]. split; [rewrite Hk2', Hkey; reflexivity|].
    split.
    - change (drop 0 padded) with padded.
      rewrite Hdata, Himg, <- !app_assoc, app_assoc.
      apply drop_prefix. rewrite zlen_app, Hh. reflexivity.
    - repeat split; try lia. unfold got. lia. }
  { rewrite Hd2, Hd1, Hdata, Himg, !length_app.
    unfold zlen at 1 in Hsegs. lia. }
  rewrite Hrun, Hb'.
  assert (Hgot : got start stop (zlen padded) = stop - start + 1) by (unfold got; lia).
  destruct Hend as [(Hb & Hdir' & Hce & Hst)
                   | (Hb & Hst & Hce & Heof & HL' & Hpc & Hpos' & Hsc & Hrc & Htc)].
  - (* the last entry of the file *)
    destruct Hback as [(_ & HkL) | ((rest & Hr) & _)]; [|rewrite Hb in Hr; discriminate].
    destruct Hdir' as (Hcur' & HLr & _ & Hpc & Hsc & Hrc & Htc).
    cbn [p1 p_set_currententry p_set_fp lastentry entry_pos_cache entry_size_cache
         entry_sr_cache entry_time_cache] in HLr, Hpc, Hsc, Hrc, Htc.
    rewrite HLr, <- HkL, Z.eqb_refl.
    rewrite (proj2 (Z.ltb_lt stop (zlen padded))) by lia.
    cbn [andb]. rewrite orb_true_r. cbn [orb]. cbv iota.
    change (0 =? -1) with false. cbv iota.
    eexists. split; [reflexivity|]. cbn [rr_rc rr_numwritten rr_buf rr_p].
    split; [reflexivity|]. split; [rewrite Hc'; exact Hgot|].
    split; [rewrite Hbuf', Hc', Hgot; reflexivity|].
    unfold ftell. rewrite Hp1. rewrite fseek_set_ok by lia.
    cbn [snd p_set_currententry p_set_fp p_fp set_pos f_data p_type lastentry
         entry_pos_cache entry_size_cache entry_sr_cache entry_time_cache].
    split; [exact Hd'|]. split; [exact Ht'|]. split; [congruence|].
    split; [intros j; rewrite Hpc; reflexivity|]. repeat split; assumption.
  - (* another entry follows *)
    destruct Hback as [(Hb0 & _) | (_ & HkL & Hnext)]; [contradiction|].
    cbn [r_curentry p1 p_set_currententry currententry] in Hce.
    cbn [p1 p_set_currententry p_set_fp lastentry entry_pos_cache entry_size_cache
         entry_sr_cache entry_time_cache] in HL', Hpc, Hsc, Hrc, Htc.
    cbn [r_curentry p1 p_set_currententry currententry] in Hpc.
    unfold feof. rewrite Heof, HL', Hst.
    replace (k =? lastentry p) with false by lia.
    change (0 =? -1) with false. rewrite andb_false_r. cbn [andb orb]. cbv iota.
    change (0 =? -1) with false. cbv iota.
    eexists. split; [reflexivity|]. cbn [rr_rc rr_numwritten rr_buf rr_p].
    split; [reflexivity|]. split; [rewrite Hc'; exact Hgot|].
    split; [rewrite Hbuf', Hc', Hgot; reflexivity|].
    cbn [p_set_currententry p_fp p_type lastentry
         entry_pos_cache entry_size_cache entry_sr_cache entry_time_cache].
    split; [exact Hd'|]. split; [exact Ht'|]. split; [exact HL'|].
    split; [|repeat split; assumption].
    intros j. rewrite Hpc. apply cache_set_same. rewrite Hnext.
    rewrite Hdata, !zlen_app in Hpos'. lia.
Qed.

Lemma file_split (es : list entry_data) (k : nat) (e : entry_data) :
  es !! k = Some e ->
  file_image es = file_image (take k es) ++ image_of e ++ file_image (drop (S k) es).
Proof.
  intros Hk. rewrite <- (take_drop_middle es k e Hk) at 1.
  rewrite file_image_app, file_image_cons. reflexivity.
Qed.

Lemma entry_offset_next (es : list entry_data) (k : nat) (e : entry_data) :
  es !! k = Some e ->
  entry_offset es (S k) = entry_offset es k + zlen (image_of e).
Proof.
  intros Hk. unfold entry_offset. rewrite (take_S_r _ _ _ Hk), file_image_app, zlen_app.
  unfold file_image at 2. cbn [map concat]. rewrite app_nil_r. reflexivity.
Qed.

Lemma read_entry_indexed (p : P2FILE) (es : list entry_data) (k : nat)
    (e : entry_data) (start stop : Z) (buf : list Z) :
  indexed_file p es ->
  es !! k = Some e ->
  take 2 (e_key e) = [32; 50] -> length (e_key e) = 28%nat ->
  Forall is_short (e_samples e) ->
  0 <= start <= stop -> stop < zlen (entry_padded (e_samples e)) ->
  exists rr,
    pcmseq2_read p (Z.of_nat k + 1) start stop buf = Some rr
    /\ rr_rc rr = 0 /\ rr_numwritten rr = stop - start + 1
    /\ rr_buf rr = slice start (stop - start + 1) (entry_padded (e_samples e))
                   ++ drop (Z.to_nat (stop - start + 1)) buf
    /\ indexed_file (rr_p rr) es.
Proof.
  intros (Hdata & Ht & HL & Hdir) Hk Hk2 Hk28 Hshort Hrange Hstop.
  pose proof (lookup_lt_Some _ _ _ Hk) as Hlt.
  destruct (Hdir k e Hk) as (Hpos & _).
  destruct (read_entry_in p (file_image (take k es)) (file_image (drop (S k) es)) e
              (Z.of_nat k + 1) start stop buf Hk2 Hk28 Hshort)
    as (rr & Hread & Hrc & Hnum & Hbuf & Hd' & Ht' & HL' & Hpc & Hsc & Hrc' & Htc);
    try assumption.
  - rewrite Hdata. apply file_split. exact Hk.
  - rewrite HL. lia.
  - destruct (es !! S k) as [e'|] eqn:Hnext.
    + right. split; [|split].
      * rewrite (drop_S _ _ _ Hnext), file_image_cons.
        destruct (enthdr_starts (e_key e') (e_lltime e') (e_sr e') (e_samples e'))
          as (rest & Hrest).
        unfold image_of. rewrite Hrest, <- app_assoc. eexists. reflexivity.
      * apply lookup_lt_Some in Hnext. rewrite HL. lia.
      * destruct (Hdir (S k) e' Hnext) as (Hpos' & _).
        replace (Z.of_nat k + 1 + 1) with (Z.of_nat (S k) + 1) by lia.
        rewrite Hpos'. apply entry_offset_next. exact Hk.
    + left. apply lookup_ge_None in Hnext. split.
      * rewrite drop_ge by lia. reflexivity.
      * rewrite HL. lia.
  - exists rr. split; [exact Hread|]. split; [exact Hrc|]. split; [exact Hnum|].
    split; [exact Hbuf|]. unfold indexed_file.
    split; [rewrite Hd'; exact Hdata|]. split; [exact Ht'|]. split; [rewrite HL'; exact HL|].
    intros j ej Hj. rewrite Hpc, Hsc, Hrc', Htc. apply Hdir. exact Hj.
Qed.

(** X20.  Reading any entry of a file of several.  On a handle that has the
    entries of its file in its directory, [pcmseq2_read] of samples
    [start..stop] of entry [k + 1], for an entry of 16-bit samples under a
    key of the writer and a range that ends within the last segment of the
    entry, returns 0 and stores the [stop - start + 1] samples asked for at
    the front of the buffer, leaving the rest of the buffer alone; samples
    asked for beyond the count of the entry are the zeros that fill its
    last segment.  The handle keeps the file in its directory, so any
    sequence of such reads, of any entries in any order, returns the same
    samples. *)
Theorem read_entry_of_file (p : P2FILE) (es : list entry_data) (k : nat)
    (e : entry_data) (start stop : Z) (buf : list Z) :
  indexed_file p es ->
  es !! k = Some e ->
  take 2 (e_key e) = [32; 50] -> length (e_key e) = 28%nat ->
  Forall is_short (e_samples e) ->
  0 <= start <= stop -> stop < zlen (entry_padded (e_samples e)) ->
  exists rr,
    pcmseq2_read p (Z.of_nat k + 1) start stop buf = Some rr
    /\ rr_rc rr = 0 /\ rr_numwritten rr = stop - start + 1
    /\ rr_buf rr = slice start (stop - start + 1) (entry_padded (e_samples e))
                   ++ drop (Z.to_nat (stop - start + 1)) buf
    /\ indexed_file (rr_p rr) es.
Proof.
  apply read_entry_indexed.
Qed.

(** ** Indexing a file of several entries *)

Lemma cache_get_set_ne (c : list Z) (i j v : Z) :
  0 <= i -> 0 <= j -> i <> j -> cache_get (cache_set c i v) j = cache_get c j.
Proof.
  intros Hi Hj Hne. unfold cache_get, cache_set.
  replace (i <? 0) with false by lia. replace (j <? 0) with false by lia.
  rewrite !nth_lookup, list_lookup_insert_ne by lia. reflexivity.
Qed.

Lemma length_cache_set (c : list Z) (i v : Z) : length (cache_set c i v) = length c.
Proof. unfold cache_set. destruct (i <? 0); [reflexivity | apply length_insert]. Qed.

Lemma length_cache_swap (c : list Z) (i j : Z) : length (cache_swap c i j) = length c.
Proof. unfold cache_swap. rewrite !length_cache_set. reflexivity. Qed.

Lemma cache_get_swap (c : list Z) (i j k : Z) :
  0 <= i -> 0 <= j -> i <> j ->
  (Z.to_nat i < length c)%nat -> (Z.to_nat j < length c)%nat ->
  cache_get (cache_swap c i j) k
  = if k =? i then cache_get c j else if k =? j then cache_get c i else cache_get c k.
Proof.
  intros Hi Hj Hne Hli Hlj. unfold cache_swap.
  destruct (Z.eqb_spec k i) as [->|Hki].
  - rewrite cache_get_set_ne by lia. apply cache_get_set; assumption.
  - destruct (Z.eqb_spec k j) as [->|Hkj].
    + apply cache_get_set; [lia | rewrite length_cache_set; exact Hlj].
    + unfold cache_get, cache_set.
      replace (i <? 0) with false by lia. replace (j <? 0) with false by lia.
      destruct (Z.ltb_spec k 0); [reflexivity|].
      rewrite !nth_lookup, !list_lookup_insert_ne by lia. reflexivity.
Qed.

(** The loop that reverses a directory array between two indices. *)
Lemma swap_range_spec : forall (fuel : nat) (c : list Z) (lo hi : Z),
  0 <= lo -> (Z.to_nat hi < length c)%nat -> hi - lo < 2 * Z.of_nat fuel ->
  length (swap_range fuel c lo hi) = length c
  /\ forall i,
       cache_get (swap_range fuel c lo hi) i
       = if (lo <=? i) && (i <=? hi) then cache_get c (lo + hi - i) else cache_get c i.
Proof.
  induction fuel as [|fuel IH]; intros c lo hi Hlo Hhi Hfuel.
  - cbn [swap_range]. split; [reflexivity|]. intros i.
    destruct (Z.leb_spec lo i), (Z.leb_spec i hi); cbn [andb]; try reflexivity. lia.
  - cbn [swap_range]. destruct (Z.ltb_spec lo hi) as [Hlt|Hge].
    + destruct (IH (cache_swap c lo hi) (lo + 1) (hi - 1)) as (Hlen & Hget);
        [lia | rewrite length_cache_swap; lia | lia |].
      rewrite length_cache_swap in Hlen. split; [exact Hlen|].
      intros i. rewrite Hget.
      destruct (Z.leb_spec (lo + 1) i), (Z.leb_spec i (hi - 1)),
               (Z.leb_spec lo i), (Z.leb_spec i hi); cbn [andb]; try lia;
        rewrite cache_get_swap by lia;
        repeat match goal with
          | |- context [?a =? ?b] => destruct (Z.eqb_spec a b); try lia
          end;
        try reflexivity; try (f_equal; lia).
    + split; [reflexivity|]. intros i.
      destruct (Z.leb_spec lo i), (Z.leb_spec i hi); cbn [andb]; try reflexivity.
      f_equal. lia.
Qed.

Lemma reverse_caches_arrays : forall (fuel : nat) (p : P2FILE) (lo hi : Z),
  reverse_caches fuel p lo hi
  = p_set_caches p (p_fp p)
      (swap_range fuel (entry_pos_cache p) lo hi)
      (swap_range fuel (entry_size_cache p) lo hi)
      (swap_range fuel (entry_sr_cache p) lo hi)
      (swap_range fuel (entry_time_cache p) lo hi).
Proof.
  induction fuel as [|fuel IH]; intros p lo hi; cbn [reverse_caches swap_range].
  - destruct p; reflexivity.
  - destruct (lo <? hi); [|destruct p; reflexivity].
    rewrite IH. reflexivity.
Qed.

Section EntryInFile.

Variables (front back : list Z) (e : entry_data).
Hypothesis Hok : entry_ok e.

Let disk := front ++ image_of e ++ back.
Let B := zlen front.
Let total := zlen (e_samples e).
Let q := total / 2048.

Lemma image_length :
  zlen (image_of e) = 54 + 4134 * (q + 1) /\ 0 <= q <= 488281 /\ 0 < total <= 1000000000
  /\ zlen disk = B + (54 + 4134 * (q + 1)) + zlen back /\ 0 <= B /\ 0 <= zlen back.
Proof.
  destruct Hok as (Hk2 & Hk28 & HT & _).
  destruct (key_shape _ Hk2 Hk28) as (kt & Hkey & Hkt).
  destruct (written_shape (e_key e) kt (e_samples e) (e_lltime e) (e_sr e) Hkey Hkt HT)
    as (_ & _ & _ & _ & _ & Hlen & Hq).
  fold (image_of e) in Hlen. fold total q in Hlen, Hq.
  split; [exact Hlen|]. split; [exact Hq|]. split; [exact HT|].
  unfold disk, B. rewrite !zlen_app, Hlen.
  pose proof (zlen_nonneg front). pose proof (zlen_nonneg back). lia.
Qed.

Lemma slice_in_file (o n : Z) :
  0 <= o -> 0 <= n -> o + n <= zlen (image_of e) ->
  slice (B + o) n disk = slice o n (image_of e).
Proof. intros. unfold disk, B. apply slice_inside; auto. Qed.

Lemma seghdr_in_file :
  valid_seghdr 2 (slice (B + 54 + 4134 * q) 36 disk) = true
  /\ get_s32 (slice (B + 54 + 4134 * q) 36 disk) 30 = total.
Proof.
  destruct image_length as (Hlen & Hq & HT & _).
  destruct Hok as (Hk2 & Hk28 & _).
  destruct (key_shape _ Hk2 Hk28) as (kt & Hkey & Hkt).
  destruct (written_seghdr (e_key e) kt (e_samples e) (e_lltime e) (e_sr e) Hkey Hkt HT)
    as (Hsh & Hrw).
  fold (image_of e) in Hsh, Hrw. fold total q in Hsh, Hrw.
  unfold seghdr_at in Hsh. apply andb_true_iff in Hsh. destruct Hsh as [_ Hsh].
  replace (B + 54 + 4134 * q) with (B + (54 + 4134 * q)) by lia.
  rewrite slice_in_file by lia. split; assumption.
Qed.

Lemma enthdr_in_file :
  valid_enthdr 2 (slice B 56 disk) = true
  /\ get_s32 (slice B 56 disk) 50 = e_sr e
  /\ get_u64 (slice B 56 disk) 30 = e_lltime e.
Proof.
  destruct image_length as (Hlen & Hq & HT & _).
  destruct Hok as (Hk2 & Hk28 & _ & Hsr & Hll & _).
  destruct (key_shape _ Hk2 Hk28) as (kt & Hkey & Hkt).
  destruct (written_enthdr (e_key e) kt (e_samples e) (e_lltime e) (e_sr e)
              Hkey Hkt HT ltac:(lia) Hll) as (Heh & Hsrv & Htime & _).
  fold (image_of e) in Heh, Hsrv, Htime.
  unfold enthdr_at in Heh. apply andb_true_iff in Heh. destruct Heh as [_ Heh].
  replace B with (B + 0) by lia.
  rewrite slice_in_file by lia. repeat split; assumption.
Qed.

Lemma no_enthdr_in_file :
  total mod 2048 = 0 ->
  valid_enthdr 2 (slice (B + 4134) 56 disk) = false /\ 1 <= q.
Proof.
  intros Hm. destruct image_length as (Hlen & Hq & HT & _).
  destruct Hok as (_ & _ & _ & _ & _ & Hno).
  fold total in Hno. specialize (Hno Hm).
  assert (Hq1 : 1 <= q).
  { pose proof (Z.div_mod total 2048 ltac:(lia)) as Hdm. fold q in Hdm. lia. }
  unfold enthdr_at in Hno. rewrite Hlen in Hno.
  replace (4134 + 56 <=? 54 + 4134 * (q + 1)) with true in Hno by lia.
  cbn [andb] in Hno.
  rewrite slice_in_file by lia. split; assumption.
Qed.

Lemma segments_of_total :
  entrysegments_of total = (if total mod 2048 =? 0 then q else q + 1).
Proof.
  destruct image_length as (_ & _ & HT & _).
  pose proof (Z.div_mod total 2048 ltac:(lia)) as Hdm.
  pose proof (Z.mod_pos_bound total 2048 ltac:(lia)) as Hm.
  fold q in Hdm.
  unfold entrysegments_of. rewrite wrap32s_small by lia.
  rewrite Z.quot_div_nonneg by lia.
  destruct (Z.eqb_spec (total mod 2048) 0) as [E|E].
  - symmetry. apply Z.div_unique with (r := 2047); lia.
  - symmetry. apply Z.div_unique with (r := total mod 2048 - 1); lia.
Qed.

(** A turn of the indexing loop at the last segment of an entry: it finds
    the header of the entry, enters the entry in the directory, and either
    is done, at the start of the file, or goes to the last segment of the
    entry before. *)
Lemma index_step_entry (p : P2FILE) (cur : Z) :
  f_data (p_fp p) = disk -> f_pos (p_fp p) = B + 54 + 4134 * q ->
  B = 0 \/ 4134 <= B ->
  exists fp',
    f_data fp' = disk
    /\ (B <> 0 -> f_pos fp' = B - 4134)
    /\ index_step 2 p cur
       = Some ((if B =? 0 then IndexDone else fun p' c => IndexAgain p' (c + 1))
                 (p_set_caches p fp'
                    (cache_set (entry_pos_cache p) cur B)
                    (cache_set (entry_size_cache p) cur total)
                    (cache_set (entry_sr_cache p) cur (e_sr e))
                    (cache_set (entry_time_cache p) cur (e_lltime e))) cur).
Proof.
  intros Hdata Hpos HB.
  destruct image_length as (Himg & Hq & HT & Hlen & HB0 & Hbk).
  destruct seghdr_in_file as (Hvalid & Hrw).
  destruct enthdr_in_file as (Hv2 & Hsrv & Htime).
  pose proof segments_of_total as Hsegs.
  unfold index_step, read_seghdr, segment_bytes. change (2 =? 1) with false. cbv iota.
  rewrite fread_at by (rewrite ?Hdata, ?Hpos, ?Hlen; lia).
  rewrite Hdata, Hpos.
  rewrite Hvalid. change ((1 =? 1) && true) with true. cbn [negb]. cbv iota.
  unfold locate_entry, hdr_off, segment_bytes. change (2 =? 1) with false. cbv iota.
  change (0 + 30) with 30. rewrite Hrw.
  replace (total =? -1) with false by lia.
  replace (total =? 0) with false by lia. cbn [orb]. cbv iota.
  rewrite Hsegs. unfold deltapos_of, read_enthdr.
  assert (Hfinish : forall (fe : bool) (er : bool),
    let f := mkFILE disk (B + 56) fe er in
    exists fp',
      f_data fp' = disk /\ (B <> 0 -> f_pos fp' = B - 4134)
      /\ (if ftell f - 56 =? 0
          then Some (IndexDone
                 (p_set_caches (p_set_fp p (mkFILE disk (B + 54 + 4134 * q + 36)
                                              (f_eof (p_fp p)) (f_err (p_fp p)))) f
                    (cache_set (entry_pos_cache p) cur (ftell f - 56))
                    (cache_set (entry_size_cache p) cur total)
                    (cache_set (entry_sr_cache p) cur (e_sr e))
                    (cache_set (entry_time_cache p) cur (e_lltime e))) cur)
          else Some (IndexAgain
                 (p_set_fp
                    (p_set_caches (p_set_fp p (mkFILE disk (B + 54 + 4134 * q + 36)
                                                 (f_eof (p_fp p)) (f_err (p_fp p)))) f
                       (cache_set (entry_pos_cache p) cur (ftell f - 56))
                       (cache_set (entry_size_cache p) cur total)
                       (cache_set (entry_sr_cache p) cur (e_sr e))
                       (cache_set (entry_time_cache p) cur (e_lltime e)))
                    (snd (fseek_cur f (0 - 4134 - 56)))) (cur + 1)))
         = Some ((if B =? 0 then IndexDone else fun p' c => IndexAgain p' (c + 1))
                   (p_set_caches p fp'
                      (cache_set (entry_pos_cache p) cur B)
                      (cache_set (entry_size_cache p) cur total)
                      (cache_set (entry_sr_cache p) cur (e_sr e))
                      (cache_set (entry_time_cache p) cur (e_lltime e))) cur)).
  { intros fe er f. unfold ftell, f. cbn [f_pos].
    replace (B + 56 - 56) with B by lia.
    destruct (Z.eqb_spec B 0) as [E0|E0].
    - eexists. split; [|split; [intros; contradiction | reflexivity]]. reflexivity.
    - rewrite fseek_cur_ok by (cbn [f_pos]; lia).
      cbn [snd]. unfold set_pos. cbn [f_data f_pos f_eof f_err].
      eexists. split; [|split; [intros _ | reflexivity]]; cbn [f_data f_pos]; [reflexivity|lia]. }
  destruct (Z.eqb_spec (total mod 2048) 0) as [E|E].
  - (* a count that fills its segments: the header is tried one segment in *)
    destruct (no_enthdr_in_file E) as (Hfalse & Hq1).
    rewrite wrap32s_small by lia.
    rewrite fseek_cur_ok by (cbn [f_pos]; lia).
    cbn [snd]; unfold set_pos; cbn [f_data f_pos f_eof f_err].
    replace (B + 54 + 4134 * q + 36 + (4134 - 36 - q * 4134 - 54)) with (B + 4134) by lia.
    rewrite fread_at by (cbn [f_data f_pos]; rewrite ?Hlen; lia).
    cbn [f_data f_pos f_eof f_err].
    rewrite Hfalse.
    change ((1 =? 1) && false) with false. cbn [negb]. cbv iota.
    rewrite fseek_cur_ok by (cbn [f_pos]; lia).
    cbn [snd]; unfold set_pos; cbn [f_data f_pos f_eof f_err].
    replace (B + 4134 + 56 + (4134 * -1 - 56)) with B by lia.
    rewrite fread_at by (cbn [f_data f_pos]; rewrite ?Hlen; lia).
    cbn [f_data f_pos f_eof f_err].
    rewrite Hv2. change ((1 =? 1) && true) with true. cbn [negb]. cbv iota.
    change (0 + 50) with 50. change (0 + 30) with 30. rewrite Hsrv, Htime.
    destruct (Hfinish false (f_err (p_fp p))) as (fp' & H1 & H2 & H3).
    exists fp'. split; [exact H1|]. split; [exact H2|]. exact H3.
  - rewrite wrap32s_small by lia.
    rewrite fseek_cur_ok by (cbn [f_pos]; lia).
    cbn [snd]; unfold set_pos; cbn [f_data f_pos f_eof f_err].
    replace (B + 54 + 4134 * q + 36 + (4134 - 36 - (q + 1) * 4134 - 54)) with B by lia.
    rewrite fread_at by (cbn [f_data f_pos]; rewrite ?Hlen; lia).
    cbn [f_data f_pos f_eof f_err].
    rewrite Hv2. change ((1 =? 1) && true) with true. cbn [negb]. cbv iota.
    change (0 + 50) with 50. change (0 + 30) with 30. rewrite Hsrv, Htime.
    destruct (Hfinish false (f_err (p_fp p))) as (fp' & H1 & H2 & H3).
    exists fp'. split; [exact H1|]. split; [exact H2|]. exact H3.
Qed.

End EntryInFile.

(** ** The directory of a file of several entries *)

Lemma entry_offset_front (front : list entry_data) (e : entry_data) (rest : list entry_data) :
  entry_offset (front ++ e :: rest) (length front) = zlen (file_image front).
Proof. unfold entry_offset. rewrite take_app_length. reflexivity. Qed.

Lemma image_of_length (e : entry_data) :
  entry_ok e ->
  zlen (image_of e) = 54 + 4134 * (zlen (e_samples e) / 2048 + 1)
  /\ 0 <= zlen (e_samples e) / 2048.
Proof.
  intros Hok. destruct (image_length [] [] e Hok) as (H1 & H2 & _). split; [exact H1 | lia].
Qed.

Lemma caches_sized_set (p : P2FILE) (fp : FILE) (cur a b c d : Z) :
  caches_sized p ->
  caches_sized (p_set_caches p fp
                  (cache_set (entry_pos_cache p) cur a)
                  (cache_set (entry_size_cache p) cur b)
                  (cache_set (entry_sr_cache p) cur c)
                  (cache_set (entry_time_cache p) cur d)).
Proof.
  intros (H1 & H2 & H3 & H4). unfold caches_sized.
  cbn [p_set_caches entry_pos_cache entry_size_cache entry_sr_cache entry_time_cache].
  rewrite !length_cache_set. repeat split; assumption.
Qed.

(** Entering the entry at index [i] keeps the entries behind it. *)
Lemma rev_dir_set (p : P2FILE) (fp : FILE) (es : list entry_data) (i : nat)
    (e : entry_data) :
  caches_sized p -> (length es <= 499)%nat ->
  es !! i = Some e ->
  rev_dir p es (S i) ->
  rev_dir (p_set_caches p fp
             (cache_set (entry_pos_cache p) (Z.of_nat (length es - i)) (entry_offset es i))
             (cache_set (entry_size_cache p) (Z.of_nat (length es - i)) (zlen (e_samples e)))
             (cache_set (entry_sr_cache p) (Z.of_nat (length es - i)) (e_sr e))
             (cache_set (entry_time_cache p) (Z.of_nat (length es - i)) (e_lltime e)))
    es i.
Proof.
  intros (H1 & H2 & H3 & H4) Hn Hi Hdir j ej Hj Hej.
  pose proof (lookup_lt_Some _ _ _ Hi) as Hil.
  pose proof (lookup_lt_Some _ _ _ Hej) as Hjl.
  cbn [p_set_caches entry_pos_cache entry_size_cache entry_sr_cache entry_time_cache].
  destruct (decide (j = i)) as [->|Hne].
  - rewrite Hi in Hej. injection Hej as <-.
    rewrite !cache_get_set by (unfold CACHESIZE in *; lia). repeat split.
  - rewrite !cache_get_set_ne by lia. apply Hdir; [lia | exact Hej].
Qed.

Lemma index_loop_entries : forall (front : list entry_data) (e : entry_data)
    (done es : list entry_data) (p : P2FILE) (fuel : nat),
  es = front ++ e :: done ->
  Forall entry_ok es -> (length es <= 499)%nat ->
  f_data (p_fp p) = file_image es ->
  f_pos (p_fp p) = zlen (file_image front) + 54 + 4134 * (zlen (e_samples e) / 2048) ->
  caches_sized p -> rev_dir p es (S (length front)) ->
  (length front < fuel)%nat ->
  exists p',
    index_loop fuel 2 p (Z.of_nat (length done) + 1)
    = Some (Some (p', Z.of_nat (length es)))
    /\ f_data (p_fp p') = file_image es /\ caches_sized p' /\ rev_dir p' es 0.
Proof.
  induction front as [|e' front IH] using rev_ind;
    intros e done es p fuel Hes Hall Hn Hdata Hpos Hsized Hdir Hfuel;
    (destruct fuel as [|fuel]; [lia|]).
  - (* the first entry of the file *)
    cbn [app] in Hes.
    assert (Hok : entry_ok e) by (rewrite Hes in Hall; apply Forall_cons in Hall; tauto).
    destruct (index_step_entry [] (file_image done) e Hok p (Z.of_nat (length done) + 1))
      as (fp' & Hfd & _ & Hstep).
    { rewrite Hdata, Hes. reflexivity. }
    { rewrite Hpos. unfold file_image. cbn [map concat]. rewrite zlen_nil. lia. }
    { left. reflexivity. }
    cbn [index_loop]. rewrite Hstep. change (zlen [] =? 0) with true. cbv iota.
    eexists. split; [rewrite Hes; cbn [length]; do 3 f_equal; lia|].
    cbn [p_set_caches p_fp]. split; [rewrite Hfd, Hes; reflexivity|].
    split; [apply caches_sized_set; exact Hsized|].
    assert (H0 : es !! 0%nat = Some e) by (rewrite Hes; reflexivity).
    pose proof (rev_dir_set p fp' es 0 e Hsized Hn H0 Hdir) as Hd.
    replace (Z.of_nat (length es - 0)) with (Z.of_nat (length done) + 1) in Hd
      by (rewrite Hes; cbn [length]; lia).
    replace (entry_offset es 0) with (zlen (@nil Z)) in Hd by reflexivity.
    exact Hd.
  - (* an entry behind another *)
    assert (Hall' := Hall). rewrite Hes in Hall'.
    apply Forall_app in Hall'. destruct Hall' as (Hfront & Hrest).
    apply Forall_app in Hfront. destruct Hfront as (_ & He').
    apply Forall_cons in He'. destruct He' as (Hok' & _).
    apply Forall_cons in Hrest. destruct Hrest as (Hok & _).
    destruct (image_of_length e' Hok') as (Hlen' & Hq').
    assert (HB : zlen (file_image (front ++ [e']))
                 = zlen (file_image front) + 54 + 4134 * (zlen (e_samples e') / 2048 + 1)).
    { rewrite file_image_app, zlen_app. unfold file_image at 2. cbn [map concat].
      rewrite app_nil_r, Hlen'. lia. }
    pose proof (zlen_nonneg (file_image front)) as Hf0.
    destruct (index_step_entry (file_image (front ++ [e'])) (file_image done) e Hok p
                (Z.of_nat (length done) + 1))
      as (fp' & Hfd & Hfp & Hstep).
    { rewrite Hdata, Hes, (file_image_app (front ++ [e'])), (file_image_cons e done).
      reflexivity. }
    { exact Hpos. }
    { right. lia. }
    cbn [index_loop]. rewrite Hstep.
    replace (zlen (file_image (front ++ [e'])) =? 0) with false by lia. cbv iota.
    assert (Hes' : es = front ++ e' :: e :: done)
      by (rewrite Hes, <- app_assoc; reflexivity).
    assert (Hi : es !! length (front ++ [e']) = Some e).
    { rewrite Hes. rewrite lookup_app_r by lia. rewrite Nat.sub_diag. reflexivity. }
    pose proof (rev_dir_set p fp' es (length (front ++ [e'])) e Hsized Hn Hi Hdir) as Hd.
    replace (Z.of_nat (length es - length (front ++ [e'])))
      with (Z.of_nat (length done) + 1) in Hd
      by (rewrite Hes, !length_app; cbn [length]; lia).
    replace (entry_offset es (length (front ++ [e'])))
      with (zlen (file_image (front ++ [e']))) in Hd
      by (rewrite Hes; symmetry; apply entry_offset_front).
    destruct (IH e' (e :: done) es
                (p_set_caches p fp'
                   (cache_set (entry_pos_cache p) (Z.of_nat (length done) + 1)
                      (zlen (file_image (front ++ [e']))))
                   (cache_set (entry_size_cache p) (Z.of_nat (length done) + 1)
                      (zlen (e_samples e)))
                   (cache_set (entry_sr_cache p) (Z.of_nat (length done) + 1) (e_sr e))
                   (cache_set (entry_time_cache p) (Z.of_nat (length done) + 1)
                      (e_lltime e)))
                fuel Hes' Hall Hn)
      as (p' & Hrun & Hd' & Hs' & Hdir').
    { cbn [p_set_caches p_fp].
      rewrite Hfd, Hes, (file_image_app (front ++ [e'])), (file_image_cons e done).
      reflexivity. }
    { cbn [p_set_caches p_fp]. rewrite Hfp by lia. lia. }
    { apply caches_sized_set. exact Hsized. }
    { replace (S (length front)) with (length (front ++ [e']))
        by (rewrite length_app; cbn [length]; lia).
      exact Hd. }
    { rewrite length_app in Hfuel. cbn [length] in Hfuel. lia. }
    exists p'. split; [|split; [exact Hd' | split; assumption]].
    rewrite <- Hrun. f_equal. cbn [length]. lia.
Qed.

(** The directory in entry order, after the reversal. *)
Lemma reverse_dir (p : P2FILE) (es : list entry_data) :
  caches_sized p -> (length es <= 499)%nat -> rev_dir p es 0 ->
  forall (k : nat) (e : entry_data), es !! k = Some e ->
    let p' := reverse_caches (length es) p 1 (Z.of_nat (length es)) in
    cache_get (entry_pos_cache p') (Z.of_nat k + 1) = entry_offset es k
    /\ cache_get (entry_size_cache p') (Z.of_nat k + 1) = zlen (e_samples e)
    /\ cache_get (entry_sr_cache p') (Z.of_nat k + 1) = e_sr e
    /\ cache_get (entry_time_cache p') (Z.of_nat k + 1) = e_lltime e.
Proof.
  intros (H1 & H2 & H3 & H4) Hn Hdir k e Hk. cbv zeta.
  pose proof (lookup_lt_Some _ _ _ Hk) as Hkl.
  rewrite reverse_caches_arrays.
  cbn [p_set_caches entry_pos_cache entry_size_cache entry_sr_cache entry_time_cache].
  destruct (Hdir k e ltac:(lia) Hk) as (D1 & D2 & D3 & D4).
  assert (Hget : forall c : list Z, length c = CACHESIZE ->
            cache_get (swap_range (length es) c 1 (Z.of_nat (length es))) (Z.of_nat k + 1)
            = cache_get c (Z.of_nat (length es - k))).
  { intros c Hc.
    destruct (swap_range_spec (length es) c 1 (Z.of_nat (length es))) as (_ & Hg);
      [lia | unfold CACHESIZE in Hc; lia | lia |].
    rewrite Hg.
    replace (1 <=? Z.of_nat k + 1) with true by lia.
    replace (Z.of_nat k + 1 <=? Z.of_nat (length es)) with true by lia.
    cbn [andb]. f_equal. lia. }
  rewrite !Hget by assumption. repeat split; assumption.
Qed.

Lemma file_image_first_byte (es : list entry_data) :
  es <> [] -> byte_at (file_image es) 0 = 3 /\ 1 <= zlen (file_image es).
Proof.
  destruct es as [|e es]; [contradiction|]. intros _.
  rewrite file_image_cons.
  destruct (enthdr_starts (e_key e) (e_lltime e) (e_sr e) (e_samples e)) as (rest & Hr).
  unfold image_of. rewrite Hr. split; [reflexivity|].
  rewrite <- app_assoc, zlen_app. change (zlen (enc16 3)) with 2.
  pose proof (zlen_nonneg (rest ++ file_image es)). lia.
Qed.

(** [pcmseq2_open] on a file of entries. *)
Lemma open_file_image (es : list entry_data) :
  es <> [] -> (length es <= 499)%nat -> Forall entry_ok es ->
  exists p,
    pcmseq2_open (file_image es) = Some (Some p)
    /\ indexed_file p es /\ f_pos (p_fp p) = 0.
Proof.
  intros Hne Hn Hall.
  destruct (exists_last Hne) as (front & e & Hes).
  destruct (file_image_first_byte es Hne) as (Hb0 & Hlen1).
  assert (Hok : entry_ok e).
  { rewrite Hes in Hall. apply Forall_app in Hall. destruct Hall as (_ & Hall).
    apply Forall_cons in Hall. tauto. }
  destruct (image_of_length e Hok) as (Hlen & Hq).
  assert (Hzlen : zlen (file_image es)
                  = zlen (file_image front) + 54 + 4134 * (zlen (e_samples e) / 2048 + 1)).
  { rewrite Hes, file_image_app, zlen_app. unfold file_image at 2. cbn [map concat].
    rewrite app_nil_r, Hlen. lia. }
  pose proof (zlen_nonneg (file_image front)) as Hf0.
  unfold pcmseq2_open, pcmseq2_indexfile.
  change (p_fp (p2file_init (file_image es))) with (mkFILE (file_image es) 0 false false).
  rewrite fseek_set_ok by lia. cbn [snd]. unfold set_pos.
  cbn [f_data f_pos f_eof f_err].
  rewrite fread_at by (cbn [f_data f_pos]; lia).
  cbn [f_data f_pos f_eof f_err].
  rewrite byte_at_slice by lia.
  change (byte_at (file_image es) (0 + 0)) with (byte_at (file_image es) 0). rewrite Hb0.
  change (3 =? 54) with false. change (3 =? 3) with true. cbv iota.
  change (2 =? 0) with false. cbv iota.
  unfold segment_bytes. change (2 =? 1) with false. cbv iota.
  rewrite fseek_set_ok by lia. cbn [snd]. unfold set_pos.
  cbn [f_data f_pos f_eof f_err].
  set (p0 := p_set_fp _ _).
  destruct (index_loop_entries front e [] es p0 (length (file_image es) + 2))
    as (p' & Hrun & Hd' & Hs' & Hdir'); try assumption.
  - reflexivity.
  - unfold p0. cbn [p_set_fp p_fp f_pos]. lia.
  - unfold p0, p2file_init, caches_sized.
    cbn [p_set_fp entry_pos_cache entry_size_cache entry_sr_cache entry_time_cache].
    rewrite !length_replicate. repeat split.
  - intros j ej Hj Hej. apply lookup_lt_Some in Hej.
    rewrite Hes, length_app in Hej. cbn [length] in Hej. lia.
  - rewrite Hes, length_app in Hn. cbn [length] in Hn.
    clear - Hzlen Hq Hf0 Hn. unfold zlen in *. lia.
  - cbn [length] in Hrun. change (Z.of_nat 0 + 1) with 1 in Hrun. rewrite Hrun.
    rewrite Nat2Z.id. change (0 =? 0) with true. cbv iota.
    eexists. split; [reflexivity|].
    split; [|reflexivity].
    unfold indexed_file.
    cbn [p_set_fp p_set_index p_fp rewind f_data p_type lastentry
         entry_pos_cache entry_size_cache entry_sr_cache entry_time_cache].
    rewrite reverse_caches_arrays. cbn [p_set_caches p_fp].
    split; [exact Hd'|]. split; [reflexivity|]. split; [reflexivity|].
    intros k ek Hk.
    pose proof (reverse_dir p' es Hs' Hn Hdir' k ek Hk) as Hr. cbv zeta in Hr.
    rewrite reverse_caches_arrays in Hr. exact Hr.
Qed.

(** ** Files of several entries through the public interface *)

Lemma getinfo_indexed (p : P2FILE) (es : list entry_data) (k : nat) (e : entry_data) :
  indexed_file p es -> es !! k = Some e -> entry_ok e ->
  pcmseq2_getinfo p (Z.of_nat k + 1)
  = (0, zlen (e_samples e), e_sr e,
     (if e_lltime e =? 18446744073709551615 then 0 else e_lltime e),
     Z.of_nat (length es)).
Proof.
  intros (_ & _ & HL & Hdir) Hk (_ & _ & HT & Hsr & _).
  pose proof (lookup_lt_Some _ _ _ Hk) as Hlt.
  destruct (Hdir k e Hk) as (_ & Hsz & Hsrc & Htime).
  unfold pcmseq2_getinfo. rewrite HL, Hsz, Hsrc, Htime.
  replace (Z.of_nat k + 1 <=? 0) with false by lia.
  replace (Z.of_nat (length es) <? Z.of_nat k + 1) with false by lia.
  rewrite andb_false_r. cbn [orb]. cbv iota.
  replace (zlen (e_samples e) =? -1) with false by lia.
  replace (e_sr e =? -1) with false by lia.
  replace (Z.of_nat (length es) =? -1) with false by lia. reflexivity.
Qed.

(** [pcmseq_read] of the entry that the handle stands at. *)
Lemma pcmseq_read_indexed (fp : PCMFILE) (p : P2FILE) (es : list entry_data) (k : nat)
    (e : entry_data) (memalloctype : Z) (junk : list Z) :
  flags fp = O_RDONLY -> p2file fp = Some p -> entry fp = Z.of_nat k + 1 ->
  indexed_file p es -> es !! k = Some e -> entry_ok e ->
  Forall is_short (e_samples e) ->
  memalloctype = PCMIOMMAP \/ memalloctype = PCMIOMALLOC ->
  exists fp' p',
    pcmseq_read fp memalloctype true junk
    = Some (0, fp', Some (e_samples e, zlen (e_samples e)))
    /\ flags fp' = O_RDONLY /\ p2file fp' = Some p' /\ indexed_file p' es
    /\ entry fp' = entry fp /\ nentries fp' = nentries fp.
Proof.
  intros Hflags Hp He Hidx Hk Hok Hshort Hmem.
  pose proof (getinfo_indexed p es k e Hidx Hk Hok) as Hinfo.
  destruct Hok as (Hk2 & Hk28 & HT & _).
  set (T := zlen (e_samples e)) in *.
  assert (Hlen : wrap32s (T * 2) = T * 2) by (apply wrap32s_small; lia).
  assert (Hhalf : Z.quot (T * 2) 2 = T) by (rewrite Z.quot_mul; lia).
  set (alloc := if memalloctype =? PCMIOMMAP then mmap_tmp true (T * 2)
                else if memalloctype =? PCMIOMALLOC
                     then malloc_buf true (T * 2) junk else None).
  assert (Hbuf0 : exists buf0, alloc = Some buf0 /\ zlen buf0 = T).
  { unfold alloc, mmap_tmp, malloc_buf. rewrite Hhalf.
    rewrite (proj2 (Z.ltb_lt 0 (T * 2))) by lia.
    rewrite (proj2 (Z.leb_le 0 (T * 2))) by lia.
    cbn [andb].
    destruct Hmem as [-> | ->]; cbn [Z.eqb PCMIOMMAP PCMIOMALLOC Pos.eqb];
      eexists; (split; [reflexivity|]); unfold zlen at 1.
    - rewrite length_replicate. lia.
    - rewrite length_take, length_app, length_replicate. lia. }
  destruct Hbuf0 as (buf0 & Hbuf0 & Hblen).
  destruct (entry_padded_length (e_samples e)) as (_ & Hle). fold T in Hle.
  destruct (read_entry_indexed p es k e 0 (T - 1) buf0 Hidx Hk Hk2 Hk28 Hshort)
    as (rr & Hread & Hrc & Hnum & Hbuf & Hidx'); [lia | lia |].
  assert (Hrb : rr_buf rr = e_samples e).
  { rewrite Hbuf. replace (T - 1 - 0 + 1) with T by lia.
    rewrite drop_ge by (clear - Hblen; unfold T, zlen in *; lia). rewrite app_nil_r.
    unfold entry_padded. rewrite slice_app_l by (fold T; lia).
    unfold slice, T, zlen. rewrite Nat2Z.id. cbn [drop]. apply take_ge. lia. }
  unfold pcmseq_read. rewrite Hflags, Hp, He, Hinfo.
  change (O_RDONLY =? O_RDONLY) with true. cbv iota.
  cbn [Z.eqb negb]. cbv iota. rewrite Hlen. fold alloc. rewrite Hbuf0, Hhalf.
  cbn [entry set_read_info]. rewrite He, Hread, Hrc, Hnum.
  replace (T - 1 - 0 + 1) with T by lia.
  rewrite (Z.eqb_refl T). cbn [Z.eqb negb andb orb]. rewrite ?andb_false_r.
  cbv iota. rewrite Hrb.
  eexists. exists (rr_p rr). split; [reflexivity|].
  cbn [flags p2file entry nentries set_read_info set_p2file].
  split; [exact Hflags|]. split; [reflexivity|]. split; [exact Hidx'|].
  split; [exact He | reflexivity].
Qed.

(** The entries that [write_entries] leaves are entries that the indexer
    finds. *)
Lemma entry_written_ok curtime (fp : PCMFILE) (ent : Z * list (list Z)) :
  0 <= samplerate fp <= 2147483647 ->
  0 < zlen (concat (snd ent)) <= 1000000000 ->
  (zlen (concat (snd ent)) mod 2048 = 0 ->
   enthdr_at 2 (image_of (entry_written curtime fp ent)) 4134 = false) ->
  entry_ok (entry_written curtime fp ent).
Proof.
  intros Hsr HT Hno. unfold entry_ok, entry_written at 1 2 3 4 5 6 7 8.
  cbn [e_key e_lltime e_sr e_samples].
  destruct (init_key_shape (name fp) (fst ent)) as (kt & Hkt & Hkey & _).
  rewrite Hkey. split; [reflexivity|]. split; [cbn [length]; lia|].
  split; [exact HT|]. split; [exact Hsr|]. split; [apply hdr_lltime_range|].
  exact Hno.
Qed.

(** X21.  Opening a file of several entries.  A file that is a sequence of
    up to 499 entries, each with a key as the writer makes it, between one
    and 10^9 samples, a sample rate that is not negative and, when its count
    is a multiple of 2048, bytes one segment into it that do not read as an
    entry header, is accepted by [pcmseq2_open]; the handle has the file in
    its directory, stands at its start, and [pcmseq2_getinfo] reports for
    entry [k + 1] the count, the sample rate and the date of the entry at
    index [k], and the number of entries. *)
Theorem open_file_of_entries (es : list entry_data) :
  es <> [] -> (length es <= 499)%nat -> Forall entry_ok es ->
  exists p,
    pcmseq2_open (file_image es) = Some (Some p)
    /\ indexed_file p es /\ f_pos (p_fp p) = 0
    /\ forall (k : nat) (e : entry_data), es !! k = Some e ->
         pcmseq2_getinfo p (Z.of_nat k + 1)
         = (0, zlen (e_samples e), e_sr e,
            (if e_lltime e =? 18446744073709551615 then 0 else e_lltime e),
            Z.of_nat (length es)).
Proof.
  intros Hne Hn Hall.
  destruct (open_file_image es Hne Hn Hall) as (p & Hopen & Hidx & Hpos).
  exists p. split; [exact Hopen|]. split; [exact Hidx|]. split; [exact Hpos|].
  intros k e Hk. apply getinfo_indexed; [exact Hidx | exact Hk |].
  exact (Forall_lookup_1 _ _ _ _ Hall Hk).
Qed.

(** X22.  Round trip of a file of several entries.  Up to 499 entries of
    16-bit samples (each of one to 10^9 samples, and with the provision of
    X21 for a count that is a multiple of 2048) are written one after the
    other to a fresh stream.  Then [pcmseq_open] of the file for reading
    returns 0 and reports their number, [pcmseq_seek] to entry [k + 1]
    returns 0, and [pcmseq_read] returns 0 and hands back exactly the samples
    written as the entry at index [k], and their count. *)
Theorem file_roundtrip curtime (fp fp0 : PCMFILE) (ents : list (Z * list (list Z)))
    (k : nat) (ent : Z * list (list Z)) (memalloctype : Z) (junk : list Z) :
  outfp fp = Some fopen_w ->
  (length ents <= 499)%nat ->
  0 <= samplerate fp <= 2147483647 ->
  Forall (fun ent =>
            0 < zlen (concat (snd ent)) <= 1000000000
            /\ Forall (Forall is_short) (snd ent)
            /\ (zlen (concat (snd ent)) mod 2048 = 0 ->
                enthdr_at 2 (image_of (entry_written curtime fp ent)) 4134 = false))
         ents ->
  flags fp0 = O_RDONLY ->
  memalloctype = PCMIOMMAP \/ memalloctype = PCMIOMALLOC ->
  ents !! k = Some ent ->
  exists fp1 fp2 fp3,
    pcmseq_open fp0 (written_file curtime fp ents) None = Some (0, fp1)
    /\ nentries fp1 = Z.of_nat (length ents)
    /\ pcmseq_seek fp1 (Z.of_nat k + 1) = Some (0, fp2, [])
    /\ pcmseq_read fp2 memalloctype true junk
       = Some (0, fp3, Some (concat (snd ent), zlen (concat (snd ent)))).
Proof.
  intros Hfd Hn Hsr Hall Hflags Hmem Hk.
  set (es := map (entry_written curtime fp) ents).
  assert (Hoks : Forall entry_ok es).
  { unfold es. apply Forall_fmap. eapply Forall_impl; [exact Hall|].
    intros ent' (HT & _ & Hno). apply entry_written_ok; assumption. }
  assert (Hsizes : Forall (fun ent => 0 < zlen (concat (snd ent)) <= 2147483647) ents).
  { eapply Forall_impl; [exact Hall|]. intros ent' (HT & _). lia. }
  destruct (write_entries_image curtime ents fp fopen_w Hfd)
    as (fpw & fdw & Hrun & Hfdw & _ & Hdata); try reflexivity; try assumption.
  assert (Hfile : written_file curtime fp ents = file_image es)
    by (unfold written_file; rewrite Hrun, Hfdw, Hdata; reflexivity).
  pose proof (lookup_lt_Some _ _ _ Hk) as Hkl.
  assert (Hne : es <> []).
  { unfold es. destruct ents; [cbn [length] in Hkl; lia | discriminate]. }
  assert (Hn' : (length es <= 499)%nat) by (unfold es; rewrite length_map; exact Hn).
  destruct (open_file_image es Hne Hn' Hoks) as (p & Hopen & Hidx & Hpos).
  assert (Hek : es !! k = Some (entry_written curtime fp ent))
    by (unfold es; rewrite list_lookup_fmap, Hk; reflexivity).
  assert (Hok : entry_ok (entry_written curtime fp ent)).
  { exact (Forall_lookup_1 _ _ _ _ Hoks Hek). }
  destruct (es !! 0%nat) as [e0|] eqn:H0;
    [|apply lookup_ge_None in H0; destruct es; [contradiction | cbn [length] in H0; lia]].
  assert (Hok0 : entry_ok e0).
  { exact (Forall_lookup_1 _ _ _ _ Hoks H0). }
  pose proof (getinfo_indexed p es 0 e0 Hidx H0 Hok0) as Hinfo.
  change (Z.of_nat 0 + 1) with 1 in Hinfo.
  assert (Hshort : Forall is_short (e_samples (entry_written curtime fp ent))).
  { destruct (Forall_lookup_1 _ _ _ _ Hall Hk) as (_ & Hs & _).
    cbn [entry_written e_samples]. apply Forall_concat_short. exact Hs. }
  set (fp1 := set_read_info
                (mkPCMFILE (name fp0) (flags fp0) 1 20000 0 0 0 (p2file fp0)
                   (pcmseq3_entrysize fp0) (pcmseq3_key fp0) (pcmseq3_cursamp fp0)
                   (pcmseq3_poscache fp0) (entrystarted fp0) None)
                (Some p) (e_sr e0) (Z.of_nat (length es))).
  assert (Hf1 : flags fp1 = O_RDONLY) by exact Hflags.
  destruct (pcmseq_read_indexed (set_entry fp1 (Z.of_nat k + 1)) p es k
              (entry_written curtime fp ent) memalloctype junk)
    as (fp3 & p3 & Hread & _); try assumption; try reflexivity.
  exists fp1, (set_entry fp1 (Z.of_nat k + 1)), fp3.
  split.
  { rewrite Hfile. unfold pcmseq_open. cbn [flags].
    replace (flags fp0 =? O_RDONLY) with true by (rewrite Hflags; reflexivity).
    cbv iota. rewrite Hopen, Hinfo. reflexivity. }
  split; [unfold fp1, es; cbn [nentries set_read_info]; rewrite length_map; reflexivity|].
  split; [|exact Hread].
  unfold pcmseq_seek. rewrite Hf1.
  change (O_RDONLY =? O_WRONLY) with false. change (O_RDONLY =? O_RDONLY) with true.
  cbv iota. cbn [nentries fp1 set_read_info andb].
  replace (0 <? Z.of_nat k + 1) with true by lia.
  replace (Z.of_nat k + 1 <=? Z.of_nat (length es)) with true
    by (unfold es; rewrite length_map; lia).
  reflexivity.
Qed.

Lemma read_entry_of_file_witness :
  exists rr,
    pcmseq2_read (open_of (written_file (1000, 5) ex_whandle ex_ents3)) (Z.of_nat 1 + 1)
      90 110 [] = Some rr
    /\ rr_rc rr = 0 /\ rr_numwritten rr = 110 - 90 + 1
    /\ rr_buf rr
       = slice 90 (110 - 90 + 1)
           (entry_padded
              (e_samples (entry_written (1000, 5) ex_whandle (2, [ramp 100]))))
         ++ drop (Z.to_nat (110 - 90 + 1)) []
    /\ indexed_file (rr_p rr) (map (entry_written (1000, 5) ex_whandle) ex_ents3).
Proof.
  apply (read_entry_of_file (open_of (written_file (1000, 5) ex_whandle ex_ents3))
           (map (entry_written (1000, 5) ex_whandle) ex_ents3) 1
           (entry_written (1000, 5) ex_whandle (2, [ramp 100])) 90 110 []).
  - unfold indexed_file.
    split; [vm_compute; reflexivity|]. split; [vm_compute; reflexivity|].
    split; [vm_compute; reflexivity|].
    intros [|[|[|k]]] e H; vm_compute in H; try discriminate;
      injection H as <-; vm_compute; repeat split; reflexivity.
  - vm_compute. reflexivity.
  - vm_compute. reflexivity.
  - vm_compute. reflexivity.
  - apply (bool_decide_unpack
             (Forall is_short
                (e_samples (entry_written (1000, 5) ex_whandle
                              (2, [ramp 100]))))).
    vm_compute. exact I.
  - lia.
  - vm_compute. reflexivity.
Defined.

Lemma open_file_of_entries_witness :
  exists p,
    pcmseq2_open (file_image (map (entry_written (1000, 5) ex_whandle) [(1, [ramp 2048]); (2, [ramp 10])]))
    = Some (Some p)
    /\ indexed_file p (map (entry_written (1000, 5) ex_whandle) [(1, [ramp 2048]); (2, [ramp 10])])
    /\ f_pos (p_fp p) = 0
    /\ forall (k : nat) (e : entry_data),
         map (entry_written (1000, 5) ex_whandle) [(1, [ramp 2048]); (2, [ramp 10])] !! k = Some e ->
         pcmseq2_getinfo p (Z.of_nat k + 1)
         = (0, zlen (e_samples e), e_sr e,
            (if e_lltime e =? 18446744073709551615 then 0 else e_lltime e),
            Z.of_nat (length (map (entry_written (1000, 5) ex_whandle) [(1, [ramp 2048]); (2, [ramp 10])]))).
Proof.
  apply (open_file_of_entries (map (entry_written (1000, 5) ex_whandle) [(1, [ramp 2048]); (2, [ramp 10])])).
  - vm_compute. discriminate.
  - vm_compute. lia.
  - apply (bool_decide_unpack
             (Forall entry_ok (map (entry_written (1000, 5) ex_whandle) [(1, [ramp 2048]); (2, [ramp 10])]))).
    vm_compute. exact I.
Defined.

Lemma file_roundtrip_witness :
  exists fp1 fp2 fp3,
    pcmseq_open (ex_raw O_RDONLY) (written_file (1000, 5) ex_whandle [(1, [ramp 2048]); (2, [ramp 10])]) None
    = Some (0, fp1)
    /\ nentries fp1 = Z.of_nat (length [(1, [ramp 2048]); (2, [ramp 10])])
    /\ pcmseq_seek fp1 (Z.of_nat 0 + 1) = Some (0, fp2, [])
    /\ pcmseq_read fp2 PCMIOMMAP true []
       = Some (0, fp3, Some (concat (snd (1, [ramp 2048])),
                             zlen (concat (snd (1, [ramp 2048]))))).
Proof.
  apply (file_roundtrip (1000, 5) ex_whandle (ex_raw O_RDONLY) [(1, [ramp 2048]); (2, [ramp 10])] 0
           (1, [ramp 2048]) PCMIOMMAP []).
  - vm_compute. reflexivity.
  - vm_compute. lia.
  - vm_compute. split; discriminate.
  - repeat (apply Forall_cons; split;
            [split; [vm_compute; split; [reflexivity | discriminate]|];
             split; [match goal with
                     | |- Forall (Forall is_short) ?l =>
                         apply (bool_decide_unpack (Forall (Forall is_short) l));
                         vm_compute; exact I
                     end|];
             intros _; vm_compute; reflexivity|]).
    apply Forall_nil. exact I.
  - reflexivity.
  - left. reflexivity.
  - reflexivity.
Defined.

(** * Round trips and scans: provisions and failing inputs *)

(** ** Writing an entry, opening the file and reading the entry back *)

(** C1 as stated fails for two kinds of entry.  An entry closed without a
    sample: every call returns 0, but the closing call has no segment to put
    the count in (it stores it where [pcmseq3_poscache] happens to point),
    and [pcmseq2_open] refuses the file.  And an entry of 2048 samples of
    which samples 2022 and 2023 hold 3 and 12832: every call returns 0, and
    [pcmseq2_open] refuses the file, because the indexer takes the bytes of
    these samples, one segment into the file, for the entry header.  No
    handle is made, so that nothing can be read back. *)
Lemma write_read_roundtrip_counterexample :
  (exists fp', write_entry (1000, 5) ex_whandle [] = Some (0, fp'))
  /\ zlen (written (1000, 5) ex_whandle []) = 337
  /\ pcmseq2_open (written (1000, 5) ex_whandle []) = Some None
  /\ Forall is_short ex_samples_hdr /\ zlen ex_samples_hdr = 2048
  /\ (exists fp', write_entry (1000, 5) ex_whandle [ex_samples_hdr] = Some (0, fp'))
  /\ slice 4134 4 (written (1000, 5) ex_whandle [ex_samples_hdr]) = [3; 0; 32; 50]
  /\ pcmseq2_open (written (1000, 5) ex_whandle [ex_samples_hdr]) = Some None.
Proof.
  split; [eexists; vm_compute; reflexivity|].
  split; [vm_compute; reflexivity|].
  split; [vm_compute; reflexivity|].
  split; [apply (bool_decide_unpack (Forall is_short ex_samples_hdr)); vm_compute; exact I|].
  split; [vm_compute; reflexivity|].
  split; [eexists; vm_compute; reflexivity|].
  split; vm_compute; reflexivity.
Qed.

(** C1.  Round trip between the writer and the reader.  Take any chunks of
    16-bit samples that hold at least one sample and at most 10^9 in all,
    written to a fresh file by [pcmseq2_write_hdr], one [pcmseq2_write_data]
    call per chunk and the closing call with no samples and [lastsegment] 1;
    when the count is a multiple of 2048, let the bytes 4134 into the file
    (samples 2022 and 2023) not read as the start of an entry header.  Then
    every call returns 0; the recordwords field of the last segment of the
    file holds the count of the samples supplied; [pcmseq2_open] accepts the
    file; and on the handle it makes, [pcmseq2_read] over the whole entry
    returns 0, reports that count of samples, and leaves exactly the samples
    supplied, in order, at the front of the buffer, with none of the zeros
    that pad the last segment. *)
Theorem write_read_roundtrip curtime (fp : PCMFILE) (chunks : list (list Z))
    (buf : list Z) :
  outfp fp = Some fopen_w ->
  Forall (Forall is_short) chunks ->
  0 < zlen (concat chunks) <= 1000000000 ->
  is_int (samplerate fp) ->
  (zlen (concat chunks) mod 2048 = 0 ->
   enthdr_at 2 (written curtime fp chunks) 4134 = false) ->
  let total := zlen (concat chunks) in
  (exists fp', write_entry curtime fp chunks = Some (0, fp'))
  /\ get_u32 (written curtime fp chunks) (54 + 4134 * (total / 2048) + 30) = total
  /\ exists p rr,
       pcmseq2_open (written curtime fp chunks) = Some (Some p)
       /\ pcmseq2_read p 1 0 (total - 1) buf = Some rr
       /\ rr_rc rr = 0 /\ rr_numwritten rr = total
       /\ rr_buf rr = concat chunks ++ drop (Z.to_nat total) buf.
Proof.
  intros Hfd Hshort HT Hsr Hfalse. cbv zeta.
  destruct (written_image curtime fp chunks Hfd ltac:(lia)) as (Hrun & Himg).
  destruct (init_key_shape (name fp) (entry fp)) as (kt & Hkt & Hkey & _).
  split; [exact Hrun|]. split.
  - rewrite Himg. unfold entry_image.
    assert (Hml : length (<[1%nat := 51]> (take 28 (init_key (name fp) (entry fp)))) = 28%nat)
      by (rewrite length_insert, Hkey; cbn [length]; lia).
    destruct (entry_bytes _ (concat chunks) Hml (proj1 HT))
      as (pre & lastblk & _ & -> & Hpre & _).
    unfold seg_image, seghdr_image.
    set (mkey := <[1%nat := 51]> _) in *.
    replace (enthdr_image (take 28 (init_key (name fp) (entry fp))) (hdr_lltime curtime fp)
               (samplerate fp)
             ++ pre ++ (enc16 1 ++ mkey ++ enc32 (zlen (concat chunks)))
             ++ segbody_image lastblk)
      with ((enthdr_image (take 28 (init_key (name fp) (entry fp))) (hdr_lltime curtime fp)
               (samplerate fp) ++ pre ++ enc16 1 ++ mkey)
            ++ enc32 (zlen (concat chunks)) ++ segbody_image lastblk)
      by (rewrite <- !app_assoc; reflexivity).
    apply get_u32_enc32; [|lia].
    rewrite !zlen_app, zlen_enthdr by (rewrite Hkey; cbn [length]; lia).
    rewrite Hpre. change (zlen (enc16 1)) with 2.
    replace (zlen mkey) with 28 by (unfold zlen; rewrite Hml; reflexivity). lia.
  - rewrite Himg in *.
    destruct (open_written_image _ kt (concat chunks) (hdr_lltime curtime fp) (samplerate fp)
                Hkey Hkt HT Hsr (hdr_lltime_range curtime fp) Hfalse)
      as (p & Hopen & Hdata & Hpos & Htype & Hlast & Hcur & Hc1 & _).
    destruct (read_entry_range p _ kt _ _ (concat chunks) 0 (zlen (concat chunks) - 1) buf
                Hkey Hkt Hdata) as (rr & Hread & Hrc & Hnum & Hbuf);
      try assumption; try lia; [apply Forall_concat_short; exact Hshort|].
    exists p, rr. split; [exact Hopen|]. split; [exact Hread|]. split; [exact Hrc|].
    split; [rewrite Hnum; lia|].
    rewrite Hbuf.
    replace (zlen (concat chunks) - 1 - 0 + 1) with (zlen (concat chunks)) by lia.
    f_equal. unfold slice, zlen. rewrite Nat2Z.id. cbn [drop]. apply take_ge. lia.
Qed.

(** An entry of 4096 samples handed over in chunks of odd sizes, one of them
    empty: the count is a multiple of 2048, and the writer ends the file
    with a segment of zeros. *)
Lemma write_read_roundtrip_witness :
  let chunks := [ramp 701; []; ramp 1347; ramp 2048] in
  let total := zlen (concat chunks) in
  (exists fp', write_entry (1000, 5) ex_whandle chunks = Some (0, fp'))
  /\ get_u32 (written (1000, 5) ex_whandle chunks) (54 + 4134 * (total / 2048) + 30) = total
  /\ exists p rr,
       pcmseq2_open (written (1000, 5) ex_whandle chunks) = Some (Some p)
       /\ pcmseq2_read p 1 0 (total - 1) [] = Some rr
       /\ rr_rc rr = 0 /\ rr_numwritten rr = total
       /\ rr_buf rr = concat chunks ++ drop (Z.to_nat total) [].
Proof.
  apply (write_read_roundtrip (1000, 5) ex_whandle [ramp 701; []; ramp 1347; ramp 2048] []).
  - vm_compute. reflexivity.
  - apply (bool_decide_unpack
             (Forall (Forall is_short) [ramp 701; []; ramp 1347; ramp 2048])).
    vm_compute. exact I.
  - vm_compute. split; [reflexivity | discriminate].
  - vm_compute. split; discriminate.
  - intros _. vm_compute. reflexivity.
Defined.

(** ** The offset arithmetic of the indexer *)

(** C2 as stated fails for a recordwords field that is negative: at -4096,
    which is neither 0 nor -1, the division of the code, which truncates,
    gives -1 segment where the ceiling is -2, and the stream is moved to
    8214 where the formula of the claim gives 12348. *)
Lemma locate_entry_offset_counterexample :
  exists raw fp fp',
    read_seghdr 2 (fopen_r ex_seghdr_neg) = (true, raw, fp)
    /\ get_s32 raw (hdr_off 2 + 30) = -4096
    /\ entrysegments_of (-4096) = -1
    /\ - ((- (-4096)) / 2048) = -2
    /\ locate_entry 2 raw fp = Some (Some (fp', -4096))
    /\ ftell fp = 36 /\ ftell fp' = 8214
    /\ ftell fp + 4134 - 36 - (-2) * 4134 - 54 = 12348.
Proof.
  do 3 eexists. split; [vm_compute; reflexivity|].
  repeat split; vm_compute; reflexivity.
Qed.

(** ** The scan for the start of an entry *)

(** C5 as stated fails when bytes before the entry pass for a segment
    header.  The last entry of [ex_disk4] starts at 4188, has one whole
    segment, at 4242, and 0 as recordwords.  The scan steps one segment back
    to 108, where samples 10 and 11 of the first entry read 01 00 20 33,
    takes that for a segment of the entry, and returns 0 with the stream at
    54 and not at 4188.  The turn of the indexing loop then fails at the
    test of the entry header, and [pcmseq2_open] refuses the file. *)
Lemma corrupted_recordwords_fallback_counterexample :
  zlen ex_disk4 = 4242 + 4134
  /\ enthdr_at 2 ex_disk4 4188 = true /\ seghdr_at 2 ex_disk4 4242 = true
  /\ get_s32 (slice 4242 36 ex_disk4) (hdr_off 2 + 30) = 0
  /\ seghdr_at 2 ex_disk4 (4242 - 4134) = true
  /\ (exists fp',
        pcmseq2_scantoentrystart (mkFILE ex_disk4 4242 false false) 2 4134 54
        = Some (0, fp')
        /\ f_pos fp' = 54)
  /\ (exists p',
        index_step 2 (p_set_fp (p2file_init ex_disk4) (mkFILE ex_disk4 4242 false false)) 1
        = Some (IndexFail p'))
  /\ pcmseq2_open ex_disk4 = Some None.
Proof.
  split; [vm_compute; reflexivity|].
  split; [vm_compute; reflexivity|].
  split; [vm_compute; reflexivity|].
  split; [vm_compute; reflexivity|].
  split; [vm_compute; reflexivity|].
  split; [eexists; split; vm_compute; reflexivity|].
  split; [eexists; vm_compute; reflexivity|].
  vm_compute. reflexivity.
Qed.

(** * The public write interface: the header comes first *)

(** ** The stream stays at its end *)







(** ** The bytes of the header, whatever the indicators of the stream *)


(** ** The bytes of the samples *)




(** ** A write only appends *)









(** ** The operations of the interface *)




